(** * S2V: prompt builders and the Hailuo video-generation endpoint

    A shallow embedding of
      - [src/constants/imagePromptPresets.ts] and [src/utils/imagePromptBuilder.ts]
        (the 9-block image prompt builder),
      - the video prompt presets and the video prompt builder
        (the 6-block video prompt builder),
      - [src/api/generate-video.ts] (the POST /api/generate-video handler with
        its polling loop) and [src/api/lib/openai.ts] (OpenAI key selection),
      - the POST /api/generate-food-video handler, which selects its key and
        polls in the same way,
      - the split of a longform scenario into parts for export, whose code
        is not among the sources and is modelled from the specification,
    followed by descriptions of the runs of the handler, concrete inputs,
    and the properties proved about all of them. *)

From Stdlib Require Import String Ascii List Arith ZArith Lia Bool.
From Stdlib Require Import DecimalString DecimalZ DecimalFacts.
Import ListNotations.
Open Scope string_scope.

(* ================================================================== *)
(** ** JavaScript strings and arrays *)
(* ================================================================== *)

(** JavaScript values of type [string] are modelled by [string]: the UTF-8
    bytes of the text.  An optional property [p?: string] is an
    [option string]; [None] is [undefined]. *)
Module JS.

(** [Boolean(s)] for a string: every string but the empty one is truthy. *)
Definition truthy (s : string) : bool :=
  match s with
  | EmptyString => false
  | String _ _ => true
  end.

(** [Boolean(v)] for a value that is a string or [undefined]. *)
Definition truthyOpt (o : option string) : bool :=
  match o with
  | Some s => truthy s
  | None => false
  end.

(** [a || b] on strings. *)
Definition or (a b : string) : string := if truthy a then a else b.

(** [a || b] where [a] may be [undefined]. *)
Definition orOpt (a : option string) (b : string) : string :=
  match a with
  | Some s => or s b
  | None => b
  end.

(** [a || b] where both may be [undefined]. *)
Definition orOptOpt (a b : option string) : option string :=
  if truthyOpt a then a else b.

(** [Array.prototype.join] on an array of strings. *)
Fixpoint join (sep : string) (l : list string) : string :=
  match l with
  | [] => ""
  | [x] => x
  | x :: rest => x ++ sep ++ join sep rest
  end.

(** [arr.filter(Boolean)] on an array of strings. *)
Definition filterBoolean (l : list string) : list string := filter truthy l.

(** [arr.filter(Boolean)] on an array whose entries may be [undefined]. *)
Fixpoint filterBooleanOpt (l : list (option string)) : list string :=
  match l with
  | [] => []
  | Some s :: rest =>
      if truthy s then s :: filterBooleanOpt rest else filterBooleanOpt rest
  | None :: rest => filterBooleanOpt rest
  end.

(** [s.includes(kw)]: [kw] occurs in [s] as a contiguous substring. *)
Fixpoint includes (s kw : string) : bool :=
  if prefix kw s then true
  else match s with
       | EmptyString => false
       | String _ s' => includes s' kw
       end.

(** [s.replace(pat, by)] with a string pattern: the first occurrence only. *)
Fixpoint replace (s pat by_ : string) : string :=
  if prefix pat s
  then by_ ++ substring (String.length pat) (String.length s - String.length pat) s
  else match s with
       | EmptyString => EmptyString
       | String c s' => String c (replace s' pat by_)
       end.

(** [String(n)] for an integer [n]. *)
Definition stringOfZ (n : Z) : string := NilZero.string_of_int (Z.to_int n).

(** [Math.round(a / 1000)] for an integer [a] (halves round up). *)
Definition roundDiv1000 (a : Z) : Z := ((a + 500) / 1000)%Z.

(** The library methods of [String.prototype] that the builders call and
    whose Unicode tables are not part of this repository. *)
Class StringBuiltins := {
  toLowerCase : string -> string;
  trim : string -> string
}.

Definition lowerAscii (c : ascii) : ascii :=
  let n := nat_of_ascii c in
  if andb (Nat.leb 65 n) (Nat.leb n 90) then ascii_of_nat (n + 32) else c.

Fixpoint lowerString (s : string) : string :=
  match s with
  | EmptyString => EmptyString
  | String c s' => String (lowerAscii c) (lowerString s')
  end.

Definition isSpace (c : ascii) : bool :=
  let n := nat_of_ascii c in
  orb (Nat.eqb n 32) (andb (Nat.leb 9 n) (Nat.leb n 13)).

Fixpoint trimStart (s : string) : string :=
  match s with
  | EmptyString => EmptyString
  | String c s' => if isSpace c then trimStart s' else s
  end.

Fixpoint trimEnd (s : string) : string :=
  match s with
  | EmptyString => EmptyString
  | String c s' =>
      match trimEnd s' with
      | EmptyString => if isSpace c then EmptyString else String c EmptyString
      | t => String c t
      end
  end.

(** The two methods on ASCII text: letters A-Z are lowered, the ASCII
    white space characters are trimmed. *)
Definition asciiBuiltins : StringBuiltins :=
  {| toLowerCase := lowerString; trim := fun s => trimEnd (trimStart s) |}.

End JS.

(* ================================================================== *)
(** ** src/constants/imagePromptPresets.ts *)
(* ================================================================== *)

Module ImagePromptPresets.

Inductive ShotTypeKey :=
| shot_extreme_close_up | shot_close_up | shot_medium_close_up | shot_medium
| shot_medium_wide | shot_wide | shot_extreme_wide.

Inductive CameraAngleKey :=
| eye_level | low_angle | high_angle | birds_eye | worms_eye | dutch
| over_shoulder.

Inductive LensKey :=
| lens_24mm_wide | lens_35mm_standard | lens_50mm_normal | lens_85mm_portrait
| lens_135mm_telephoto | lens_200mm_compressed.

Inductive LightingKey :=
| natural_soft | natural_golden | natural_blue | studio_soft | studio_dramatic
| rim_light | neon | low_key | high_key | silhouette.

Inductive EnvironmentKey :=
| studio_white | studio_dark | indoor_modern | indoor_cozy | indoor_luxury
| urban_street | urban_night | urban_rain | nature_forest | nature_beach
| nature_mountain.

Inductive MaterialKey :=
| skin_natural | skin_dewy | fabric_silk | fabric_cotton | fabric_leather
| metal_chrome | metal_matte | glass_clear | water_droplets | texture_rough.

Inductive StyleKey :=
| photoreal_cinematic | photoreal_editorial | photoreal_documentary
| photoreal_portrait | film_kodak | film_noir | clean_minimal | moody_dramatic.

Inductive QualityKey :=
| high_detail | q_8k | sharp | clean_edges | print_ready.

Inductive OptionalNegativeKey :=
| no_oversaturated | no_hdr | no_vignette | no_grain.

Inductive MoodKey :=
| romantic | dramatic | peaceful | energetic | mysterious | melancholic
| luxurious | natural.

Inductive FramingKey :=
| rule_of_thirds_left | rule_of_thirds_right | center | negative_space_top
| negative_space_side | foreground_frame.

(** Every preset table maps a key to a record; the builder reads the
    [prompt] field of each (the labels and descriptions are shown by the
    user interface only). *)
Record Preset := { label : string; prompt : string }.

Definition SHOT_TYPES (k : ShotTypeKey) : Preset :=
  match k with
  | shot_extreme_close_up =>
      {| label := "Extreme Close-up"; prompt := "extreme close-up shot" |}
  | shot_close_up => {| label := "Close-up"; prompt := "close-up shot" |}
  | shot_medium_close_up =>
      {| label := "Medium Close-up"; prompt := "medium close-up shot" |}
  | shot_medium => {| label := "Medium Shot"; prompt := "medium shot" |}
  | shot_medium_wide => {| label := "Medium Wide"; prompt := "medium wide shot" |}
  | shot_wide => {| label := "Wide Shot"; prompt := "wide shot" |}
  | shot_extreme_wide =>
      {| label := "Extreme Wide"; prompt := "extreme wide establishing shot" |}
  end.

Definition CAMERA_ANGLES (k : CameraAngleKey) : Preset :=
  match k with
  | eye_level => {| label := "Eye Level"; prompt := "eye-level angle" |}
  | low_angle => {| label := "Low Angle"; prompt := "low-angle shot looking up" |}
  | high_angle =>
      {| label := "High Angle"; prompt := "high-angle shot looking down" |}
  | birds_eye =>
      {| label := "Bird's Eye"; prompt := "bird's eye view from directly above" |}
  | worms_eye =>
      {| label := "Worm's Eye"; prompt := "worm's eye view from ground level" |}
  | dutch => {| label := "Dutch Angle"; prompt := "dutch angle tilted frame" |}
  | over_shoulder =>
      {| label := "Over Shoulder"; prompt := "over-the-shoulder shot" |}
  end.

Definition LENSES (k : LensKey) : Preset :=
  match k with
  | lens_24mm_wide =>
      {| label := "24mm Wide"; prompt := "24mm wide-angle lens, f/2.8" |}
  | lens_35mm_standard =>
      {| label := "35mm Standard";
         prompt := "35mm lens, f/1.8, shallow depth of field" |}
  | lens_50mm_normal =>
      {| label := "50mm Normal";
         prompt := "50mm lens, f/1.4, natural perspective" |}
  | lens_85mm_portrait =>
      {| label := "85mm Portrait";
         prompt := "85mm portrait lens, f/1.8, creamy bokeh background" |}
  | lens_135mm_telephoto =>
      {| label := "135mm Telephoto";
         prompt := "135mm telephoto lens, f/2, compressed perspective" |}
  | lens_200mm_compressed =>
      {| label := "200mm Compressed";
         prompt := "200mm telephoto lens, heavily compressed perspective" |}
  end.

Definition LIGHTINGS (k : LightingKey) : Preset :=
  match k with
  | natural_soft =>
      {| label := "Natural Soft";
         prompt := "soft natural light, diffused daylight, gentle shadows" |}
  | natural_golden =>
      {| label := "Golden Hour";
         prompt := "golden hour warm sunlight, long shadows, orange rim light" |}
  | natural_blue =>
      {| label := "Blue Hour";
         prompt := "blue hour twilight, cool ambient light, magical atmosphere" |}
  | studio_soft =>
      {| label := "Studio Soft";
         prompt := "professional softbox lighting, even illumination, minimal shadows" |}
  | studio_dramatic =>
      {| label := "Studio Dramatic";
         prompt := "dramatic studio lighting, strong key light, deep shadows" |}
  | rim_light =>
      {| label := "Rim Light";
         prompt := "strong rim light from behind, edge lighting, silhouette highlights" |}
  | neon =>
      {| label := "Neon";
         prompt := "colorful neon lighting, red and blue rim lights, urban night atmosphere" |}
  | low_key =>
      {| label := "Low Key";
         prompt := "low-key lighting, mostly shadows, single light source, film noir" |}
  | high_key =>
      {| label := "High Key";
         prompt := "high-key lighting, bright and even, minimal shadows, clean look" |}
  | silhouette =>
      {| label := "Silhouette";
         prompt := "backlit silhouette, strong backlight, subject in shadow" |}
  end.

Definition ENVIRONMENTS (k : EnvironmentKey) : Preset :=
  match k with
  | studio_white =>
      {| label := "White Studio";
         prompt := "clean white studio background, professional photography setup, seamless backdrop" |}
  | studio_dark =>
      {| label := "Dark Studio";
         prompt := "dark studio background, black backdrop, dramatic lighting setup" |}
  | indoor_modern =>
      {| label := "Modern Interior";
         prompt := "modern minimalist interior, clean lines, contemporary furniture, large windows" |}
  | indoor_cozy =>
      {| label := "Cozy Interior";
         prompt := "cozy warm interior, soft textures, warm lighting, comfortable atmosphere" |}
  | indoor_luxury =>
      {| label := "Luxury Interior";
         prompt := "luxurious elegant interior, high-end decor, sophisticated atmosphere" |}
  | urban_street =>
      {| label := "Urban Street";
         prompt := "urban city street, modern buildings, bustling atmosphere" |}
  | urban_night =>
      {| label := "Urban Night";
         prompt := "city street at night, neon signs, street lights, urban nightlife" |}
  | urban_rain =>
      {| label := "Rainy City";
         prompt := "rainy urban street, wet asphalt reflections, rain streaks, moody atmosphere" |}
  | nature_forest =>
      {| label := "Forest";
         prompt := "lush forest setting, trees, natural greenery, dappled sunlight" |}
  | nature_beach =>
      {| label := "Beach";
         prompt := "beach setting, ocean waves, sandy shore, horizon line" |}
  | nature_mountain =>
      {| label := "Mountain";
         prompt := "mountain landscape, peaks, dramatic scenery, natural grandeur" |}
  end.

Definition MATERIALS (k : MaterialKey) : Preset :=
  match k with
  | skin_natural =>
      {| label := "Natural Skin";
         prompt := "natural skin texture, realistic pores, subtle imperfections" |}
  | skin_dewy =>
      {| label := "Dewy Skin";
         prompt := "dewy glowing skin, healthy shine, hydrated look" |}
  | fabric_silk =>
      {| label := "Silk";
         prompt := "silk fabric texture, smooth sheen, elegant draping" |}
  | fabric_cotton =>
      {| label := "Cotton";
         prompt := "cotton fabric texture, soft matte, natural wrinkles" |}
  | fabric_leather =>
      {| label := "Leather"; prompt := "leather texture, rich grain, subtle sheen" |}
  | metal_chrome =>
      {| label := "Chrome Metal";
         prompt := "chrome metal surface, mirror reflections, polished shine" |}
  | metal_matte =>
      {| label := "Matte Metal";
         prompt := "matte metal texture, brushed surface, subtle reflections" |}
  | glass_clear =>
      {| label := "Clear Glass";
         prompt := "clear glass, refractions, transparent surface" |}
  | water_droplets =>
      {| label := "Water Droplets";
         prompt := "water droplets on surface, condensation, wet texture" |}
  | texture_rough =>
      {| label := "Rough Texture";
         prompt := "rough textured surface, visible grain, tactile quality" |}
  end.

Definition STYLES (k : StyleKey) : Preset :=
  match k with
  | photoreal_cinematic =>
      {| label := "Cinematic";
         prompt := "ultra photoreal, cinematic color grading, movie still quality, professional cinematography" |}
  | photoreal_editorial =>
      {| label := "Editorial";
         prompt := "high-fashion editorial photography, magazine quality, sophisticated styling" |}
  | photoreal_documentary =>
      {| label := "Documentary";
         prompt := "raw documentary style, candid moment, authentic and unposed" |}
  | photoreal_portrait =>
      {| label := "Portrait";
         prompt := "professional portrait photography, flattering lighting, beautiful skin tones" |}
  | film_kodak =>
      {| label := "Kodak Film";
         prompt := "shot on Kodak Portra 400 film, natural film grain, warm color tones" |}
  | film_noir =>
      {| label := "Film Noir";
         prompt := "film noir style, high contrast black and white, dramatic shadows" |}
  | clean_minimal =>
      {| label := "Clean Minimal";
         prompt := "clean minimalist aesthetic, simple composition, uncluttered" |}
  | moody_dramatic =>
      {| label := "Moody Dramatic";
         prompt := "moody dramatic atmosphere, emotional intensity, cinematic tension" |}
  end.

Definition QUALITY_KEYWORDS (k : QualityKey) : Preset :=
  match k with
  | high_detail =>
      {| label := "High Detail"; prompt := "highly detailed, intricate details" |}
  | q_8k => {| label := "8K"; prompt := "8K resolution, ultra high definition" |}
  | sharp =>
      {| label := "Sharp Focus"; prompt := "tack sharp focus, crisp details" |}
  | clean_edges =>
      {| label := "Clean Edges"; prompt := "clean edges, no artifacts" |}
  | print_ready =>
      {| label := "Print Ready";
         prompt := "print-ready quality, professional grade" |}
  end.

(** [IMAGE_NEGATIVE_PROMPTS.default]: always applied. *)
Definition NEGATIVE_default : list string :=
  ["blurry"; "low resolution"; "lowres"; "jpeg artifacts";
   "compression artifacts"; "watermark"; "text"; "logo"; "signature"].

(** [IMAGE_NEGATIVE_PROMPTS.human]: human-specific. *)
Definition NEGATIVE_human : list string :=
  ["deformed face"; "distorted face"; "extra fingers"; "extra limbs";
   "mutated hands"; "bad anatomy"; "weird eyes"; "crossed eyes";
   "plastic skin"; "uncanny valley"].

(** [IMAGE_NEGATIVE_PROMPTS.style]: style protection. *)
Definition NEGATIVE_style : list string :=
  ["cartoon"; "anime"; "illustration"; "painting"; "drawing"; "3d render";
   "cgi"].

(** [IMAGE_NEGATIVE_PROMPTS.optional]. *)
Definition NEGATIVE_optional (k : OptionalNegativeKey) : Preset :=
  match k with
  | no_oversaturated =>
      {| label := "과채도 금지";
         prompt := "oversaturated, overly vibrant colors" |}
  | no_hdr =>
      {| label := "HDR 금지"; prompt := "HDR, overprocessed, over-sharpened" |}
  | no_vignette =>
      {| label := "비네팅 금지"; prompt := "heavy vignette, dark corners" |}
  | no_grain => {| label := "그레인 금지"; prompt := "excessive grain, noisy" |}
  end.

Record MoodPreset := {
  moodLabel : string;
  labelKo : string;
  suggestedLighting : LightingKey;
  suggestedEnvironment : EnvironmentKey;
  suggestedStyle : StyleKey;
  suggestedLens : LensKey;
  colorTone : string
}.

Definition MOODS (k : MoodKey) : MoodPreset :=
  match k with
  | romantic =>
      {| moodLabel := "Romantic"; labelKo := "로맨틱";
         suggestedLighting := natural_golden;
         suggestedEnvironment := nature_beach;
         suggestedStyle := photoreal_cinematic;
         suggestedLens := lens_85mm_portrait;
         colorTone := "warm tones, soft contrast" |}
  | dramatic =>
      {| moodLabel := "Dramatic"; labelKo := "드라마틱";
         suggestedLighting := low_key;
         suggestedEnvironment := studio_dark;
         suggestedStyle := moody_dramatic;
         suggestedLens := lens_85mm_portrait;
         colorTone := "high contrast, deep shadows" |}
  | peaceful =>
      {| moodLabel := "Peaceful"; labelKo := "평화로운";
         suggestedLighting := natural_soft;
         suggestedEnvironment := nature_forest;
         suggestedStyle := photoreal_documentary;
         suggestedLens := lens_50mm_normal;
         colorTone := "soft, muted colors" |}
  | energetic =>
      {| moodLabel := "Energetic"; labelKo := "에너지틱";
         suggestedLighting := studio_dramatic;
         suggestedEnvironment := urban_street;
         suggestedStyle := photoreal_editorial;
         suggestedLens := lens_35mm_standard;
         colorTone := "vibrant, punchy colors" |}
  | mysterious =>
      {| moodLabel := "Mysterious"; labelKo := "미스터리";
         suggestedLighting := silhouette;
         suggestedEnvironment := urban_night;
         suggestedStyle := film_noir;
         suggestedLens := lens_50mm_normal;
         colorTone := "desaturated, cool tones" |}
  | melancholic =>
      {| moodLabel := "Melancholic"; labelKo := "멜랑콜리";
         suggestedLighting := natural_blue;
         suggestedEnvironment := urban_rain;
         suggestedStyle := moody_dramatic;
         suggestedLens := lens_35mm_standard;
         colorTone := "cool, desaturated" |}
  | luxurious =>
      {| moodLabel := "Luxurious"; labelKo := "럭셔리";
         suggestedLighting := studio_soft;
         suggestedEnvironment := indoor_luxury;
         suggestedStyle := photoreal_editorial;
         suggestedLens := lens_85mm_portrait;
         colorTone := "rich, sophisticated" |}
  | natural =>
      {| moodLabel := "Natural"; labelKo := "자연스러운";
         suggestedLighting := natural_soft;
         suggestedEnvironment := indoor_modern;
         suggestedStyle := photoreal_documentary;
         suggestedLens := lens_50mm_normal;
         colorTone := "true to life colors" |}
  end.

Definition FRAMINGS (k : FramingKey) : Preset :=
  match k with
  | rule_of_thirds_left =>
      {| label := "Rule of Thirds (Left)";
         prompt := "subject positioned on left third, rule of thirds composition" |}
  | rule_of_thirds_right =>
      {| label := "Rule of Thirds (Right)";
         prompt := "subject positioned on right third, rule of thirds composition" |}
  | center =>
      {| label := "Center";
         prompt := "subject centered in frame, symmetrical composition" |}
  | negative_space_top =>
      {| label := "Negative Space (Top)";
         prompt := "large negative space at top of frame, subject in lower portion" |}
  | negative_space_side =>
      {| label := "Negative Space (Side)";
         prompt := "negative space on one side, subject offset" |}
  | foreground_frame =>
      {| label := "Foreground Frame";
         prompt := "foreground elements framing the subject, depth layers" |}
  end.

Record DefaultSelections := {
  dShotType : ShotTypeKey;
  dCameraAngle : CameraAngleKey;
  dLens : LensKey;
  dLighting : LightingKey;
  dEnvironment : EnvironmentKey;
  dStyle : StyleKey;
  dQuality : list QualityKey;
  dFraming : FramingKey;
  dMaterials : list MaterialKey;
  dNegativeOptional : list OptionalNegativeKey
}.

Definition IMAGE_DEFAULT_SELECTIONS : DefaultSelections :=
  {| dShotType := shot_medium;
     dCameraAngle := eye_level;
     dLens := lens_85mm_portrait;
     dLighting := natural_soft;
     dEnvironment := studio_white;
     dStyle := photoreal_cinematic;
     dQuality := [high_detail; q_8k; sharp];
     dFraming := rule_of_thirds_left;
     dMaterials := [];
     dNegativeOptional := [] |}.

End ImagePromptPresets.

(* ================================================================== *)
(** ** The [Character] type *)
(* ================================================================== *)

(** The declaration of [Character] lies outside the sources at hand; the
    builders read exactly these four properties, each through a truthiness
    test before use. *)
Module Types.

Record Character := {
  name : option string;
  age : option string;
  personality : option string;
  outfit : option string
}.

End Types.

(* ================================================================== *)
(** ** src/utils/imagePromptBuilder.ts *)
(* ================================================================== *)

Module ImagePromptBuilder.
Import JS ImagePromptPresets Types.

Record ImagePromptConfig := {
  subject : string;
  isHuman : bool;
  shotType : ShotTypeKey;
  cameraAngle : CameraAngleKey;
  framing : FramingKey;
  lens : LensKey;
  environment : EnvironmentKey;
  customEnvironment : option string;
  lighting : LightingKey;
  materials : list MaterialKey;
  style : StyleKey;
  quality : list QualityKey;
  negativeOptional : list OptionalNegativeKey;
  additionalDetails : option string
}.

Record Breakdown := {
  bd_subject : string;
  bd_setting : string;
  bd_composition : string;
  bd_camera : string;
  bd_lighting : string;
  bd_material : string;
  bd_style : string;
  bd_quality : string
}.

Record GeneratedImagePrompt := {
  fullPrompt : string;
  negativePrompt : string;
  breakdown : Breakdown
}.

Record AIImageRecommendation := {
  rec_shotType : ShotTypeKey;
  rec_cameraAngle : CameraAngleKey;
  rec_lens : LensKey;
  rec_lighting : LightingKey;
  rec_environment : EnvironmentKey;
  rec_style : StyleKey;
  rec_framing : FramingKey;
  rec_reasoning : string
}.

(** The double-quote character written inside the template literals. *)
Definition dquote : string := String (ascii_of_nat 34) EmptyString.

Section WithBuiltins.
Context {builtins : StringBuiltins}.

(** [if (v) parts.push(f v)] *)
Definition pushIf (v : option string) (f : string -> string) : list string :=
  match v with
  | Some s => if truthy s then [f s] else []
  | None => []
  end.

Definition buildSubjectFromCharacter (character : Character) : string :=
  let parts :=
    (["Korean"]
     ++ pushIf (age character) (fun a => (a ++ " year old")%string)
     ++ pushIf (personality character) toLowerCase
     ++ ["person"]
     ++ pushIf (outfit character) (fun o => ("wearing " ++ toLowerCase o)%string))%list in
  let namePrefix :=
    match name character with
    | Some n => if truthy n then n ++ ", " else ""
    | None => ""
    end in
  namePrefix ++ "a " ++ join " " parts.

Definition buildImagePrompt (config : ImagePromptConfig) : GeneratedImagePrompt :=
  (* 1. Subject *)
  let subject_ := subject config in
  (* 2. Setting / Environment *)
  let envPreset :=
    match customEnvironment config with
    | Some ce => if truthy ce then ce else prompt (ENVIRONMENTS (environment config))
    | None => prompt (ENVIRONMENTS (environment config))
    end in
  (* 3. Composition *)
  let shotPreset := SHOT_TYPES (shotType config) in
  let anglePreset := CAMERA_ANGLES (cameraAngle config) in
  let framingPreset := FRAMINGS (framing config) in
  let compositionString :=
    prompt shotPreset ++ ", " ++ prompt anglePreset ++ ", " ++ prompt framingPreset in
  (* 4. Camera/Lens *)
  let cameraString := prompt (LENSES (lens config)) in
  (* 5. Lighting *)
  let lightingString := prompt (LIGHTINGS (lighting config)) in
  (* 6. Materials *)
  let materialPrompts :=
    filterBoolean (map (fun key => prompt (MATERIALS key)) (materials config)) in
  let materialString :=
    if Nat.ltb 0 (List.length materialPrompts) then join ", " materialPrompts else "" in
  (* 7. Style *)
  let styleString := prompt (STYLES (style config)) in
  (* 8. Quality *)
  let qualityPrompts :=
    filterBoolean (map (fun key => prompt (QUALITY_KEYWORDS key)) (quality config)) in
  let qualityString := join ", " qualityPrompts in
  (* Build full prompt *)
  let promptParts :=
    filterBooleanOpt
      [Some subject_; Some envPreset; Some compositionString; Some cameraString;
       Some lightingString; Some materialString; Some styleString;
       Some qualityString; additionalDetails config] in
  let fullPrompt_ := join ". " promptParts ++ "." in
  (* Build negative prompt *)
  let negativePrompts :=
    (NEGATIVE_default
     ++ (if isHuman config then NEGATIVE_human else [])
     ++ NEGATIVE_style
     ++ map (fun key => prompt (NEGATIVE_optional key)) (negativeOptional config))%list in
  let negativePrompt_ := join ", " negativePrompts in
  {| fullPrompt := fullPrompt_;
     negativePrompt := negativePrompt_;
     breakdown :=
       {| bd_subject := subject_;
          bd_setting := envPreset;
          bd_composition := compositionString;
          bd_camera := cameraString;
          bd_lighting := lightingString;
          bd_material := materialString;
          bd_style := styleString;
          bd_quality := qualityString |} |}.

Definition getRecommendationByMood (mood : MoodKey) : AIImageRecommendation :=
  let moodPreset := MOODS mood in
  {| rec_shotType := dShotType IMAGE_DEFAULT_SELECTIONS;
     rec_cameraAngle := dCameraAngle IMAGE_DEFAULT_SELECTIONS;
     rec_lens := suggestedLens moodPreset;
     rec_lighting := suggestedLighting moodPreset;
     rec_environment := suggestedEnvironment moodPreset;
     rec_style := suggestedStyle moodPreset;
     rec_framing := dFraming IMAGE_DEFAULT_SELECTIONS;
     rec_reasoning :=
       labelKo moodPreset ++ " 분위기에 최적화된 설정입니다. 톤: "
       ++ colorTone moodPreset |}.

Record SubjectAnalysis := {
  suggestedShot : ShotTypeKey;
  suggestedAngle : CameraAngleKey;
  an_suggestedLens : LensKey;
  an_isHuman : bool
}.

(** [keywords.some(kw => subjectLower.includes(kw))] *)
Definition someIncluded (subjectLower : string) (keywords : list string) : bool :=
  existsb (fun kw => includes subjectLower kw) keywords.

Definition analyzeSubjectForSettings (subject_ : string) : SubjectAnalysis :=
  let subjectLower := toLowerCase subject_ in
  let humanKeywords :=
    ["person"; "man"; "woman"; "people"; "portrait"; "face"; "model";
     "사람"; "여자"; "남자"; "인물"] in
  let isHuman_ := someIncluded subjectLower humanKeywords in
  let emotionKeywords :=
    ["emotion"; "expression"; "face"; "eyes"; "smile"; "cry";
     "표정"; "감정"; "눈"; "미소"] in
  let isEmotionFocused := someIncluded subjectLower emotionKeywords in
  let detailKeywords :=
    ["detail"; "texture"; "close"; "lips"; "hands";
     "디테일"; "질감"; "입술"; "손"] in
  let isDetailFocused := someIncluded subjectLower detailKeywords in
  let actionKeywords :=
    ["action"; "running"; "walking"; "dancing"; "full body";
     "액션"; "달리"; "걷"; "춤"; "전신"] in
  let isActionFocused := someIncluded subjectLower actionKeywords in
  let landscapeKeywords :=
    ["landscape"; "scenery"; "view"; "panorama"; "풍경"; "전경"; "뷰"] in
  let isLandscape := someIncluded subjectLower landscapeKeywords in
  (* Determine shot type *)
  let suggestedShot_ :=
    if isDetailFocused then shot_extreme_close_up
    else if isEmotionFocused then shot_close_up
    else if isActionFocused then shot_wide
    else if isLandscape then shot_extreme_wide
    else if isHuman_ then shot_medium
    else shot_medium in
  (* Determine angle *)
  let powerKeywords := ["hero"; "powerful"; "strong"; "영웅"; "강한"; "힘"] in
  let angle1 :=
    if someIncluded subjectLower powerKeywords then low_angle else eye_level in
  let vulnerableKeywords := ["small"; "vulnerable"; "weak"; "작은"; "약한"] in
  let suggestedAngle_ :=
    if someIncluded subjectLower vulnerableKeywords then high_angle else angle1 in
  (* Determine lens *)
  let lens0 := if isHuman_ then lens_85mm_portrait else lens_50mm_normal in
  let suggestedLens_ :=
    if isLandscape then lens_24mm_wide
    else if isDetailFocused then lens_135mm_telephoto
    else lens0 in
  {| suggestedShot := suggestedShot_;
     suggestedAngle := suggestedAngle_;
     an_suggestedLens := suggestedLens_;
     an_isHuman := isHuman_ |}.

Definition getAIRecommendation (subject_ : string) (mood : option MoodKey)
  : AIImageRecommendation :=
  let subjectAnalysis := analyzeSubjectForSettings subject_ in
  match mood with
  | Some m =>
      let moodRec := getRecommendationByMood m in
      {| rec_shotType := suggestedShot subjectAnalysis;
         rec_cameraAngle := suggestedAngle subjectAnalysis;
         rec_lens :=
           if an_isHuman subjectAnalysis then rec_lens moodRec
           else an_suggestedLens subjectAnalysis;
         rec_lighting := rec_lighting moodRec;
         rec_environment := rec_environment moodRec;
         rec_style := rec_style moodRec;
         rec_framing := rec_framing moodRec;
         rec_reasoning :=
           dquote ++ subject_ ++ dquote ++ " 주제와 " ++ labelKo (MOODS m)
           ++ " 분위기에 맞춰 추천합니다." |}
  | None =>
      {| rec_shotType := suggestedShot subjectAnalysis;
         rec_cameraAngle := suggestedAngle subjectAnalysis;
         rec_lens := an_suggestedLens subjectAnalysis;
         rec_lighting := dLighting IMAGE_DEFAULT_SELECTIONS;
         rec_environment := dEnvironment IMAGE_DEFAULT_SELECTIONS;
         rec_style := dStyle IMAGE_DEFAULT_SELECTIONS;
         rec_framing := dFraming IMAGE_DEFAULT_SELECTIONS;
         rec_reasoning :=
           dquote ++ subject_ ++ dquote ++ " 주제에 맞춰 추천합니다." |}
  end.

(** [createDefaultImageConfig(subject = '', isHuman = true)] *)
Definition createDefaultImageConfig (subject_ : option string) (isHuman_ : option bool)
  : ImagePromptConfig :=
  {| subject := match subject_ with Some s => s | None => "" end;
     isHuman := match isHuman_ with Some b => b | None => true end;
     shotType := dShotType IMAGE_DEFAULT_SELECTIONS;
     cameraAngle := dCameraAngle IMAGE_DEFAULT_SELECTIONS;
     framing := dFraming IMAGE_DEFAULT_SELECTIONS;
     lens := dLens IMAGE_DEFAULT_SELECTIONS;
     environment := dEnvironment IMAGE_DEFAULT_SELECTIONS;
     customEnvironment := None;
     lighting := dLighting IMAGE_DEFAULT_SELECTIONS;
     materials := [];
     style := dStyle IMAGE_DEFAULT_SELECTIONS;
     quality := dQuality IMAGE_DEFAULT_SELECTIONS;
     negativeOptional := [];
     additionalDetails := None |}.

Definition applyImageRecommendation
  (config : ImagePromptConfig) (recommendation : AIImageRecommendation)
  : ImagePromptConfig :=
  {| subject := subject config;
     isHuman := isHuman config;
     shotType := rec_shotType recommendation;
     cameraAngle := rec_cameraAngle recommendation;
     framing := rec_framing recommendation;
     lens := rec_lens recommendation;
     environment := rec_environment recommendation;
     customEnvironment := customEnvironment config;
     lighting := rec_lighting recommendation;
     materials := materials config;
     style := rec_style recommendation;
     quality := quality config;
     negativeOptional := negativeOptional config;
     additionalDetails := additionalDetails config |}.

(** [buildSimpleImagePrompt(subject, mood?, isHuman = true)] *)
Definition buildSimpleImagePrompt
  (subject_ : string) (mood : option MoodKey) (isHuman_ : option bool) : string :=
  let isHuman__ := match isHuman_ with Some b => b | None => true end in
  let config := createDefaultImageConfig (Some subject_) (Some isHuman__) in
  match mood with
  | Some m =>
      let recommendation := getAIRecommendation subject_ (Some m) in
      let updatedConfig := applyImageRecommendation config recommendation in
      fullPrompt (buildImagePrompt updatedConfig)
  | None => fullPrompt (buildImagePrompt config)
  end.

End WithBuiltins.

End ImagePromptBuilder.

(* ================================================================== *)
(** ** The video prompt presets (constants/videoPromptPresets) *)
(* ================================================================== *)

Module VideoPromptPresets.

Inductive CameraAngleKey :=
| extreme_close_up | close_up | medium | wide | low_angle | high_angle
| dutch | pov.

Inductive CameraMovementKey :=
| static | slow_push | slow_pull | tracking | orbit | handheld | crane_up
| dolly_zoom | fpv_drone.

Inductive EnvironmentKey :=
| neon_bar | cozy_cafe | luxury_hotel | studio_dark | studio_bright
| rainy_city | rooftop_night | busy_street
| golden_hour | blue_hour | beach_sunset | forest_misty | snowy_night.

Inductive StyleKey :=
| cinematic | film_grain | anamorphic | high_contrast | soft_dreamy | noir
| vibrant | desaturated.

Inductive QualityKey :=
| hyper_realistic | q_8k | detailed | unreal_engine | ray_tracing.

Inductive OptionalNegativeKey :=
| no_cartoon | no_slow_motion | no_shake | no_lens_effects | no_cg_look.

Inductive MoodKey :=
| romantic | seductive | mysterious | melancholic | energetic | peaceful
| dramatic | warm.

Record Preset := { label : string; prompt : string }.

Definition CAMERA_ANGLES (k : CameraAngleKey) : Preset :=
  match k with
  | extreme_close_up =>
      {| label := "Extreme Close-up"; prompt := "Extreme close-up shot" |}
  | close_up => {| label := "Close-up"; prompt := "Close-up shot" |}
  | medium => {| label := "Medium Shot"; prompt := "Medium shot" |}
  | wide => {| label := "Wide Shot"; prompt := "Wide establishing shot" |}
  | low_angle => {| label := "Low Angle"; prompt := "Low-angle shot looking up" |}
  | high_angle =>
      {| label := "High Angle"; prompt := "High-angle shot looking down" |}
  | dutch => {| label := "Dutch Angle"; prompt := "Dutch angle tilted frame" |}
  | pov => {| label := "POV"; prompt := "First-person POV shot" |}
  end.

Definition CAMERA_MOVEMENTS (k : CameraMovementKey) : Preset :=
  match k with
  | static => {| label := "Static"; prompt := "static camera" |}
  | slow_push => {| label := "Slow Push-in"; prompt := "slow subtle push-in" |}
  | slow_pull =>
      {| label := "Slow Pull-out";
         prompt := "slow pull-out revealing surroundings" |}
  | tracking =>
      {| label := "Tracking";
         prompt := "smooth tracking shot following subject" |}
  | orbit => {| label := "Orbit"; prompt := "orbiting around subject" |}
  | handheld =>
      {| label := "Handheld"; prompt := "subtle handheld camera movement" |}
  | crane_up => {| label := "Crane Up"; prompt := "crane shot rising upward" |}
  | dolly_zoom =>
      {| label := "Dolly Zoom"; prompt := "dolly zoom vertigo effect" |}
  | fpv_drone => {| label := "FPV Drone"; prompt := "fast FPV drone shot" |}
  end.

Definition ENVIRONMENTS (k : EnvironmentKey) : Preset :=
  match k with
  | neon_bar =>
      {| label := "Neon Bar";
         prompt := "neon-lit bar at night, red and purple rim lighting, bokeh background, reflections on glass surfaces, moody atmosphere" |}
  | cozy_cafe =>
      {| label := "Cozy Cafe";
         prompt := "warm cozy cafe interior, soft natural window light, wooden textures, steam rising from drinks, intimate atmosphere" |}
  | luxury_hotel =>
      {| label := "Luxury Hotel";
         prompt := "luxurious hotel room, soft diffused lighting, elegant decor, city lights through window, sophisticated atmosphere" |}
  | studio_dark =>
      {| label := "Dark Studio";
         prompt := "dark studio with single spotlight, dramatic shadows, black background, high contrast lighting" |}
  | studio_bright =>
      {| label := "Bright Studio";
         prompt := "bright white studio, soft even lighting, clean minimal background, professional photography setup" |}
  | rainy_city =>
      {| label := "Rainy City";
         prompt := "rainy urban street at night, wet asphalt reflections, neon signs, puddles, cinematic noir atmosphere, volumetric light through rain" |}
  | rooftop_night =>
      {| label := "Rooftop Night";
         prompt := "city rooftop at night, skyline in background, city lights bokeh, cool night breeze, urban solitude" |}
  | busy_street =>
      {| label := "Busy Street";
         prompt := "busy city street, crowd in motion blur, urban energy, daytime natural lighting, dynamic atmosphere" |}
  | golden_hour =>
      {| label := "Golden Hour";
         prompt := "golden hour sunset, warm orange rim light, long shadows, magical soft glow, romantic atmosphere" |}
  | blue_hour =>
      {| label := "Blue Hour";
         prompt := "blue hour twilight, cool blue ambient light, city lights emerging, mysterious calm atmosphere" |}
  | beach_sunset =>
      {| label := "Beach Sunset";
         prompt := "beach at sunset, waves crashing, orange sky reflection on water, wind in hair, freedom atmosphere" |}
  | forest_misty =>
      {| label := "Misty Forest";
         prompt := "misty forest, volumetric light rays through trees, fog, ethereal mysterious atmosphere" |}
  | snowy_night =>
      {| label := "Snowy Night";
         prompt := "snowy night, falling snowflakes, warm street lamp light, cold breath visible, peaceful winter atmosphere" |}
  end.

Definition STYLES (k : StyleKey) : Preset :=
  match k with
  | cinematic =>
      {| label := "Cinematic";
         prompt := "cinematic, movie-like composition, professional color grading" |}
  | film_grain =>
      {| label := "Film Grain";
         prompt := "35mm film grain, analog film texture" |}
  | anamorphic =>
      {| label := "Anamorphic";
         prompt := "anamorphic lens, horizontal lens flare, wide aspect feel" |}
  | high_contrast =>
      {| label := "High Contrast";
         prompt := "high contrast, deep shadows, bright highlights" |}
  | soft_dreamy =>
      {| label := "Soft Dreamy";
         prompt := "soft dreamy glow, slight haze, romantic feel" |}
  | noir =>
      {| label := "Noir";
         prompt := "film noir style, dramatic shadows, moody atmosphere" |}
  | vibrant =>
      {| label := "Vibrant"; prompt := "vibrant saturated colors, punchy look" |}
  | desaturated =>
      {| label := "Desaturated";
         prompt := "desaturated muted colors, subtle tones" |}
  end.

Definition QUALITY_KEYWORDS (k : QualityKey) : Preset :=
  match k with
  | hyper_realistic =>
      {| label := "Hyper-realistic"; prompt := "hyper-realistic, photorealistic" |}
  | q_8k => {| label := "8K"; prompt := "8K resolution, ultra high definition" |}
  | detailed =>
      {| label := "Detailed"; prompt := "intricate details, sharp focus" |}
  | unreal_engine =>
      {| label := "Unreal Engine"; prompt := "Unreal Engine 5 render quality" |}
  | ray_tracing =>
      {| label := "Ray Tracing";
         prompt := "ray traced lighting, realistic reflections" |}
  end.

(** [NEGATIVE_PROMPTS.default]: always applied. *)
Definition NEGATIVE_default : list string :=
  ["blurry"; "low quality"; "distorted face"; "deformed hands"; "text";
   "watermark"; "logo"; "static image"; "frame jump"; "teleportation"].

(** [NEGATIVE_PROMPTS.optional]. *)
Definition NEGATIVE_optional (k : OptionalNegativeKey) : Preset :=
  match k with
  | no_cartoon =>
      {| label := "만화풍 금지";
         prompt := "cartoon style, anime style, illustration" |}
  | no_slow_motion =>
      {| label := "슬로모션 금지"; prompt := "slow motion, speed ramp" |}
  | no_shake =>
      {| label := "과도한 흔들림 금지";
         prompt := "excessive camera shake, shaky cam" |}
  | no_lens_effects =>
      {| label := "렌즈 효과 금지";
         prompt := "lens flare, chromatic aberration" |}
  | no_cg_look =>
      {| label := "CG 느낌 금지";
         prompt := "plastic skin, CGI look, uncanny valley" |}
  end.

Record MoodPreset := {
  moodLabel : string;
  labelKo : string;
  suggestedEnvironments : list EnvironmentKey;
  suggestedStyles : list StyleKey;
  suggestedAngles : list CameraAngleKey;
  suggestedMovements : list CameraMovementKey
}.

Definition MOODS (k : MoodKey) : MoodPreset :=
  match k with
  | romantic =>
      {| moodLabel := "Romantic"; labelKo := "로맨틱/따뜻한";
         suggestedEnvironments := [golden_hour; cozy_cafe; beach_sunset];
         suggestedStyles := [cinematic; soft_dreamy];
         suggestedAngles := [close_up; medium];
         suggestedMovements := [slow_push; static; orbit] |}
  | seductive =>
      {| moodLabel := "Seductive"; labelKo := "섹시/유혹적";
         suggestedEnvironments := [neon_bar; luxury_hotel; studio_dark];
         suggestedStyles := [cinematic; high_contrast; noir];
         suggestedAngles := [close_up; extreme_close_up; low_angle];
         suggestedMovements := [slow_push; orbit; handheld] |}
  | mysterious =>
      {| moodLabel := "Mysterious"; labelKo := "미스터리/긴장";
         suggestedEnvironments := [blue_hour; forest_misty; rainy_city];
         suggestedStyles := [noir; high_contrast; desaturated];
         suggestedAngles := [dutch; low_angle; pov];
         suggestedMovements := [slow_push; handheld; dolly_zoom] |}
  | melancholic =>
      {| moodLabel := "Melancholic"; labelKo := "슬픔/감성";
         suggestedEnvironments := [rainy_city; blue_hour; snowy_night];
         suggestedStyles := [desaturated; film_grain; soft_dreamy];
         suggestedAngles := [medium; wide; high_angle];
         suggestedMovements := [slow_pull; static; crane_up] |}
  | energetic =>
      {| moodLabel := "Energetic"; labelKo := "에너지/역동";
         suggestedEnvironments := [busy_street; studio_bright; beach_sunset];
         suggestedStyles := [vibrant; high_contrast; cinematic];
         suggestedAngles := [wide; low_angle; pov];
         suggestedMovements := [tracking; fpv_drone; handheld] |}
  | peaceful =>
      {| moodLabel := "Peaceful"; labelKo := "평화로운";
         suggestedEnvironments := [snowy_night; forest_misty; cozy_cafe];
         suggestedStyles := [soft_dreamy; desaturated; film_grain];
         suggestedAngles := [wide; medium];
         suggestedMovements := [static; slow_push; slow_pull] |}
  | dramatic =>
      {| moodLabel := "Dramatic"; labelKo := "드라마틱";
         suggestedEnvironments := [studio_dark; rooftop_night; rainy_city];
         suggestedStyles := [high_contrast; noir; anamorphic];
         suggestedAngles := [low_angle; dutch; extreme_close_up];
         suggestedMovements := [dolly_zoom; crane_up; slow_push] |}
  | warm =>
      {| moodLabel := "Warm"; labelKo := "따뜻한";
         suggestedEnvironments := [golden_hour; cozy_cafe; luxury_hotel];
         suggestedStyles := [cinematic; soft_dreamy; vibrant];
         suggestedAngles := [medium; close_up];
         suggestedMovements := [slow_push; orbit; static] |}
  end.

Record DefaultSelections := {
  dCameraAngle : CameraAngleKey;
  dCameraMovement : CameraMovementKey;
  dEnvironment : EnvironmentKey;
  dStyles : list StyleKey;
  dQuality : list QualityKey;
  dNegativeOptional : list OptionalNegativeKey
}.

Definition DEFAULT_SELECTIONS : DefaultSelections :=
  {| dCameraAngle := close_up;
     dCameraMovement := slow_push;
     dEnvironment := studio_dark;
     dStyles := [cinematic; high_contrast];
     dQuality := [hyper_realistic; q_8k; detailed];
     dNegativeOptional := [] |}.

End VideoPromptPresets.

(* ================================================================== *)
(** ** The video prompt builder (utils/videoPromptBuilder) *)
(* ================================================================== *)

Module VideoPromptBuilder.
Import JS VideoPromptPresets Types.

Record VideoPromptConfig := {
  character : option Character;
  customSubject : option string;
  action : string;
  cameraAngle : CameraAngleKey;
  cameraMovement : CameraMovementKey;
  environment : EnvironmentKey;
  customEnvironment : option string;
  styles : list StyleKey;
  quality : list QualityKey;
  negativeOptional : list OptionalNegativeKey
}.

Record Breakdown := {
  bd_subject : string;
  bd_action : string;
  bd_camera : string;
  bd_environment : string;
  bd_style : string;
  bd_quality : string
}.

Record GeneratedPrompt := {
  fullPrompt : string;
  negativePrompt : string;
  breakdown : Breakdown
}.

Record AIRecommendation := {
  rec_cameraAngle : CameraAngleKey;
  rec_cameraMovement : CameraMovementKey;
  rec_environment : EnvironmentKey;
  rec_styles : list StyleKey;
  rec_reasoning : string
}.

Definition dquote : string := String (ascii_of_nat 34) EmptyString.

Section WithBuiltins.
Context {builtins : StringBuiltins}.

Definition pushIf (v : option string) (f : string -> string) : list string :=
  match v with
  | Some s => if truthy s then [f s] else []
  | None => []
  end.

Definition buildSubjectFromCharacter (character_ : Character) : string :=
  let parts :=
    (pushIf (age character_) (fun a => (a ++ " year old")%string)
     ++ pushIf (personality character_) toLowerCase
     ++ ["Korean"]
     ++ pushIf (outfit character_) (fun o => ("wearing " ++ toLowerCase o)%string))%list in
  let namePrefix :=
    match name character_ with
    | Some n => if truthy n then n ++ ", " else ""
    | None => ""
    end in
  namePrefix ++ "a " ++ join " " parts.

Definition buildVideoPrompt (config : VideoPromptConfig) : GeneratedPrompt :=
  (* 1. Subject *)
  let subject :=
    match character config with
    | Some ch => buildSubjectFromCharacter ch
    | None => orOpt (customSubject config) "A person"
    end in
  (* 2. Action (required) *)
  let action_ := trim (action config) in
  (* 3. Camera *)
  let cameraAngle_ := CAMERA_ANGLES (cameraAngle config) in
  let cameraMovement_ := CAMERA_MOVEMENTS (cameraMovement config) in
  let cameraString := prompt cameraAngle_ ++ ", " ++ prompt cameraMovement_ in
  (* 4. Environment *)
  let environment_ :=
    orOpt (customEnvironment config) (prompt (ENVIRONMENTS (environment config))) in
  (* 5. Styles *)
  let stylePrompts :=
    filterBoolean (map (fun key => prompt (STYLES key)) (styles config)) in
  let styleString := join ", " stylePrompts in
  (* 6. Quality *)
  let qualityPrompts :=
    filterBoolean (map (fun key => prompt (QUALITY_KEYWORDS key)) (quality config)) in
  let qualityString := join ", " qualityPrompts in
  (* Build full prompt *)
  let fullPrompt_ :=
    join ". "
      (filterBoolean
         [subject ++ " " ++ action_; cameraString; environment_; styleString;
          qualityString])
    ++ "." in
  (* Build negative prompt *)
  let negativePrompts :=
    (NEGATIVE_default
     ++ map (fun key => prompt (NEGATIVE_optional key)) (negativeOptional config))%list in
  let negativePrompt_ := join ", " negativePrompts in
  {| fullPrompt := fullPrompt_;
     negativePrompt := negativePrompt_;
     breakdown :=
       {| bd_subject := subject;
          bd_action := action_;
          bd_camera := cameraString;
          bd_environment := environment_;
          bd_style := styleString;
          bd_quality := qualityString |} |}.

(** [arr[0]] on the mood tables, whose arrays all have a first entry. *)
Definition first {A : Type} (l : list A) (otherwise : A) : A := hd otherwise l.

Definition getRecommendationByMood (mood : MoodKey) : AIRecommendation :=
  let moodPreset := MOODS mood in
  {| rec_cameraAngle := first (suggestedAngles moodPreset) medium;
     rec_cameraMovement := first (suggestedMovements moodPreset) static;
     rec_environment := first (suggestedEnvironments moodPreset) studio_dark;
     rec_styles := suggestedStyles moodPreset;
     rec_reasoning := labelKo moodPreset ++ " 분위기에 최적화된 설정입니다." |}.

Definition someIncluded (actionLower : string) (keywords : list string) : bool :=
  existsb (fun kw => includes actionLower kw) keywords.

Definition analyzeActionForCamera (action_ : string)
  : CameraAngleKey * CameraMovementKey :=
  let actionLower := toLowerCase action_ in
  let emotionKeywords :=
    ["smile"; "cry"; "laugh"; "stare"; "gaze"; "look"; "tear";
     "미소"; "웃"; "울"; "바라"; "응시"] in
  let isEmotional := someIncluded actionLower emotionKeywords in
  let detailKeywords :=
    ["lip"; "eye"; "hand"; "finger"; "touch"; "입술"; "눈"; "손"; "만지"] in
  let isDetail := someIncluded actionLower detailKeywords in
  let movementKeywords :=
    ["walk"; "run"; "dance"; "jump"; "move"; "turn";
     "걷"; "달리"; "춤"; "뛰"; "돌아"] in
  let isMovement := someIncluded actionLower movementKeywords in
  let dramaticKeywords :=
    ["fall"; "fight"; "scream"; "collapse"; "쓰러"; "싸우"; "소리"; "무너"] in
  let isDramatic := someIncluded actionLower dramaticKeywords in
  let suggestedAngle :=
    if isDetail then extreme_close_up
    else if isEmotional then close_up
    else if isMovement then wide
    else if isDramatic then low_angle
    else medium in
  let suggestedMovement :=
    if isMovement then tracking
    else if isDramatic then handheld
    else if orb isDetail isEmotional then slow_push
    else slow_push in
  (suggestedAngle, suggestedMovement).

Definition isMedium (k : CameraAngleKey) : bool :=
  match k with medium => true | _ => false end.

Definition getAIRecommendation (action_ : string) (mood : option MoodKey)
  : AIRecommendation :=
  let actionAnalysis := analyzeActionForCamera action_ in
  match mood with
  | Some m =>
      let moodRec := getRecommendationByMood m in
      let finalAngle :=
        if negb (isMedium (fst actionAnalysis)) then fst actionAnalysis
        else rec_cameraAngle moodRec in
      {| rec_cameraAngle := finalAngle;
         rec_cameraMovement := snd actionAnalysis;
         rec_environment := rec_environment moodRec;
         rec_styles := rec_styles moodRec;
         rec_reasoning :=
           dquote ++ action_ ++ dquote ++ " 동작과 " ++ labelKo (MOODS m)
           ++ " 분위기에 맞춰 추천합니다." |}
  | None =>
      {| rec_cameraAngle := fst actionAnalysis;
         rec_cameraMovement := snd actionAnalysis;
         rec_environment := dEnvironment DEFAULT_SELECTIONS;
         rec_styles := dStyles DEFAULT_SELECTIONS;
         rec_reasoning := dquote ++ action_ ++ dquote ++ " 동작에 맞춰 추천합니다." |}
  end.

(** [createDefaultConfig(character?, action = '')] *)
Definition createDefaultConfig (character_ : option Character) (action_ : option string)
  : VideoPromptConfig :=
  {| character := character_;
     customSubject := None;
     action := match action_ with Some a => a | None => "" end;
     cameraAngle := dCameraAngle DEFAULT_SELECTIONS;
     cameraMovement := dCameraMovement DEFAULT_SELECTIONS;
     environment := dEnvironment DEFAULT_SELECTIONS;
     customEnvironment := None;
     styles := dStyles DEFAULT_SELECTIONS;
     quality := dQuality DEFAULT_SELECTIONS;
     negativeOptional := [] |}.

Definition applyRecommendation
  (config : VideoPromptConfig) (recommendation : AIRecommendation)
  : VideoPromptConfig :=
  {| character := character config;
     customSubject := customSubject config;
     action := action config;
     cameraAngle := rec_cameraAngle recommendation;
     cameraMovement := rec_cameraMovement recommendation;
     environment := rec_environment recommendation;
     customEnvironment := customEnvironment config;
     styles := rec_styles recommendation;
     quality := quality config;
     negativeOptional := negativeOptional config |}.

(** [validateConfig]: the error messages, in the order they are pushed. *)
Definition validateConfig (config : VideoPromptConfig) : list string :=
  ((if orb (negb (truthy (action config)))
           (Nat.eqb (String.length (trim (action config))) 0)
    then ["동작 설명을 입력해주세요."]
    else [])
   ++ (if andb (negb (match character config with Some _ => true | None => false end))
               (negb (truthyOpt (customSubject config)))
       then ["캐릭터를 선택하거나 주체를 직접 입력해주세요."]
       else []))%list.


End WithBuiltins.

End VideoPromptBuilder.

(* ================================================================== *)
(** ** Effects of the API handlers *)
(* ================================================================== *)

(** The handlers are [async] functions that call external services, return
    early with a response and raise exceptions.  They are embedded in a
    small monad that records the external calls in order (a trace) and ends
    in one of: fall through with a value, [return] of a response, a raised
    exception, or exhaustion of the iteration budget of a loop. *)
Module Effects.

(** A thrown JavaScript value: an [Error] with its message, or any other
    value, kept as its [String(e)] text. *)
Inductive Thrown :=
| ErrorObj (message : string)
| OtherValue (text : string).

(** [e instanceof Error] *)
Definition isError (e : Thrown) : bool :=
  match e with ErrorObj _ => true | OtherValue _ => false end.

(** [e instanceof Error ? e.message : String(e)] *)
Definition messageOf (e : Thrown) : string :=
  match e with ErrorObj m => m | OtherValue t => t end.

(** The result of awaiting a promise: a value or a rejection. *)
Inductive Result (A : Type) :=
| Ok (a : A)
| Throw (e : Thrown).
Arguments Ok {A} a.
Arguments Throw {A} e.

Section Monad.
Variables Event Response : Type.

Inductive Step (A : Type) :=
| Next (a : A)
| Return_ (r : Response)
| Raise (e : Thrown)
| OutOfFuel.

Definition Prog (A : Type) : Type := list Event * Step A.

Definition ret {A} (a : A) : Prog A := ([], Next A a).
Definition emit (ev : Event) : Prog unit := ([ev], Next unit tt).
Definition return_ {A} (r : Response) : Prog A := ([], Return_ A r).
Definition raise {A} (e : Thrown) : Prog A := ([], Raise A e).

Definition bind {A B} (m : Prog A) (k : A -> Prog B) : Prog B :=
  match m with
  | (t, Next _ a) => let '(t', s) := k a in ((t ++ t')%list, s)
  | (t, Return_ _ r) => (t, Return_ B r)
  | (t, Raise _ e) => (t, Raise B e)
  | (t, OutOfFuel _) => (t, OutOfFuel B)
  end.

(** [try { m } catch (e) { h e }]: only a raised exception reaches the
    handler; a [return] inside the block leaves the function. *)
Definition tryCatch {A} (m : Prog A) (h : Thrown -> Prog A) : Prog A :=
  match m with
  | (t, Raise _ e) => let '(t', s) := h e in ((t ++ t')%list, s)
  | _ => m
  end.

(** [await p]: the value of a settled promise, or its rejection raised. *)
Definition await {A} (r : Result A) : Prog A :=
  match r with
  | Ok a => ret a
  | Throw e => raise e
  end.
End Monad.

Arguments Next {Response A} a.
Arguments Return_ {Response A} r.
Arguments Raise {Response A} e.
Arguments OutOfFuel {Response A}.
Arguments ret {Event Response A} a.
Arguments emit {Event Response} ev.
Arguments return_ {Event Response A} r.
Arguments raise {Event Response A} e.
Arguments bind {Event Response A B} m k.
Arguments tryCatch {Event Response A} m h.
Arguments await {Event Response A} r.

Declare Scope prog_scope.
Delimit Scope prog_scope with prog.
Notation "x <- m ;; k" := (bind m (fun x => k))
  (at level 61, m at next level, right associativity) : prog_scope.
Notation "m ;; k" := (bind m (fun _ => k))
  (at level 61, right associativity) : prog_scope.

End Effects.

(* ================================================================== *)
(** ** Users and API keys (api/lib/mongodb, process.env) *)
(* ================================================================== *)

Module Lib.
Import JS.

(** The user document returned by [findUserById]; the handlers read
    [isAdmin] and the two stored keys under [settings]. *)
Record UserSettings := {
  hailuoApiKey : option string;
  openaiApiKey : option string
}.

Record User := {
  isAdmin : bool;
  settings : option UserSettings
}.

(** [process.env] *)
Record ProcessEnv := {
  HAILUO_API_KEY : option string;
  OPENAI_API_KEY : option string
}.

(** [user?.settings?.hailuoApiKey] *)
Definition storedHailuoKey (user : option User) : option string :=
  match user with
  | Some u => match settings u with Some st => hailuoApiKey st | None => None end
  | None => None
  end.

(** [user.settings?.openaiApiKey] *)
Definition storedOpenAIKey (user : User) : option string :=
  match settings user with Some st => openaiApiKey st | None => None end.

(** [user?.isAdmin] as a condition *)
Definition isAdminUser (user : option User) : bool :=
  match user with Some u => isAdmin u | None => false end.

(** The Hailuo key selection of generate-video.ts (lines 82-88); the two
    generate-food-video handlers repeat the same statements:
<<
    if (user?.isAdmin) apiKey = process.env.HAILUO_API_KEY;
    else apiKey = user?.settings?.hailuoApiKey || process.env.HAILUO_API_KEY;
>> *)
Definition selectHailuoKey (user : option User) (env : ProcessEnv) : option string :=
  if isAdminUser user then HAILUO_API_KEY env
  else orOptOpt (storedHailuoKey user) (HAILUO_API_KEY env).

End Lib.

(* ================================================================== *)
(** ** src/api/lib/openai.ts *)
(* ================================================================== *)

Module OpenAI.
Import JS Effects Lib.
Local Open Scope prog_scope.

Record ChatMessage := { role : string; content : string }.

Record ChatRequest := {
  req_apiKey : string;
  req_model : string;
  req_messages : list ChatMessage;
  req_jsonObject : bool;
  req_maxTokens : option Z;
  req_temperature : option string
}.

Inductive Event :=
| FindUser (userId : string)
| ChatCompletion (request : ChatRequest).

(** The HTTP exchange with api.openai.com: the fetch rejects, or answers
    with a status and either an error text or the first choice's content. *)
Inductive ChatExchange :=
| ChatFetchThrew (e : Thrown)
| ChatNotOk (status : Z) (text : string)
| ChatOk (content : Result string).

Record World := {
  findUserById : string -> Result (option User);
  env : ProcessEnv;
  chat : ChatRequest -> ChatExchange
}.

(** These functions never answer a request themselves: no [return] of a
    response occurs in them. *)
Definition P := Prog Event Empty_set.

(** [isOpenAIModel] *)
Definition isOpenAIModel (model : string) : bool :=
  orb (prefix "gpt-" model) (orb (prefix "o3-" model) (prefix "o4-" model)).

(** [getOpenAIKeyForUser] *)
Definition getOpenAIKeyForUser (w : World) (userId : string) : P string :=
  emit (FindUser userId) ;;
  user <- await (findUserById w userId) ;;
  match user with
  | None => raise (ErrorObj "사용자를 찾을 수 없습니다.")
  | Some user =>
      if isAdmin user then
        match orOptOpt (OPENAI_API_KEY (env w)) (storedOpenAIKey user) with
        | Some key =>
            if truthy key then ret key
            else raise (ErrorObj "OpenAI API 키가 설정되지 않았습니다.")
        | None => raise (ErrorObj "OpenAI API 키가 설정되지 않았습니다.")
        end
      else
        match orOptOpt (storedOpenAIKey user) (OPENAI_API_KEY (env w)) with
        | Some key =>
            if truthy key then ret key
            else raise (ErrorObj "OpenAI API 키가 설정되지 않았습니다. 설정에서 OpenAI API 키를 입력해 주세요.")
        | None =>
            raise (ErrorObj "OpenAI API 키가 설정되지 않았습니다. 설정에서 OpenAI API 키를 입력해 주세요.")
        end
  end.

Record OpenAITextOptions := {
  systemPrompt : option string;
  jsonMode : option bool;
  maxTokens : option Z;
  temperature : option string
}.

(** [generateTextWithOpenAI] *)
Definition generateTextWithOpenAI
  (w : World) (apiKey model prompt_ : string) (options : OpenAITextOptions)
  : P string :=
  let jsonMode_ := match jsonMode options with Some b => b | None => true end in
  let messages :=
    ((if truthyOpt (systemPrompt options)
      then [{| role := "system";
               content := match systemPrompt options with Some s => s | None => "" end |}]
      else if jsonMode_
      then [{| role := "system";
               content := "You are a helpful assistant. Always respond with valid JSON." |}]
      else [])
     ++ [{| role := "user"; content := prompt_ |}])%list in
  let request :=
    {| req_apiKey := apiKey;
       req_model := model;
       req_messages := messages;
       req_jsonObject := jsonMode_;
       req_maxTokens :=
         match maxTokens options with
         | Some n => if Z.eqb n 0 then None else Some n
         | None => None
         end;
       req_temperature := temperature options |} in
  emit (ChatCompletion request) ;;
  match chat w request with
  | ChatFetchThrew e => raise e
  | ChatNotOk status text =>
      raise (ErrorObj ("OpenAI API error: " ++ stringOfZ status ++ " - " ++ text))
  | ChatOk content_ => await content_
  end.

(** The OpenAI branch of the scenario endpoint (taken when
    [isOpenAIModel(textModel) && userId]): the key is looked up first, the
    completion is requested with it. *)
Definition openaiTextBranch
  (w : World) (userId textModel jsonPrompt : string) (options : OpenAITextOptions)
  : P string :=
  openaiKey <- getOpenAIKeyForUser w userId ;;
  generateTextWithOpenAI w openaiKey textModel jsonPrompt options.

End OpenAI.

(* ================================================================== *)
(** ** src/api/generate-video.ts *)
(* ================================================================== *)

Module GenerateVideo.
Import JS Effects Lib.
Local Open Scope prog_scope.
Local Open Scope Z_scope.

Definition HAILUO_API_URL : string := "https://api.eachlabs.ai/v1/prediction".
Definition HAILUO_MODEL : string := "minimax-hailuo-v2-3-fast-standard-image-to-video".
Definition HAILUO_VERSION : string := "0.0.1".

(** *** The request *)

Inductive Method := OPTIONS | POST | OtherMethod (m : string).

Record ImageData := { mimeType : string; data : string }.

(** The three properties that the handler takes from [req.body]. *)
Record GenerateVideoRequest := {
  sourceImage : option ImageData;
  motionPrompt : option string;
  durationSeconds : option Z
}.

(** [body] is what destructuring [req.body] gives: the three properties,
    or, for a request that has no body ([req.body] is [undefined] or
    [null]), the TypeError that the destructuring throws. *)
Record Request := {
  method : Method;
  body : Result GenerateVideoRequest
}.

(** The value returned by [requireAuth(req)]. *)
Record AuthResult := {
  authenticated : bool;
  userId : option string;
  authError : option string
}.

(** *** The responses *)

Record VideoGenerationResult := {
  videoUrl : string;
  thumbnailUrl : string;
  duration : Z
}.

Inductive Body :=
| NoBody
| AuthFailure (error : string)
| ApiError (error : string) (code : option string)
| VideoResult (result : VideoGenerationResult).

Record Response := { status : Z; json : Body }.

(** *** The external calls *)

(** The body posted to [HAILUO_API_URL/]. *)
Record CreateBody := {
  cb_model : string;
  cb_version : string;
  cb_prompt : string;
  cb_prompt_optimizer : bool;
  cb_image_url : string;
  cb_duration : string;
  cb_webhook_url : string
}.

(** [UploadImage] records the arguments the handler builds the form with:
    the file name, the [type] option it gives to [new Blob], as the handler
    gives it (the type the Blob then reports is that string in lower case),
    and the base64 text the buffer is made from. *)
Inductive Event :=
| FindUser (userId : string)
| UploadImage (fileName mimeType : string) (base64 : string)
| CreatePrediction (apiKey : string) (body : CreateBody)
| Now (elapsedMs : Z)
| Sleep (ms : Z)
| PollPrediction (apiKey predictionId : string).

(** What tmpfiles.org answers to the upload.  [up_text] is the text that
    [JSON.stringify(uploadResult).substring(0, 200)] evaluates to. *)
Record UploadJson := {
  up_status : option string;
  up_url : option string;
  up_text : string
}.

Inductive UploadExchange :=
| UploadFetchThrew (e : Thrown)
| UploadNotOk (httpStatus : Z)
| UploadOk (parsed : Result UploadJson).

(** What the prediction service answers to the creating POST.  [cr_text]
    is [JSON.stringify(createResult)]. *)
Record CreateJson := {
  cr_status : option string;
  cr_predictionID : option string;
  cr_error : option string;
  cr_message : option string;
  cr_text : string
}.

(** What the prediction service answers to a poll. *)
Record PollJson := {
  po_status : option string;
  po_output : option string;
  po_error : option string;
  po_message : option string
}.

(** Everything outside the handler that a run depends on.  [requireAuth],
    [sanitizePrompt] and [findUserById] are functions of api/lib/auth,
    api/lib/gemini and api/lib/mongodb, which are not among the sources: the
    world gives what they return.  [Throw] in
    [createFetch] and [pollFetch] stands for any exception raised by the
    [fetch], by [response.json()] or by reading a property of a body that
    is not an object.  [iterationTime k] is the time in milliseconds that
    iteration [k] of the polling loop takes beyond the 5000 ms it asks the
    timer for (timer lateness and the duration of the poll request); timers
    fire no earlier than asked and the clock does not run backwards, so it
    is a natural number. *)
Record World := {
  requireAuth : AuthResult;
  sanitizePrompt : string -> Z -> string;
  findUserById : string -> Result (option User);
  env : ProcessEnv;
  uploadFetch : UploadExchange;
  createFetch : Result CreateJson;
  pollFetch : nat -> Result PollJson;
  iterationTime : nat -> N
}.

Definition P := Prog Event Response.

Definition isSuccess (st : option string) : bool :=
  match st with Some t => String.eqb t "success" | None => false end.

Definition isErrorStatus (st : option string) : bool :=
  match st with Some t => String.eqb t "error" | None => false end.

(** *** uploadImageToTempUrl *)

(** [mimeType === 'image/png' ? 'png' : mimeType === 'image/webp' ? 'webp' : 'jpg'] *)
Definition extensionOf (mimeType_ : string) : string :=
  if String.eqb mimeType_ "image/png" then "png"
  else if String.eqb mimeType_ "image/webp" then "webp"
  else "jpg".

Definition uploadImageToTempUrl (w : World) (base64Data mimeType_ : string) : P string :=
  let ext := extensionOf mimeType_ in
  emit (UploadImage ("video_image." ++ ext) mimeType_ base64Data) ;;
  match uploadFetch w with
  | UploadFetchThrew e => raise e
  | UploadNotOk httpStatus =>
      raise (ErrorObj ("이미지 업로드 HTTP 오류: " ++ stringOfZ httpStatus))
  | UploadOk parsed =>
      uploadResult <- await parsed ;;
      if orb (negb (isSuccess (up_status uploadResult)))
             (negb (truthyOpt (up_url uploadResult)))
      then raise (ErrorObj ("이미지 업로드 실패: " ++ up_text uploadResult))
      else
        let url := match up_url uploadResult with Some u => u | None => "" end in
        let directUrl := replace url "tmpfiles.org/" "tmpfiles.org/dl/" in
        ret directUrl
  end.

(** *** The handler, block by block *)

(** The enhanced prompt (lines 103-116), a trimmed template literal. *)
Definition nl : string := String (ascii_of_nat 10) EmptyString.

Definition enhancedPromptOf (sanitizedPrompt : string) : string :=
  "Cinematic video generation from reference image:" ++ nl
  ++ sanitizedPrompt ++ nl
  ++ nl
  ++ "Motion & Camera Requirements:" ++ nl
  ++ "- Smooth, natural camera movements" ++ nl
  ++ "- Realistic motion physics" ++ nl
  ++ "- Cinematic quality, film-like aesthetics" ++ nl
  ++ nl
  ++ "Technical Requirements:" ++ nl
  ++ "- High quality video output" ++ nl
  ++ "- Consistent lighting throughout" ++ nl
  ++ "- No sudden jumps or artifacts".

(** [String(durationSeconds <= 6 ? 6 : 10)] *)
Definition hailuoDuration (durationSeconds_ : Z) : string :=
  stringOfZ (if durationSeconds_ <=? 6 then 6 else 10).

(** Lines 119-131: the upload and its [catch]. *)
Definition uploadBlock (w : World) (image : ImageData) : P string :=
  tryCatch
    (uploadImageToTempUrl w (data image) (mimeType image))
    (fun uploadError =>
       let msg := messageOf uploadError in
       return_ {| status := 500;
                  json := ApiError ("이미지 업로드 실패: " ++ msg)
                                   (Some "IMAGE_UPLOAD_FAILED") |}).

(** The object given to [JSON.stringify] as the body of the creating POST
    (lines 142-152). *)
Definition createBodyOf (enhancedPrompt imageUrl : string) (durationSeconds_ : Z)
  : CreateBody :=
  {| cb_model := HAILUO_MODEL;
     cb_version := HAILUO_VERSION;
     cb_prompt := enhancedPrompt;
     cb_prompt_optimizer := true;
     cb_image_url := imageUrl;
     cb_duration := hailuoDuration durationSeconds_;
     cb_webhook_url := "" |}.

(** Lines 136-163: the body of the [try] that creates the prediction. *)
Definition createPrediction
  (w : World) (apiKey enhancedPrompt imageUrl : string) (durationSeconds_ : Z)
  : P string :=
  emit (CreatePrediction apiKey (createBodyOf enhancedPrompt imageUrl durationSeconds_)) ;;
  createResult <- await (createFetch w) ;;
  if orb (negb (isSuccess (cr_status createResult)))
         (negb (truthyOpt (cr_predictionID createResult)))
  then
    let errMsg :=
      orOpt (cr_error createResult)
            (orOpt (cr_message createResult) (cr_text createResult)) in
    raise (ErrorObj errMsg)
  else
    ret (match cr_predictionID createResult with Some i => i | None => "" end).

(** Lines 134-176: the prediction-creating call and its [catch]. *)
Definition createBlock
  (w : World) (apiKey enhancedPrompt imageUrl : string) (durationSeconds_ : Z)
  : P string :=
  tryCatch
    (createPrediction w apiKey enhancedPrompt imageUrl durationSeconds_)
    (fun initError =>
       let errorMsg := messageOf initError in
       if orb (includes errorMsg "401") (includes errorMsg "Unauthorized")
       then return_ {| status := 403;
                       json := ApiError "Hailuo API 키가 유효하지 않습니다. 키를 확인하세요."
                                        (Some "PERMISSION_DENIED") |}
       else raise (ErrorObj ("Hailuo API 호출 실패: " ++ errorMsg))).

Definition maxPollingTime : Z := 300000.
Definition pollInterval : Z := 5000.

(** The three errors the loop raises itself. *)
Definition timeoutError (elapsed : Z) : Thrown :=
  ErrorObj ("비디오 생성 시간 초과 (" ++ stringOfZ (roundDiv1000 elapsed)
            ++ "초 경과). 나중에 다시 시도하세요.").

Definition generationFailedError (pollResult : PollJson) : Thrown :=
  let errDetail :=
    orOpt (po_error pollResult) (orOpt (po_message pollResult) "알 수 없는 오류") in
  ErrorObj ("비디오 생성 실패: " ++ errDetail).

Definition repeatedFailureError : Thrown :=
  ErrorObj "비디오 생성 상태 확인이 반복 실패했습니다.".

(** [pollError instanceof Error && pollError.message.includes('비디오')] *)
Definition isVideoError (pollError : Thrown) : bool :=
  andb (isError pollError) (includes (messageOf pollError) "비디오").

(** The value sent with status 200. *)
Definition successResult (image : ImageData) (durationSeconds_ : Z) (videoUrl_ : string)
  : VideoGenerationResult :=
  {| videoUrl := videoUrl_;
     thumbnailUrl := "data:" ++ mimeType image ++ ";base64," ++ data image;
     duration := durationSeconds_ |}.

(** One poll and its [catch] (lines 197-237).  [elapsedAfter] is the clock
    reading, relative to [startTime], once the poll has been answered. *)
Definition pollOnce
  (w : World) (image : ImageData) (durationSeconds_ : Z)
  (apiKey predictionId : string) (pollCount : nat) (elapsedAfter : Z) : P unit :=
  tryCatch
    (emit (PollPrediction apiKey predictionId) ;;
     pollResult <- await (pollFetch w pollCount) ;;
     if andb (isSuccess (po_status pollResult)) (truthyOpt (po_output pollResult))
     then
       emit (Now elapsedAfter) ;;
       let videoUrl_ := match po_output pollResult with Some u => u | None => "" end in
       let result := successResult image durationSeconds_ videoUrl_ in
       return_ {| status := 200; json := VideoResult result |}
     else if isErrorStatus (po_status pollResult)
     then raise (generationFailedError pollResult)
     else ret tt)
    (fun pollError =>
       if isVideoError pollError
       then raise pollError
       else if Nat.ltb 3 pollCount
       then raise repeatedFailureError
       else ret tt).

(** The [while (true)] loop (lines 186-238).  [pollCount] is the counter
    before its increment and [elapsed] is [Date.now() - startTime] at the
    top of the iteration (the two reads of lines 188 and 190 are taken as
    one).  The recursion is on an iteration budget. *)
Fixpoint pollLoop
  (w : World) (image : ImageData) (durationSeconds_ : Z)
  (apiKey predictionId : string)
  (fuel : nat) (pollCount : nat) (elapsed : Z) : P unit :=
  match fuel with
  | O => ([], OutOfFuel)
  | S fuel' =>
      let pollCount' := S pollCount in
      emit (Now elapsed) ;;
      if elapsed >? maxPollingTime
      then raise (timeoutError elapsed)
      else
        emit (Sleep pollInterval) ;;
        let elapsedAfter := elapsed + pollInterval + Z.of_N (iterationTime w pollCount') in
        pollOnce w image durationSeconds_ apiKey predictionId pollCount' elapsedAfter ;;
        pollLoop w image durationSeconds_ apiKey predictionId fuel' pollCount' elapsedAfter
  end.

(** An iteration budget that the loop never uses up: every iteration
    advances the clock by at least [pollInterval]. *)
Definition maxIterations : nat := 62.

(** The outer [catch (e)] (lines 240-276). *)
Definition errorResponse (e : Thrown) : Response :=
  match e with
  | ErrorObj msg =>
      if orb (includes msg "PERMISSION_DENIED")
             (orb (includes msg "403")
                  (orb (includes msg "Forbidden") (includes msg "Unauthorized")))
      then {| status := 403;
              json := ApiError "Hailuo API 접근 권한이 없습니다. API 키를 확인하세요."
                               (Some "PERMISSION_DENIED") |}
      else if orb (includes msg "QUOTA_EXCEEDED")
                  (orb (includes msg "429")
                       (orb (includes msg "Resource exhausted") (includes msg "rate limit")))
      then {| status := 429;
              json := ApiError "API 할당량을 초과했습니다. 잠시 후 다시 시도하세요."
                               (Some "QUOTA_EXCEEDED") |}
      else if orb (includes msg "비디오") (includes msg "Hailuo")
      then {| status := 500; json := ApiError msg (Some "VIDEO_GENERATION_FAILED") |}
      else {| status := 500;
              json := ApiError ("비디오 생성 실패: " ++ msg)
                               (Some "VIDEO_GENERATION_FAILED") |}
  | OtherValue _ =>
      {| status := 500;
         json := ApiError "비디오 생성 중 알 수 없는 오류가 발생했습니다."
                          (Some "UNKNOWN_ERROR") |}
  end.

(** The [try] block after the destructuring of line 71 (lines 73-238),
    given the properties taken from the body and the authenticated user
    id. *)
Definition tryBody (w : World) (body_ : GenerateVideoRequest) (uid : string) : P unit :=
  let durationSeconds_ :=
    match durationSeconds body_ with Some d => d | None => 5 end in
  match sourceImage body_ with
  | None => return_ {| status := 400; json := ApiError "sourceImage is required" None |}
  | Some image =>
      if negb (truthy (data image))
      then return_ {| status := 400; json := ApiError "sourceImage is required" None |}
      else if negb (truthyOpt (motionPrompt body_))
      then return_ {| status := 400; json := ApiError "motionPrompt is required" None |}
      else
        let motionPrompt_ :=
          match motionPrompt body_ with Some m => m | None => "" end in
        emit (FindUser uid) ;;
        user <- await (findUserById w uid) ;;
        let apiKey := selectHailuoKey user (env w) in
        if negb (truthyOpt apiKey)
        then return_
               {| status := 400;
                  json := ApiError
                            "Hailuo API 키가 설정되지 않았습니다. 설정에서 Hailuo API 키를 입력해 주세요."
                            (Some "API_KEY_MISSING") |}
        else
          let apiKey_ := match apiKey with Some k => k | None => "" end in
          let sanitizedPrompt := sanitizePrompt w motionPrompt_ 1000 in
          let enhancedPrompt := enhancedPromptOf sanitizedPrompt in
          imageUrl <- uploadBlock w image ;;
          predictionId <- createBlock w apiKey_ enhancedPrompt imageUrl durationSeconds_ ;;
          pollLoop w image durationSeconds_ apiKey_ predictionId maxIterations 0%nat 0
  end.

(** The [try] block (lines 71-238): the destructuring of the body, which
    throws when the request has none, and the rest. *)
Definition tryBlock (w : World) (req : Request) (uid : string) : P unit :=
  body_ <- await (body req) ;;
  tryBody w body_ uid.

(** The response a run of the [try] block leads to: the one it returns,
    or the one the outer [catch] makes of a raised exception. *)
Definition answer (s : Step Response unit) : option Response :=
  match s with
  | Return_ r => Some r
  | Raise e => Some (errorResponse e)
  | Next _ => None
  | OutOfFuel => None
  end.

Definition finish (p : P unit) : list Event * option Response :=
  (fst p, answer (snd p)).

(** [export default async function handler(req, res)] *)
Definition handler (w : World) (req : Request) : list Event * option Response :=
  match method req with
  | OPTIONS => ([], Some {| status := 200; json := NoBody |})
  | OtherMethod _ =>
      ([], Some {| status := 405; json := ApiError "Method not allowed" None |})
  | POST =>
      let auth := requireAuth w in
      match authenticated auth, userId auth with
      | true, Some uid =>
          if truthy uid
          then finish (tryBlock w req uid)
          else ([], Some {| status := 401;
                            json := AuthFailure (orOpt (authError auth) "로그인이 필요합니다.") |})
      | _, _ =>
          ([], Some {| status := 401;
                       json := AuthFailure (orOpt (authError auth) "로그인이 필요합니다.") |})
      end
  end.

End GenerateVideo.

(* ================================================================== *)
(** ** The generate-food-video handler *)
(* ================================================================== *)

(** POST /api/generate-food-video, in the version that uploads the image to
    temporary hosting (the second of the two versions among the sources; the
    first one differs in uploading to Vercel Blob and deleting the blob
    afterwards, and has the same key selection and the same polling loop). *)
Module GenerateFoodVideo.
Import JS Effects Lib.
Local Open Scope prog_scope.
Local Open Scope Z_scope.

Definition HAILUO_MODEL : string := GenerateVideo.HAILUO_MODEL.
Definition HAILUO_VERSION : string := GenerateVideo.HAILUO_VERSION.

Record FoodImage := { mimeType : string; data : string }.

(** The three properties that the handler takes from [req.body]. *)
Record GenerateFoodVideoRequest := {
  foodImage : option FoodImage;
  englishPrompt : option string;
  durationSeconds : option Z
}.

(** [body] is what destructuring [req.body] gives: the three properties,
    or, for a request that has no body ([req.body] is [undefined] or
    [null]), the TypeError that the destructuring throws. *)
Record Request := {
  method : GenerateVideo.Method;
  body : Result GenerateFoodVideoRequest
}.

Record FoodVideoResult := { videoUrl : string; duration : Z }.

Inductive Body :=
| NoBody
| AuthFailure (error : string)
| ApiError (error : string) (code : option string)
| VideoResult (result : FoodVideoResult).

Record Response := { status : Z; json : Body }.

(** The events are those of generate-video.ts; [UploadImage] records the
    [type] option given to [new Blob] as the handler gives it. *)
Inductive Event :=
| FindUser (userId : string)
| UploadImage (fileName mimeType : string) (base64 : string)
| CreatePrediction (apiKey : string) (body : GenerateVideo.CreateBody)
| Now (elapsedMs : Z)
| Sleep (ms : Z)
| PollPrediction (apiKey predictionId : string).

(** The parsed answer to the creating POST; [cr_text] is
    [JSON.stringify(createResult)]. *)
Record CreateJson := {
  cr_status : option string;
  cr_predictionID : option string;
  cr_error : option string;
  cr_message : option string;
  cr_detail : option string;
  cr_text : string
}.

(** [JSON.parse(responseText)] as the handler reads it: the text is not
    JSON; or it is the JSON value [null], of which reading a property
    throws the given TypeError; or it is another JSON value, whose
    properties read as in [createResult] ([undefined] each for a value that
    is not an object). *)
Inductive CreateParsed :=
| NotJson
| JsonNull (typeError : Thrown)
| JsonValue (createResult : CreateJson).

(** The creating POST: the fetch (or reading its text) rejects, or there is
    an answer with its [ok] flag, its HTTP status, the first 200 characters
    of its text and what the text parses to. *)
Inductive CreateExchange :=
| CreateThrew (e : Thrown)
| CreateAnswer (ok : bool) (httpStatus : Z) (text200 : string) (parsed : CreateParsed).

(** A poll: the fetch (or reading its text, or reading a property of a
    parsed body that is [null]) raises, or there is a text that is JSON or
    not. *)
Inductive PollExchange :=
| PollThrew (e : Thrown)
| PollText (parsed : option GenerateVideo.PollJson).

Record World := {
  requireAuth : GenerateVideo.AuthResult;
  findUserById : string -> Result (option User);
  env : ProcessEnv;
  uploadFetch : GenerateVideo.UploadExchange;
  createFetch : CreateExchange;
  pollFetch : nat -> PollExchange;
  iterationTime : nat -> N
}.

Definition P := Prog Event Response.

(** [uploadImageToTempUrl] of this handler. *)
Definition uploadImageToTempUrl (w : World) (base64Data mimeType_ : string) : P string :=
  let ext := GenerateVideo.extensionOf mimeType_ in
  emit (UploadImage ("food_image." ++ ext) mimeType_ base64Data) ;;
  match uploadFetch w with
  | GenerateVideo.UploadFetchThrew e => raise e
  | GenerateVideo.UploadNotOk httpStatus =>
      raise (ErrorObj ("이미지 업로드 HTTP 오류: " ++ stringOfZ httpStatus))
  | GenerateVideo.UploadOk parsed =>
      uploadResult <- await parsed ;;
      if orb (negb (GenerateVideo.isSuccess (GenerateVideo.up_status uploadResult)))
             (negb (truthyOpt (GenerateVideo.up_url uploadResult)))
      then raise (ErrorObj ("이미지 업로드 실패: " ++ GenerateVideo.up_text uploadResult))
      else
        let url :=
          match GenerateVideo.up_url uploadResult with Some u => u | None => "" end in
        ret (replace url "tmpfiles.org/" "tmpfiles.org/dl/")
  end.

(** Step 1 and its [catch]. *)
Definition uploadBlock (w : World) (image : FoodImage) : P string :=
  tryCatch
    (uploadImageToTempUrl w (data image) (mimeType image))
    (fun uploadError =>
       return_ {| status := 500;
                  json := ApiError ("이미지 업로드 실패: " ++ messageOf uploadError)
                                   (Some "IMAGE_UPLOAD_FAILED") |}).

(** The request body of step 2: the duration sent is always '6'. *)
Definition requestBodyOf (englishPrompt_ imageUrl : string) : GenerateVideo.CreateBody :=
  {| GenerateVideo.cb_model := HAILUO_MODEL;
     GenerateVideo.cb_version := HAILUO_VERSION;
     GenerateVideo.cb_prompt := englishPrompt_;
     GenerateVideo.cb_prompt_optimizer := true;
     GenerateVideo.cb_image_url := imageUrl;
     GenerateVideo.cb_duration := "6";
     GenerateVideo.cb_webhook_url := "" |}.

(** The body of the [try] of step 2. *)
Definition createPrediction (w : World) (apiKey englishPrompt_ imageUrl : string)
  : P string :=
  emit (CreatePrediction apiKey (requestBodyOf englishPrompt_ imageUrl)) ;;
  match createFetch w with
  | CreateThrew e => raise e
  | CreateAnswer ok httpStatus text200 parsed =>
      match parsed with
      | NotJson =>
          raise (ErrorObj ("API 응답이 올바른 형식이 아닙니다 (HTTP "
                           ++ stringOfZ httpStatus ++ "): " ++ text200))
      | JsonNull typeError => raise typeError
      | JsonValue createResult =>
          if negb ok
          then
            let errMsg :=
              orOpt (cr_error createResult)
                    (orOpt (cr_message createResult)
                           (orOpt (cr_detail createResult) (cr_text createResult))) in
            raise (ErrorObj ("HTTP " ++ stringOfZ httpStatus ++ ": " ++ errMsg))
          else if orb (negb (GenerateVideo.isSuccess (cr_status createResult)))
                      (negb (truthyOpt (cr_predictionID createResult)))
          then
            raise (ErrorObj (orOpt (cr_error createResult)
                                   (orOpt (cr_message createResult)
                                          (cr_text createResult))))
          else ret (match cr_predictionID createResult with Some i => i | None => "" end)
      end
  end.

(** Step 2 and its [catch]. *)
Definition createBlock (w : World) (apiKey englishPrompt_ imageUrl : string) : P string :=
  tryCatch
    (createPrediction w apiKey englishPrompt_ imageUrl)
    (fun initError =>
       let errorMsg := messageOf initError in
       if orb (includes errorMsg "401") (includes errorMsg "Unauthorized")
       then return_ {| status := 403;
                       json := ApiError
                                 "Hailuo API 키가 유효하지 않습니다. 설정에서 키를 확인하세요."
                                 (Some "HAILUO_PERMISSION_DENIED") |}
       else raise (ErrorObj ("Hailuo API 호출 실패: " ++ errorMsg))).

Definition maxPollingTime : Z := 300000.
Definition pollInterval : Z := 5000.

Definition timeoutError (elapsed : Z) : Thrown :=
  ErrorObj ("영상 생성 시간 초과 (" ++ stringOfZ (roundDiv1000 elapsed)
            ++ "초 경과). 나중에 다시 시도하세요.").

Definition generationFailedError (pollResult : GenerateVideo.PollJson) : Thrown :=
  ErrorObj ("영상 생성 실패: "
            ++ orOpt (GenerateVideo.po_error pollResult)
                     (orOpt (GenerateVideo.po_message pollResult) "알 수 없는 오류")).

Definition repeatedFailureError : Thrown :=
  ErrorObj "영상 생성 상태 확인이 반복 실패했습니다.".

(** [pollError instanceof Error && pollError.message.includes('영상 생성')] *)
Definition isVideoError (pollError : Thrown) : bool :=
  andb (isError pollError) (includes (messageOf pollError) "영상 생성").

(** One poll and its [catch].  A text that is not JSON is logged and the
    iteration is left with [continue]: it is not counted as a failure. *)
Definition pollOnce
  (w : World) (durationSeconds_ : Z) (apiKey predictionId : string)
  (pollCount : nat) (elapsedAfter : Z) : P unit :=
  tryCatch
    (emit (PollPrediction apiKey predictionId) ;;
     match pollFetch w pollCount with
     | PollThrew e => raise e
     | PollText None => ret tt
     | PollText (Some pollResult) =>
         if andb (GenerateVideo.isSuccess (GenerateVideo.po_status pollResult))
                 (truthyOpt (GenerateVideo.po_output pollResult))
         then
           emit (Now elapsedAfter) ;;
           let videoUrl_ :=
             match GenerateVideo.po_output pollResult with Some u => u | None => "" end in
           return_ {| status := 200;
                      json := VideoResult {| videoUrl := videoUrl_;
                                             duration := durationSeconds_ |} |}
         else if GenerateVideo.isErrorStatus (GenerateVideo.po_status pollResult)
         then raise (generationFailedError pollResult)
         else ret tt
     end)
    (fun pollError =>
       if isVideoError pollError
       then raise pollError
       else if Nat.ltb 3 pollCount
       then raise repeatedFailureError
       else ret tt).

(** Step 3: the [while (true)] loop, on an iteration budget. *)
Fixpoint pollLoop
  (w : World) (durationSeconds_ : Z) (apiKey predictionId : string)
  (fuel : nat) (pollCount : nat) (elapsed : Z) : P unit :=
  match fuel with
  | O => ([], OutOfFuel)
  | S fuel' =>
      let pollCount' := S pollCount in
      emit (Now elapsed) ;;
      if elapsed >? maxPollingTime
      then raise (timeoutError elapsed)
      else
        emit (Sleep pollInterval) ;;
        let elapsedAfter := elapsed + pollInterval + Z.of_N (iterationTime w pollCount') in
        pollOnce w durationSeconds_ apiKey predictionId pollCount' elapsedAfter ;;
        pollLoop w durationSeconds_ apiKey predictionId fuel' pollCount' elapsedAfter
  end.

Definition maxIterations : nat := 62.

(** The outer [catch (e)]. *)
Definition errorResponse (e : Thrown) : Response :=
  match e with
  | ErrorObj msg =>
      if orb (includes msg "PERMISSION_DENIED")
             (orb (includes msg "403")
                  (orb (includes msg "Forbidden") (includes msg "Unauthorized")))
      then {| status := 403;
              json := ApiError "Hailuo API 접근 권한이 없습니다. API 키를 확인하세요."
                               (Some "HAILUO_PERMISSION_DENIED") |}
      else if orb (includes msg "QUOTA_EXCEEDED")
                  (orb (includes msg "429")
                       (orb (includes msg "Resource exhausted") (includes msg "rate limit")))
      then {| status := 429;
              json := ApiError "Hailuo API 할당량을 초과했습니다. 잠시 후 다시 시도하세요."
                               (Some "QUOTA_EXCEEDED") |}
      else {| status := 500;
              json := ApiError ("영상 생성 실패: " ++ msg)
                               (Some "FOOD_VIDEO_GENERATION_FAILED") |}
  | OtherValue _ =>
      {| status := 500;
         json := ApiError "영상 생성 중 알 수 없는 오류가 발생했습니다."
                          (Some "UNKNOWN_ERROR") |}
  end.

Definition keyMissingResponse : Response :=
  {| status := 400;
     json := ApiError
               "Hailuo API 키가 설정되지 않았습니다. 설정에서 Hailuo API 키를 입력해 주세요."
               (Some "HAILUO_API_KEY_MISSING") |}.

(** The [try] block after the destructuring of the body, given the
    properties taken from it and the authenticated user id. *)
Definition tryBody (w : World) (body_ : GenerateFoodVideoRequest) (uid : string) : P unit :=
  let durationSeconds_ :=
    match durationSeconds body_ with Some d => d | None => 6 end in
  match foodImage body_ with
  | None => return_ {| status := 400; json := ApiError "음식 이미지가 필요합니다." None |}
  | Some image =>
      if orb (negb (truthy (data image))) (negb (truthy (mimeType image)))
      then return_ {| status := 400; json := ApiError "음식 이미지가 필요합니다." None |}
      else if negb (truthyOpt (englishPrompt body_))
      then return_
             {| status := 400;
                json := ApiError
                          "영어 프롬프트가 필요합니다. 먼저 프롬프트 변환을 진행해 주세요."
                          None |}
      else
        let englishPrompt_ :=
          match englishPrompt body_ with Some p => p | None => "" end in
        emit (FindUser uid) ;;
        user <- await (findUserById w uid) ;;
        let hailuoApiKey := selectHailuoKey user (env w) in
        if negb (truthyOpt hailuoApiKey)
        then return_ keyMissingResponse
        else
          let apiKey_ := match hailuoApiKey with Some k => k | None => "" end in
          imageUrl <- uploadBlock w image ;;
          predictionId <- createBlock w apiKey_ englishPrompt_ imageUrl ;;
          pollLoop w durationSeconds_ apiKey_ predictionId maxIterations 0%nat 0
  end.

(** The [try] block: the destructuring of the body, which throws when the
    request has none, and the rest. *)
Definition tryBlock (w : World) (req : Request) (uid : string) : P unit :=
  body_ <- await (body req) ;;
  tryBody w body_ uid.

Definition answer (s : Step Response unit) : option Response :=
  match s with
  | Return_ r => Some r
  | Raise e => Some (errorResponse e)
  | Next _ => None
  | OutOfFuel => None
  end.

(** [export default async function handler(req, res)] *)
Definition handler (w : World) (req : Request) : list Event * option Response :=
  match method req with
  | GenerateVideo.OPTIONS => ([], Some {| status := 200; json := NoBody |})
  | GenerateVideo.OtherMethod _ =>
      ([], Some {| status := 405; json := ApiError "Method not allowed" None |})
  | GenerateVideo.POST =>
      let auth := requireAuth w in
      match GenerateVideo.authenticated auth, GenerateVideo.userId auth with
      | true, Some uid =>
          if truthy uid
          then let run := tryBlock w req uid in (fst run, answer (snd run))
          else ([], Some {| status := 401;
                            json := AuthFailure (orOpt (GenerateVideo.authError auth)
                                                       "로그인이 필요합니다.") |})
      | _, _ =>
          ([], Some {| status := 401;
                       json := AuthFailure (orOpt (GenerateVideo.authError auth)
                                                  "로그인이 필요합니다.") |})
      end
  end.

End GenerateFoodVideo.

(* ================================================================== *)
(** ** src/api/admin/users.ts *)
(* ================================================================== *)

(** GET /api/admin/users: the list of all users, for administrators. *)
Module AdminUsers.
Import JS Effects Lib.
Local Open Scope prog_scope.
Local Open Scope Z_scope.

Inductive Method := OPTIONS | GET | OtherMethod (m : string).

Section Handler.
(** A user document as [getAllUsers] returns it; the handler passes the
    documents on as they are. *)
Variable UserDoc : Type.

Inductive Body :=
| NoBody
| MethodError (error : string)
| Failure (error : string)
| UserList (users : list UserDoc) (totalCount : nat).

Record Response := { status : Z; json : Body }.

Inductive Event :=
| FindUser (userId : string)
| GetAllUsers.

(** What the functions of api/lib/auth and api/lib/mongodb, which are not
    among the sources, answer.  [requireAuth] is called inside the [try]:
    it may throw. *)
Record World := {
  requireAuth : Result GenerateVideo.AuthResult;
  findUserById : string -> Result (option User);
  getAllUsers : Result (list UserDoc)
}.

Definition P := Prog Event Response.

(** The [try] block. *)
Definition tryBlock (w : World) : P unit :=
  auth <- await (requireAuth w) ;;
  match GenerateVideo.authenticated auth, GenerateVideo.userId auth with
  | true, Some uid =>
      if truthy uid
      then
        emit (FindUser uid) ;;
        currentUser <- await (findUserById w uid) ;;
        if negb (isAdminUser currentUser)
        then return_ {| status := 403; json := Failure "관리자 권한이 필요합니다." |}
        else
          emit GetAllUsers ;;
          users <- await (getAllUsers w) ;;
          return_ {| status := 200; json := UserList users (List.length users) |}
      else return_ {| status := 401;
                      json := Failure (orOpt (GenerateVideo.authError auth)
                                             "인증이 필요합니다.") |}
  | _, _ =>
      return_ {| status := 401;
                 json := Failure (orOpt (GenerateVideo.authError auth)
                                        "인증이 필요합니다.") |}
  end.

(** [export default async function handler(req, res)]: every exception of
    the [try] block is answered 500 with the same message. *)
Definition handler (w : World) (method : Method) : list Event * option Response :=
  match method with
  | OPTIONS => ([], Some {| status := 200; json := NoBody |})
  | OtherMethod _ => ([], Some {| status := 405; json := MethodError "Method not allowed" |})
  | GET =>
      let run := tryBlock w in
      (fst run,
       match snd run with
       | Return_ r => Some r
       | Raise _ =>
           Some {| status := 500;
                   json := Failure "사용자 목록 조회 중 오류가 발생했습니다." |}
       | Next _ => None
       | OutOfFuel => None
       end)
  end.

End Handler.
End AdminUsers.

(* ================================================================== *)
(** ** POST /api/generate-food-video, the version that uploads the image
       to Vercel Blob *)
(* ================================================================== *)

(** The handler differs from the one above in its first step, which stores
    the image with [put] of @vercel/blob, and in deleting the stored blob
    with [del] before it answers; the request, the answers, the creating
    call and the conditions of the loop are the same. *)
Module GenerateFoodVideoBlob.
Import JS Effects Lib.
Local Open Scope prog_scope.
Local Open Scope Z_scope.

Definition FoodImage := GenerateFoodVideo.FoodImage.
Definition Request := GenerateFoodVideo.Request.
Definition Response := GenerateFoodVideo.Response.

Inductive Event :=
| FindUser (userId : string)
| PutBlob (pathname contentType : string) (base64 : string)
| CreatePrediction (apiKey : string) (body : GenerateVideo.CreateBody)
| Now (elapsedMs : Z)
| Sleep (ms : Z)
| PollPrediction (apiKey predictionId : string)
| DeleteBlob (url : string).

(** [uploadTime] is [Date.now()] when the image is stored; [putBlob] is the
    [url] of the stored blob, unless [put] rejects; [delBlob] tells whether
    [del] rejects. *)
Record World := {
  requireAuth : GenerateVideo.AuthResult;
  findUserById : string -> Result (option User);
  env : ProcessEnv;
  uploadTime : Z;
  putBlob : Result string;
  createFetch : GenerateFoodVideo.CreateExchange;
  pollFetch : nat -> GenerateFoodVideo.PollExchange;
  delBlob : string -> Result unit;
  iterationTime : nat -> N
}.

Definition P := Prog Event Response.

(** [if (blobUrl) { try { await del(blobUrl); } catch (delErr) { ... } }] *)
Definition cleanup (w : World) (blobUrl : option string) : P unit :=
  match blobUrl with
  | Some url =>
      if truthy url
      then tryCatch (emit (DeleteBlob url) ;; await (delBlob w url))
                    (fun delErr => ret tt)
      else ret tt
  | None => ret tt
  end.

(** Step 1 and its [catch]; the value is [blob.url], which is assigned to
    [imageUrl] and to [blobUrl]. *)
Definition uploadBlock (w : World) (image : FoodImage) : P string :=
  tryCatch
    (let ext := GenerateVideo.extensionOf (GenerateFoodVideo.mimeType image) in
     emit (PutBlob ("food-video/" ++ stringOfZ (uploadTime w) ++ "." ++ ext)
                   (GenerateFoodVideo.mimeType image) (GenerateFoodVideo.data image)) ;;
     await (putBlob w))
    (fun uploadError =>
       return_ {| GenerateFoodVideo.status := 500;
                  GenerateFoodVideo.json :=
                    GenerateFoodVideo.ApiError
                      ("이미지 업로드 실패: " ++ messageOf uploadError)
                      (Some "IMAGE_UPLOAD_FAILED") |}).

(** The body of the [try] of step 2. *)
Definition createPrediction (w : World) (apiKey englishPrompt_ imageUrl : string)
  : P string :=
  emit (CreatePrediction apiKey (GenerateFoodVideo.requestBodyOf englishPrompt_ imageUrl)) ;;
  match createFetch w with
  | GenerateFoodVideo.CreateThrew e => raise e
  | GenerateFoodVideo.CreateAnswer ok httpStatus text200 parsed =>
      match parsed with
      | GenerateFoodVideo.NotJson =>
          raise (ErrorObj ("API 응답이 올바른 형식이 아닙니다 (HTTP "
                           ++ stringOfZ httpStatus ++ "): " ++ text200))
      | GenerateFoodVideo.JsonNull typeError => raise typeError
      | GenerateFoodVideo.JsonValue createResult =>
          if negb ok
          then
            let errMsg :=
              orOpt (GenerateFoodVideo.cr_error createResult)
                    (orOpt (GenerateFoodVideo.cr_message createResult)
                           (orOpt (GenerateFoodVideo.cr_detail createResult)
                                  (GenerateFoodVideo.cr_text createResult))) in
            raise (ErrorObj ("HTTP " ++ stringOfZ httpStatus ++ ": " ++ errMsg))
          else if orb (negb (GenerateVideo.isSuccess
                               (GenerateFoodVideo.cr_status createResult)))
                      (negb (truthyOpt (GenerateFoodVideo.cr_predictionID createResult)))
          then
            raise (ErrorObj (orOpt (GenerateFoodVideo.cr_error createResult)
                                   (orOpt (GenerateFoodVideo.cr_message createResult)
                                          (GenerateFoodVideo.cr_text createResult))))
          else ret (match GenerateFoodVideo.cr_predictionID createResult with
                    | Some i => i | None => "" end)
      end
  end.

Definition invalidKeyResponse : Response :=
  {| GenerateFoodVideo.status := 403;
     GenerateFoodVideo.json :=
       GenerateFoodVideo.ApiError
         "Hailuo API 키가 유효하지 않습니다. 설정에서 키를 확인하세요."
         (Some "HAILUO_PERMISSION_DENIED") |}.

(** Step 2 and its [catch]: the answer 403 is given here, without a
    deletion. *)
Definition createBlock (w : World) (apiKey englishPrompt_ imageUrl : string) : P string :=
  tryCatch
    (createPrediction w apiKey englishPrompt_ imageUrl)
    (fun initError =>
       let errorMsg := messageOf initError in
       if orb (includes errorMsg "401") (includes errorMsg "Unauthorized")
       then return_ invalidKeyResponse
       else raise (ErrorObj ("Hailuo API 호출 실패: " ++ errorMsg))).

(** One poll and its [catch]; on success the blob is deleted before the
    answer. *)
Definition pollOnce
  (w : World) (blobUrl : option string) (durationSeconds_ : Z)
  (apiKey predictionId : string) (pollCount : nat) (elapsedAfter : Z) : P unit :=
  tryCatch
    (emit (PollPrediction apiKey predictionId) ;;
     match pollFetch w pollCount with
     | GenerateFoodVideo.PollThrew e => raise e
     | GenerateFoodVideo.PollText None => ret tt
     | GenerateFoodVideo.PollText (Some pollResult) =>
         if andb (GenerateVideo.isSuccess (GenerateVideo.po_status pollResult))
                 (truthyOpt (GenerateVideo.po_output pollResult))
         then
           emit (Now elapsedAfter) ;;
           let videoUrl_ :=
             match GenerateVideo.po_output pollResult with Some u => u | None => "" end in
           cleanup w blobUrl ;;
           return_ {| GenerateFoodVideo.status := 200;
                      GenerateFoodVideo.json :=
                        GenerateFoodVideo.VideoResult
                          {| GenerateFoodVideo.videoUrl := videoUrl_;
                             GenerateFoodVideo.duration := durationSeconds_ |} |}
         else if GenerateVideo.isErrorStatus (GenerateVideo.po_status pollResult)
         then raise (GenerateFoodVideo.generationFailedError pollResult)
         else ret tt
     end)
    (fun pollError =>
       if GenerateFoodVideo.isVideoError pollError
       then raise pollError
       else if Nat.ltb 3 pollCount
       then raise GenerateFoodVideo.repeatedFailureError
       else ret tt).

(** Step 3: the [while (true)] loop, on an iteration budget. *)
Fixpoint pollLoop
  (w : World) (blobUrl : option string) (durationSeconds_ : Z)
  (apiKey predictionId : string)
  (fuel : nat) (pollCount : nat) (elapsed : Z) : P unit :=
  match fuel with
  | O => ([], OutOfFuel)
  | S fuel' =>
      let pollCount' := S pollCount in
      emit (Now elapsed) ;;
      if elapsed >? GenerateFoodVideo.maxPollingTime
      then raise (GenerateFoodVideo.timeoutError elapsed)
      else
        emit (Sleep GenerateFoodVideo.pollInterval) ;;
        let elapsedAfter :=
          elapsed + GenerateFoodVideo.pollInterval + Z.of_N (iterationTime w pollCount') in
        pollOnce w blobUrl durationSeconds_ apiKey predictionId pollCount' elapsedAfter ;;
        pollLoop w blobUrl durationSeconds_ apiKey predictionId fuel' pollCount' elapsedAfter
  end.

(** What the [try] block has at hand once the image is stored. *)
Record Prepared := {
  p_durationSeconds : Z;
  p_hailuoApiKey : string;
  p_englishPrompt : string;
  p_blobUrl : string
}.

(** The [try] block up to the end of step 1; [blobUrl] is [null] as long
    as this part runs. *)
Definition prepareBody (w : World) (body : GenerateFoodVideo.GenerateFoodVideoRequest)
  (uid : string) : P Prepared :=
  let durationSeconds_ :=
    match GenerateFoodVideo.durationSeconds body with Some d => d | None => 6 end in
  match GenerateFoodVideo.foodImage body with
  | None => return_ {| GenerateFoodVideo.status := 400;
                       GenerateFoodVideo.json :=
                         GenerateFoodVideo.ApiError "음식 이미지가 필요합니다." None |}
  | Some image =>
      if orb (negb (truthy (GenerateFoodVideo.data image)))
             (negb (truthy (GenerateFoodVideo.mimeType image)))
      then return_ {| GenerateFoodVideo.status := 400;
                      GenerateFoodVideo.json :=
                        GenerateFoodVideo.ApiError "음식 이미지가 필요합니다." None |}
      else if negb (truthyOpt (GenerateFoodVideo.englishPrompt body))
      then return_
             {| GenerateFoodVideo.status := 400;
                GenerateFoodVideo.json :=
                  GenerateFoodVideo.ApiError
                    "영어 프롬프트가 필요합니다. 먼저 프롬프트 변환을 진행해 주세요."
                    None |}
      else
        let englishPrompt_ :=
          match GenerateFoodVideo.englishPrompt body with Some p => p | None => "" end in
        emit (FindUser uid) ;;
        user <- await (findUserById w uid) ;;
        let hailuoApiKey := selectHailuoKey user (env w) in
        if negb (truthyOpt hailuoApiKey)
        then return_ GenerateFoodVideo.keyMissingResponse
        else
          let apiKey_ := match hailuoApiKey with Some k => k | None => "" end in
          url <- uploadBlock w image ;;
          ret {| p_durationSeconds := durationSeconds_;
                 p_hailuoApiKey := apiKey_;
                 p_englishPrompt := englishPrompt_;
                 p_blobUrl := url |}
  end.

(** The destructuring of [req.body] throws when the request has no body;
    the rest runs on the body. *)
Definition prepare (w : World) (req : Request) (uid : string) : P Prepared :=
  body <- await (GenerateFoodVideo.body req) ;;
  prepareBody w body uid.

(** The rest of the [try] block, steps 2 and 3; [blobUrl] is the URL of
    the stored blob. *)
Definition generate (w : World) (p : Prepared) : P unit :=
  predictionId <- createBlock w (p_hailuoApiKey p) (p_englishPrompt p) (p_blobUrl p) ;;
  pollLoop w (Some (p_blobUrl p)) (p_durationSeconds p) (p_hailuoApiKey p) predictionId
           GenerateFoodVideo.maxIterations 0%nat 0.

(** The outer [catch (e)]: the deletion, then the answer for [e]. *)
Definition catchBlock (w : World) (blobUrl : option string) (e : Thrown)
  : list Event * option Response :=
  (fst (cleanup w blobUrl), Some (GenerateFoodVideo.errorResponse e)).

(** The [try] block and the outer [catch]. *)
Definition tryAndCatch (w : World) (req : Request) (uid : string)
  : list Event * option Response :=
  let first := prepare w req uid in
  match snd first with
  | Return_ r => (fst first, Some r)
  | Raise e =>
      let c := catchBlock w None e in (fst first ++ fst c, snd c)
  | OutOfFuel => (fst first, None)
  | Next p =>
      let second := generate w p in
      match snd second with
      | Return_ r => (fst first ++ fst second, Some r)
      | Raise e =>
          let c := catchBlock w (Some (p_blobUrl p)) e in
          (fst first ++ fst second ++ fst c, snd c)
      | Next _ => (fst first ++ fst second, None)
      | OutOfFuel => (fst first ++ fst second, None)
      end
  end%list.

(** [export default async function handler(req, res)] *)
Definition handler (w : World) (req : Request) : list Event * option Response :=
  match GenerateFoodVideo.method req with
  | GenerateVideo.OPTIONS =>
      ([], Some {| GenerateFoodVideo.status := 200;
                   GenerateFoodVideo.json := GenerateFoodVideo.NoBody |})
  | GenerateVideo.OtherMethod _ =>
      ([], Some {| GenerateFoodVideo.status := 405;
                   GenerateFoodVideo.json :=
                     GenerateFoodVideo.ApiError "Method not allowed" None |})
  | GenerateVideo.POST =>
      let auth := requireAuth w in
      match GenerateVideo.authenticated auth, GenerateVideo.userId auth with
      | true, Some uid =>
          if truthy uid
          then tryAndCatch w req uid
          else ([], Some {| GenerateFoodVideo.status := 401;
                            GenerateFoodVideo.json :=
                              GenerateFoodVideo.AuthFailure
                                (orOpt (GenerateVideo.authError auth)
                                       "로그인이 필요합니다.") |})
      | _, _ =>
          ([], Some {| GenerateFoodVideo.status := 401;
                       GenerateFoodVideo.json :=
                         GenerateFoodVideo.AuthFailure
                           (orOpt (GenerateVideo.authError auth)
                                  "로그인이 필요합니다.") |})
      end
  end.

(** The URLs a run deleted, in order, and whether it stored a blob. *)
Fixpoint deleted (t : list Event) : list string :=
  match t with
  | [] => []
  | DeleteBlob url :: t' => url :: deleted t'
  | _ :: t' => deleted t'
  end.

Fixpoint stored (t : list Event) : bool :=
  match t with
  | [] => false
  | PutBlob _ _ _ :: _ => true
  | _ :: t' => stored t'
  end.

End GenerateFoodVideoBlob.

(* ================================================================== *)
(** ** POST /api/generate-clip-scenario *)
(* ================================================================== *)

Module GenerateClipScenario.
Import JS Effects Lib.
Local Open Scope prog_scope.
Local Open Scope Z_scope.

Definition dquote : string := String (ascii_of_nat 34) EmptyString.
Definition nl : string := String (ascii_of_nat 10) EmptyString.

(** [config] of the request body. *)
Record ClipConfig := {
  topic : option string;
  duration : option Z;
  tone : option string;
  mode : option string;
  imageStyle : option string
}.

(** [req.body], when there is one. *)
Record RequestBody := { config : option ClipConfig }.

Record Request := {
  method : GenerateVideo.Method;
  body : option RequestBody
}.

(** The text added to the prompt for an OpenAI model. *)
Definition jsonInstruction : string :=
    nl ++ nl ++ "Respond in JSON format with this structure:" ++ nl ++ "{" ++ dquote ++
    "title" ++ dquote ++ ": " ++ dquote ++ "시나리오 제목" ++ dquote ++ ", " ++ dquote ++
    "synopsis" ++ dquote ++ ": " ++ dquote ++ "한 줄 요약" ++ dquote ++ ", " ++ dquote ++
    "suggestedCharacters" ++ dquote ++ ": [{" ++ dquote ++ "name" ++ dquote ++ ": " ++
    dquote ++ "이름" ++ dquote ++ ", " ++ dquote ++ "role" ++ dquote ++ ": " ++ dquote ++
    "역할" ++ dquote ++ ", " ++ dquote ++ "description" ++ dquote ++ ": " ++ dquote ++
    "설명" ++ dquote ++ "}], " ++ dquote ++ "scenes" ++ dquote ++ ": [{" ++ dquote ++
    "sceneNumber" ++ dquote ++ ": 1, " ++ dquote ++ "duration" ++ dquote ++ ": 6, " ++
    dquote ++ "storyBeat" ++ dquote ++ ": " ++ dquote ++ "Hook" ++ dquote ++ ", " ++
    dquote ++ "visualDescription" ++ dquote ++ ": " ++ dquote ++ "화면 묘사(한국어)" ++
    dquote ++ ", " ++ dquote ++ "narration" ++ dquote ++ ": " ++ dquote ++
    "나레이션(한국어, 20-30자)" ++ dquote ++ ", " ++ dquote ++ "cameraAngle" ++ dquote ++ ": " ++
    dquote ++ "카메라 앵글" ++ dquote ++ ", " ++ dquote ++ "mood" ++ dquote ++ ": " ++
    dquote ++ "분위기" ++ dquote ++ ", " ++ dquote ++ "characters" ++ dquote ++ ": [], " ++
    dquote ++ "imagePrompt" ++ dquote ++ ": " ++ dquote ++ "영어 이미지 프롬프트" ++ dquote ++
    ", " ++ dquote ++ "videoPrompt" ++ dquote ++ ": " ++ dquote ++ "영어 모션 프롬프트" ++
    dquote ++ "}]}".

Definition openaiOptions : OpenAI.OpenAITextOptions :=
  {| OpenAI.systemPrompt := Some
   ("You are a professional video scenario writer for Korean short-form " ++
    "clips optimized for Hailuo AI video generation. Each scene is exactly " ++
    "6 seconds. Always respond with valid JSON. Write narrations in Korean " ++
    "(20-30 characters), image prompts in English (no text/logo), and video " ++
    "prompts in English (camera movement and motion only).");
     OpenAI.jsonMode := Some true;
     OpenAI.maxTokens := None;
     OpenAI.temperature := None |}.

Section Handler.
(** The values of the parsed answer that the handler passes on without
    looking at them, or of which it only asks whether they are truthy. *)
Variable Value : Type.

(** [a || index + 1] and [a || []] *)
Inductive SceneNumber := NumberGiven (v : Value) | NumberOfIndex (n : nat).
Inductive OrEmptyArray := ArrayGiven (v : Value) | EmptyArray.

Record Scene := {
  sc_id : string;
  sc_sceneNumber : SceneNumber;
  sc_duration : Z;
  sc_storyBeat : Value;
  sc_visualDescription : Value;
  sc_narration : Value;
  sc_cameraAngle : Value;
  sc_mood : Value;
  sc_characters : OrEmptyArray;
  sc_imagePrompt : Value;
  sc_videoPrompt : Value
}.

Record Scenario := {
  id : string;
  title : Value;
  synopsis : Value;
  s_topic : string;
  totalDuration : Z;
  s_tone : string;
  s_mode : string;
  s_imageStyle : string;
  suggestedCharacters : OrEmptyArray;
  scenes : list Scene;
  scenarioType : string;
  createdAt : Z;
  updatedAt : Z
}.

Inductive Body :=
| NoBody
| ApiError (error : string) (code : option string)
| ScenarioBody (scenario : Scenario).

Record Response := { status : Z; json : Body }.

(** An element of [parsed.scenes] as the callback of [map] reads it:
    reading a property of it raises (the element is [null]), or the
    properties have these values ([undefined] when absent). *)
Inductive SceneJson :=
| SceneUnreadable (e : Thrown)
| SceneFields (sceneNumber storyBeat visualDescription narration cameraAngle mood
               characters imagePrompt videoPrompt : Value).

(** [parsed] as the handler reads it: [parsed.scenes.map] raises (no
    object, or no array under [scenes]), or there are the scenes and the
    three other properties. *)
Inductive ParsedJson :=
| ScenesUnreadable (e : Thrown)
| ParsedFields (title synopsis suggestedCharacters : Value) (scenes : list SceneJson).

(** The Gemini client used: the shared [ai], or the one
    [getAIClientForUser] gave for a user. *)
Inductive Client := SharedClient | UserClient (userId : string).

Inductive Event :=
| GetUserTextModel (userId : string)
| OpenAICall (e : OpenAI.Event)
| GetAIClientForUser (userId : string)
| GenerateContent (client : Client) (model contents : string).

(** What the functions that are not among the sources answer (api/lib/auth,
    api/lib/gemini, the Gemini client, [JSON.parse], [crypto.randomUUID],
    [Date.now]).  [buildPrompt] stands for lines 181-282, which build the
    text of the prompt from the configuration, the tables of the file and
    [sanitizePrompt] and [STYLE_PROMPTS] of api/lib/gemini;
    [generateContent] stands for building the request, [getThinkingConfig]
    included, and sending it, and gives [response.text]; [truthyValue]
    tells which values are truthy; [randomUUID n] and [now n] are the
    results of the calls numbered [n], from 0.  [getUserIdFromRequest] is
    called before the [try] and taken not to throw. *)
Record World := {
  getUserIdFromRequest : option string;
  bodyTypeError : Thrown;
  buildPrompt : ClipConfig -> Result string;
  MODELS_TEXT : string;
  getUserTextModel : string -> Result string;
  openai : OpenAI.World;
  getAIClientForUser : string -> Result unit;
  generateContent : Client -> string -> string -> Result (option string);
  parseJSON : option string -> Result ParsedJson;
  truthyValue : Value -> bool;
  randomUUID : nat -> string;
  now : nat -> Z
}.

Definition P := Prog Event Response.

(** A function of api/lib/openai.ts run inside the handler. *)
Definition liftOpenAI {A} (m : OpenAI.P A) : P A :=
  (map OpenAICall (fst m),
   match snd m with
   | Next a => Next a
   | Return_ r => match r with end
   | Raise e => Raise e
   | OutOfFuel => OutOfFuel
   end).

Definition orEmptyArray (w : World) (v : Value) : OrEmptyArray :=
  if truthyValue w v then ArrayGiven v else EmptyArray.

(** [parsed.scenes.map((scene, index) => ({ ... }))], from [index] on. *)
Fixpoint mapScenes (w : World) (index : nat) (l : list SceneJson) : Result (list Scene) :=
  match l with
  | [] => Ok []
  | SceneUnreadable e :: _ => Throw e
  | SceneFields sceneNumber storyBeat visualDescription narration cameraAngle mood
                characters imagePrompt videoPrompt :: l' =>
      let scene :=
        {| sc_id := randomUUID w index;
           sc_sceneNumber :=
             if truthyValue w sceneNumber
             then NumberGiven sceneNumber
             else NumberOfIndex (index + 1);
           sc_duration := 6;
           sc_storyBeat := storyBeat;
           sc_visualDescription := visualDescription;
           sc_narration := narration;
           sc_cameraAngle := cameraAngle;
           sc_mood := mood;
           sc_characters := orEmptyArray w characters;
           sc_imagePrompt := imagePrompt;
           sc_videoPrompt := videoPrompt |} in
      match mapScenes w (S index) l' with
      | Ok rest => Ok (scene :: rest)
      | Throw e => Throw e
      end
  end.

(** Lines 358-387: the scenario made of the parsed answer. *)
Definition toScenario (w : World) (c : ClipConfig) (topic_ : string) (parsed : ParsedJson)
  : Result Scenario :=
  match parsed with
  | ScenesUnreadable e => Throw e
  | ParsedFields title_ synopsis_ suggestedCharacters_ scenes_ =>
      match mapScenes w 0 scenes_ with
      | Throw e => Throw e
      | Ok scenes' =>
          Ok {| id := randomUUID w (List.length scenes_);
                title := title_;
                synopsis := synopsis_;
                s_topic := topic_;
                totalDuration := match duration c with Some d => d | None => 60 end;
                s_tone := match tone c with Some t => t | None => "emotional" end;
                s_mode := match mode c with Some m => m | None => "character" end;
                s_imageStyle :=
                  match imageStyle c with Some s => s | None => "photorealistic" end;
                suggestedCharacters := orEmptyArray w suggestedCharacters_;
                scenes := scenes';
                scenarioType := "clip";
                createdAt := now w 0;
                updatedAt := now w 1 |}
      end
  end.

(** [userId] when it is truthy. *)
Definition knownUser (w : World) : option string :=
  match getUserIdFromRequest w with
  | Some uid => if truthy uid then Some uid else None
  | None => None
  end.

(** Lines 284-356: the text model is chosen, the provider is called and
    its answer is parsed. *)
Definition generateParsed (w : World) (prompt : string) : P ParsedJson :=
  textModel <- match knownUser w with
               | Some uid => emit (GetUserTextModel uid) ;; await (getUserTextModel w uid)
               | None => ret (MODELS_TEXT w)
               end ;;
  match knownUser w with
  | Some uid =>
      if OpenAI.isOpenAIModel textModel
      then
        resultText <- liftOpenAI
                        (OpenAI.openaiTextBranch (openai w) uid textModel
                           (prompt ++ jsonInstruction) openaiOptions) ;;
        await (parseJSON w (Some resultText))
      else
        emit (GetAIClientForUser uid) ;;
        await (getAIClientForUser w uid) ;;
        emit (GenerateContent (UserClient uid) textModel prompt) ;;
        text <- await (generateContent w (UserClient uid) textModel prompt) ;;
        await (parseJSON w text)
  | None =>
      emit (GenerateContent SharedClient textModel prompt) ;;
      text <- await (generateContent w SharedClient textModel prompt) ;;
      await (parseJSON w text)
  end.

(** The [try] block. *)
Definition tryBlock (w : World) (req : Request) : P unit :=
  match body req with
  | None => raise (bodyTypeError w)
  | Some b =>
      match config b with
      | None => return_ {| status := 400; json := ApiError "config.topic is required" None |}
      | Some c =>
          if negb (truthyOpt (topic c))
          then return_ {| status := 400; json := ApiError "config.topic is required" None |}
          else
            let topic_ := match topic c with Some t => t | None => "" end in
            prompt <- await (buildPrompt w c) ;;
            parsed <- generateParsed w prompt ;;
            scenario <- await (toScenario w c topic_ parsed) ;;
            return_ {| status := 200; json := ScenarioBody scenario |}
      end
  end.

(** [e instanceof Error ? e.message : 'Unknown error'] *)
Definition errorMessageOf (e : Thrown) : string :=
  match e with ErrorObj m => m | OtherValue _ => "Unknown error" end.

(** The [catch (e)]. *)
Definition errorResponse (e : Thrown) : Response :=
  {| status := 500;
     json := ApiError ("Clip scenario generation failed: " ++ errorMessageOf e)
                      (Some "GENERATION_FAILED") |}.

(** [export default async function handler(req, res)] *)
Definition handler (w : World) (req : Request) : list Event * option Response :=
  match method req with
  | GenerateVideo.OPTIONS => ([], Some {| status := 200; json := NoBody |})
  | GenerateVideo.OtherMethod _ =>
      ([], Some {| status := 405; json := ApiError "Method not allowed" None |})
  | GenerateVideo.POST =>
      let run := tryBlock w req in
      (fst run,
       match snd run with
       | Return_ r => Some r
       | Raise e => Some (errorResponse e)
       | Next _ => None
       | OutOfFuel => None
       end)
  end.

End Handler.

Arguments NumberGiven {Value} v.
Arguments NumberOfIndex {Value} n.
Arguments ArrayGiven {Value} v.
Arguments EmptyArray {Value}.
Arguments sc_id {Value} s.
Arguments sc_sceneNumber {Value} s.
Arguments sc_duration {Value} s.
Arguments sc_storyBeat {Value} s.
Arguments sc_visualDescription {Value} s.
Arguments sc_narration {Value} s.
Arguments sc_cameraAngle {Value} s.
Arguments sc_mood {Value} s.
Arguments sc_characters {Value} s.
Arguments sc_imagePrompt {Value} s.
Arguments sc_videoPrompt {Value} s.
Arguments id {Value} s.
Arguments title {Value} s.
Arguments synopsis {Value} s.
Arguments s_topic {Value} s.
Arguments totalDuration {Value} s.
Arguments s_tone {Value} s.
Arguments s_mode {Value} s.
Arguments s_imageStyle {Value} s.
Arguments suggestedCharacters {Value} s.
Arguments scenes {Value} s.
Arguments scenarioType {Value} s.
Arguments createdAt {Value} s.
Arguments updatedAt {Value} s.
Arguments NoBody {Value}.
Arguments ApiError {Value} error code.
Arguments ScenarioBody {Value} scenario.
Arguments status {Value} r.
Arguments json {Value} r.
Arguments SceneUnreadable {Value} e.
Arguments SceneFields {Value}.
Arguments ScenesUnreadable {Value} e.
Arguments ParsedFields {Value}.
Arguments getUserIdFromRequest {Value} w.
Arguments bodyTypeError {Value} w.
Arguments buildPrompt {Value} w c.
Arguments MODELS_TEXT {Value} w.
Arguments getUserTextModel {Value} w userId.
Arguments openai {Value} w.
Arguments getAIClientForUser {Value} w userId.
Arguments generateContent {Value} w client model contents.
Arguments parseJSON {Value} w text.
Arguments truthyValue {Value} w v.
Arguments randomUUID {Value} w n.
Arguments now {Value} w n.
Arguments liftOpenAI {Value A} m.
Arguments orEmptyArray {Value} w v.
Arguments mapScenes {Value} w index l.
Arguments toScenario {Value} w c topic_ parsed.
Arguments knownUser {Value} w.
Arguments generateParsed {Value} w prompt.
Arguments tryBlock {Value} w req.
Arguments errorResponse {Value} e.
Arguments handler {Value} w req.

(** The calls of a run that go to OpenAI and the ones that go to Gemini. *)
Definition isOpenAICall (e : Event) : bool :=
  match e with OpenAICall _ => true | _ => false end.

Definition isChatCompletion (e : Event) : bool :=
  match e with OpenAICall (OpenAI.ChatCompletion _) => true | _ => false end.

Definition isGenerateContent (e : Event) : bool :=
  match e with GenerateContent _ _ _ => true | _ => false end.

(** [text] is what the provider asked with [prompt] answered: the content
    of the completion that OpenAI gave to the request made for the user's
    key and model, or the [response.text] of the Gemini client asked. *)
Definition providerAnswered {Value} (w : World Value) (prompt : string)
  (text : option string) : Prop :=
  match knownUser w with
  | None => generateContent w SharedClient (MODELS_TEXT w) prompt = Ok text
  | Some uid =>
      exists textModel,
        getUserTextModel w uid = Ok textModel
        /\ if OpenAI.isOpenAIModel textModel
           then exists openaiKey request resultText,
                  snd (OpenAI.getOpenAIKeyForUser (openai w) uid) = Next openaiKey
                  /\ fst (OpenAI.generateTextWithOpenAI (openai w) openaiKey textModel
                            (prompt ++ jsonInstruction) openaiOptions)
                     = [OpenAI.ChatCompletion request]
                  /\ OpenAI.chat (openai w) request = OpenAI.ChatOk (Ok resultText)
                  /\ text = Some resultText
           else getAIClientForUser w uid = Ok tt
                /\ generateContent w (UserClient uid) textModel prompt = Ok text
  end.

End GenerateClipScenario.

(* ================================================================== *)
(** ** The timeline operations of the hook [useVideo] *)
(* ================================================================== *)

Module VideoTimelineOps.
Local Open Scope nat_scope.

Section Timeline.
(** JavaScript numbers with their [0] and [+]; the properties of a scene,
    of a transition and of the timeline that the operations copy without
    reading, and the audio tracks. *)
Variable Num : Type.
Variable zero : Num.
Variable add : Num -> Num -> Num.
Variables SceneRest TransitionRest TimelineRest AudioTrack : Type.

Record TimelineScene := {
  id : string;
  position : nat;
  startTime : Num;
  duration : Num;
  sceneRest : SceneRest
}.

Record Transition := {
  fromSceneId : string;
  toSceneId : string;
  transitionRest : TransitionRest
}.

Record VideoTimeline := {
  scenes : list TimelineScene;
  totalDuration : Num;
  audioTracks : list AudioTrack;
  transitions : list Transition;
  timelineRest : TimelineRest
}.

(** [new Map(timeline.scenes.map(s => [s.id, s])).get(id)]: a later entry
    with the same key replaces an earlier one. *)
Definition sceneMapGet (scenes_ : list TimelineScene) (id_ : string) : option TimelineScene :=
  fold_left (fun found s => if String.eqb (id s) id_ then Some s else found) scenes_ None.

(** Whether a scene of the list has the identifier. *)
Definition isSceneOf (scenes_ : list TimelineScene) (id_ : string) : bool :=
  existsb (fun s => String.eqb (id s) id_) scenes_.

(** The callback of [sceneIds.map], run from position [index] on with the
    variable [currentStartTime]; the result is the array of the scenes or
    [null]s and the final value of the variable. *)
Fixpoint mapSceneIds
  (scenes_ : list TimelineScene) (sceneIds : list string)
  (index : nat) (currentStartTime : Num) : list (option TimelineScene) * Num :=
  match sceneIds with
  | [] => ([], currentStartTime)
  | id_ :: rest =>
      match sceneMapGet scenes_ id_ with
      | None =>
          let '(out, final) := mapSceneIds scenes_ rest (S index) currentStartTime in
          (None :: out, final)
      | Some scene =>
          let updatedScene :=
            {| id := id scene;
               position := index;
               startTime := currentStartTime;
               duration := duration scene;
               sceneRest := sceneRest scene |} in
          let '(out, final) :=
            mapSceneIds scenes_ rest (S index) (add currentStartTime (duration scene)) in
          (Some updatedScene :: out, final)
      end
  end.

(** [.filter(s => s !== null)] *)
Fixpoint filterNotNull {A} (l : list (option A)) : list A :=
  match l with
  | [] => []
  | Some a :: l' => a :: filterNotNull l'
  | None :: l' => filterNotNull l'
  end.

(** [reorderTimelineScenes(sceneIds)]: the timeline handed to
    [contextSetTimeline], or [None] when there is no timeline and nothing
    is set. *)
Definition reorderTimelineScenes
  (timeline : option VideoTimeline) (sceneIds : list string) : option VideoTimeline :=
  match timeline with
  | None => None
  | Some tl =>
      let '(mapped, currentStartTime) := mapSceneIds (scenes tl) sceneIds 0 zero in
      Some {| scenes := filterNotNull mapped;
              totalDuration := currentStartTime;
              audioTracks := audioTracks tl;
              transitions := transitions tl;
              timelineRest := timelineRest tl |}
  end.

(** [t.fromSceneId === from && t.toSceneId === to] *)
Definition joins (from to : string) (t : Transition) : bool :=
  andb (String.eqb (fromSceneId t) from) (String.eqb (toSceneId t) to).

(** [findIndex]; [None] is [-1]. *)
Fixpoint findIndex {A} (p : A -> bool) (l : list A) : option nat :=
  match l with
  | [] => None
  | a :: l' => if p a then Some 0 else option_map S (findIndex p l')
  end.

(** [l.map((t, i) => f(t, i))], the first index being [start]. *)
Fixpoint mapIndexed {A B} (f : A -> nat -> B) (start : nat) (l : list A) : list B :=
  match l with
  | [] => []
  | a :: l' => f a start :: mapIndexed f (S start) l'
  end.

(** [setTransition(transition)] *)
Definition setTransition
  (timeline : option VideoTimeline) (transition : Transition) : option VideoTimeline :=
  match timeline with
  | None => None
  | Some tl =>
      let existingIndex :=
        findIndex (joins (fromSceneId transition) (toSceneId transition)) (transitions tl) in
      let newTransitions :=
        match existingIndex with
        | Some k =>
            mapIndexed (fun t i => if Nat.eqb i k then transition else t) 0 (transitions tl)
        | None => (transitions tl ++ [transition])%list
        end in
      Some {| scenes := scenes tl;
              totalDuration := totalDuration tl;
              audioTracks := audioTracks tl;
              transitions := newTransitions;
              timelineRest := timelineRest tl |}
  end.

(** [removeTransition(fromSceneId, toSceneId)] *)
Definition removeTransition
  (timeline : option VideoTimeline) (from to : string) : option VideoTimeline :=
  match timeline with
  | None => None
  | Some tl =>
      Some {| scenes := scenes tl;
              totalDuration := totalDuration tl;
              audioTracks := audioTracks tl;
              transitions := filter (fun t => negb (joins from to t)) (transitions tl);
              timelineRest := timelineRest tl |}
  end.

(** The transition shown between two scenes: the first one that joins
    them. *)
Definition transitionBetween (tl : VideoTimeline) (from to : string) : option Transition :=
  find (joins from to) (transitions tl).

(** Scenes that follow one another without a gap from the time [from] on,
    and the time at which the last one ends. *)
Fixpoint backToBack (from : Num) (l : list TimelineScene) : Prop :=
  match l with
  | [] => True
  | s :: l' => startTime s = from /\ backToBack (add from (duration s)) l'
  end.

Definition endOf (from : Num) (l : list TimelineScene) : Num :=
  fold_left (fun t s => add t (duration s)) l from.

(** The pairs of scenes the transitions of a list join. *)
Definition joined (l : list Transition) : list (string * string) :=
  map (fun t => (fromSceneId t, toSceneId t)) l.

End Timeline.

Arguments id {Num SceneRest} t.
Arguments position {Num SceneRest} t.
Arguments startTime {Num SceneRest} t.
Arguments duration {Num SceneRest} t.
Arguments sceneRest {Num SceneRest} t.
Arguments fromSceneId {TransitionRest} t.
Arguments toSceneId {TransitionRest} t.
Arguments scenes {Num SceneRest TransitionRest TimelineRest AudioTrack} v.
Arguments totalDuration {Num SceneRest TransitionRest TimelineRest AudioTrack} v.
Arguments audioTracks {Num SceneRest TransitionRest TimelineRest AudioTrack} v.
Arguments transitions {Num SceneRest TransitionRest TimelineRest AudioTrack} v.
Arguments timelineRest {Num SceneRest TransitionRest TimelineRest AudioTrack} v.
Arguments sceneMapGet {Num SceneRest} scenes_ id_.
Arguments isSceneOf {Num SceneRest} scenes_ id_.
Arguments mapSceneIds {Num} add {SceneRest} scenes_ sceneIds index currentStartTime.
Arguments reorderTimelineScenes {Num} zero add {SceneRest TransitionRest TimelineRest AudioTrack}
  timeline sceneIds.
Arguments joins {TransitionRest} from to t.
Arguments setTransition {Num SceneRest TransitionRest TimelineRest AudioTrack}
  timeline transition.
Arguments removeTransition {Num SceneRest TransitionRest TimelineRest AudioTrack}
  timeline from to.
Arguments transitionBetween {Num SceneRest TransitionRest TimelineRest AudioTrack} tl from to.
Arguments backToBack {Num} add {SceneRest} from l.
Arguments endOf {Num} add {SceneRest} from l.
Arguments joined {TransitionRest} l.

End VideoTimelineOps.

(* ================================================================== *)
(** ** The panel [VideoPromptBuilder] *)
(* ================================================================== *)

(** The state of the component and its handlers, as functions of the
    state; what the component renders is not modelled. *)
Module VideoPromptPanel.
Import JS VideoPromptPresets Types VideoPromptBuilder.

(** [===] on the keys of the preset tables. *)
Definition styleKeyEqb (a b : StyleKey) : bool :=
  match a, b with
  | cinematic, cinematic | film_grain, film_grain | anamorphic, anamorphic
  | high_contrast, high_contrast | soft_dreamy, soft_dreamy | noir, noir
  | vibrant, vibrant | desaturated, desaturated => true
  | _, _ => false
  end.

Definition qualityKeyEqb (a b : QualityKey) : bool :=
  match a, b with
  | hyper_realistic, hyper_realistic | q_8k, q_8k | detailed, detailed
  | unreal_engine, unreal_engine | ray_tracing, ray_tracing => true
  | _, _ => false
  end.

Definition negativeKeyEqb (a b : OptionalNegativeKey) : bool :=
  match a, b with
  | no_cartoon, no_cartoon | no_slow_motion, no_slow_motion | no_shake, no_shake
  | no_lens_effects, no_lens_effects | no_cg_look, no_cg_look => true
  | _, _ => false
  end.

(** [l.includes(key) ? l.filter(s => s !== key) : [...l, key]] *)
Definition toggle {A} (eqb : A -> A -> bool) (key : A) (l : list A) : list A :=
  if existsb (fun s => eqb s key) l
  then filter (fun s => negb (eqb s key)) l
  else (l ++ [key])%list.

(** [{ ...prev, [key]: value }] for the keys the panel updates. *)
Definition withCharacter (c : VideoPromptConfig) (v : option Character) : VideoPromptConfig :=
  {| character := v; customSubject := customSubject c; action := action c;
     cameraAngle := cameraAngle c; cameraMovement := cameraMovement c;
     environment := environment c; customEnvironment := customEnvironment c;
     styles := styles c; quality := quality c; negativeOptional := negativeOptional c |}.

Definition withAction (c : VideoPromptConfig) (v : string) : VideoPromptConfig :=
  {| character := character c; customSubject := customSubject c; action := v;
     cameraAngle := cameraAngle c; cameraMovement := cameraMovement c;
     environment := environment c; customEnvironment := customEnvironment c;
     styles := styles c; quality := quality c; negativeOptional := negativeOptional c |}.

Definition withCameraAngle (c : VideoPromptConfig) (v : CameraAngleKey) : VideoPromptConfig :=
  {| character := character c; customSubject := customSubject c; action := action c;
     cameraAngle := v; cameraMovement := cameraMovement c;
     environment := environment c; customEnvironment := customEnvironment c;
     styles := styles c; quality := quality c; negativeOptional := negativeOptional c |}.

Definition withCameraMovement (c : VideoPromptConfig) (v : CameraMovementKey)
  : VideoPromptConfig :=
  {| character := character c; customSubject := customSubject c; action := action c;
     cameraAngle := cameraAngle c; cameraMovement := v;
     environment := environment c; customEnvironment := customEnvironment c;
     styles := styles c; quality := quality c; negativeOptional := negativeOptional c |}.

Definition withEnvironment (c : VideoPromptConfig) (v : EnvironmentKey) : VideoPromptConfig :=
  {| character := character c; customSubject := customSubject c; action := action c;
     cameraAngle := cameraAngle c; cameraMovement := cameraMovement c;
     environment := v; customEnvironment := customEnvironment c;
     styles := styles c; quality := quality c; negativeOptional := negativeOptional c |}.

Definition withStyles (c : VideoPromptConfig) (v : list StyleKey) : VideoPromptConfig :=
  {| character := character c; customSubject := customSubject c; action := action c;
     cameraAngle := cameraAngle c; cameraMovement := cameraMovement c;
     environment := environment c; customEnvironment := customEnvironment c;
     styles := v; quality := quality c; negativeOptional := negativeOptional c |}.

Definition withQuality (c : VideoPromptConfig) (v : list QualityKey) : VideoPromptConfig :=
  {| character := character c; customSubject := customSubject c; action := action c;
     cameraAngle := cameraAngle c; cameraMovement := cameraMovement c;
     environment := environment c; customEnvironment := customEnvironment c;
     styles := styles c; quality := v; negativeOptional := negativeOptional c |}.

Definition withNegativeOptional (c : VideoPromptConfig) (v : list OptionalNegativeKey)
  : VideoPromptConfig :=
  {| character := character c; customSubject := customSubject c; action := action c;
     cameraAngle := cameraAngle c; cameraMovement := cameraMovement c;
     environment := environment c; customEnvironment := customEnvironment c;
     styles := styles c; quality := quality c; negativeOptional := v |}.

(** The four [useState] cells. *)
Record PanelState := {
  config : VideoPromptConfig;
  selectedMood : option MoodKey;
  showAdvanced : bool;
  errors : list string
}.

(** What can happen to the panel: the [character] property changes (the
    effect copies it into the configuration), or one of its controls is
    used. *)
Inductive PanelEvent :=
| CharacterChanged (character_ : option Character)
| ActionTyped (text : string)
| MoodSelected (mood : MoodKey)
| RecommendationApplied
| AdvancedToggled
| CameraAngleChosen (key : CameraAngleKey)
| CameraMovementChosen (key : CameraMovementKey)
| EnvironmentChosen (key : EnvironmentKey)
| StyleToggled (key : StyleKey)
| QualityToggled (key : QualityKey)
| NegativeToggled (key : OptionalNegativeKey)
| GenerateClicked.

Section WithBuiltins.
Context {builtins : StringBuiltins}.
(** [s.length], the number of UTF-16 code units of a string. *)
Variable jsLength : string -> nat.

(** The state on mounting, from the properties [character] and
    [initialAction]. *)
Definition initialState (character_ : option Character) (initialAction : option string)
  : PanelState :=
  {| config := createDefaultConfig character_ initialAction;
     selectedMood := None;
     showAdvanced := false;
     errors := [] |}.

Definition setConfig (s : PanelState) (c : VideoPromptConfig) : PanelState :=
  {| config := c; selectedMood := selectedMood s;
     showAdvanced := showAdvanced s; errors := errors s |}.

(** The memo [aiRecommendation]. *)
Definition aiRecommendation (s : PanelState) : option AIRecommendation :=
  if Nat.ltb 2 (jsLength (trim (action (config s))))
  then Some (getAIRecommendation (action (config s)) (selectedMood s))
  else None.

Definition handleApplyRecommendation (s : PanelState) : PanelState :=
  match aiRecommendation s with
  | Some recommendation => setConfig s (applyRecommendation (config s) recommendation)
  | None => s
  end.

Definition handleMoodSelect (s : PanelState) (mood : MoodKey) : PanelState :=
  let recommendation := getAIRecommendation (action (config s)) (Some mood) in
  {| config := applyRecommendation (config s) recommendation;
     selectedMood := Some mood;
     showAdvanced := showAdvanced s;
     errors := errors s |}.

(** [handleGenerate]: the new state and the arguments of [onGenerate]
    when it is called. *)
Definition handleGenerate (s : PanelState) : PanelState * option (string * string) :=
  let validationErrors := validateConfig (config s) in
  if Nat.ltb 0 (List.length validationErrors)
  then ({| config := config s; selectedMood := selectedMood s;
           showAdvanced := showAdvanced s; errors := validationErrors |}, None)
  else
    let generatedPrompt := buildVideoPrompt (config s) in
    ({| config := config s; selectedMood := selectedMood s;
        showAdvanced := showAdvanced s; errors := [] |},
     Some (fullPrompt generatedPrompt, negativePrompt generatedPrompt)).

Definition handle (s : PanelState) (e : PanelEvent) : PanelState * option (string * string) :=
  match e with
  | CharacterChanged c => (setConfig s (withCharacter (config s) c), None)
  | ActionTyped text => (setConfig s (withAction (config s) text), None)
  | MoodSelected mood => (handleMoodSelect s mood, None)
  | RecommendationApplied => (handleApplyRecommendation s, None)
  | AdvancedToggled =>
      ({| config := config s; selectedMood := selectedMood s;
          showAdvanced := negb (showAdvanced s); errors := errors s |}, None)
  | CameraAngleChosen key => (setConfig s (withCameraAngle (config s) key), None)
  | CameraMovementChosen key => (setConfig s (withCameraMovement (config s) key), None)
  | EnvironmentChosen key => (setConfig s (withEnvironment (config s) key), None)
  | StyleToggled key =>
      (setConfig s (withStyles (config s) (toggle styleKeyEqb key (styles (config s)))), None)
  | QualityToggled key =>
      (setConfig s (withQuality (config s) (toggle qualityKeyEqb key (quality (config s)))),
       None)
  | NegativeToggled key =>
      (setConfig s (withNegativeOptional (config s)
                      (toggle negativeKeyEqb key (negativeOptional (config s)))), None)
  | GenerateClicked => handleGenerate s
  end.

(** A sequence of events: the final state and the calls of [onGenerate],
    in order. *)
Fixpoint run (s : PanelState) (events : list PanelEvent)
  : PanelState * list (string * string) :=
  match events with
  | [] => (s, [])
  | e :: rest =>
      let '(s', call) := handle s e in
      let '(final, calls) := run s' rest in
      (final, match call with Some c => c :: calls | None => calls end)
  end.

End WithBuiltins.

End VideoPromptPanel.

(* ================================================================== *)
(** ** [generateAllSceneImages] of the hook [useClipScenario] *)
(* ================================================================== *)

Module ClipScenarioHook.
Import JS Effects.
Local Open Scope Z_scope.

Section Hook.
(** Image data and narration audio, which the hook only passes on. *)
Variables ImageData Audio : Type.

(** What the hook reads of a scene. *)
Record Scene := {
  id : string;
  sceneNumber : Z;
  narration : option string;
  generatedImage : option ImageData;
  customImage : option ImageData;
  narrationAudio : option Audio
}.

Record GenerateAllOptions := {
  includeTTS : option bool;
  ttsVoice : option string
}.

(** The calls of the function, in order: the state setters of the hook,
    the two services, the waits and [updateClipScene]. *)
Inductive Event :=
| SetError (message : option string)
| SetIsGeneratingAllImages (value : bool)
| SetGeneratingImageSceneId (sceneId : option string)
| GenerateSceneImage (sceneId : string)
| UpdateSceneImage (sceneId : string) (image : ImageData)
| SetIsGeneratingTTS (value : bool)
| SetTtsProgress (current total : nat)
| Wait (ms : Z)
| GenerateNarration (text : option string) (voice : string) (sceneId : string)
| UpdateSceneAudio (sceneId : string) (audio : Audio).

(** What the two services answer: [sceneImage n] to the request for the
    scene at place [n] of the scenes without an image, [narrationAudioOf i
    attempt] to the attempt numbered [attempt] for the scene at place [i]
    of the scenes to narrate. *)
Record World := {
  sceneImage : nat -> Result ImageData;
  narrationAudioOf : nat -> nat -> Result Audio
}.

Context {builtins : StringBuiltins}.

Definition isSome {A} (o : option A) : bool :=
  match o with Some _ => true | None => false end.

(** [!s.generatedImage && !s.customImage] *)
Definition lacksImage (s : Scene) : bool :=
  andb (negb (isSome (generatedImage s))) (negb (isSome (customImage s))).

(** [s.narration?.trim() && !s.narrationAudio] *)
Definition needsNarration (s : Scene) : bool :=
  andb (match narration s with Some t => truthy (trim t) | None => false end)
       (negb (isSome (narrationAudio s))).

(** [e instanceof Error ? e.message : '이미지 생성에 실패했습니다.'] *)
Definition imageErrorMessage (e : Thrown) : string :=
  match e with ErrorObj m => m | OtherValue _ => "이미지 생성에 실패했습니다." end.

(** The [for ... of] loop over the scenes without an image, from place
    [n] on: the calls and the final value of [imageGenerationFailed]. *)
Fixpoint imageLoop (w : World) (n : nat) (scenes_ : list Scene) : list Event * bool :=
  match scenes_ with
  | [] => ([], false)
  | scene :: rest =>
      match sceneImage w n with
      | Ok imageData =>
          let '(t, failed) := imageLoop w (S n) rest in
          (SetGeneratingImageSceneId (Some (id scene))
             :: GenerateSceneImage (id scene)
             :: UpdateSceneImage (id scene) imageData :: t, failed)
      | Throw e =>
          ([SetGeneratingImageSceneId (Some (id scene));
            GenerateSceneImage (id scene);
            SetError (Some ("씬 " ++ stringOfZ (sceneNumber scene) ++ " 이미지 생성 실패: "
                            ++ imageErrorMessage e))],
           true)
      end
  end.

(** The loop [for (let attempt = 0; attempt < 3; attempt++)] for the scene
    at place [i], from [attempt] on, with [remaining] attempts left: the
    calls and the final value of [success]. *)
Fixpoint attempts
  (w : World) (voice : string) (scene : Scene) (i attempt remaining : nat)
  : list Event * bool :=
  match remaining with
  | O => ([], false)
  | S remaining' =>
      match narrationAudioOf w i attempt with
      | Ok audio =>
          ([GenerateNarration (narration scene) voice (id scene);
            UpdateSceneAudio (id scene) audio], true)
      | Throw e =>
          let '(t, success) := attempts w voice scene i (S attempt) remaining' in
          (GenerateNarration (narration scene) voice (id scene)
             :: (if Nat.ltb attempt 2
                 then [Wait (2000 * (Z.of_nat attempt + 1))]
                 else [])
             ++ t, success)%list
      end
  end.

(** The loop over the scenes to narrate, from place [i] on; [total] is
    their number.  The value is the list [failedScenes]. *)
Fixpoint narrationLoop
  (w : World) (voice : string) (total i : nat) (scenes_ : list Scene)
  : list Event * list Z :=
  match scenes_ with
  | [] => ([], [])
  | scene :: rest =>
      let '(ta, success) := attempts w voice scene i 0 3 in
      let '(t, failedScenes) := narrationLoop w voice total (S i) rest in
      ((SetTtsProgress (i + 1) total
          :: (if Nat.ltb 0 i then [Wait 1000] else [])
          ++ ta ++ t)%list,
       if success then failedScenes else sceneNumber scene :: failedScenes)
  end.

(** How a call of the function ends. *)
Inductive Outcome :=
| Done
| Rejected (e : Thrown).

(** [generateAllSceneImages(options?)] on the scenario of the hook, if
    there is one. *)
Definition generateAllSceneImages
  (w : World) (clipScenario : option (list Scene)) (options : option GenerateAllOptions)
  : list Event * Outcome :=
  match clipScenario with
  | None => ([], Rejected (ErrorObj "클립 시나리오가 없습니다."))
  | Some scenes_ =>
      let scenesWithoutImages := filter lacksImage scenes_ in
      let hasImagesToGenerate := Nat.ltb 0 (List.length scenesWithoutImages) in
      let includeTTS_ :=
        match options with
        | Some o => match includeTTS o with Some b => b | None => false end
        | None => false
        end in
      if andb (negb hasImagesToGenerate) (negb includeTTS_)
      then ([SetError (Some "모든 씬에 이미지가 이미 생성되어 있습니다.")], Done)
      else
        let '(timages, imageGenerationFailed) :=
          if hasImagesToGenerate
          then let '(t, failed) := imageLoop w 0 scenesWithoutImages in
               ((t ++ [SetGeneratingImageSceneId None])%list, failed)
          else ([], false) in
        let start := [SetIsGeneratingAllImages true; SetError None] in
        let stop := [SetIsGeneratingAllImages false] in
        if imageGenerationFailed
        then ((start ++ timages ++ stop)%list, Done)
        else if includeTTS_
        then
          let scenesWithNarration := filter needsNarration scenes_ in
          if Nat.ltb 0 (List.length scenesWithNarration)
          then
            let total := List.length scenesWithNarration in
            let voice :=
              match options with
              | Some o => orOpt (ttsVoice o) "Kore"
              | None => "Kore"
              end in
            let '(ttts, failedScenes) := narrationLoop w voice total 0 scenesWithNarration in
            ((start ++ timages ++ stop
                ++ [SetIsGeneratingTTS true; SetTtsProgress 0 total]
                ++ ttts
                ++ [SetIsGeneratingTTS false; SetTtsProgress 0 0])%list, Done)
          else ((start ++ timages ++ stop)%list, Done)
        else ((start ++ timages ++ stop)%list, Done)
  end.

End Hook.

Arguments id {ImageData Audio} s.
Arguments sceneNumber {ImageData Audio} s.
Arguments narration {ImageData Audio} s.
Arguments generatedImage {ImageData Audio} s.
Arguments customImage {ImageData Audio} s.
Arguments narrationAudio {ImageData Audio} s.
Arguments SetError {ImageData Audio} message.
Arguments SetIsGeneratingAllImages {ImageData Audio} value.
Arguments SetGeneratingImageSceneId {ImageData Audio} sceneId.
Arguments GenerateSceneImage {ImageData Audio} sceneId.
Arguments UpdateSceneImage {ImageData Audio} sceneId image.
Arguments SetIsGeneratingTTS {ImageData Audio} value.
Arguments SetTtsProgress {ImageData Audio} current total.
Arguments Wait {ImageData Audio} ms.
Arguments GenerateNarration {ImageData Audio} text voice sceneId.
Arguments UpdateSceneAudio {ImageData Audio} sceneId audio.
Arguments sceneImage {ImageData Audio} w n.
Arguments narrationAudioOf {ImageData Audio} w i attempt.
Arguments lacksImage {ImageData Audio} s.
Arguments needsNarration {ImageData Audio builtins} s.
Arguments imageLoop {ImageData Audio} w n scenes_.
Arguments attempts {ImageData Audio} w voice scene i attempt remaining.
Arguments narrationLoop {ImageData Audio} w voice total i scenes_.
Arguments generateAllSceneImages {ImageData Audio builtins} w clipScenario options.

(** The scenes for which an image, or a narration, is requested, in
    order, and the time spent waiting. *)
Fixpoint imageRequests {ImageData Audio} (t : list (Event ImageData Audio)) : list string :=
  match t with
  | [] => []
  | GenerateSceneImage sceneId :: t' => sceneId :: imageRequests t'
  | _ :: t' => imageRequests t'
  end.

Fixpoint narrationRequests {ImageData Audio} (t : list (Event ImageData Audio))
  : list string :=
  match t with
  | [] => []
  | GenerateNarration _ _ sceneId :: t' => sceneId :: narrationRequests t'
  | _ :: t' => narrationRequests t'
  end.

Fixpoint waited {ImageData Audio} (t : list (Event ImageData Audio)) : Z :=
  match t with
  | [] => 0
  | Wait ms :: t' => ms + waited t'
  | _ :: t' => waited t'
  end.

(** The last value given to the flags [isGeneratingAllImages] and
    [isGeneratingTTS] and to [generatingImageSceneId], if any. *)
Fixpoint busyAfter {ImageData Audio} (t : list (Event ImageData Audio)) (busy : bool) : bool :=
  match t with
  | [] => busy
  | SetIsGeneratingAllImages v :: t' => busyAfter t' v
  | _ :: t' => busyAfter t' busy
  end.

Fixpoint narratingAfter {ImageData Audio} (t : list (Event ImageData Audio)) (busy : bool)
  : bool :=
  match t with
  | [] => busy
  | SetIsGeneratingTTS v :: t' => narratingAfter t' v
  | _ :: t' => narratingAfter t' busy
  end.

End ClipScenarioHook.

(* ================================================================== *)
(** ** Export of a longform scenario in parts *)
(* ================================================================== *)

Module LongformExport.
Local Open Scope nat_scope.

(** The entries of the array returned by [calculatePartRanges], as its
    callers read them ([range.start + 1] to [range.end] is shown as the
    1-based span of a part): scenes [start] up to, not including, [end]. *)
Record PartRange := { start : nat; end_ : nat }.

Section Scenes.
Variable LongformScene : Type.

Record LongformScenario := {
  title : string;
  scenes : list LongformScene
}.

Record SplitResult := {
  parts : list (list LongformScene);
  ranges : list PartRange
}.

(** [arr.slice(from, to)] *)
Definition slice {A : Type} (l : list A) (from to : nat) : list A :=
  firstn (to - from) (skipn from l).

(** The ranges from scene [from] on: at most [scenesPerPart] scenes each,
    the last one ending at [sceneCount].  [budget] bounds their number. *)
Fixpoint rangesFrom (scenesPerPart budget from sceneCount : nat) : list PartRange :=
  match budget with
  | O => []
  | S budget' =>
      if from <? sceneCount
      then {| start := from; end_ := Nat.min (from + scenesPerPart) sceneCount |}
           :: rangesFrom scenesPerPart budget' (from + scenesPerPart) sceneCount
      else []
  end.

(** Modelled from the spec: [calculatePartRanges] of types/longform is not
    among the sources.  The specification calls the export part-splitting
    simple sequential logic with fixed thresholds: the scenes are cut, in
    order, into ranges of at most [scenesPerPart] scenes, the fixed
    threshold, whose value the specification does not give. *)
Definition calculatePartRanges (scenesPerPart sceneCount : nat) : list PartRange :=
  rangesFrom scenesPerPart sceneCount 0 sceneCount.

(** Modelled from the spec: [splitScenesForExportMulti] of
    services/longformVideoService is not among the sources.  A deterministic
    array transformation from the scenario to [{ parts, ranges }]: the ranges
    of [calculatePartRanges] for the number of scenes, and for each range the
    scenes it spans. *)
Definition splitScenesForExportMulti (scenesPerPart : nat) (scenario : LongformScenario)
  : SplitResult :=
  let ranges_ := calculatePartRanges scenesPerPart (List.length (scenes scenario)) in
  {| parts := map (fun r => slice (scenes scenario) (start r) (end_ r)) ranges_;
     ranges := ranges_ |}.

End Scenes.
End LongformExport.

(* ================================================================== *)
(** ** The block structure of the prompts, as the specification words it *)
(* ================================================================== *)

(** These definitions follow the sentences of the specification, not the
    code; the theorems below compare them with the builders. *)
Module Spec.
Import JS.

(** An optional text is present when it is given and not empty. *)
Definition present (o : option string) : bool :=
  match o with
  | Some s => negb (String.eqb s "")
  | None => false
  end.

(** The optional text when present, else the fallback. *)
Definition whenPresent (o : option string) (fallback : string) : string :=
  match o with
  | Some s => if present o then s else fallback
  | None => fallback
  end.

(** Joined with ". " and closed with a final ".", the non-empty blocks only. *)
Definition sentence (blocks : list string) : string :=
  join ". " (filter (fun b => negb (String.eqb b "")) blocks) ++ ".".

Definition imageBlocks (c : ImagePromptBuilder.ImagePromptConfig) : list string :=
  [ ImagePromptBuilder.subject c;
    whenPresent (ImagePromptBuilder.customEnvironment c)
      (ImagePromptPresets.prompt
         (ImagePromptPresets.ENVIRONMENTS (ImagePromptBuilder.environment c)));
    join ", "
      [ ImagePromptPresets.prompt
          (ImagePromptPresets.SHOT_TYPES (ImagePromptBuilder.shotType c));
        ImagePromptPresets.prompt
          (ImagePromptPresets.CAMERA_ANGLES (ImagePromptBuilder.cameraAngle c));
        ImagePromptPresets.prompt
          (ImagePromptPresets.FRAMINGS (ImagePromptBuilder.framing c)) ];
    ImagePromptPresets.prompt (ImagePromptPresets.LENSES (ImagePromptBuilder.lens c));
    ImagePromptPresets.prompt
      (ImagePromptPresets.LIGHTINGS (ImagePromptBuilder.lighting c));
    join ", "
      (map (fun k => ImagePromptPresets.prompt (ImagePromptPresets.MATERIALS k))
           (ImagePromptBuilder.materials c));
    ImagePromptPresets.prompt (ImagePromptPresets.STYLES (ImagePromptBuilder.style c));
    join ", "
      (map (fun k => ImagePromptPresets.prompt (ImagePromptPresets.QUALITY_KEYWORDS k))
           (ImagePromptBuilder.quality c));
    whenPresent (ImagePromptBuilder.additionalDetails c) "" ].

(** The negative prompts of an image, in their fixed order. *)
Definition imageNegatives (c : ImagePromptBuilder.ImagePromptConfig) : list string :=
  (ImagePromptPresets.NEGATIVE_default
   ++ (if ImagePromptBuilder.isHuman c then ImagePromptPresets.NEGATIVE_human else [])
   ++ ImagePromptPresets.NEGATIVE_style
   ++ map (fun k => ImagePromptPresets.prompt (ImagePromptPresets.NEGATIVE_optional k))
          (ImagePromptBuilder.negativeOptional c))%list.

(** The same configuration with the [isHuman] flag set to [b]. *)
Definition withIsHuman (b : bool) (c : ImagePromptBuilder.ImagePromptConfig)
  : ImagePromptBuilder.ImagePromptConfig :=
  {| ImagePromptBuilder.subject := ImagePromptBuilder.subject c;
     ImagePromptBuilder.isHuman := b;
     ImagePromptBuilder.shotType := ImagePromptBuilder.shotType c;
     ImagePromptBuilder.cameraAngle := ImagePromptBuilder.cameraAngle c;
     ImagePromptBuilder.framing := ImagePromptBuilder.framing c;
     ImagePromptBuilder.lens := ImagePromptBuilder.lens c;
     ImagePromptBuilder.environment := ImagePromptBuilder.environment c;
     ImagePromptBuilder.customEnvironment := ImagePromptBuilder.customEnvironment c;
     ImagePromptBuilder.lighting := ImagePromptBuilder.lighting c;
     ImagePromptBuilder.materials := ImagePromptBuilder.materials c;
     ImagePromptBuilder.style := ImagePromptBuilder.style c;
     ImagePromptBuilder.quality := ImagePromptBuilder.quality c;
     ImagePromptBuilder.negativeOptional := ImagePromptBuilder.negativeOptional c;
     ImagePromptBuilder.additionalDetails := ImagePromptBuilder.additionalDetails c |}.

Section Video.
Context {builtins : StringBuiltins}.

Definition videoSubject (c : VideoPromptBuilder.VideoPromptConfig) : string :=
  match VideoPromptBuilder.character c with
  | Some ch => VideoPromptBuilder.buildSubjectFromCharacter ch
  | None => whenPresent (VideoPromptBuilder.customSubject c) "A person"
  end.

Definition videoBlocks (c : VideoPromptBuilder.VideoPromptConfig) : list string :=
  [ videoSubject c ++ " " ++ trim (VideoPromptBuilder.action c);
    join ", "
      [ VideoPromptPresets.prompt
          (VideoPromptPresets.CAMERA_ANGLES (VideoPromptBuilder.cameraAngle c));
        VideoPromptPresets.prompt
          (VideoPromptPresets.CAMERA_MOVEMENTS (VideoPromptBuilder.cameraMovement c)) ];
    whenPresent (VideoPromptBuilder.customEnvironment c)
      (VideoPromptPresets.prompt
         (VideoPromptPresets.ENVIRONMENTS (VideoPromptBuilder.environment c)));
    join ", "
      (map (fun k => VideoPromptPresets.prompt (VideoPromptPresets.STYLES k))
           (VideoPromptBuilder.styles c));
    join ", "
      (map (fun k => VideoPromptPresets.prompt (VideoPromptPresets.QUALITY_KEYWORDS k))
           (VideoPromptBuilder.quality c)) ].

Definition videoNegatives (c : VideoPromptBuilder.VideoPromptConfig) : list string :=
  (VideoPromptPresets.NEGATIVE_default
   ++ map (fun k => VideoPromptPresets.prompt (VideoPromptPresets.NEGATIVE_optional k))
          (VideoPromptBuilder.negativeOptional c))%list.
End Video.

End Spec.

(* ================================================================== *)
(** ** Two runs of a builder *)
(* ================================================================== *)

(** A builder reads its arguments, the constant tables of its file and
    the two library methods of [StringBuiltins].  Two runs are compared
    through the implementations of those methods that they run on: these
    predicates say that two implementations answer alike on the texts a
    builder hands to them. *)
Module Runs.
Import JS.




End Runs.

(* ================================================================== *)
(** ** Runs of the polling loop and of the handler, described *)
(* ================================================================== *)

Module PollingSpec.
Import JS Effects Lib GenerateVideo.
Local Open Scope Z_scope.

(** The clock reading, relative to [startTime], when iteration [k] of the
    loop is over, which is also the reading at the top of iteration [k+1]. *)
Fixpoint elapsedAt (w : World) (k : nat) : Z :=
  match k with
  | O => 0
  | S k' => elapsedAt w k' + pollInterval + Z.of_N (iterationTime w k)
  end.

(** The external events of iteration [n] when it gets as far as its poll. *)
Definition iterationEvents (w : World) (apiKey predictionId : string) (n : nat)
  : list Event :=
  [Now (elapsedAt w (pred n)); Sleep pollInterval; PollPrediction apiKey predictionId].

(** The events of [count] such iterations, from iteration [from] on. *)
Definition pollTrace (w : World) (apiKey predictionId : string) (from count : nat)
  : list Event :=
  flat_map (iterationEvents w apiKey predictionId) (seq from count).

(** The poll was answered with status 'success' and an output. *)
Definition reportsSuccess (pj : PollJson) : bool :=
  andb (isSuccess (po_status pj)) (truthyOpt (po_output pj)).

(** Iteration [n] neither returns nor raises: the loop goes on. *)
Definition continues (w : World) (n : nat) : Prop :=
  elapsedAt w (pred n) <= maxPollingTime
  /\ match pollFetch w n with
     | Ok pj => reportsSuccess pj = false /\ isErrorStatus (po_status pj) = false
     | Throw e => isVideoError e = false /\ (n <= 3)%nat
     end.

(** How the loop ends in iteration [S m], after [m] iterations that went
    on: the events of that last iteration and the way the loop is left. *)
Inductive LoopEnd (w : World) (image : ImageData) (d : Z) (apiKey predictionId : string)
  (m : nat) : list Event -> Step Response unit -> Prop :=
| EndTimeout :
    elapsedAt w m > maxPollingTime ->
    LoopEnd w image d apiKey predictionId m
      [Now (elapsedAt w m)] (Raise (timeoutError (elapsedAt w m)))
| EndSuccess pj url :
    elapsedAt w m <= maxPollingTime ->
    pollFetch w (S m) = Ok pj ->
    isSuccess (po_status pj) = true ->
    po_output pj = Some url ->
    truthy url = true ->
    LoopEnd w image d apiKey predictionId m
      (iterationEvents w apiKey predictionId (S m) ++ [Now (elapsedAt w (S m))])
      (Return_ {| status := 200; json := VideoResult (successResult image d url) |})
| EndGenerationFailed pj :
    elapsedAt w m <= maxPollingTime ->
    pollFetch w (S m) = Ok pj ->
    reportsSuccess pj = false ->
    isErrorStatus (po_status pj) = true ->
    LoopEnd w image d apiKey predictionId m
      (iterationEvents w apiKey predictionId (S m))
      (Raise (generationFailedError pj))
| EndRethrown e :
    elapsedAt w m <= maxPollingTime ->
    pollFetch w (S m) = Throw e ->
    isVideoError e = true ->
    LoopEnd w image d apiKey predictionId m
      (iterationEvents w apiKey predictionId (S m)) (Raise e)
| EndRepeatedFailure e :
    elapsedAt w m <= maxPollingTime ->
    pollFetch w (S m) = Throw e ->
    isVideoError e = false ->
    (3 < S m)%nat ->
    LoopEnd w image d apiKey predictionId m
      (iterationEvents w apiKey predictionId (S m)) (Raise repeatedFailureError).

(** The last clock reading recorded in a trace. *)
Fixpoint lastClock (t : list Event) (sofar : Z) : Z :=
  match t with
  | [] => sofar
  | Now ms :: t' => lastClock t' ms
  | _ :: t' => lastClock t' sofar
  end.

(** The ways of leaving the loop as the specification lists them: a 200
    response for a poll that reported success, produced within the
    5-minute bound; a video-generation error for a poll that reported
    status 'error'; or the timeout error. *)
Definition statedEnd (w : World) (run : list Event * Step Response unit) : Prop :=
  (exists r n pj,
      snd run = Return_ r /\ status r = 200
      /\ pollFetch w n = Ok pj /\ reportsSuccess pj = true
      /\ lastClock (fst run) 0 <= maxPollingTime)
  \/ (exists n pj,
         pollFetch w n = Ok pj /\ isErrorStatus (po_status pj) = true
         /\ snd run = Raise (generationFailedError pj))
  \/ (exists elapsed, snd run = Raise (timeoutError elapsed)).

End PollingSpec.

Module HandlerSpec.
Import JS Effects Lib GenerateVideo PollingSpec.
Local Open Scope Z_scope.

(** The user id of an authenticated request. *)
Definition authenticatedUser (w : World) : option string :=
  match authenticated (requireAuth w), userId (requireAuth w) with
  | true, Some uid => if truthy uid then Some uid else None
  | _, _ => None
  end.

(** The source image and the motion prompt of a request that has both. *)
Definition validBody (req : Request) : option (ImageData * string) :=
  match body req with
  | Ok body_ =>
      match sourceImage body_, motionPrompt body_ with
      | Some image, Some p =>
          if andb (truthy (data image)) (truthy p) then Some (image, p) else None
      | _, _ => None
      end
  | Throw _ => None
  end.

(** The requested duration, 5 when the request names none. *)
Definition requestedDuration (req : Request) : Z :=
  match body req with
  | Ok body_ => match durationSeconds body_ with Some d => d | None => 5 end
  | Throw _ => 5
  end.

Definition uploadEvent (image : ImageData) : Event :=
  UploadImage ("video_image." ++ extensionOf (mimeType image)) (mimeType image) (data image).

Definition promptFor (w : World) (motionPrompt_ : string) : string :=
  enhancedPromptOf (sanitizePrompt w motionPrompt_ 1000).

Definition keyMissingResponse : Response :=
  {| status := 400;
     json := ApiError
               "Hailuo API 키가 설정되지 않았습니다. 설정에서 Hailuo API 키를 입력해 주세요."
               (Some "API_KEY_MISSING") |}.

(** The runs of the handler, path by path. *)
Inductive Run (w : World) (req : Request) : list Event -> Response -> Prop :=
| RunOptions :
    method req = OPTIONS ->
    Run w req [] {| status := 200; json := NoBody |}
| RunMethodNotAllowed m :
    method req = OtherMethod m ->
    Run w req [] {| status := 405; json := ApiError "Method not allowed" None |}
| RunUnauthorized msg :
    method req = POST ->
    authenticatedUser w = None ->
    Run w req [] {| status := 401; json := AuthFailure msg |}
| RunNoBody uid e :
    method req = POST ->
    authenticatedUser w = Some uid ->
    body req = Throw e ->
    Run w req [] (errorResponse e)
| RunBadRequest uid body_ msg :
    method req = POST ->
    authenticatedUser w = Some uid ->
    body req = Ok body_ ->
    validBody req = None ->
    Run w req [] {| status := 400; json := ApiError msg None |}
| RunLookupFailed uid image p e :
    method req = POST ->
    authenticatedUser w = Some uid ->
    validBody req = Some (image, p) ->
    findUserById w uid = Throw e ->
    Run w req [FindUser uid] (errorResponse e)
| RunKeyMissing uid image p user :
    method req = POST ->
    authenticatedUser w = Some uid ->
    validBody req = Some (image, p) ->
    findUserById w uid = Ok user ->
    truthyOpt (selectHailuoKey user (env w)) = false ->
    Run w req [FindUser uid] keyMissingResponse
| RunUploadFailed uid image p user key e :
    method req = POST ->
    authenticatedUser w = Some uid ->
    validBody req = Some (image, p) ->
    findUserById w uid = Ok user ->
    selectHailuoKey user (env w) = Some key ->
    truthy key = true ->
    snd (uploadImageToTempUrl w (data image) (mimeType image)) = Raise e ->
    Run w req [FindUser uid; uploadEvent image]
      {| status := 500;
         json := ApiError ("이미지 업로드 실패: " ++ messageOf e)
                          (Some "IMAGE_UPLOAD_FAILED") |}
| RunCreateFailed uid image p user key url e r :
    method req = POST ->
    authenticatedUser w = Some uid ->
    validBody req = Some (image, p) ->
    findUserById w uid = Ok user ->
    selectHailuoKey user (env w) = Some key ->
    truthy key = true ->
    snd (uploadImageToTempUrl w (data image) (mimeType image)) = Next url ->
    snd (createPrediction w key (promptFor w p) url (requestedDuration req)) = Raise e ->
    status r <> 200 ->
    Run w req
      [FindUser uid; uploadEvent image;
       CreatePrediction key (createBodyOf (promptFor w p) url (requestedDuration req))]
      r
| RunPolled uid image p user key url id m tEnd out r :
    method req = POST ->
    authenticatedUser w = Some uid ->
    validBody req = Some (image, p) ->
    findUserById w uid = Ok user ->
    selectHailuoKey user (env w) = Some key ->
    truthy key = true ->
    snd (uploadImageToTempUrl w (data image) (mimeType image)) = Next url ->
    snd (createPrediction w key (promptFor w p) url (requestedDuration req)) = Next id ->
    (m < maxIterations)%nat ->
    (forall j, (1 <= j <= m)%nat -> continues w j) ->
    LoopEnd w image (requestedDuration req) key id m tEnd out ->
    answer out = Some r ->
    Run w req
      ([FindUser uid; uploadEvent image;
        CreatePrediction key (createBodyOf (promptFor w p) url (requestedDuration req))]
       ++ pollTrace w key id 1 m ++ tEnd)%list
      r.

(** The order of the pipeline, as an automaton over the external calls:
    the user is looked up, then the image is uploaded, then the prediction
    is created, and only then the loop sleeps, polls and reads the clock. *)
Inductive Phase := Start | UserLoaded | ImageUploaded | PredictionCreated.

Definition advance (ph : Phase) (e : Event) : option Phase :=
  match ph, e with
  | Start, FindUser _ => Some UserLoaded
  | UserLoaded, UploadImage _ _ _ => Some ImageUploaded
  | ImageUploaded, CreatePrediction _ _ => Some PredictionCreated
  | PredictionCreated, Now _ => Some PredictionCreated
  | PredictionCreated, Sleep _ => Some PredictionCreated
  | PredictionCreated, PollPrediction _ _ => Some PredictionCreated
  | _, _ => None
  end.

Fixpoint monitor (ph : Phase) (t : list Event) : option Phase :=
  match t with
  | [] => Some ph
  | e :: t' =>
      match advance ph e with
      | Some ph' => monitor ph' t'
      | None => None
      end
  end.

Definition inPipelineOrder (t : list Event) : Prop := monitor Start t <> None.

(** The API key an external call is made with. *)
Definition keyOf (e : Event) : option string :=
  match e with
  | CreatePrediction k _ => Some k
  | PollPrediction k _ => Some k
  | _ => None
  end.

(** The events the polling loop emits for a given key and prediction. *)
Definition loopEvent (apiKey predictionId : string) (e : Event) : Prop :=
  match e with
  | Now _ => True
  | Sleep ms => ms = pollInterval
  | PollPrediction k i => k = apiKey /\ i = predictionId
  | _ => False
  end.

End HandlerSpec.

(* ================================================================== *)
(** ** The runs of the generate-food-video handler *)
(* ================================================================== *)

Module FoodHandlerSpec.
Import JS Effects Lib GenerateFoodVideo.
Local Open Scope Z_scope.

(** The user id of an authenticated request. *)
Definition authenticatedUser (w : World) : option string :=
  match GenerateVideo.authenticated (requireAuth w), GenerateVideo.userId (requireAuth w) with
  | true, Some uid => if truthy uid then Some uid else None
  | _, _ => None
  end.

(** The food image and the English prompt of a request that has both. *)
Definition validBody (req : Request) : option (FoodImage * string) :=
  match body req with
  | Ok body_ =>
      match foodImage body_, englishPrompt body_ with
      | Some image, Some p =>
          if andb (andb (truthy (data image)) (truthy (mimeType image))) (truthy p)
          then Some (image, p) else None
      | _, _ => None
      end
  | Throw _ => None
  end.

(** The requested duration, 6 when the request names none. *)
Definition requestedDuration (req : Request) : Z :=
  match body req with
  | Ok body_ => match durationSeconds body_ with Some d => d | None => 6 end
  | Throw _ => 6
  end.

(** The API key an external call is made with. *)
Definition keyOf (e : Event) : option string :=
  match e with
  | CreatePrediction k _ => Some k
  | PollPrediction k _ => Some k
  | _ => None
  end.

End FoodHandlerSpec.

(* ================================================================== *)
(** ** The runs of the handler that stores the image in Vercel Blob *)
(* ================================================================== *)

Module BlobHandlerSpec.
Import JS Effects Lib GenerateFoodVideoBlob.

(** The user id of an authenticated request. *)
Definition authenticatedUser (w : World) : option string :=
  match GenerateVideo.authenticated (requireAuth w), GenerateVideo.userId (requireAuth w) with
  | true, Some uid => if truthy uid then Some uid else None
  | _, _ => None
  end.

(** The API key an external call is made with. *)
Definition keyOf (e : Event) : option string :=
  match e with
  | CreatePrediction k _ => Some k
  | PollPrediction k _ => Some k
  | _ => None
  end.

End BlobHandlerSpec.

(* ================================================================== *)
(** ** Measures of a run, character sets of a text *)
(* ================================================================== *)

Module Measures.
Import JS Effects.

(** The number of status polls among the external calls of a run of the
    generate-video handler. *)
Definition countPolls (t : list GenerateVideo.Event) : nat :=
  List.length
    (filter (fun e => match e with
                      | GenerateVideo.PollPrediction _ _ => true
                      | _ => false
                      end) t).

(** The same for the generate-food-video handler. *)
Definition countFoodPolls (t : list GenerateFoodVideo.Event) : nat :=
  List.length
    (filter (fun e => match e with
                      | GenerateFoodVideo.PollPrediction _ _ => true
                      | _ => false
                      end) t).

(** The character [ch] does not occur in [text]. *)
Definition lacks (ch : ascii) (text : string) : bool :=
  forallb (fun c => negb (Ascii.eqb c ch)) (list_ascii_of_string text).

(** No character of [text] occurs in [kw]. *)
Definition disjointFrom (kw text : string) : bool :=
  forallb (fun c => lacks c kw) (list_ascii_of_string text).

(** A decimal digit or the minus sign. *)
Definition isDecimalChar (c : ascii) : bool :=
  existsb (Ascii.eqb c) (list_ascii_of_string "0123456789-").

End Measures.

(* ================================================================== *)
(** ** Concrete configurations, requests and worlds *)
(* ================================================================== *)

Module Examples.
Import JS Effects Lib.

(** A portrait with one material, a custom environment and one optional
    negative. *)
Definition portrait : ImagePromptBuilder.ImagePromptConfig :=
  {| ImagePromptBuilder.subject := "Korean woman in her 20s holding a coffee cup";
     ImagePromptBuilder.isHuman := true;
     ImagePromptBuilder.shotType := ImagePromptPresets.shot_close_up;
     ImagePromptBuilder.cameraAngle := ImagePromptPresets.eye_level;
     ImagePromptBuilder.framing := ImagePromptPresets.center;
     ImagePromptBuilder.lens := ImagePromptPresets.lens_85mm_portrait;
     ImagePromptBuilder.environment := ImagePromptPresets.indoor_cozy;
     ImagePromptBuilder.customEnvironment := Some "rainy evening apartment";
     ImagePromptBuilder.lighting := ImagePromptPresets.natural_soft;
     ImagePromptBuilder.materials := [ImagePromptPresets.skin_natural];
     ImagePromptBuilder.style := ImagePromptPresets.photoreal_cinematic;
     ImagePromptBuilder.quality :=
       [ImagePromptPresets.high_detail; ImagePromptPresets.sharp];
     ImagePromptBuilder.negativeOptional := [ImagePromptPresets.no_hdr];
     ImagePromptBuilder.additionalDetails := None |}.

Definition mina : Types.Character :=
  {| Types.name := Some "Mina";
     Types.age := Some "25";
     Types.personality := Some "Cheerful";
     Types.outfit := Some "Red Coat" |}.


(** A second implementation of the two methods, which lowers the capital
    letters of Latin-1 as well: in UTF-8 the bytes C3 80 to C3 9E, the
    multiplication sign C3 97 apart. *)
Fixpoint lowerLatinFrom (afterC3 : bool) (s : string) : string :=
  match s with
  | EmptyString => EmptyString
  | String c s' =>
      let n := nat_of_ascii c in
      if (afterC3 && Nat.leb 128 n && Nat.leb n 158 && negb (Nat.eqb n 151))%bool
      then String (ascii_of_nat (n + 32)) (lowerLatinFrom false s')
      else String (lowerAscii c) (lowerLatinFrom (Nat.eqb n 195) s')
  end.

Definition latinBuiltins : StringBuiltins :=
  {| toLowerCase := lowerLatinFrom false;
     trim := fun s => trimEnd (trimStart s) |}.

Import GenerateVideo.

Definition frame : ImageData := {| mimeType := "image/png"; data := "iVBORw0KGgo=" |}.

(** A POST asking for 8 seconds. *)
Definition request : Request :=
  {| method := POST;
     body := Ok {| sourceImage := Some frame;
                   motionPrompt := Some "slow pan to the left";
                   durationSeconds := Some 8%Z |} |}.

Definition member : User :=
  {| isAdmin := false;
     settings := Some {| hailuoApiKey := Some "user-key"; openaiApiKey := None |} |}.

Definition admin : User :=
  {| isAdmin := true;
     settings := Some {| hailuoApiKey := Some "admin-stored-key";
                         openaiApiKey := Some "admin-openai-key" |} |}.

Definition pendingAnswer : PollJson :=
  {| po_status := Some "processing"; po_output := None;
     po_error := None; po_message := None |}.

Definition doneAnswer : PollJson :=
  {| po_status := Some "success";
     po_output := Some "https://cdn.example/video.mp4";
     po_error := None; po_message := None |}.

(** A world in which the member is logged in, the upload and the creation
    succeed, and every iteration of the loop takes [latency] milliseconds
    more than the 5000 ms it sleeps. *)
Definition worldWith (polls : nat -> Result PollJson) (latency : N) : World :=
  {| requireAuth := {| authenticated := true; userId := Some "u1"; authError := None |};
     sanitizePrompt := fun s _ => s;
     findUserById := fun _ => Ok (Some member);
     env := {| HAILUO_API_KEY := Some "env-key"; OPENAI_API_KEY := None |};
     uploadFetch :=
       UploadOk (Ok {| up_status := Some "success";
                       up_url := Some "https://tmpfiles.org/12345/image.png";
                       up_text := "" |});
     createFetch :=
       Ok {| cr_status := Some "success"; cr_predictionID := Some "pred-1";
             cr_error := None; cr_message := None; cr_text := "" |};
     pollFetch := polls;
     iterationTime := fun _ => latency |}.

(** The second poll reports success. *)
Definition quickWorld : World :=
  worldWith (fun k => if Nat.ltb k 2 then Ok pendingAnswer else Ok doneAnswer) 0.

(** Three polls are answered (still processing); the fourth request fails
    in the network. *)
Definition flakyWorld : World :=
  worldWith (fun k => if Nat.eqb k 4 then Throw (ErrorObj "fetch failed")
                      else Ok pendingAnswer) 0.

(** Every iteration takes 5100 ms.  Fifty-eight polls are answered (still
    processing); iteration 59 starts at 295800 ms, within the bound, and its
    poll, answered at 300900 ms, reports success. *)
Definition lateWorld : World :=
  worldWith (fun k => if Nat.ltb k 59 then Ok pendingAnswer else Ok doneAnswer) 100.


(** The OpenAI side: an admin whose stored key is used because the
    environment has none. *)
Definition openaiWorld : OpenAI.World :=
  {| OpenAI.findUserById := fun _ => Ok (Some admin);
     OpenAI.env := {| HAILUO_API_KEY := None; OPENAI_API_KEY := None |};
     OpenAI.chat := fun _ => OpenAI.ChatOk (Ok "{}") |}.

(** The food-video side: an admin with a stored key of their own; the
    first poll is answered with a text that is not JSON, the second reports
    success. *)
Definition dish : GenerateFoodVideo.FoodImage :=
  {| GenerateFoodVideo.mimeType := "image/webp"; GenerateFoodVideo.data := "UklGRg==" |}.

Definition foodRequest : GenerateFoodVideo.Request :=
  {| GenerateFoodVideo.method := POST;
     GenerateFoodVideo.body :=
       Ok {| GenerateFoodVideo.foodImage := Some dish;
             GenerateFoodVideo.englishPrompt := Some "steam rising from the bowl";
             GenerateFoodVideo.durationSeconds := None |} |}.

Definition foodWorld : GenerateFoodVideo.World :=
  {| GenerateFoodVideo.requireAuth := requireAuth quickWorld;
     GenerateFoodVideo.findUserById := fun _ => Ok (Some admin);
     GenerateFoodVideo.env := {| HAILUO_API_KEY := Some "env-key"; OPENAI_API_KEY := None |};
     GenerateFoodVideo.uploadFetch := uploadFetch quickWorld;
     GenerateFoodVideo.createFetch :=
       GenerateFoodVideo.CreateAnswer true 200 "{}"
         (GenerateFoodVideo.JsonValue
            {| GenerateFoodVideo.cr_status := Some "success";
               GenerateFoodVideo.cr_predictionID := Some "pred-1";
               GenerateFoodVideo.cr_error := None;
               GenerateFoodVideo.cr_message := None;
               GenerateFoodVideo.cr_detail := None;
               GenerateFoodVideo.cr_text := "{}" |});
     GenerateFoodVideo.pollFetch :=
       fun k => if Nat.ltb k 2 then GenerateFoodVideo.PollText None
                else GenerateFoodVideo.PollText (Some doneAnswer);
     GenerateFoodVideo.iterationTime := fun _ => 0%N |}.

(** Seven scenes, numbered, to be exported in parts of at most three. *)
Definition sevenScenes : LongformExport.LongformScenario nat :=
  {| LongformExport.title := "seven";
     LongformExport.scenes := [1; 2; 3; 4; 5; 6; 7]%nat |}.

End Examples.

(** Further worlds, for the properties of the handlers. *)
Module MoreExamples.
Import JS Effects Lib Examples.

(** Every poll is answered "still processing", at once. *)
Definition pendingWorld : GenerateVideo.World :=
  worldWith (fun _ => Ok pendingAnswer) 0.

(** The first poll hangs for 398 seconds before it is answered "still
    processing": the second iteration starts at 403000 ms. *)
Definition hangingWorld : GenerateVideo.World :=
  {| GenerateVideo.requireAuth := GenerateVideo.requireAuth quickWorld;
     GenerateVideo.sanitizePrompt := GenerateVideo.sanitizePrompt quickWorld;
     GenerateVideo.findUserById := GenerateVideo.findUserById quickWorld;
     GenerateVideo.env := GenerateVideo.env quickWorld;
     GenerateVideo.uploadFetch := GenerateVideo.uploadFetch quickWorld;
     GenerateVideo.createFetch := GenerateVideo.createFetch quickWorld;
     GenerateVideo.pollFetch := fun _ => Ok pendingAnswer;
     GenerateVideo.iterationTime := fun k => if Nat.eqb k 1 then 398000%N else 0%N |}.

(** Hailuo refuses to create the prediction: too many requests. *)
Definition rateLimitedWorld : GenerateVideo.World :=
  {| GenerateVideo.requireAuth := GenerateVideo.requireAuth quickWorld;
     GenerateVideo.sanitizePrompt := GenerateVideo.sanitizePrompt quickWorld;
     GenerateVideo.findUserById := GenerateVideo.findUserById quickWorld;
     GenerateVideo.env := GenerateVideo.env quickWorld;
     GenerateVideo.uploadFetch := GenerateVideo.uploadFetch quickWorld;
     GenerateVideo.createFetch :=
       Ok {| GenerateVideo.cr_status := Some "error";
             GenerateVideo.cr_predictionID := None;
             GenerateVideo.cr_error := Some "rate limit reached";
             GenerateVideo.cr_message := None;
             GenerateVideo.cr_text := "{}" |};
     GenerateVideo.pollFetch := GenerateVideo.pollFetch quickWorld;
     GenerateVideo.iterationTime := GenerateVideo.iterationTime quickWorld |}.

(** The upload is answered with a URL of another host, in which
    "tmpfiles.org/" occurs twice. *)
Definition mirrorWorld : GenerateVideo.World :=
  {| GenerateVideo.requireAuth := GenerateVideo.requireAuth quickWorld;
     GenerateVideo.sanitizePrompt := GenerateVideo.sanitizePrompt quickWorld;
     GenerateVideo.findUserById := GenerateVideo.findUserById quickWorld;
     GenerateVideo.env := GenerateVideo.env quickWorld;
     GenerateVideo.uploadFetch :=
       GenerateVideo.UploadOk
         (Ok {| GenerateVideo.up_status := Some "success";
                GenerateVideo.up_url :=
                  Some "http://mirror.example/tmpfiles.org/9/a.png?from=tmpfiles.org/9";
                GenerateVideo.up_text := "" |});
     GenerateVideo.createFetch := GenerateVideo.createFetch quickWorld;
     GenerateVideo.pollFetch := GenerateVideo.pollFetch quickWorld;
     GenerateVideo.iterationTime := GenerateVideo.iterationTime quickWorld |}.

(** The food-video side for a member with a key of their own; [create] and
    [polls] are what Hailuo answers. *)
Definition foodWorldWith
  (create : GenerateFoodVideo.CreateExchange)
  (polls : nat -> GenerateFoodVideo.PollExchange) : GenerateFoodVideo.World :=
  {| GenerateFoodVideo.requireAuth := GenerateVideo.requireAuth quickWorld;
     GenerateFoodVideo.findUserById := fun _ => Ok (Some member);
     GenerateFoodVideo.env := {| HAILUO_API_KEY := Some "env-key"; OPENAI_API_KEY := None |};
     GenerateFoodVideo.uploadFetch := GenerateVideo.uploadFetch quickWorld;
     GenerateFoodVideo.createFetch := create;
     GenerateFoodVideo.pollFetch := polls;
     GenerateFoodVideo.iterationTime := fun _ => 0%N |}.

(** No poll is ever answered with JSON (a gateway answers with HTML). *)
Definition garbledFoodWorld : GenerateFoodVideo.World :=
  foodWorldWith (GenerateFoodVideo.createFetch foodWorld)
    (fun _ => GenerateFoodVideo.PollText None).

(** Hailuo answers the creating call with HTTP 401 and a JSON body. *)
Definition revokedKeyFoodWorld : GenerateFoodVideo.World :=
  foodWorldWith
    (GenerateFoodVideo.CreateAnswer false 401 "{}"
       (GenerateFoodVideo.JsonValue
          {| GenerateFoodVideo.cr_status := None;
             GenerateFoodVideo.cr_predictionID := None;
             GenerateFoodVideo.cr_error := None;
             GenerateFoodVideo.cr_message := None;
             GenerateFoodVideo.cr_detail := Some "Invalid API key";
             GenerateFoodVideo.cr_text := "{}" |}))
    (fun _ => GenerateFoodVideo.PollText None).

(** Hailuo answers the creating call with HTTP 401 and the JSON [null]:
    reading [createResult.error] throws. *)
Definition nullAnswerFoodWorld : GenerateFoodVideo.World :=
  foodWorldWith
    (GenerateFoodVideo.CreateAnswer false 401 "null"
       (GenerateFoodVideo.JsonNull
          (ErrorObj "Cannot read properties of null (reading 'error')")))
    (fun _ => GenerateFoodVideo.PollText None).

(** A POST that carries no body: the destructuring of [req.body] throws. *)
Definition bodylessRequest : GenerateVideo.Request :=
  {| GenerateVideo.method := GenerateVideo.POST;
     GenerateVideo.body :=
       Throw (ErrorObj
                "Cannot destructure property 'sourceImage' of 'req.body' as it is undefined.") |}.

Definition bodylessFoodRequest : GenerateFoodVideo.Request :=
  {| GenerateFoodVideo.method := GenerateVideo.POST;
     GenerateFoodVideo.body :=
       Throw (ErrorObj
                "Cannot destructure property 'foodImage' of 'req.body' as it is undefined.") |}.

(** A food request that asks for 10 seconds. *)
Definition tenSecondFoodRequest : GenerateFoodVideo.Request :=
  {| GenerateFoodVideo.method := GenerateVideo.POST;
     GenerateFoodVideo.body :=
       Ok {| GenerateFoodVideo.foodImage := Some dish;
             GenerateFoodVideo.englishPrompt := Some "steam rising from the bowl";
             GenerateFoodVideo.durationSeconds := Some 10%Z |} |}.

(** The version that stores the image in Vercel Blob: a member with a key
    of their own; [create] and [polls] are what Hailuo answers. *)
Definition blobWorldWith
  (create : GenerateFoodVideo.CreateExchange)
  (polls : nat -> GenerateFoodVideo.PollExchange) : GenerateFoodVideoBlob.World :=
  {| GenerateFoodVideoBlob.requireAuth := GenerateVideo.requireAuth quickWorld;
     GenerateFoodVideoBlob.findUserById := fun _ => Ok (Some member);
     GenerateFoodVideoBlob.env :=
       {| HAILUO_API_KEY := Some "env-key"; OPENAI_API_KEY := None |};
     GenerateFoodVideoBlob.uploadTime := 1700000000000%Z;
     GenerateFoodVideoBlob.putBlob := Ok "https://blob.example/food-video/1700000000000.webp";
     GenerateFoodVideoBlob.createFetch := create;
     GenerateFoodVideoBlob.pollFetch := polls;
     GenerateFoodVideoBlob.delBlob := fun _ => Ok tt;
     GenerateFoodVideoBlob.iterationTime := fun _ => 0%N |}.

(** The first poll reports the video. *)
Definition blobWorld : GenerateFoodVideoBlob.World :=
  blobWorldWith (GenerateFoodVideo.createFetch foodWorld)
    (fun _ => GenerateFoodVideo.PollText
                (Some {| GenerateVideo.po_status := Some "success";
                         GenerateVideo.po_output := Some "https://cdn.example/video.mp4";
                         GenerateVideo.po_error := None;
                         GenerateVideo.po_message := None |})).

(** An admin with a stored key, on a server without the environment
    key: the stored key of an admin is not used. *)
Definition keylessBlobWorld : GenerateFoodVideoBlob.World :=
  {| GenerateFoodVideoBlob.requireAuth := GenerateVideo.requireAuth quickWorld;
     GenerateFoodVideoBlob.findUserById := fun _ => Ok (Some admin);
     GenerateFoodVideoBlob.env := {| HAILUO_API_KEY := None; OPENAI_API_KEY := None |};
     GenerateFoodVideoBlob.uploadTime := GenerateFoodVideoBlob.uploadTime blobWorld;
     GenerateFoodVideoBlob.putBlob := GenerateFoodVideoBlob.putBlob blobWorld;
     GenerateFoodVideoBlob.createFetch := GenerateFoodVideoBlob.createFetch blobWorld;
     GenerateFoodVideoBlob.pollFetch := GenerateFoodVideoBlob.pollFetch blobWorld;
     GenerateFoodVideoBlob.delBlob := GenerateFoodVideoBlob.delBlob blobWorld;
     GenerateFoodVideoBlob.iterationTime := GenerateFoodVideoBlob.iterationTime blobWorld |}.

(** Hailuo answers the creating call with HTTP 401. *)
Definition revokedKeyBlobWorld : GenerateFoodVideoBlob.World :=
  blobWorldWith (GenerateFoodVideo.createFetch revokedKeyFoodWorld)
    (fun _ => GenerateFoodVideo.PollText None).

(** The scenario endpoint.  The values of the parsed answer are strings,
    the empty string standing for a property that is missing. *)
Definition writer : User :=
  {| isAdmin := false;
     settings := Some {| hailuoApiKey := None; openaiApiKey := Some "sk-writer" |} |}.

Definition clipConfig : GenerateClipScenario.ClipConfig :=
  {| GenerateClipScenario.topic := Some "a rainy day in Seoul";
     GenerateClipScenario.duration := Some 30%Z;
     GenerateClipScenario.tone := None;
     GenerateClipScenario.mode := None;
     GenerateClipScenario.imageStyle := None |}.

Definition clipRequest : GenerateClipScenario.Request :=
  {| GenerateClipScenario.method := GenerateVideo.POST;
     GenerateClipScenario.body :=
       Some {| GenerateClipScenario.config := Some clipConfig |} |}.

(** The provider answers with two scenes, the second without a number. *)
Definition twoScenes : GenerateClipScenario.ParsedJson string :=
  GenerateClipScenario.ParsedFields "Rain" "A walk in the rain" ""
    [GenerateClipScenario.SceneFields "1" "Hook" "umbrella opens" "비가 온다" "wide" "calm"
       "" "an umbrella" "slow zoom in";
     GenerateClipScenario.SceneFields "" "Resolution" "sun returns" "해가 뜬다" "wide"
       "warm" "" "sunlight" "slow zoom out"].

(** A known user whose text model is an OpenAI model; [user] is what the
    user lookup of api/lib/openai.ts finds. *)
Definition clipWorldFor (user : User) : GenerateClipScenario.World string :=
  {| GenerateClipScenario.getUserIdFromRequest := Some "u1";
     GenerateClipScenario.bodyTypeError :=
       ErrorObj "Cannot destructure property 'config' of 'req.body' as it is undefined.";
     GenerateClipScenario.buildPrompt := fun _ => Ok "PROMPT";
     GenerateClipScenario.MODELS_TEXT := "gemini-2.5-flash";
     GenerateClipScenario.getUserTextModel := fun _ => Ok "gpt-4o-mini";
     GenerateClipScenario.openai :=
       {| OpenAI.findUserById := fun _ => Ok (Some user);
          OpenAI.env := {| HAILUO_API_KEY := None; OPENAI_API_KEY := None |};
          OpenAI.chat := fun _ => OpenAI.ChatOk (Ok "{}") |};
     GenerateClipScenario.getAIClientForUser := fun _ => Ok tt;
     GenerateClipScenario.generateContent := fun _ _ _ => Ok (Some "{}");
     GenerateClipScenario.parseJSON := fun _ => Ok twoScenes;
     GenerateClipScenario.truthyValue := truthy;
     GenerateClipScenario.randomUUID := fun n => "uuid-" ++ stringOfZ (Z.of_nat n);
     GenerateClipScenario.now := fun _ => 1700000000000%Z |}.

Definition clipWorld : GenerateClipScenario.World string := clipWorldFor writer.

(** The same user without a key for OpenAI. *)
Definition keylessClipWorld : GenerateClipScenario.World string := clipWorldFor member.

(** A timeline of three scenes of 3, 5 and 2 seconds, with whole numbers
    for the times. *)
Definition threeScenes : VideoTimelineOps.VideoTimeline Z unit unit unit unit :=
  {| VideoTimelineOps.scenes :=
       [{| VideoTimelineOps.id := "a"; VideoTimelineOps.position := 0;
           VideoTimelineOps.startTime := 0%Z; VideoTimelineOps.duration := 3%Z;
           VideoTimelineOps.sceneRest := tt |};
        {| VideoTimelineOps.id := "b"; VideoTimelineOps.position := 1;
           VideoTimelineOps.startTime := 3%Z; VideoTimelineOps.duration := 5%Z;
           VideoTimelineOps.sceneRest := tt |};
        {| VideoTimelineOps.id := "c"; VideoTimelineOps.position := 2;
           VideoTimelineOps.startTime := 8%Z; VideoTimelineOps.duration := 2%Z;
           VideoTimelineOps.sceneRest := tt |}];
     VideoTimelineOps.totalDuration := 10%Z;
     VideoTimelineOps.audioTracks := [];
     VideoTimelineOps.transitions := [];
     VideoTimelineOps.timelineRest := tt |}.

(** Three scenes without images; the request for the second image
    fails. *)
Definition bareScene (sceneId : string) (number : Z) : ClipScenarioHook.Scene unit unit :=
  {| ClipScenarioHook.id := sceneId;
     ClipScenarioHook.sceneNumber := number;
     ClipScenarioHook.narration := Some "비가 온다";
     ClipScenarioHook.generatedImage := None;
     ClipScenarioHook.customImage := None;
     ClipScenarioHook.narrationAudio := None |}.

Definition secondImageFails : ClipScenarioHook.World unit unit :=
  {| ClipScenarioHook.sceneImage :=
       fun n => if Nat.eqb n 1 then Throw (ErrorObj "quota") else Ok tt;
     ClipScenarioHook.narrationAudioOf := fun _ _ => Ok tt |}.

End MoreExamples.


(* ================================================================== *)
(** ** Tactics *)
(* ================================================================== *)

(** Membership of an event in a short, explicit trace: every case is
    refuted by the constructors. *)
Ltac absurd_membership H :=
  cbn [In] in H;
  repeat (destruct H as [H|H]; [try discriminate H|]);
  try contradiction.

(** The first three parts of [handler_POST_facts] on a run that stops
    before the prediction is created. *)
Ltac quiet_run :=
  split; [unfold HandlerSpec.inPipelineOrder, HandlerSpec.uploadEvent;
          cbn [HandlerSpec.monitor HandlerSpec.advance]; discriminate|];
  split; [intros ? ? Hin; absurd_membership Hin|];
  split; [intros ? ? Hin; absurd_membership Hin|].

(* ================================================================== *)
(** ** Properties *)
(* ================================================================== *)

Section PromptLemmas.
Import JS.

Lemma truthy_nonempty (s : string) : truthy s = negb (String.eqb s "").
Proof. destruct s; reflexivity. Qed.

Lemma filterBoolean_map_truthy {K : Type} (f : K -> string) (l : list K) :
  (forall k, truthy (f k) = true) -> filterBoolean (map f l) = map f l.
Proof.
  intros Hf. unfold filterBoolean.
  induction l as [|k l IH]; simpl; [reflexivity|].
  rewrite Hf, IH. reflexivity.
Qed.

Lemma whenPresent_Some_empty (s : string) : Spec.whenPresent (Some s) "" = s.
Proof. destruct s; reflexivity. Qed.

Lemma whenPresent_orOpt (o : option string) (d : string) :
  Spec.whenPresent o d = orOpt o d.
Proof. destruct o as [[|a s]|]; reflexivity. Qed.

Lemma filterBooleanOpt_filter (l : list (option string)) :
  filterBooleanOpt l
  = filter (fun b => negb (String.eqb b ""))
           (map (fun o => Spec.whenPresent o "") l).
Proof.
  induction l as [|[s|] l IH]; simpl; [reflexivity| |exact IH].
  rewrite <- truthy_nonempty.
  destruct s; simpl; rewrite IH; reflexivity.
Qed.

Lemma filterBoolean_filter (l : list string) :
  filterBoolean l = filter (fun b => negb (String.eqb b "")) l.
Proof.
  unfold filterBoolean. apply filter_ext. intros s. apply truthy_nonempty.
Qed.

Lemma join_of_nonempty_length (sep : string) (l : list string) :
  (if Nat.ltb 0 (List.length l) then join sep l else "") = join sep l.
Proof. destruct l; reflexivity. Qed.
End PromptLemmas.

Section ImagePromptFacts.
Import JS ImagePromptPresets ImagePromptBuilder.

Lemma MATERIALS_prompt_truthy k : truthy (prompt (MATERIALS k)) = true.
Proof. destruct k; reflexivity. Qed.

Lemma QUALITY_prompt_truthy k : truthy (prompt (QUALITY_KEYWORDS k)) = true.
Proof. destruct k; reflexivity. Qed.

Lemma image_material_block c :
  bd_material (breakdown (buildImagePrompt c))
  = join ", " (map (fun k => prompt (MATERIALS k)) (materials c)).
Proof.
  unfold buildImagePrompt; simpl.
  rewrite join_of_nonempty_length.
  rewrite filterBoolean_map_truthy by apply MATERIALS_prompt_truthy.
  reflexivity.
Qed.

Lemma image_quality_block c :
  bd_quality (breakdown (buildImagePrompt c))
  = join ", " (map (fun k => prompt (QUALITY_KEYWORDS k)) (quality c)).
Proof.
  unfold buildImagePrompt; simpl.
  rewrite filterBoolean_map_truthy by apply QUALITY_prompt_truthy.
  reflexivity.
Qed.

Lemma image_setting_block c :
  bd_setting (breakdown (buildImagePrompt c))
  = Spec.whenPresent (customEnvironment c) (prompt (ENVIRONMENTS (environment c))).
Proof.
  unfold buildImagePrompt; simpl.
  destruct (customEnvironment c) as [[|a s]|]; reflexivity.
Qed.

Lemma image_fullPrompt_parts c :
  let b := breakdown (buildImagePrompt c) in
  fullPrompt (buildImagePrompt c)
  = join ". "
      (filterBooleanOpt
         [Some (bd_subject b); Some (bd_setting b); Some (bd_composition b);
          Some (bd_camera b); Some (bd_lighting b); Some (bd_material b);
          Some (bd_style b); Some (bd_quality b); additionalDetails c])
    ++ ".".
Proof. reflexivity. Qed.

(** C1. For every configuration, [fullPrompt] is the non-empty blocks
    among the nine joined with ". " and closed with a final ".", in the
    order subject, environment (the custom environment when present, else
    the preset prompt), composition (shot type, camera angle and framing
    prompts joined with ", "), lens, lighting, the prompts of the selected
    materials joined with ", ", style, the prompts of the selected quality
    keywords joined with ", ", and the additional details; and the eight
    fields of [breakdown] are the first eight blocks. *)
Theorem buildImagePrompt_nine_blocks (c : ImagePromptConfig) :
  let r := buildImagePrompt c in
  fullPrompt r = Spec.sentence (Spec.imageBlocks c)
  /\ Spec.imageBlocks c
     = [ bd_subject (breakdown r); bd_setting (breakdown r);
         bd_composition (breakdown r); bd_camera (breakdown r);
         bd_lighting (breakdown r); bd_material (breakdown r);
         bd_style (breakdown r); bd_quality (breakdown r);
         Spec.whenPresent (additionalDetails c) "" ].
Proof.
  intros r.
  assert (Hblocks : Spec.imageBlocks c
     = [ bd_subject (breakdown r); bd_setting (breakdown r);
         bd_composition (breakdown r); bd_camera (breakdown r);
         bd_lighting (breakdown r); bd_material (breakdown r);
         bd_style (breakdown r); bd_quality (breakdown r);
         Spec.whenPresent (additionalDetails c) "" ]).
  { subst r. rewrite image_material_block, image_quality_block, image_setting_block.
    reflexivity. }
  split; [|exact Hblocks].
  subst r. rewrite image_fullPrompt_parts. cbv zeta.
  rewrite filterBooleanOpt_filter. unfold Spec.sentence.
  rewrite Hblocks. cbn [map]. rewrite !whenPresent_Some_empty.
  reflexivity.
Qed.
End ImagePromptFacts.

Section ImageNegative.
Import JS ImagePromptPresets ImagePromptBuilder.

Lemma human_negative_not_elsewhere (c : ImagePromptConfig) (h : string) :
  In h NEGATIVE_human ->
  ~ In h (NEGATIVE_default ++ NEGATIVE_style
          ++ map (fun k => prompt (NEGATIVE_optional k)) (negativeOptional c))%list.
Proof.
  intros Hh Hin.
  rewrite !in_app_iff in Hin.
  destruct Hin as [Hd | [Hs | Ho]].
  - simpl in Hh, Hd.
    repeat (destruct Hh as [<- | Hh]; [ repeat (destruct Hd as [Hd | Hd]; [discriminate Hd|]); exact Hd |]).
    exact Hh.
  - simpl in Hh, Hs.
    repeat (destruct Hh as [<- | Hh]; [ repeat (destruct Hs as [Hs | Hs]; [discriminate Hs|]); exact Hs |]).
    exact Hh.
  - apply in_map_iff in Ho. destruct Ho as [k [Hk _]].
    simpl in Hh.
    repeat (destruct Hh as [<- | Hh]; [ destruct k; discriminate Hk |]).
    exact Hh.
Qed.

(** C4. [negativePrompt] is the default negatives, then the human
    negatives when [isHuman] holds, then the style negatives, then the
    prompts of the optional negatives in the order given, joined with ", ";
    a human negative is among them exactly when [isHuman] holds; and
    [fullPrompt] and [breakdown] do not depend on [isHuman]. *)
Theorem buildImagePrompt_negative_prompt (c : ImagePromptConfig) :
  negativePrompt (buildImagePrompt c) = join ", " (Spec.imageNegatives c)
  /\ (forall h, In h NEGATIVE_human ->
                (In h (Spec.imageNegatives c) <-> isHuman c = true))
  /\ (forall b,
        fullPrompt (buildImagePrompt (Spec.withIsHuman b c)) = fullPrompt (buildImagePrompt c)
        /\ breakdown (buildImagePrompt (Spec.withIsHuman b c)) = breakdown (buildImagePrompt c)).
Proof.
  split; [reflexivity|]. split.
  - intros h Hh. unfold Spec.imageNegatives. split.
    + destruct (isHuman c); [reflexivity|].
      intros Hin. exfalso.
      apply (human_negative_not_elsewhere c h Hh).
      exact Hin.
    + intros ->. rewrite !in_app_iff. right. left. exact Hh.
  - intros b. split; reflexivity.
Qed.
End ImageNegative.

Section VideoPromptFacts.
Import JS VideoPromptPresets VideoPromptBuilder.
Context {builtins : StringBuiltins}.

Lemma STYLES_prompt_truthy k : truthy (prompt (STYLES k)) = true.
Proof. destruct k; reflexivity. Qed.

Lemma VQUALITY_prompt_truthy k : truthy (prompt (QUALITY_KEYWORDS k)) = true.
Proof. destruct k; reflexivity. Qed.

(** C5. For every configuration, the [fullPrompt] of a video is the
    non-empty blocks joined with ". " and closed with a final ".", in the
    order: subject (built from the character when one is given, else the
    custom subject when present, else "A person") followed by a space and
    the trimmed action; camera angle and camera movement prompts joined
    with ", "; environment (custom when present, else the preset prompt);
    the selected style prompts joined with ", "; the selected quality
    prompts joined with ", ".  [negativePrompt] is the default negatives
    followed by the selected optional ones, joined with ", ". *)
Theorem buildVideoPrompt_blocks (c : VideoPromptConfig) :
  fullPrompt (buildVideoPrompt c) = Spec.sentence (Spec.videoBlocks c)
  /\ negativePrompt (buildVideoPrompt c) = join ", " (Spec.videoNegatives c).
Proof.
  split; [|reflexivity].
  unfold buildVideoPrompt, Spec.sentence, Spec.videoBlocks, Spec.videoSubject.
  cbn [fullPrompt].
  rewrite !filterBoolean_map_truthy
    by (apply STYLES_prompt_truthy || apply VQUALITY_prompt_truthy).
  rewrite filterBoolean_filter, !whenPresent_orOpt.
  reflexivity.
Qed.
End VideoPromptFacts.

Section PollingLoop.
Import JS Effects Lib GenerateVideo PollingSpec.
Local Open Scope Z_scope.

Variables (w : World) (image : ImageData) (d : Z) (apiKey predictionId : string).

Lemma elapsedAt_lower_bound (k : nat) : pollInterval * Z.of_nat k <= elapsedAt w k.
Proof.
  induction k as [|k IH]; [simpl; lia|].
  cbn [elapsedAt]. unfold pollInterval in *. lia.
Qed.

Lemma generationFailed_isVideoError pj : isVideoError (generationFailedError pj) = true.
Proof. reflexivity. Qed.

(** The six ways one poll can go. *)
Lemma pollOnce_cases (n : nat) (after : Z) :
  pollOnce w image d apiKey predictionId n after
  = match pollFetch w n with
    | Ok pj =>
        if reportsSuccess pj
        then ([PollPrediction apiKey predictionId; Now after],
              Return_ {| status := 200;
                         json := VideoResult
                                   (successResult image d
                                      (match po_output pj with Some u => u | None => "" end)) |})
        else if isErrorStatus (po_status pj)
        then ([PollPrediction apiKey predictionId], Raise (generationFailedError pj))
        else ([PollPrediction apiKey predictionId], Next tt)
    | Throw e =>
        if isVideoError e
        then ([PollPrediction apiKey predictionId], Raise e)
        else if Nat.ltb 3 n
        then ([PollPrediction apiKey predictionId], Raise repeatedFailureError)
        else ([PollPrediction apiKey predictionId], Next tt)
    end.
Proof.
  unfold pollOnce, reportsSuccess.
  destruct (pollFetch w n) as [pj|e]; cbn [await bind emit tryCatch ret raise app].
  - destruct (isSuccess (po_status pj) && truthyOpt (po_output pj))%bool;
      [reflexivity|].
    destruct (isErrorStatus (po_status pj)); [|reflexivity].
    cbn [raise tryCatch app]. rewrite generationFailed_isVideoError. reflexivity.
  - destruct (isVideoError e); [reflexivity|].
    destruct (Nat.ltb 3 n); reflexivity.
Qed.

Lemma pollLoop_timeout (fuel pc : nat) (el : Z) :
  el > maxPollingTime ->
  pollLoop w image d apiKey predictionId (S fuel) pc el
  = ([Now el], Raise (timeoutError el)).
Proof.
  intros H. cbn [pollLoop].
  destruct (el >? maxPollingTime) eqn:E; [reflexivity|].
  rewrite Z.gtb_ltb, Z.ltb_ge in E. lia.
Qed.

Lemma pollLoop_iteration (fuel pc : nat) (el : Z) :
  el <= maxPollingTime ->
  pollLoop w image d apiKey predictionId (S fuel) pc el
  = let after := el + pollInterval + Z.of_N (iterationTime w (S pc)) in
    match pollOnce w image d apiKey predictionId (S pc) after with
    | (t, Next _) =>
        let '(t', s) := pollLoop w image d apiKey predictionId fuel (S pc) after in
        ((Now el :: Sleep pollInterval :: t ++ t')%list, s)
    | (t, Return_ r) => ((Now el :: Sleep pollInterval :: t)%list, Return_ r)
    | (t, Raise e) => ((Now el :: Sleep pollInterval :: t)%list, Raise e)
    | (t, OutOfFuel) => ((Now el :: Sleep pollInterval :: t)%list, OutOfFuel)
    end.
Proof.
  intros H. cbn [pollLoop].
  destruct (el >? maxPollingTime) eqn:E.
  { rewrite Z.gtb_ltb, Z.ltb_lt in E. lia. }
  cbv zeta.
  destruct (pollOnce w image d apiKey predictionId (S pc)
              (el + pollInterval + Z.of_N (iterationTime w (S pc)))) as [t [a|r|e|]];
    cbn [bind emit app]; try reflexivity.
  destruct (pollLoop w image d apiKey predictionId fuel (S pc)
              (el + pollInterval + Z.of_N (iterationTime w (S pc)))) as [t' s'].
  reflexivity.
Qed.

Lemma pollLoop_run (fuel : nat) :
  forall pc : nat,
    (0 < fuel)%nat ->
    (maxIterations <= fuel + pc)%nat ->
    (pc < maxIterations)%nat ->
    exists (m : nat) (tEnd : list Event) (out : Step Response unit),
      (pc <= m < maxIterations)%nat
      /\ pollLoop w image d apiKey predictionId fuel pc (elapsedAt w pc)
         = ((pollTrace w apiKey predictionId (S pc) (m - pc) ++ tEnd)%list, out)
      /\ LoopEnd w image d apiKey predictionId m tEnd out
      /\ (forall j, (pc < j <= m)%nat -> continues w j).
Proof.
  induction fuel as [|fuel IH]; intros pc Hfuel Hbudget Hpc; [lia|].
  destruct (Z_gt_le_dec (elapsedAt w pc) maxPollingTime) as [Hlate | Hintime].
  - exists pc, [Now (elapsedAt w pc)], (Raise (timeoutError (elapsedAt w pc))).
    rewrite pollLoop_timeout by exact Hlate.
    rewrite Nat.sub_diag. repeat split; try lia.
    + constructor. exact Hlate.
  - pose proof (elapsedAt_lower_bound pc) as Hlow.
    assert (Hpc60 : (pc <= 60)%nat)
      by (unfold maxPollingTime, pollInterval in *; lia).
    rewrite pollLoop_iteration by exact Hintime. cbv zeta.
    change (elapsedAt w pc + pollInterval + Z.of_N (iterationTime w (S pc)))
      with (elapsedAt w (S pc)).
    rewrite pollOnce_cases.
    destruct (pollFetch w (S pc)) as [pj|e] eqn:Hfetch.
    + destruct (reportsSuccess pj) eqn:Hok.
      * (* the poll reports success *)
        unfold reportsSuccess in Hok. apply andb_prop in Hok. destruct Hok as [Hs Ho].
        destruct (po_output pj) as [url|] eqn:Hout; [|discriminate Ho].
        exists pc, (iterationEvents w apiKey predictionId (S pc)
                    ++ [Now (elapsedAt w (S pc))])%list,
          (Return_ {| status := 200; json := VideoResult (successResult image d url) |}).
        rewrite Nat.sub_diag. unfold maxIterations in *.
        split; [lia|]. split; [reflexivity|]. split; [|intros; lia].
        eapply EndSuccess; eauto.
      * destruct (isErrorStatus (po_status pj)) eqn:Herr.
        -- exists pc, (iterationEvents w apiKey predictionId (S pc)),
             (Raise (generationFailedError pj)).
           rewrite Nat.sub_diag. unfold maxIterations in *.
           split; [lia|]. split; [reflexivity|]. split; [|intros; lia].
           eapply EndGenerationFailed; eauto.
        -- (* pending: the loop goes on *)
           destruct (IH (S pc)) as (m & tEnd & out & Hm & Hrun & Hend & Hcont);
             try (unfold maxIterations in *; lia).
           exists m, tEnd, out. rewrite Hrun.
           split; [lia|]. split; [|split; [exact Hend|]].
           ++ replace (m - pc)%nat with (S (m - S pc)) by lia.
              unfold pollTrace. cbn [seq flat_map iterationEvents pred app].
              reflexivity.
           ++ intros j Hj. destruct (Nat.eq_dec j (S pc)) as [->|Hne].
              ** split; [exact Hintime|]. rewrite Hfetch. split; assumption.
              ** apply Hcont. lia.
    + destruct (isVideoError e) eqn:Hvid.
      * exists pc, (iterationEvents w apiKey predictionId (S pc)), (Raise e).
        rewrite Nat.sub_diag. unfold maxIterations in *.
        split; [lia|]. split; [reflexivity|]. split; [|intros; lia].
        eapply EndRethrown; eauto.
      * destruct (Nat.ltb 3 (S pc)) eqn:Hcnt.
        -- exists pc, (iterationEvents w apiKey predictionId (S pc)),
             (Raise repeatedFailureError).
           rewrite Nat.sub_diag. unfold maxIterations in *.
           split; [lia|]. split; [reflexivity|]. split; [|intros; lia].
           eapply EndRepeatedFailure; eauto. apply Nat.ltb_lt. exact Hcnt.
        -- destruct (IH (S pc)) as (m & tEnd & out & Hm & Hrun & Hend & Hcont);
             try (unfold maxIterations in *; lia).
           exists m, tEnd, out. rewrite Hrun.
           split; [lia|]. split; [|split; [exact Hend|]].
           ++ replace (m - pc)%nat with (S (m - S pc)) by lia.
              unfold pollTrace. cbn [seq flat_map iterationEvents pred app].
              reflexivity.
           ++ intros j Hj. destruct (Nat.eq_dec j (S pc)) as [->|Hne].
              ** split; [exact Hintime|]. rewrite Hfetch. split; [assumption|].
                 apply Nat.ltb_ge in Hcnt. exact Hcnt.
              ** apply Hcont. lia.
Qed.

(** After [k] iterations that go on, a poll that reports success within
    the time bound ends the loop with the 200 response. *)
Lemma pollLoop_success_after (pj : PollJson) (k : nat) :
  forall fuel pc : nat,
    (k < fuel)%nat ->
    (forall j, (pc < j <= pc + k)%nat -> continues w j) ->
    elapsedAt w (pc + k) <= maxPollingTime ->
    pollFetch w (S (pc + k)) = Ok pj ->
    reportsSuccess pj = true ->
    snd (pollLoop w image d apiKey predictionId fuel pc (elapsedAt w pc))
    = Return_ {| status := 200;
                 json := VideoResult
                           (successResult image d
                              (match po_output pj with Some u => u | None => "" end)) |}.
Proof.
  induction k as [|k IH]; intros fuel pc Hfuel Hcont Hin Hf Hs.
  - destruct fuel as [|fuel]; [lia|]. rewrite Nat.add_0_r in *.
    rewrite pollLoop_iteration by exact Hin. cbv zeta.
    rewrite pollOnce_cases, Hf, Hs. reflexivity.
  - destruct fuel as [|fuel]; [lia|].
    destruct (Hcont (S pc)) as [Hel Hgo]; [lia|]. cbn [pred] in Hel.
    rewrite pollLoop_iteration by exact Hel. cbv zeta.
    change (elapsedAt w pc + pollInterval + Z.of_N (iterationTime w (S pc)))
      with (elapsedAt w (S pc)).
    rewrite pollOnce_cases.
    replace (pc + S k)%nat with (S pc + k)%nat in * by lia.
    assert (IH' := IH fuel (S pc) ltac:(lia) ltac:(intros; apply Hcont; lia) Hin Hf Hs).
    destruct (pollFetch w (S pc)) as [pj'|e].
    + destruct Hgo as [Hno Hne]. rewrite Hno, Hne.
      destruct (pollLoop w image d apiKey predictionId fuel (S pc) (elapsedAt w (S pc))).
      exact IH'.
    + destruct Hgo as [Hno Hle]. rewrite Hno.
      replace (Nat.ltb 3 (S pc)) with false by (symmetry; apply Nat.ltb_ge; exact Hle).
      destruct (pollLoop w image d apiKey predictionId fuel (S pc) (elapsedAt w (S pc))).
      exact IH'.
Qed.

Lemma LoopEnd_leaves (m : nat) (tEnd : list Event) (out : Step Response unit) :
  LoopEnd w image d apiKey predictionId m tEnd out -> out <> OutOfFuel.
Proof. intros H; destruct H; discriminate. Qed.

(** A budget that was not used up can be raised without changing the run. *)
Lemma pollLoop_one_more (fuel : nat) :
  forall (pc : nat) (el : Z),
    snd (pollLoop w image d apiKey predictionId fuel pc el) <> OutOfFuel ->
    pollLoop w image d apiKey predictionId (S fuel) pc el
    = pollLoop w image d apiKey predictionId fuel pc el.
Proof.
  induction fuel as [|fuel IH]; intros pc el Hleft.
  - exfalso. apply Hleft. reflexivity.
  - destruct (Z_gt_le_dec el maxPollingTime) as [Hlate | Hintime].
    + rewrite !pollLoop_timeout by exact Hlate. reflexivity.
    + rewrite (pollLoop_iteration (S fuel)) by exact Hintime.
      rewrite (pollLoop_iteration fuel) in Hleft |- * by exact Hintime.
      cbv zeta in Hleft |- *.
      destruct (pollOnce w image d apiKey predictionId (S pc)
                  (el + pollInterval + Z.of_N (iterationTime w (S pc))))
        as [t [a|r|e|]]; try reflexivity.
      rewrite IH; [reflexivity|].
      destruct (pollLoop w image d apiKey predictionId fuel (S pc)
                  (el + pollInterval + Z.of_N (iterationTime w (S pc)))) as [t' s'].
      exact Hleft.
Qed.

Lemma pollLoop_budget_irrelevant (extra : nat) :
  pollLoop w image d apiKey predictionId (extra + maxIterations) 0%nat 0
  = pollLoop w image d apiKey predictionId maxIterations 0%nat 0.
Proof.
  induction extra as [|extra IH]; [reflexivity|].
  cbn [Nat.add]. rewrite pollLoop_one_more; [exact IH|].
  destruct (pollLoop_run (extra + maxIterations) 0%nat)
    as (m & tEnd & out & _ & Hrun & Hend & _);
    try (unfold maxIterations; lia).
  change (elapsedAt w 0) with 0 in Hrun. rewrite Hrun.
  exact (LoopEnd_leaves _ _ _ Hend).
Qed.
End PollingLoop.

Section HandlerRuns.
Import JS Effects Lib GenerateVideo PollingSpec HandlerSpec.
Local Open Scope Z_scope.

Variable w : World.

Lemma upload_trace (base64 mime : string) :
  fst (uploadImageToTempUrl w base64 mime)
  = [UploadImage ("video_image." ++ extensionOf mime) mime base64].
Proof.
  unfold uploadImageToTempUrl.
  destruct (uploadFetch w) as [e|st|[uj|e]]; try reflexivity.
  cbn [await bind emit ret raise fst app].
  destruct (negb (isSuccess (up_status uj)) || negb (truthyOpt (up_url uj)))%bool;
    reflexivity.
Qed.

Lemma upload_outcome (base64 mime : string) :
  (exists url, snd (uploadImageToTempUrl w base64 mime) = Next url)
  \/ (exists e, snd (uploadImageToTempUrl w base64 mime) = Raise e).
Proof.
  unfold uploadImageToTempUrl.
  destruct (uploadFetch w) as [e|st|[uj|e]];
    try (right; eexists; reflexivity).
  cbn [await bind emit ret raise snd].
  destruct (negb (isSuccess (up_status uj)) || negb (truthyOpt (up_url uj)))%bool;
    [right | left]; eexists; reflexivity.
Qed.

Lemma uploadBlock_cases (image : ImageData) :
  uploadBlock w image
  = ([uploadEvent image],
     match snd (uploadImageToTempUrl w (data image) (mimeType image)) with
     | Raise e =>
         Return_ {| status := 500;
                    json := ApiError ("이미지 업로드 실패: " ++ messageOf e)
                                     (Some "IMAGE_UPLOAD_FAILED") |}
     | other => other
     end).
Proof.
  unfold uploadBlock, uploadEvent.
  pose proof (upload_trace (data image) (mimeType image)) as Ht.
  destruct (uploadImageToTempUrl w (data image) (mimeType image)) as [t s].
  cbn [fst snd] in *. subst t.
  destruct s; cbn [tryCatch return_ app]; reflexivity.
Qed.

Lemma create_trace (key p url : string) (d : Z) :
  fst (createPrediction w key p url d) = [CreatePrediction key (createBodyOf p url d)].
Proof.
  unfold createPrediction.
  destruct (createFetch w) as [cj|e]; [|reflexivity].
  cbn [await bind emit ret raise fst app].
  destruct (negb (isSuccess (cr_status cj)) || negb (truthyOpt (cr_predictionID cj)))%bool;
    reflexivity.
Qed.

Lemma create_outcome (key p url : string) (d : Z) :
  (exists id, snd (createPrediction w key p url d) = Next id)
  \/ (exists e, snd (createPrediction w key p url d) = Raise e).
Proof.
  unfold createPrediction.
  destruct (createFetch w) as [cj|e]; [|right; eexists; reflexivity].
  cbn [await bind emit ret raise snd].
  destruct (negb (isSuccess (cr_status cj)) || negb (truthyOpt (cr_predictionID cj)))%bool;
    [right | left]; eexists; reflexivity.
Qed.

(** A prediction id is obtained only from an answer with status 'success'
    that carries it. *)
Lemma create_succeeds (key p url : string) (d : Z) (id : string) :
  snd (createPrediction w key p url d) = Next id ->
  exists cj,
    createFetch w = Ok cj /\ isSuccess (cr_status cj) = true
    /\ cr_predictionID cj = Some id /\ truthy id = true.
Proof.
  unfold createPrediction.
  destruct (createFetch w) as [cj|e]; [|discriminate].
  cbn [await bind emit ret raise snd].
  destruct (isSuccess (cr_status cj)) eqn:Hs; cbn [negb orb]; [|discriminate].
  destruct (cr_predictionID cj) as [i|] eqn:Hid; cbn [truthyOpt]; [|discriminate].
  destruct (truthy i) eqn:Hi; cbn [negb]; [|discriminate].
  intros H. injection H as <-. exists cj. auto.
Qed.

Lemma errorResponse_not_200 (e : Thrown) : status (errorResponse e) <> 200.
Proof.
  unfold errorResponse. destruct e as [msg|txt]; [|discriminate].
  repeat match goal with
         | |- context [if ?b then _ else _] => destruct b
         end; discriminate.
Qed.

Lemma createBlock_cases (key p url : string) (d : Z) :
  createBlock w key p url d
  = ([CreatePrediction key (createBodyOf p url d)],
     match snd (createPrediction w key p url d) with
     | Raise initError =>
         if (includes (messageOf initError) "401"
             || includes (messageOf initError) "Unauthorized")%bool
         then Return_ {| status := 403;
                         json := ApiError "Hailuo API 키가 유효하지 않습니다. 키를 확인하세요."
                                          (Some "PERMISSION_DENIED") |}
         else Raise (ErrorObj ("Hailuo API 호출 실패: " ++ messageOf initError))
     | other => other
     end).
Proof.
  unfold createBlock.
  pose proof (create_trace key p url d) as Ht.
  destruct (createPrediction w key p url d) as [t s].
  cbn [fst snd] in *. subst t.
  destruct s; cbn [tryCatch]; try reflexivity.
  destruct (includes (messageOf e) "401" || includes (messageOf e) "Unauthorized")%bool;
    reflexivity.
Qed.

Lemma LoopEnd_answer image d key id m tEnd out :
  LoopEnd w image d key id m tEnd out -> exists r, answer out = Some r.
Proof. intros H; destruct H; eexists; reflexivity. Qed.

Lemma validBody_inv (req : Request) (image : ImageData) (p : string) :
  validBody req = Some (image, p) ->
  exists body_,
    body req = Ok body_
    /\ sourceImage body_ = Some image /\ motionPrompt body_ = Some p
    /\ truthy (data image) = true /\ truthy p = true.
Proof.
  unfold validBody.
  destruct (body req) as [body_|e]; [|discriminate].
  destruct (sourceImage body_) as [im|] eqn:Hi; [|discriminate].
  destruct (motionPrompt body_) as [q|] eqn:Hp; [|discriminate].
  destruct (truthy (data im)) eqn:Hd; [|discriminate].
  destruct (truthy q) eqn:Hq; [|discriminate].
  cbn [andb]. intros H. injection H as <- <-. exists body_. auto 6.
Qed.

Lemma tryBlock_body (req : Request) (uid : string) (body_ : GenerateVideoRequest) :
  body req = Ok body_ -> tryBlock w req uid = tryBody w body_ uid.
Proof.
  intros Hb. unfold tryBlock. rewrite Hb. cbn [await ret bind app].
  destruct (tryBody w body_ uid) as [t s]. reflexivity.
Qed.

(** The [try] block on a request that carries an image and a prompt. *)
Lemma tryBlock_valid (req : Request) (uid : string) (image : ImageData) (p : string) :
  validBody req = Some (image, p) ->
  tryBlock w req uid
  = bind (emit (FindUser uid)) (fun _ =>
    bind (await (findUserById w uid)) (fun user =>
      let apiKey := selectHailuoKey user (env w) in
      if negb (truthyOpt apiKey) then return_ keyMissingResponse
      else
        let apiKey_ := match apiKey with Some k => k | None => "" end in
        bind (uploadBlock w image) (fun imageUrl =>
        bind (createBlock w apiKey_ (promptFor w p) imageUrl (requestedDuration req))
          (fun predictionId =>
             pollLoop w image (requestedDuration req) apiKey_ predictionId
               maxIterations 0%nat 0)))).
Proof.
  intros Hv.
  apply validBody_inv in Hv. destruct Hv as (body_ & Hb & Hi & Hp & Hd & Hq).
  rewrite (tryBlock_body req uid body_ Hb). unfold tryBody, requestedDuration.
  rewrite Hb, Hi, Hp, Hd. cbn [negb truthyOpt]. rewrite Hq. reflexivity.
Qed.

(** A request without a body makes the destructuring throw; one with a
    body that lacks the image or the prompt is answered 400. *)
Lemma tryBlock_invalid (req : Request) (uid : string) :
  validBody req = None ->
  (exists e, body req = Throw e /\ tryBlock w req uid = ([], Raise e))
  \/ (exists body_ msg,
        body req = Ok body_
        /\ tryBlock w req uid
           = ([], Return_ {| status := 400; json := ApiError msg None |})).
Proof.
  unfold validBody.
  destruct (body req) as [body_|e] eqn:Hb.
  2:{ intros _. left. exists e. split; [reflexivity|].
      unfold tryBlock. rewrite Hb. reflexivity. }
  intros Hv. right. exists body_. rewrite (tryBlock_body req uid body_ Hb).
  unfold tryBody.
  destruct (sourceImage body_) as [im|]; [|eexists; split; reflexivity].
  destruct (truthy (data im)); cbn [negb andb] in *; [|eexists; split; reflexivity].
  destruct (motionPrompt body_) as [q|]; cbn [truthyOpt];
    [|eexists; split; reflexivity].
  destruct (truthy q); [discriminate|]. eexists; split; reflexivity.
Qed.

Lemma handler_POST (req : Request) :
  method req = POST ->
  handler w req
  = match authenticatedUser w with
    | Some uid => finish (tryBlock w req uid)
    | None =>
        ([], Some {| status := 401;
                     json := AuthFailure (orOpt (authError (requireAuth w))
                                                "로그인이 필요합니다.") |})
    end.
Proof.
  intros Hm. unfold handler, authenticatedUser. rewrite Hm.
  destruct (authenticated (requireAuth w)); [|reflexivity].
  destruct (userId (requireAuth w)) as [u|]; [|reflexivity].
  destruct (truthy u); reflexivity.
Qed.

Theorem handler_run (req : Request) :
  exists r, snd (handler w req) = Some r /\ Run w req (fst (handler w req)) r.
Proof.
  destruct (method req) as [| |m] eqn:Hm.
  { unfold handler. rewrite Hm.
    eexists; split; [reflexivity|]. apply RunOptions; exact Hm. }
  2:{ unfold handler. rewrite Hm.
      eexists; split; [reflexivity|]. eapply RunMethodNotAllowed; exact Hm. }
  rewrite (handler_POST req Hm).
  destruct (authenticatedUser w) as [uid|] eqn:Hauth.
  2:{ eexists; split; [reflexivity|]. eapply RunUnauthorized; eauto. }
  unfold finish.
  destruct (validBody req) as [[image p]|] eqn:Hv.
  2:{ destruct (tryBlock_invalid req uid Hv) as [(e & Hb & ->)|(body_ & msg & Hb & ->)].
      - eexists; split; [reflexivity|]. eapply RunNoBody; eauto.
      - eexists; split; [reflexivity|]. eapply RunBadRequest; eauto. }
  rewrite (tryBlock_valid req uid image p Hv).
  destruct (findUserById w uid) as [user|e] eqn:Hu.
  2:{ eexists; split; [reflexivity|]. eapply RunLookupFailed; eauto. }
  cbn [await bind emit ret app]. cbv zeta.
  destruct (selectHailuoKey user (env w)) as [key|] eqn:Hkey.
  2:{ eexists; split; [reflexivity|]. eapply RunKeyMissing; eauto. rewrite Hkey. reflexivity. }
  cbn [truthyOpt].
  destruct (truthy key) eqn:Hk.
  2:{ eexists; split; [reflexivity|]. eapply RunKeyMissing; eauto. rewrite Hkey. exact Hk. }
  cbn [negb]. rewrite uploadBlock_cases.
  destruct (upload_outcome (data image) (mimeType image)) as [[url Hup]|[e Hup]];
    rewrite Hup.
  2:{ eexists; split; [reflexivity|]. eapply RunUploadFailed; eauto. }
  cbn [bind]. rewrite createBlock_cases.
  destruct (create_outcome key (promptFor w p) url (requestedDuration req))
    as [[id Hcr]|[e Hcr]]; rewrite Hcr.
  2:{ destruct (includes (messageOf e) "401" || includes (messageOf e) "Unauthorized")%bool.
      - eexists; split; [reflexivity|]. eapply RunCreateFailed; eauto. discriminate.
      - eexists; split; [reflexivity|]. eapply RunCreateFailed; eauto.
        apply errorResponse_not_200. }
  destruct (pollLoop_run w image (requestedDuration req) key id maxIterations 0%nat)
    as (m & tEnd & out & Hmm & Hrun & Hend & Hcont);
    try (unfold maxIterations; lia).
  change (elapsedAt w 0) with 0 in Hrun. rewrite Nat.sub_0_r in Hrun.
  cbn [bind]. rewrite Hrun.
  destruct (LoopEnd_answer _ _ _ _ _ _ _ Hend) as [r Hr].
  exists r. split; [exact Hr|].
  cbn [fst app]. eapply RunPolled; eauto. lia.
Qed.

(** A POST of a member with a key, once the image is uploaded: the
    creating call follows, with the key selected, and then the loop. *)
Lemma handler_after_upload (req : Request) (uid : string) (image : ImageData)
  (p : string) (user : option User) (key url : string) :
  method req = POST ->
  authenticatedUser w = Some uid ->
  validBody req = Some (image, p) ->
  findUserById w uid = Ok user ->
  selectHailuoKey user (env w) = Some key ->
  truthy key = true ->
  snd (uploadImageToTempUrl w (data image) (mimeType image)) = Next url ->
  handler w req
  = finish
      (bind (emit (FindUser uid)) (fun _ =>
       bind (emit (uploadEvent image)) (fun _ =>
       bind (createBlock w key (promptFor w p) url (requestedDuration req))
         (fun predictionId =>
            pollLoop w image (requestedDuration req) key predictionId
              maxIterations 0%nat 0)))).
Proof.
  intros Hm Hauth Hv Hu Hkey Hk Hup.
  rewrite (handler_POST req Hm), Hauth.
  rewrite (tryBlock_valid req uid image p Hv), Hu.
  cbn [await bind emit ret app]. cbv zeta. rewrite Hkey. cbn [truthyOpt].
  rewrite Hk. cbn [negb]. rewrite uploadBlock_cases, Hup.
  unfold finish, emit. cbn [bind app].
  match goal with
  | |- context [bind (createBlock ?a ?b ?c ?u ?n) ?k] =>
      destruct (bind (createBlock a b c u n) k)
  end.
  reflexivity.
Qed.

(** Such a run makes the creating call, right after the upload. *)
Lemma handler_reaches_creation (req : Request) (uid : string) (image : ImageData)
  (p : string) (user : option User) (key url : string) :
  method req = POST ->
  authenticatedUser w = Some uid ->
  validBody req = Some (image, p) ->
  findUserById w uid = Ok user ->
  selectHailuoKey user (env w) = Some key ->
  truthy key = true ->
  snd (uploadImageToTempUrl w (data image) (mimeType image)) = Next url ->
  exists t',
    fst (handler w req)
    = FindUser uid :: uploadEvent image
      :: CreatePrediction key (createBodyOf (promptFor w p) url (requestedDuration req))
      :: t'.
Proof.
  intros Hm Hauth Hv Hu Hkey Hk Hup.
  rewrite (handler_after_upload req uid image p user key url Hm Hauth Hv Hu Hkey Hk Hup).
  unfold finish. rewrite createBlock_cases.
  destruct (snd (createPrediction w key (promptFor w p) url (requestedDuration req)))
    as [id|r|e|]; cbn [bind emit app fst].
  - destruct (pollLoop w image (requestedDuration req) key id maxIterations 0%nat 0).
    eexists. reflexivity.
  - eexists. reflexivity.
  - destruct (includes (messageOf e) "401" || includes (messageOf e) "Unauthorized")%bool;
      eexists; reflexivity.
  - eexists. reflexivity.
Qed.

(** When the prediction is created and, after [m] iterations that go on,
    a poll reports success within the time bound, the answer is 200 with
    the result made of that poll's output and the requested duration. *)
Lemma handler_success_after (req : Request) (uid : string) (image : ImageData)
  (p : string) (user : option User) (key url id : string) (m : nat) (pj : PollJson) :
  method req = POST ->
  authenticatedUser w = Some uid ->
  validBody req = Some (image, p) ->
  findUserById w uid = Ok user ->
  selectHailuoKey user (env w) = Some key ->
  truthy key = true ->
  snd (uploadImageToTempUrl w (data image) (mimeType image)) = Next url ->
  snd (createPrediction w key (promptFor w p) url (requestedDuration req)) = Next id ->
  (m < maxIterations)%nat ->
  (forall j, (1 <= j <= m)%nat -> continues w j) ->
  elapsedAt w m <= maxPollingTime ->
  pollFetch w (S m) = Ok pj ->
  reportsSuccess pj = true ->
  snd (handler w req)
  = Some {| status := 200;
            json := VideoResult
                      (successResult image (requestedDuration req)
                         (match po_output pj with Some u => u | None => "" end)) |}.
Proof.
  intros Hm Hauth Hv Hu Hkey Hk Hup Hcr Hlt Hcont Hin Hf Hs.
  rewrite (handler_after_upload req uid image p user key url Hm Hauth Hv Hu Hkey Hk Hup).
  unfold finish. rewrite createBlock_cases, Hcr.
  pose proof (pollLoop_success_after w image (requestedDuration req) key id pj m
                maxIterations 0%nat Hlt
                ltac:(intros j Hj; apply Hcont; lia) Hin Hf Hs) as Hloop.
  change (elapsedAt w 0) with 0 in Hloop.
  unfold emit. cbn [bind app].
  destruct (pollLoop w image (requestedDuration req) key id maxIterations 0%nat 0)
    as [t s].
  cbn [snd] in Hloop. subst s. reflexivity.
Qed.
End HandlerRuns.

Section LoopEvents.
Import JS Effects Lib GenerateVideo PollingSpec HandlerSpec.
Local Open Scope Z_scope.

Lemma pollTrace_loopEvents w key id (from count : nat) :
  Forall (loopEvent key id) (pollTrace w key id from count).
Proof.
  unfold pollTrace. revert from.
  induction count as [|count IH]; intros from; cbn [seq flat_map]; [constructor|].
  apply Forall_app. split; [|apply IH].
  unfold iterationEvents. repeat constructor.
Qed.

Lemma LoopEnd_loopEvents w image d key id m tEnd out :
  LoopEnd w image d key id m tEnd out -> Forall (loopEvent key id) tEnd.
Proof.
  intros H; destruct H; unfold iterationEvents; cbn [app]; repeat constructor.
Qed.

Lemma monitor_loopEvents key id (t : list Event) :
  Forall (loopEvent key id) t -> monitor PredictionCreated t = Some PredictionCreated.
Proof.
  induction 1 as [|e t He _ IH]; [reflexivity|].
  destruct e; cbn [loopEvent] in He; try contradiction; cbn [monitor advance]; exact IH.
Qed.

Lemma loopEvents_no_create key id (t : list Event) k b :
  Forall (loopEvent key id) t -> ~ In (CreatePrediction k b) t.
Proof.
  intros H Hin. rewrite Forall_forall in H. exact (H _ Hin).
Qed.

Lemma loopEvents_poll key id (t : list Event) k i :
  Forall (loopEvent key id) t -> In (PollPrediction k i) t -> k = key /\ i = id.
Proof.
  intros H Hin. rewrite Forall_forall in H. exact (H _ Hin).
Qed.

Lemma LoopEnd_200 w image d key id m tEnd out r :
  LoopEnd w image d key id m tEnd out ->
  answer out = Some r ->
  status r = 200 ->
  exists pj url,
    pollFetch w (S m) = Ok pj /\ reportsSuccess pj = true /\ po_output pj = Some url
    /\ elapsedAt w m <= maxPollingTime
    /\ r = {| status := 200; json := VideoResult (successResult image d url) |}
    /\ tEnd = (iterationEvents w key id (S m) ++ [Now (elapsedAt w (S m))])%list.
Proof.
  intros Hend Hans H200.
  destruct Hend as [Hlate | pj url Hin Hf Hs Ho Ht | pj Hin Hf Hn He
                    | e Hin Hf Hv | e Hin Hf Hv Hc];
    cbn [answer] in Hans;
    try (exfalso;
         match type of Hans with
         | Some (errorResponse ?e) = _ => pose proof (errorResponse_not_200 e)
         end; congruence).
  exists pj, url. unfold reportsSuccess.
  rewrite Hs, Ho. cbn [truthyOpt]. rewrite Ht.
  repeat split; try assumption. congruence.
Qed.
End LoopEvents.

Section HandlerProperties.
Import JS Effects Lib GenerateVideo PollingSpec HandlerSpec.
Local Open Scope Z_scope.

(** What every POST run satisfies; the theorems on the handler below are
    read off this lemma. *)
Lemma handler_POST_facts (w : World) (req : Request) :
  method req = POST ->
  inPipelineOrder (fst (handler w req))
  /\ (forall key cbody,
        In (CreatePrediction key cbody) (fst (handler w req)) ->
        exists image p url,
          validBody req = Some (image, p)
          /\ In (uploadEvent image) (fst (handler w req))
          /\ snd (uploadImageToTempUrl w (data image) (mimeType image)) = Next url
          /\ cbody = createBodyOf (promptFor w p) url (requestedDuration req))
  /\ (forall key id,
        In (PollPrediction key id) (fst (handler w req)) ->
        exists image p url,
          validBody req = Some (image, p)
          /\ snd (uploadImageToTempUrl w (data image) (mimeType image)) = Next url
          /\ snd (createPrediction w key (promptFor w p) url (requestedDuration req))
             = Next id)
  /\ (forall r,
        snd (handler w req) = Some r ->
        status r = 200 ->
        exists t' key id elapsed n pj image p url,
          fst (handler w req) = (t' ++ [PollPrediction key id; Now elapsed])%list
          /\ pollFetch w n = Ok pj
          /\ reportsSuccess pj = true
          /\ validBody req = Some (image, p)
          /\ po_output pj = Some url
          /\ r = {| status := 200;
                    json := VideoResult
                              (successResult image (requestedDuration req) url) |}).
Proof.
  intros Hpost.
  destruct (handler_run w req) as (r & Hr & Hrun).
  destruct (handler w req) as [t o]. cbn [fst snd] in *. subst o.
  destruct Hrun as
    [ Hm | m0 Hm | msg Hm Hauth | uid e0 Hm Hauth Hnobody
    | uid body_ msg Hm Hauth Hbody Hv
    | uid image p e Hm Hauth Hv Hu
    | uid image p user Hm Hauth Hv Hu Hkey
    | uid image p user key e Hm Hauth Hv Hu Hkey Hk Hup
    | uid image p user key url e r0 Hm Hauth Hv Hu Hkey Hk Hup Hcr Hne
    | uid image p user key url id m tEnd out r0 Hm Hauth Hv Hu Hkey Hk Hup Hcr Hlt Hcont Hend Hans ];
    try congruence.
  - (* unauthorized *)
    quiet_run.
    intros r1 Hr1 H200. injection Hr1 as <-. discriminate H200.
  - (* no body *)
    quiet_run.
    intros r1 Hr1 H200. exfalso. pose proof (errorResponse_not_200 e0). congruence.
  - (* bad request *)
    quiet_run.
    intros r1 Hr1 H200. injection Hr1 as <-. discriminate H200.
  - (* the user lookup failed *)
    quiet_run.
    intros r1 Hr1 H200. exfalso. pose proof (errorResponse_not_200 e). congruence.
  - (* no key *)
    quiet_run.
    intros r1 Hr1 H200. injection Hr1 as <-. discriminate H200.
  - (* the upload failed *)
    quiet_run.
    intros r1 Hr1 H200. injection Hr1 as <-. discriminate H200.
  - (* the creation failed *)
    split; [unfold inPipelineOrder, uploadEvent; cbn [monitor advance]; discriminate|]. split; [|split].
    + intros k b Hin. cbn [In] in Hin.
      destruct Hin as [Hin|[Hin|[Hin|[]]]]; try discriminate Hin.
      injection Hin as <- <-.
      exists image, p, url. cbn [In]. auto.
    + intros k i Hin. absurd_membership Hin.
    + intros r1 Hr1 H200. congruence.
  - (* the loop ran *)
    pose proof (pollTrace_loopEvents w key id 1 m) as Hloop.
    pose proof (LoopEnd_loopEvents _ _ _ _ _ _ _ _ Hend) as HtEnd.
    assert (Hrest : Forall (loopEvent key id) (pollTrace w key id 1 m ++ tEnd))
      by (apply Forall_app; split; assumption).
    split; [|split; [|split]].
    + unfold inPipelineOrder, uploadEvent. cbn [app monitor advance].
      rewrite (monitor_loopEvents key id _ Hrest). discriminate.
    + intros k b Hin. cbn [app In] in Hin.
      destruct Hin as [Hin|[Hin|[Hin|Hin]]]; try discriminate Hin.
      * injection Hin as <- <-. exists image, p, url. cbn [app In]. auto.
      * exfalso. exact (loopEvents_no_create key id _ k b Hrest Hin).
    + intros k i Hin. cbn [app In] in Hin.
      destruct Hin as [Hin|[Hin|[Hin|Hin]]]; try discriminate Hin.
      destruct (loopEvents_poll key id _ k i Hrest Hin) as [-> ->].
      exists image, p, url. auto.
    + intros r1 Hr1 H200. injection Hr1 as <-.
      destruct (LoopEnd_200 _ _ _ _ _ _ _ _ _ Hend Hans H200)
        as (pj & u & Hf & Hs & Ho & _ & Hr200 & ->).
      exists ([FindUser uid; uploadEvent image;
               CreatePrediction key
                 (createBodyOf (promptFor w p) url (requestedDuration req))]
              ++ pollTrace w key id 1 m
              ++ [Now (elapsedAt w m); Sleep pollInterval])%list,
        key, id, (elapsedAt w (S m)), (S m), pj, image, p, u.
      split; [|repeat split; assumption].
      unfold iterationEvents. cbn [pred app].
      rewrite <- !app_assoc. reflexivity.
Qed.


Lemma handler_not_POST (w : World) (req : Request) :
  method req <> POST -> fst (handler w req) = [].
Proof.
  unfold handler. destruct (method req); [reflexivity|congruence|reflexivity].
Qed.


Lemma to_int_not_nil (z : Z) :
  Z.to_int z <> Decimal.Pos Decimal.Nil /\ Z.to_int z <> Decimal.Neg Decimal.Nil.
Proof.
  rewrite <- (DecimalZ.of_to z) at 1 2. rewrite DecimalZ.to_of.
  destruct (Z.to_int z) as [u|u]; simpl.
  - split; [|discriminate]. unfold Decimal.unorm. destruct (Decimal.nzhead u); discriminate.
  - destruct (Decimal.nzhead u); split; discriminate.
Qed.

Lemma stringOfZ_inj (a b : Z) : stringOfZ a = stringOfZ b -> a = b.
Proof.
  unfold stringOfZ. intros H.
  apply DecimalZ.to_int_inj.
  destruct (to_int_not_nil a) as [Ha1 Ha2]. destruct (to_int_not_nil b) as [Hb1 Hb2].
  pose proof (NilZero.isi _ Ha1 Ha2) as Ia. pose proof (NilZero.isi _ Hb1 Hb2) as Ib.
  rewrite H in Ia. rewrite Ia in Ib. injection Ib. auto.
Qed.
End HandlerProperties.

Section TraceFacts.
Import Effects.

Context {Event Response : Type}.
Variable P : Event -> Prop.

Lemma bind_trace_Forall {A B} (m : Prog Event Response A) (k : A -> Prog Event Response B) :
  Forall P (fst m) ->
  (forall a, snd m = Next a -> Forall P (fst (k a))) ->
  Forall P (fst (bind m k)).
Proof.
  intros Hm Hk. destruct m as [t [a|r|e|]]; cbn [bind fst snd] in *; try exact Hm.
  specialize (Hk a eq_refl). destruct (k a) as [t' s]. cbn [fst] in *.
  apply Forall_app. split; assumption.
Qed.

End TraceFacts.

Section FoodVideo.
Import JS Effects Lib GenerateFoodVideo FoodHandlerSpec.
Local Open Scope Z_scope.

Variable w : World.

Lemma food_generationFailed_isVideoError pj :
  isVideoError (generationFailedError pj) = true.
Proof. reflexivity. Qed.

(** The ways one poll can go; a text that is not JSON leaves the iteration
    without being counted as a failure. *)
Lemma food_pollOnce_cases (d : Z) (key id : string) (n : nat) (after : Z) :
  pollOnce w d key id n after
  = match pollFetch w n with
    | PollText None => ([PollPrediction key id], Next tt)
    | PollText (Some pj) =>
        if (GenerateVideo.isSuccess (GenerateVideo.po_status pj)
            && truthyOpt (GenerateVideo.po_output pj))%bool
        then ([PollPrediction key id; Now after],
              Return_ {| status := 200;
                         json := VideoResult
                                   {| videoUrl := match GenerateVideo.po_output pj with
                                                  | Some u => u | None => "" end;
                                      duration := d |} |})
        else if GenerateVideo.isErrorStatus (GenerateVideo.po_status pj)
        then ([PollPrediction key id], Raise (generationFailedError pj))
        else ([PollPrediction key id], Next tt)
    | PollThrew e =>
        if isVideoError e
        then ([PollPrediction key id], Raise e)
        else if Nat.ltb 3 n
        then ([PollPrediction key id], Raise repeatedFailureError)
        else ([PollPrediction key id], Next tt)
    end.
Proof.
  unfold pollOnce.
  destruct (pollFetch w n) as [e|[pj|]]; cbn [bind emit tryCatch ret raise app].
  - destruct (isVideoError e); [reflexivity|].
    destruct (Nat.ltb 3 n); reflexivity.
  - destruct (GenerateVideo.isSuccess (GenerateVideo.po_status pj)
              && truthyOpt (GenerateVideo.po_output pj))%bool; [reflexivity|].
    destruct (GenerateVideo.isErrorStatus (GenerateVideo.po_status pj)); [|reflexivity].
    cbn [raise tryCatch app]. rewrite food_generationFailed_isVideoError. reflexivity.
  - reflexivity.
Qed.

(** One poll never uses up the budget. *)
Lemma food_pollOnce_outcome (d : Z) (key id : string) (n : nat) (after : Z) :
  snd (pollOnce w d key id n after) <> OutOfFuel.
Proof.
  rewrite food_pollOnce_cases.
  destruct (pollFetch w n) as [e|[pj|]];
    repeat match goal with
           | |- context [if ?b then _ else _] => destruct b
           end; discriminate.
Qed.

(** The loop of the food-video handler always ends, within the same 62
    iterations: a skipped answer still costs the 5000 ms of the wait. *)
Lemma food_pollLoop_answers (d : Z) (key id : string) (fuel : nat) :
  forall (pc : nat) (el : Z),
    (0 < fuel)%nat ->
    (maxIterations <= fuel + pc)%nat ->
    pollInterval * Z.of_nat pc <= el ->
    exists r, answer (snd (pollLoop w d key id fuel pc el)) = Some r.
Proof.
  induction fuel as [|fuel IH]; intros pc el Hfuel Hbudget Hel; [lia|].
  cbn [pollLoop].
  destruct (el >? maxPollingTime) eqn:E.
  { eexists. reflexivity. }
  rewrite Z.gtb_ltb, Z.ltb_ge in E.
  cbv zeta.
  pose proof (food_pollOnce_outcome d key id (S pc)
                (el + pollInterval + Z.of_N (iterationTime w (S pc)))) as Hout.
  destruct (pollOnce w d key id (S pc)
              (el + pollInterval + Z.of_N (iterationTime w (S pc)))) as [t [a|r|e|]];
    cbn [bind emit app snd] in *; try (eexists; reflexivity); try congruence.
  destruct (IH (S pc) (el + pollInterval + Z.of_N (iterationTime w (S pc))))
    as [r Hr]; try (unfold maxIterations, maxPollingTime, pollInterval in *; lia).
  destruct (pollLoop w d key id fuel (S pc)
              (el + pollInterval + Z.of_N (iterationTime w (S pc)))) as [t' s'].
  exists r. exact Hr.
Qed.




Lemma food_handler_POST (req : Request) :
  method req = GenerateVideo.POST ->
  handler w req
  = match authenticatedUser w with
    | Some uid => (fst (tryBlock w req uid), answer (snd (tryBlock w req uid)))
    | None =>
        ([], Some {| status := 401;
                     json := AuthFailure (orOpt (GenerateVideo.authError (requireAuth w))
                                                "로그인이 필요합니다.") |})
    end.
Proof.
  intros Hm. unfold handler, authenticatedUser. rewrite Hm.
  destruct (GenerateVideo.authenticated (requireAuth w)); [|reflexivity].
  destruct (GenerateVideo.userId (requireAuth w)) as [u|]; [|reflexivity].
  destruct (truthy u); reflexivity.
Qed.

Lemma food_validBody_inv (req : Request) (image : FoodImage) (p : string) :
  validBody req = Some (image, p) ->
  exists body_,
    body req = Ok body_
    /\ foodImage body_ = Some image /\ englishPrompt body_ = Some p
    /\ truthy (data image) = true /\ truthy (mimeType image) = true /\ truthy p = true.
Proof.
  unfold validBody.
  destruct (body req) as [body_|e]; [|discriminate].
  destruct (foodImage body_) as [im|] eqn:Hi; [|discriminate].
  destruct (englishPrompt body_) as [q|] eqn:Hp; [|discriminate].
  destruct (truthy (data im)) eqn:Hd; [|discriminate].
  destruct (truthy (mimeType im)) eqn:Hmt; [|discriminate].
  destruct (truthy q) eqn:Hq; [|discriminate].
  cbn [andb]. intros H. injection H as <- <-. exists body_. auto 7.
Qed.

Lemma food_tryBlock_body (req : Request) (uid : string) (body_ : GenerateFoodVideoRequest) :
  body req = Ok body_ -> tryBlock w req uid = tryBody w body_ uid.
Proof.
  intros Hb. unfold tryBlock. rewrite Hb. cbn [await ret bind app].
  destruct (tryBody w body_ uid) as [t s]. reflexivity.
Qed.

(** The [try] block on a request that carries an image and a prompt. *)
Lemma food_tryBlock_valid (req : Request) (uid : string) (image : FoodImage) (p : string) :
  validBody req = Some (image, p) ->
  tryBlock w req uid
  = bind (emit (FindUser uid)) (fun _ =>
    bind (await (findUserById w uid)) (fun user =>
      let hailuoApiKey := selectHailuoKey user (env w) in
      if negb (truthyOpt hailuoApiKey) then return_ keyMissingResponse
      else
        let apiKey_ := match hailuoApiKey with Some k => k | None => "" end in
        bind (uploadBlock w image) (fun imageUrl =>
        bind (createBlock w apiKey_ p imageUrl) (fun predictionId =>
          pollLoop w (requestedDuration req)
            apiKey_ predictionId maxIterations 0%nat 0)))).
Proof.
  intros Hv. apply food_validBody_inv in Hv.
  destruct Hv as (body_ & Hb & Hi & Hp & Hd & Hmt & Hq).
  rewrite (food_tryBlock_body req uid body_ Hb). unfold tryBody, requestedDuration.
  rewrite Hb, Hi, Hp, Hd, Hmt. cbn [negb orb truthyOpt]. rewrite Hq.
  reflexivity.
Qed.

(** A request without a body makes the destructuring throw; one with a
    body that lacks the image or the prompt is answered 400. *)
Lemma food_tryBlock_invalid (req : Request) (uid : string) :
  validBody req = None ->
  (exists e, body req = Throw e /\ tryBlock w req uid = ([], Raise e))
  \/ (exists body_ msg,
        body req = Ok body_
        /\ tryBlock w req uid
           = ([], Return_ {| status := 400; json := ApiError msg None |})).
Proof.
  unfold validBody.
  destruct (body req) as [body_|e] eqn:Hb.
  2:{ intros _. left. exists e. split; [reflexivity|].
      unfold tryBlock. rewrite Hb. reflexivity. }
  intros Hv. right. exists body_. rewrite (food_tryBlock_body req uid body_ Hb).
  unfold tryBody.
  destruct (foodImage body_) as [im|]; [|eexists; split; reflexivity].
  destruct (truthy (data im)); cbn [negb orb andb] in *; [|eexists; split; reflexivity].
  destruct (truthy (mimeType im)); cbn [negb orb andb] in *;
    [|eexists; split; reflexivity].
  destruct (englishPrompt body_) as [q|]; cbn [truthyOpt];
    [|eexists; split; reflexivity].
  destruct (truthy q); [discriminate|]. eexists; split; reflexivity.
Qed.


(** The handler always answers: the loop never uses up its budget. *)
Theorem food_handler_answers (req : Request) :
  exists r, snd (handler w req) = Some r.
Proof.
  destruct (method req) as [| |m] eqn:Hm;
    try (unfold handler; rewrite Hm; eexists; reflexivity).
  rewrite (food_handler_POST req Hm).
  destruct (authenticatedUser w) as [uid|]; [|eexists; reflexivity].
  cbn [snd].
  destruct (validBody req) as [[image p]|] eqn:Hv.
  2:{ destruct (food_tryBlock_invalid req uid Hv)
        as [(e & _ & ->)|(body_ & msg & _ & ->)]; eexists; reflexivity. }
  rewrite (food_tryBlock_valid req uid image p Hv).
  destruct (findUserById w uid) as [user|e]; [|eexists; reflexivity].
  cbn [await bind emit ret app]. cbv zeta.
  destruct (negb (truthyOpt (selectHailuoKey user (env w)))); [eexists; reflexivity|].
  destruct (uploadBlock w image) as [t1 [url|r|e|]] eqn:Hup;
    cbn [bind snd]; try (eexists; reflexivity).
  { destruct (createBlock w _ p url) as [t2 [id|r|e|]] eqn:Hcr;
      cbn [bind snd]; try (eexists; reflexivity).
    - match goal with
      | |- context [pollLoop w ?d ?key id maxIterations 0%nat 0] =>
          destruct (food_pollLoop_answers d key id maxIterations 0%nat 0) as [r Hr];
          try (unfold maxIterations, pollInterval; lia);
          destruct (pollLoop w d key id maxIterations 0%nat 0) as [t3 s3]
      end.
      exists r. exact Hr.
    - exfalso. revert Hcr. unfold createBlock, createPrediction.
      destruct (createFetch w) as [e|ok st txt [|e1|cj]];
        cbn [bind emit raise ret tryCatch app];
        repeat match goal with
               | |- context [if ?b then _ else _] => destruct b; cbn [bind emit raise ret tryCatch app]
               end; discriminate. }
  exfalso. revert Hup. unfold uploadBlock, uploadImageToTempUrl.
  destruct (uploadFetch w) as [e|st|[uj|e]];
    cbn [await bind emit raise ret return_ tryCatch app];
    repeat match goal with
           | |- context [if ?b then _ else _] => destruct b; cbn [await bind emit raise ret return_ tryCatch app]
           end; discriminate.
Qed.



End FoodVideo.

Section BlobKeys.
Import JS Effects Lib GenerateFoodVideoBlob BlobHandlerSpec.
Local Open Scope Z_scope.

Variable w : World.












End BlobKeys.

Section HandlerClaims.
Import JS Effects Lib GenerateVideo PollingSpec HandlerSpec.
Local Open Scope Z_scope.

(** C7. Pipeline order of a POST to generate-video: the external calls come
    in the order user lookup, image upload, prediction creation, polling;
    the creating call carries the enhanced prompt built from the request's
    motion prompt and the URL the upload returned; a poll is issued only
    when the upload and the creation both succeeded; and a 200 response is
    sent only right after a poll that reported success with an output. *)
Theorem generate_video_pipeline_order (w : World) (req : Request) :
  method req = POST ->
  inPipelineOrder (fst (handler w req))
  /\ (forall key cbody,
        In (CreatePrediction key cbody) (fst (handler w req)) ->
        exists image p url,
          validBody req = Some (image, p)
          /\ In (uploadEvent image) (fst (handler w req))
          /\ snd (uploadImageToTempUrl w (data image) (mimeType image)) = Next url
          /\ cb_prompt cbody = enhancedPromptOf (sanitizePrompt w p 1000)
          /\ cb_image_url cbody = url)
  /\ (forall key id,
        In (PollPrediction key id) (fst (handler w req)) ->
        exists image p url,
          validBody req = Some (image, p)
          /\ snd (uploadImageToTempUrl w (data image) (mimeType image)) = Next url
          /\ snd (createPrediction w key (promptFor w p) url (requestedDuration req))
             = Next id)
  /\ (forall r,
        snd (handler w req) = Some r ->
        status r = 200 ->
        exists t' key id elapsed n pj,
          fst (handler w req) = (t' ++ [PollPrediction key id; Now elapsed])%list
          /\ pollFetch w n = Ok pj
          /\ reportsSuccess pj = true).
Proof.
  intros Hpost.
  destruct (handler_POST_facts w req Hpost) as (Horder & Hcreate & Hpoll & Hok).
  split; [exact Horder|]. split; [|split; [exact Hpoll|]].
  - intros key cbody Hin.
    destruct (Hcreate key cbody Hin) as (image & p & url & Hv & Hup & Hurl & ->).
    exists image, p, url. repeat split; assumption.
  - intros r Hr H200.
    destruct (Hok r Hr H200)
      as (t' & key & id & el & n & pj & _ & _ & _ & Ht & Hf & Hs & _).
    exists t', key, id, el, n, pj. auto.
Qed.

(** C8. The duration sent to the Hailuo API is the string "6" when the
    requested duration (5 when the request names none) is at most 6 and
    "10" otherwise: every creating call of a run carries it, and a run of
    a member with a key makes that call once the image is uploaded.  The
    duration of a 200 response is the requested one: every 200 answer to a
    POST carries it, and that answer is given when the prediction is
    created and a poll reports success within the time bound after polls
    that let the loop go on.  So whenever the requested duration is
    neither 6 nor 10 the reported duration differs from the one asked of
    the video API. *)
Theorem hailuo_duration_sent_and_reported (w : World) (req : Request) :
  let d := requestedDuration req in
  (forall key cbody,
      In (CreatePrediction key cbody) (fst (handler w req)) ->
      cb_duration cbody = (if d <=? 6 then "6" else "10"))
  /\ (forall uid image p user key url,
        method req = POST ->
        authenticatedUser w = Some uid ->
        validBody req = Some (image, p) ->
        findUserById w uid = Ok user ->
        selectHailuoKey user (env w) = Some key ->
        truthy key = true ->
        snd (uploadImageToTempUrl w (data image) (mimeType image)) = Next url ->
        exists cbody,
          In (CreatePrediction key cbody) (fst (handler w req))
          /\ cb_duration cbody = (if d <=? 6 then "6" else "10"))
  /\ (forall r,
        method req = POST ->
        snd (handler w req) = Some r ->
        status r = 200 ->
        exists res, json r = VideoResult res /\ duration res = d)
  /\ (forall uid image p user key url id m pj,
        method req = POST ->
        authenticatedUser w = Some uid ->
        validBody req = Some (image, p) ->
        findUserById w uid = Ok user ->
        selectHailuoKey user (env w) = Some key ->
        truthy key = true ->
        snd (uploadImageToTempUrl w (data image) (mimeType image)) = Next url ->
        snd (createPrediction w key (promptFor w p) url d) = Next id ->
        (m < maxIterations)%nat ->
        (forall j, (1 <= j <= m)%nat -> continues w j) ->
        elapsedAt w m <= maxPollingTime ->
        pollFetch w (S m) = Ok pj ->
        reportsSuccess pj = true ->
        exists res,
          snd (handler w req) = Some {| status := 200; json := VideoResult res |}
          /\ duration res = d)
  /\ (d <> 6 -> d <> 10 ->
      stringOfZ d <> (if d <=? 6 then "6" else "10")
      /\ d <> (if d <=? 6 then 6 else 10)).
Proof.
  cbv zeta. split; [|split; [|split; [|split]]].
  - intros key cbody Hin.
    destruct (method req) eqn:Hm;
      try (rewrite handler_not_POST in Hin by congruence; contradiction).
    destruct (handler_POST_facts w req Hm) as (_ & Hcreate & _).
    destruct (Hcreate key cbody Hin) as (image & p & url & _ & _ & _ & ->).
    cbn [createBodyOf cb_duration]. unfold hailuoDuration.
    destruct (requestedDuration req <=? 6); reflexivity.
  - intros uid image p user key url Hm Hauth Hv Hu Hkey Hk Hup.
    destruct (handler_reaches_creation w req uid image p user key url
                Hm Hauth Hv Hu Hkey Hk Hup) as [t' ->].
    eexists. split; [right; right; left; reflexivity|].
    cbn [createBodyOf cb_duration]. unfold hailuoDuration.
    destruct (requestedDuration req <=? 6); reflexivity.
  - intros r Hm Hr H200.
    destruct (handler_POST_facts w req Hm) as (_ & _ & _ & Hok).
    destruct (Hok r Hr H200)
      as (t' & key & id & el & n & pj & image & p & url & _ & _ & _ & _ & _ & ->).
    eexists. split; reflexivity.
  - intros uid image p user key url id m pj Hm Hauth Hv Hu Hkey Hk Hup Hcr Hlt Hcont
           Hin Hf Hs.
    rewrite (handler_success_after w req uid image p user key url id m pj
               Hm Hauth Hv Hu Hkey Hk Hup Hcr Hlt Hcont Hin Hf Hs).
    eexists. split; reflexivity.
  - intros H6 H10. split.
    + destruct (requestedDuration req <=? 6); intros H.
      * apply H6. apply stringOfZ_inj. exact H.
      * apply H10. apply stringOfZ_inj. exact H.
    + destruct (requestedDuration req <=? 6); assumption.
Qed.

(** C9. In the polling loop, when the poll of an iteration fails for a
    reason that is not a video-generation error, the request is aborted
    with the repeated-failure error exactly when the counter of iterations,
    this one included, exceeds 3; otherwise the loop goes on.  The counter
    counts every iteration, whatever the earlier polls answered. *)
Theorem poll_failure_aborts_iff_counter_exceeds_three
  (w : World) (image : ImageData) (d : Z) (apiKey predictionId : string)
  (fuel pollCount : nat) (elapsed : Z) (e : Thrown) :
  elapsed <= maxPollingTime ->
  pollFetch w (S pollCount) = Throw e ->
  isVideoError e = false ->
  pollLoop w image d apiKey predictionId (S fuel) pollCount elapsed
  = if Nat.ltb 3 (S pollCount)
    then ([Now elapsed; Sleep pollInterval; PollPrediction apiKey predictionId],
          Raise repeatedFailureError)
    else
      let after := elapsed + pollInterval + Z.of_N (iterationTime w (S pollCount)) in
      let rest := pollLoop w image d apiKey predictionId fuel (S pollCount) after in
      (([Now elapsed; Sleep pollInterval; PollPrediction apiKey predictionId]
        ++ fst rest)%list, snd rest).
Proof.
  intros Hin Hf Hv.
  rewrite pollLoop_iteration by exact Hin. cbv zeta.
  rewrite pollOnce_cases, Hf, Hv.
  destruct (Nat.ltb 3 (S pollCount)); [reflexivity|].
  destruct (pollLoop w image d apiKey predictionId fuel (S pollCount)
              (elapsed + pollInterval + Z.of_N (iterationTime w (S pollCount))))
    as [t s].
  reflexivity.
Qed.

(** C2, as amended.  The polling loop always terminates, within
    [maxIterations] = 62 iterations, and a larger iteration budget does not
    change its run: it runs [m] iterations that each read
    the clock, sleep the fixed 5000 ms and poll, and ends in iteration
    [m + 1] in one of the ways of [LoopEnd]: the timeout error, raised at
    the top of the first iteration that starts with more than 300000 ms
    elapsed; a 200 response with the output URL, for a poll that reports
    success with an output in an iteration that started within the
    300000 ms; a video-generation error, for a poll that reports status
    'error'; a poll exception raised again because its message mentions the
    video; or the repeated-failure error, for a failed poll in an
    iteration numbered above 3. *)
Theorem polling_loop_terminates
  (w : World) (image : ImageData) (d : Z) (apiKey predictionId : string) (fuel : nat) :
  (maxIterations <= fuel)%nat ->
  pollLoop w image d apiKey predictionId fuel 0%nat 0
  = pollLoop w image d apiKey predictionId maxIterations 0%nat 0
  /\ exists (m : nat) (tEnd : list Event) (out : Step Response unit),
       pollLoop w image d apiKey predictionId fuel 0%nat 0
       = ((pollTrace w apiKey predictionId 1 m ++ tEnd)%list, out)
       /\ (m < maxIterations)%nat
       /\ (forall j, (1 <= j <= m)%nat -> continues w j)
       /\ LoopEnd w image d apiKey predictionId m tEnd out.
Proof.
  intros Hfuel. split.
  - replace fuel with ((fuel - maxIterations) + maxIterations)%nat by lia.
    apply pollLoop_budget_irrelevant.
  - destruct (pollLoop_run w image d apiKey predictionId fuel 0%nat)
      as (m & tEnd & out & Hm & Hrun & Hend & Hcont);
      try (unfold maxIterations in *; lia).
    change (elapsedAt w 0) with 0 in Hrun. rewrite Nat.sub_0_r in Hrun.
    exists m, tEnd, out. repeat split; try assumption; try lia.
    all: apply Hcont; lia.
Qed.

End HandlerClaims.

Section Determinism.
Import JS Runs.






End Determinism.

Section LongformExportProperties.
Import LongformExport.
Local Open Scope nat_scope.
Variable LongformScene : Type.
Variable scenesPerPart : nat.
Hypothesis threshold_positive : 0 < scenesPerPart.

Lemma rangesFrom_concat (l : list LongformScene) :
  forall budget from,
    List.length l - from <= budget ->
    concat (map (fun r => slice l (start r) (end_ r))
                (rangesFrom scenesPerPart budget from (List.length l)))
    = skipn from l.
Proof.
  induction budget as [|budget IH]; intros from Hb; cbn [rangesFrom].
  - cbn [map concat]. symmetry. apply skipn_all2. lia.
  - destruct (from <? List.length l) eqn:Hlt.
    + apply Nat.ltb_lt in Hlt.
      cbn [map concat start end_].
      rewrite IH by lia.
      unfold slice.
      destruct (Nat.le_gt_cases (from + scenesPerPart) (List.length l)) as [Hfit | Hover].
      * rewrite Nat.min_l by exact Hfit.
        replace (from + scenesPerPart - from) with scenesPerPart by lia.
        replace (from + scenesPerPart) with (scenesPerPart + from) by lia.
        rewrite <- skipn_skipn. apply firstn_skipn.
      * rewrite Nat.min_r by lia.
        rewrite (skipn_all2 (n := from + scenesPerPart)) by lia.
        rewrite List.app_nil_r. apply firstn_all2. rewrite length_skipn. lia.
    + apply Nat.ltb_ge in Hlt. cbn [map concat]. symmetry. apply skipn_all2. exact Hlt.
Qed.

Lemma rangesFrom_within (sceneCount : nat) :
  forall budget from r,
    In r (rangesFrom scenesPerPart budget from sceneCount) ->
    from <= start r /\ start r < end_ r <= sceneCount.
Proof.
  induction budget as [|budget IH]; intros from r Hin; cbn [rangesFrom] in Hin;
    [contradiction|].
  destruct (from <? sceneCount) eqn:Hlt; [|contradiction].
  apply Nat.ltb_lt in Hlt.
  destruct Hin as [<- | Hin].
  - cbn [start end_]. lia.
  - destruct (IH _ _ Hin) as [H1 H2]. lia.
Qed.

Lemma slice_nth_error (l : list LongformScene) (from to j : nat) :
  nth_error (slice l from to) j
  = if j <? to - from then nth_error l (from + j) else None.
Proof.
  unfold slice. rewrite nth_error_firstn.
  destruct (j <? to - from); [apply nth_error_skipn|reflexivity].
Qed.

(** C3. The split of a scenario for export returns as many parts as
    ranges, the ranges being those of [calculatePartRanges] for the number of
    scenes; part [i] holds exactly the scenes whose indices lie in range [i],
    in order; and the parts, concatenated in order, are the scenes of the
    scenario. *)
Theorem splitScenesForExportMulti_parts (scenario : LongformScenario LongformScene) :
  let r := splitScenesForExportMulti LongformScene scenesPerPart scenario in
  let all := scenes LongformScene scenario in
  ranges LongformScene r = calculatePartRanges scenesPerPart (List.length all)
  /\ List.length (parts LongformScene r) = List.length (ranges LongformScene r)
  /\ (forall i rg,
        nth_error (ranges LongformScene r) i = Some rg ->
        exists part,
          nth_error (parts LongformScene r) i = Some part
          /\ start rg < end_ rg <= List.length all
          /\ forall j, nth_error part j
                       = if j <? end_ rg - start rg then nth_error all (start rg + j)
                         else None)
  /\ concat (parts LongformScene r) = all.
Proof.
  cbv zeta. unfold splitScenesForExportMulti. cbn [parts ranges].
  split; [reflexivity|]. split; [apply length_map|]. split.
  - intros i rg Hi.
    exists (slice (scenes LongformScene scenario) (start rg) (end_ rg)).
    split; [rewrite nth_error_map, Hi; reflexivity|].
    apply nth_error_In in Hi.
    destruct (rangesFrom_within _ _ _ _ Hi) as [_ Hw].
    split; [exact Hw|].
    intros j. apply slice_nth_error.
  - unfold calculatePartRanges. rewrite rangesFrom_concat by lia. reflexivity.
Qed.
End LongformExportProperties.

Section Instances.
Import JS Effects Lib GenerateVideo PollingSpec HandlerSpec Examples.
Local Open Scope Z_scope.

(** The portrait of [Examples], built. *)
Example portrait_fullPrompt :
  ImagePromptBuilder.fullPrompt (ImagePromptBuilder.buildImagePrompt portrait)
  = "Korean woman in her 20s holding a coffee cup. rainy evening apartment. close-up shot, eye-level angle, subject centered in frame, symmetrical composition. 85mm portrait lens, f/1.8, creamy bokeh background. soft natural light, diffused daylight, gentle shadows. natural skin texture, realistic pores, subtle imperfections. ultra photoreal, cinematic color grading, movie still quality, professional cinematography. highly detailed, intricate details, tack sharp focus, crisp details.".
Proof. vm_compute. reflexivity. Qed.

(** An empty custom environment counts as absent: the preset is used. *)
Example empty_customEnvironment_is_absent :
  ImagePromptBuilder.bd_setting
    (ImagePromptBuilder.breakdown
       (ImagePromptBuilder.buildImagePrompt
          (ImagePromptBuilder.createDefaultImageConfig (Some "a cat") None)))
  = ImagePromptBuilder.bd_setting
      (ImagePromptBuilder.breakdown
         (ImagePromptBuilder.buildImagePrompt
            {| ImagePromptBuilder.subject := "a cat";
               ImagePromptBuilder.isHuman := true;
               ImagePromptBuilder.shotType := ImagePromptPresets.shot_medium;
               ImagePromptBuilder.cameraAngle := ImagePromptPresets.eye_level;
               ImagePromptBuilder.framing := ImagePromptPresets.rule_of_thirds_left;
               ImagePromptBuilder.lens := ImagePromptPresets.lens_85mm_portrait;
               ImagePromptBuilder.environment := ImagePromptPresets.studio_white;
               ImagePromptBuilder.customEnvironment := Some "";
               ImagePromptBuilder.lighting := ImagePromptPresets.natural_soft;
               ImagePromptBuilder.materials := [];
               ImagePromptBuilder.style := ImagePromptPresets.photoreal_cinematic;
               ImagePromptBuilder.quality := [];
               ImagePromptBuilder.negativeOptional := [];
               ImagePromptBuilder.additionalDetails := None |})).
Proof. reflexivity. Qed.

(** A run of the food-video handler for an admin: the environment key on
    every call, not the stored one; the answer that is not JSON is skipped;
    the duration reported is the default 6. *)
Example food_video_admin_run :
  GenerateFoodVideo.handler foodWorld foodRequest
  = ([GenerateFoodVideo.FindUser "u1";
      GenerateFoodVideo.UploadImage "food_image.webp" "image/webp" "UklGRg==";
      GenerateFoodVideo.CreatePrediction "env-key"
        (GenerateFoodVideo.requestBodyOf "steam rising from the bowl"
           "https://tmpfiles.org/dl/12345/image.png");
      GenerateFoodVideo.Now 0; GenerateFoodVideo.Sleep 5000;
      GenerateFoodVideo.PollPrediction "env-key" "pred-1";
      GenerateFoodVideo.Now 5000; GenerateFoodVideo.Sleep 5000;
      GenerateFoodVideo.PollPrediction "env-key" "pred-1";
      GenerateFoodVideo.Now 10000],
     Some {| GenerateFoodVideo.status := 200;
             GenerateFoodVideo.json :=
               GenerateFoodVideo.VideoResult
                 {| GenerateFoodVideo.videoUrl := "https://cdn.example/video.mp4";
                    GenerateFoodVideo.duration := 6 |} |}).
Proof. vm_compute. reflexivity. Qed.

(** Two implementations of the library methods that differ on a capital
    outside ASCII. *)
Example runtimes_differ :
  @toLowerCase asciiBuiltins "CAFÉ" <> @toLowerCase latinBuiltins "CAFÉ".
Proof. vm_compute. discriminate. Qed.


Lemma generate_video_pipeline_order_witness :
  method request = POST /\ inPipelineOrder (fst (handler quickWorld request)).
Proof.
  split; [reflexivity|].
  exact (proj1 (generate_video_pipeline_order quickWorld request eq_refl)).
Defined.

(** The run of [quickWorld]: 8 seconds are asked for; the creating call
    of the run carries "10" and the answer is 200 with the duration 8. *)
Lemma hailuo_duration_sent_and_reported_witness :
  requestedDuration request = 8
  /\ (exists cbody,
         In (CreatePrediction "user-key" cbody) (fst (handler quickWorld request))
         /\ cb_duration cbody = "10")
  /\ (exists res,
         snd (handler quickWorld request)
         = Some {| status := 200; json := VideoResult res |}
         /\ duration res = 8).
Proof.
  split; [reflexivity|].
  destruct (hailuo_duration_sent_and_reported quickWorld request)
    as (_ & Hsent & _ & Hanswered & _).
  split.
  - exact (Hsent "u1" frame "slow pan to the left" (Some member) "user-key"
             "https://tmpfiles.org/dl/12345/image.png"
             eq_refl eq_refl eq_refl eq_refl eq_refl eq_refl eq_refl).
  - refine (Hanswered "u1" frame "slow pan to the left" (Some member) "user-key"
              "https://tmpfiles.org/dl/12345/image.png" "pred-1" 1%nat doneAnswer
              eq_refl eq_refl eq_refl eq_refl eq_refl eq_refl eq_refl eq_refl
              _ _ _ eq_refl eq_refl).
    + unfold maxIterations. lia.
    + intros j Hj. assert (j = 1%nat) as -> by lia.
      split; [vm_compute; discriminate|]. split; reflexivity.
    + vm_compute. discriminate.
Defined.

(** Three polls answered, the fourth request fails: the loop is left with
    the repeated-failure error although no poll failed before. *)
Lemma poll_failure_aborts_iff_counter_exceeds_three_witness :
  pollLoop flakyWorld frame 8 "user-key" "pred-1" 59 3 15000
  = ([Now 15000; Sleep pollInterval; PollPrediction "user-key" "pred-1"],
     Raise repeatedFailureError).
Proof.
  exact (poll_failure_aborts_iff_counter_exceeds_three
           flakyWorld frame 8 "user-key" "pred-1" 58 3 15000
           (ErrorObj "fetch failed")
           ltac:(unfold maxPollingTime, Z.le; cbn; discriminate) eq_refl eq_refl).
Defined.

Lemma polling_loop_terminates_witness :
  (maxIterations <= 100)%nat
  /\ exists (m : nat) (tEnd : list Event) (out : Step Response unit),
       pollLoop flakyWorld frame 8 "user-key" "pred-1" 100 0%nat 0
       = ((pollTrace flakyWorld "user-key" "pred-1" 1 m ++ tEnd)%list, out)
       /\ (m < maxIterations)%nat
       /\ (forall j, (1 <= j <= m)%nat -> continues flakyWorld j)
       /\ LoopEnd flakyWorld frame 8 "user-key" "pred-1" m tEnd out.
Proof.
  assert (Hfuel : (maxIterations <= 100)%nat)
    by (apply Nat.leb_le; reflexivity).
  split; [exact Hfuel|].
  exact (proj2 (polling_loop_terminates flakyWorld frame 8 "user-key" "pred-1"
                  100 Hfuel)).
Defined.


(** C2 as stated fails.  In [flakyWorld] the loop is left with the
    repeated-failure error: no poll reported an error status, and it is
    neither a success nor the timeout.  In [lateWorld] iteration 59 starts
    at 295800 ms, within the bound; its poll reports success and the 200
    response is produced at 300900 ms, after the 5-minute bound. *)
Lemma polling_loop_stated_ends_counterexample :
  ~ statedEnd flakyWorld
      (pollLoop flakyWorld frame 8 "user-key" "pred-1" maxIterations 0%nat 0)
  /\ ~ statedEnd lateWorld
         (pollLoop lateWorld frame 8 "user-key" "pred-1" maxIterations 0%nat 0).
Proof.
  split.
  - set (run := pollLoop flakyWorld frame 8 "user-key" "pred-1" maxIterations 0%nat 0).
    assert (Hs : snd run = Raise repeatedFailureError) by (vm_compute; reflexivity).
    unfold statedEnd. rewrite Hs.
    intros [(r & n & pj & H & _) | [(n & pj & Hf & He & _) | (el & H)]].
    + discriminate H.
    + cbn [pollFetch flakyWorld worldWith] in Hf.
      destruct (Nat.eqb n 4); [discriminate Hf|].
      injection Hf as <-. discriminate He.
    + discriminate H.
  - set (run := pollLoop lateWorld frame 8 "user-key" "pred-1" maxIterations 0%nat 0).
    assert (Hs : snd run
                 = Return_ {| status := 200;
                              json := VideoResult
                                        (successResult frame 8
                                           "https://cdn.example/video.mp4") |})
      by (vm_compute; reflexivity).
    assert (Hc : lastClock (fst run) 0 = 300900) by (vm_compute; reflexivity).
    unfold statedEnd. rewrite Hs, Hc.
    intros [(r & n & pj & _ & _ & _ & _ & H) | [(n & pj & _ & _ & H) | (el & H)]].
    + unfold maxPollingTime in H. lia.
    + discriminate H.
    + discriminate H.
Qed.

Lemma splitScenesForExportMulti_parts_witness :
  (0 < 3)%nat
  /\ LongformExport.parts nat (LongformExport.splitScenesForExportMulti nat 3 sevenScenes)
     = [[1; 2; 3]; [4; 5; 6]; [7]]%nat
  /\ concat (LongformExport.parts nat
               (LongformExport.splitScenesForExportMulti nat 3 sevenScenes))
     = LongformExport.scenes nat sevenScenes.
Proof.
  split; [exact (Nat.lt_0_succ 2)|]. split; [reflexivity|].
  exact (proj2 (proj2 (proj2
           (splitScenesForExportMulti_parts nat 3 (Nat.lt_0_succ 2) sevenScenes)))).
Defined.
End Instances.

(* ================================================================== *)
(** ** Further properties of the code *)
(* ================================================================== *)

Section StringFacts.
Import JS Measures.

Lemma string_app_assoc (a b c : string) : ((a ++ b) ++ c = a ++ (b ++ c))%string.
Proof. induction a as [|x a IH]; [reflexivity|]. cbn [append]. rewrite IH. reflexivity. Qed.

Lemma string_app_nil_r (a : string) : (a ++ "" = a)%string.
Proof. induction a as [|x a IH]; [reflexivity|]. cbn [append]. rewrite IH. reflexivity. Qed.

Lemma prefix_nil (s : string) : prefix "" s = true.
Proof. destruct s; reflexivity. Qed.

Lemma prefix_app_l (kw a b : string) :
  prefix kw a = true -> prefix kw (a ++ b) = true.
Proof.
  revert a. induction kw as [|k kw IH]; intros a H; [apply prefix_nil|].
  destruct a as [|c a]; [discriminate H|].
  cbn [prefix append] in *.
  destruct (ascii_dec k c); [apply IH; exact H | discriminate H].
Qed.

Lemma includes_app_l (a b kw : string) :
  includes a kw = true -> includes (a ++ b) kw = true.
Proof.
  induction a as [|c a IH]; intros H.
  - cbn in H. destruct kw; [destruct b; reflexivity|discriminate H].
  - cbn [includes] in H. cbn [append includes].
    destruct (prefix kw (String c a)) eqn:Hp.
    + change (String c (a ++ b)) with (String c a ++ b).
      rewrite (prefix_app_l _ _ _ Hp). reflexivity.
    + rewrite (IH H). destruct (prefix kw (String c (a ++ b))); reflexivity.
Qed.

Lemma includes_app_r (a b kw : string) :
  includes b kw = true -> includes (a ++ b) kw = true.
Proof.
  induction a as [|c a IH]; intros H; [exact H|].
  cbn [append includes]. rewrite (IH H).
  destruct (prefix kw (String c (a ++ b))); reflexivity.
Qed.

Lemma lacks_cons (k c : ascii) (s : string) :
  lacks k (String c s) = (negb (Ascii.eqb c k) && lacks k s)%bool.
Proof. reflexivity. Qed.

Lemma lacks_app (k : ascii) (a b : string) :
  lacks k (a ++ b) = (lacks k a && lacks k b)%bool.
Proof.
  induction a as [|c a IH]; [reflexivity|].
  cbn [append]. rewrite !lacks_cons, IH. apply andb_assoc.
Qed.

(** A keyword whose first character does not occur in a text does not
    occur in it. *)
Lemma includes_lacks (k : ascii) (kw s : string) :
  lacks k s = true -> includes s (String k kw) = false.
Proof.
  induction s as [|c s IH]; intros H; [reflexivity|].
  rewrite lacks_cons in H. apply andb_prop in H. destruct H as [Hc Hs].
  cbn [includes prefix].
  destruct (ascii_dec k c) as [->|_].
  - rewrite Ascii.eqb_refl in Hc. discriminate Hc.
  - apply IH. exact Hs.
Qed.

(** Text put before [b] in which the first character of the keyword does
    not occur does not change whether the keyword occurs. *)
Lemma includes_app_lacks (k : ascii) (kw a b : string) :
  lacks k a = true -> includes (a ++ b) (String k kw) = includes b (String k kw).
Proof.
  induction a as [|c a IH]; intros H; [reflexivity|].
  rewrite lacks_cons in H. apply andb_prop in H. destruct H as [Hc Ha].
  cbn [append includes prefix].
  destruct (ascii_dec k c) as [->|_].
  - rewrite Ascii.eqb_refl in Hc. discriminate Hc.
  - apply IH. exact Ha.
Qed.

Lemma prefix_app_disjoint (c : string) :
  forall kw N, disjointFrom kw c = true -> prefix kw (N ++ c) = prefix kw N.
Proof.
  induction kw as [|k kw IH]; intros N Hd; [rewrite !prefix_nil; reflexivity|].
  assert (Hd' : disjointFrom kw c = true).
  { unfold disjointFrom in *. rewrite forallb_forall in *.
    intros x Hx. specialize (Hd x Hx). rewrite lacks_cons in Hd.
    apply andb_prop in Hd. exact (proj2 Hd). }
  destruct N as [|n N].
  - cbn [append]. destruct c as [|ch c]; [reflexivity|].
    cbn [prefix]. destruct (ascii_dec k ch) as [->|_]; [|reflexivity].
    exfalso. unfold disjointFrom in Hd. cbn [list_ascii_of_string forallb] in Hd.
    rewrite lacks_cons, Ascii.eqb_refl in Hd. discriminate Hd.
  - cbn [append prefix]. destruct (ascii_dec k n); [apply IH; exact Hd'|reflexivity].
Qed.

(** Text appended to [N] that shares no character with the keyword does
    not change whether the keyword occurs. *)
Lemma includes_app_disjoint (kw c : string) :
  disjointFrom kw c = true -> forall N, includes (N ++ c) kw = includes N kw.
Proof.
  intros Hd.
  assert (Hc : forall c', (exists pre, c = pre ++ c') ->
                          includes c' kw = prefix kw "").
  { induction c' as [|ch c' IH]; intros [pre Hpre];
      [cbn [includes]; destruct (prefix kw ""); reflexivity|].
    assert (Hd' : disjointFrom kw (String ch c') = true).
    { unfold disjointFrom in *. rewrite forallb_forall in *.
      intros x Hx. apply Hd. subst c.
      clear - Hx. induction pre as [|p pre IHp]; [exact Hx|].
      cbn [append list_ascii_of_string]. right. exact IHp. }
    cbn [includes].
    pose proof (prefix_app_disjoint (String ch c') kw "" Hd') as Hp.
    cbn [append] in Hp. rewrite Hp.
    destruct (prefix kw "") eqn:E; [reflexivity|].
    apply IH.
    exists (pre ++ String ch ""). subst c.
    rewrite string_app_assoc. reflexivity. }
  induction N as [|n N IH].
  - cbn [append]. rewrite (Hc c); [|exists ""; reflexivity].
    cbn [includes]. destruct (prefix kw ""); reflexivity.
  - cbn [append includes].
    change (String n (N ++ c)) with (String n N ++ c).
    rewrite (prefix_app_disjoint c kw (String n N) Hd), IH. reflexivity.
Qed.

Lemma string_of_uint_decimal (u : Decimal.uint) :
  forallb isDecimalChar (list_ascii_of_string (NilEmpty.string_of_uint u)) = true.
Proof.
  induction u; cbn [NilEmpty.string_of_uint list_ascii_of_string forallb];
    try rewrite IHu; reflexivity.
Qed.

(** [String(n)] is made of decimal digits and, at most, a minus sign. *)
Lemma stringOfZ_decimal (z : Z) :
  forallb isDecimalChar (list_ascii_of_string (stringOfZ z)) = true.
Proof.
  unfold stringOfZ, NilZero.string_of_int, NilZero.string_of_uint.
  destruct (Z.to_int z) as [u|u].
  - destruct u; try apply string_of_uint_decimal; reflexivity.
  - cbn [list_ascii_of_string forallb].
    destruct u; try (rewrite string_of_uint_decimal; reflexivity); reflexivity.
Qed.

(** A character that is no decimal character does not occur in
    [String(n)]. *)
Lemma stringOfZ_lacks (k : ascii) (z : Z) :
  isDecimalChar k = false -> lacks k (stringOfZ z) = true.
Proof.
  intros Hk. pose proof (stringOfZ_decimal z) as Hz.
  unfold lacks. rewrite forallb_forall in *. intros c Hc.
  specialize (Hz c Hc).
  destruct (Ascii.eqb c k) eqn:E; [|reflexivity].
  apply Ascii.eqb_eq in E. subst c. congruence.
Qed.

Lemma prefix_refl_app (p b : string) : prefix p (p ++ b) = true.
Proof.
  induction p as [|c p IH]; [apply prefix_nil|].
  cbn [append prefix]. destruct (ascii_dec c c); [exact IH|congruence].
Qed.

Lemma substring_all (b : string) : substring 0 (String.length b) b = b.
Proof. induction b as [|c b IH]; [reflexivity|]. cbn. rewrite IH. reflexivity. Qed.

Lemma substring_drop (p b : string) :
  substring (String.length p) (String.length (p ++ b) - String.length p) (p ++ b) = b.
Proof.
  induction p as [|c p IH].
  - cbn [append String.length]. rewrite Nat.sub_0_r. apply substring_all.
  - cbn [append String.length substring]. exact IH.
Qed.

(** [s.replace(pat, by)] on a text that starts with the pattern. *)
Lemma replace_here (pat by_ b : string) :
  replace (pat ++ b) pat by_ = by_ ++ b.
Proof.
  destruct pat as [|c pat].
  - cbn [append]. destruct b as [|x b]; [reflexivity|].
    cbn [replace prefix String.length]. rewrite Nat.sub_0_r.
    change (substring 0 (S (String.length b)) (String x b))
      with (substring 0 (String.length (String x b)) (String x b)).
    rewrite substring_all. reflexivity.
  - change (String c pat ++ b) with (String c (pat ++ b)).
    cbn [replace].
    change (String c (pat ++ b)) with (String c pat ++ b).
    rewrite prefix_refl_app, substring_drop. reflexivity.
Qed.

(** [s.replace(pat, by)] goes past a character at which the pattern does
    not start. *)
Lemma replace_skip (c : ascii) (s pat by_ : string) :
  prefix pat (String c s) = false ->
  replace (String c s) pat by_ = String c (replace s pat by_).
Proof. intros H. cbn [replace]. rewrite H. reflexivity. Qed.

(** A text of which the pattern is a prefix starts with the pattern. *)
Lemma prefix_true_app (pat s : string) :
  prefix pat s = true -> exists rest, s = pat ++ rest.
Proof.
  revert s. induction pat as [|c pat IH]; intros s H.
  - exists s. reflexivity.
  - destruct s as [|x s]; [discriminate H|]. cbn [prefix] in H.
    destruct (ascii_dec c x) as [->|]; [|discriminate H].
    destruct (IH s H) as [rest ->]. exists rest. reflexivity.
Qed.

(** [s.replace(pat, by)] replaces the first occurrence of the pattern: the
    one before which no other starts. *)
Lemma replace_first (pre pat by_ rest : string) :
  (forall pre' rest',
      pre ++ pat ++ rest = pre' ++ pat ++ rest' ->
      (String.length pre <= String.length pre')%nat) ->
  replace (pre ++ pat ++ rest) pat by_ = pre ++ by_ ++ rest.
Proof.
  induction pre as [|c pre IH]; intros Hfirst.
  - cbn [append]. apply replace_here.
  - cbn [append]. rewrite replace_skip.
    + f_equal. apply IH. intros pre' rest' H.
      specialize (Hfirst (String c pre') rest').
      cbn [append String.length] in Hfirst. rewrite H in Hfirst.
      specialize (Hfirst eq_refl). lia.
    + destruct (prefix pat (String c (pre ++ pat ++ rest))) eqn:E; [|reflexivity].
      destruct (prefix_true_app _ _ E) as [rest' H].
      specialize (Hfirst "" rest'). cbn [append String.length] in Hfirst.
      specialize (Hfirst H). lia.
Qed.

(** A text in which the pattern occurs splits around an occurrence. *)
Lemma includes_true_app (s pat : string) :
  includes s pat = true -> exists pre rest, s = pre ++ pat ++ rest.
Proof.
  induction s as [|c s IH]; cbn [includes]; intros H.
  - destruct (prefix pat "") eqn:E; [|discriminate H].
    destruct (prefix_true_app _ _ E) as [rest ->]. exists "", rest. reflexivity.
  - destruct (prefix pat (String c s)) eqn:E.
    + destruct (prefix_true_app _ _ E) as [rest ->]. exists "", rest. reflexivity.
    + destruct (IH H) as (pre & rest & ->). exists (String c pre), rest. reflexivity.
Qed.

(** [s.replace(pat, by)] leaves a text without the pattern as it is. *)
Lemma replace_absent (s pat by_ : string) :
  includes s pat = false -> replace s pat by_ = s.
Proof.
  induction s as [|c s IH]; intros H; cbn [includes replace] in *.
  - destruct (prefix pat ""); [discriminate H|reflexivity].
  - destruct (prefix pat (String c s)); [discriminate H|].
    rewrite (IH H). reflexivity.
Qed.
End StringFacts.

Section Outcomes.
Import Effects.

Context {Event Response : Type}.
Variable S : Response -> Prop.

(** A block that answers the request only with responses in [S]. *)
Lemma bind_returns {A B} (m : Prog Event Response A) (k : A -> Prog Event Response B) :
  (forall r, snd m = Return_ r -> S r) ->
  (forall a r, snd m = Next a -> snd (k a) = Return_ r -> S r) ->
  forall r, snd (bind m k) = Return_ r -> S r.
Proof.
  intros Hm Hk r. destruct m as [t [a|r0|e|]]; cbn [bind snd] in *.
  - specialize (Hk a r eq_refl). destruct (k a) as [t' s]. exact Hk.
  - intros H. injection H as <-. apply Hm. reflexivity.
  - discriminate.
  - discriminate.
Qed.

Lemma tryCatch_returns {A} (m : Prog Event Response A) (h : Thrown -> Prog Event Response A) :
  (forall r, snd m = Return_ r -> S r) ->
  (forall e r, snd m = Raise e -> snd (h e) = Return_ r -> S r) ->
  forall r, snd (tryCatch m h) = Return_ r -> S r.
Proof.
  intros Hm Hh r. destruct m as [t [a|r0|e|]]; cbn [tryCatch snd] in *;
    try discriminate.
  - intros H. injection H as <-. apply Hm. reflexivity.
  - specialize (Hh e r eq_refl). destruct (h e) as [t' s]. exact Hh.
Qed.
End Outcomes.

Section GenerateVideoMore.
Import JS Effects Lib GenerateVideo PollingSpec HandlerSpec Measures.
Local Open Scope Z_scope.

Lemma countPolls_app (t1 t2 : list Event) :
  countPolls (t1 ++ t2) = (countPolls t1 + countPolls t2)%nat.
Proof. unfold countPolls. rewrite filter_app, length_app. reflexivity. Qed.

Lemma countPolls_pollTrace (w : World) (key id : string) (from count : nat) :
  countPolls (pollTrace w key id from count) = count.
Proof.
  unfold pollTrace. revert from.
  induction count as [|count IH]; intros from; [reflexivity|].
  cbn [seq flat_map]. rewrite countPolls_app, IH. reflexivity.
Qed.

Lemma errorResponse_status (e : Thrown) :
  In (status (errorResponse e)) [403; 429; 500].
Proof.
  unfold errorResponse. destruct e as [msg|txt]; [|cbn; auto].
  repeat match goal with
         | |- context [if ?b then _ else _] => destruct b
         end; cbn; auto.
Qed.

(** X1. A request that is not an authenticated POST carrying an image and a
    motion prompt is answered without any external call (no user lookup, no
    upload, nothing sent to Hailuo), and these are the only runs without a
    call: OPTIONS gets 200 without a body, another method 405, a POST
    without authentication 401, an authenticated POST without a body the
    answer of the outer [catch] to the TypeError of the destructuring, and
    an authenticated POST whose body lacks the image data or the prompt
    400, the image being checked first. *)
Theorem generate_video_rejects_without_calls (w : World) (req : Request) :
  (fst (handler w req) = []
   <-> (method req <> POST \/ authenticatedUser w = None \/ validBody req = None))
  /\ (method req = OPTIONS ->
      snd (handler w req) = Some {| status := 200; json := NoBody |})
  /\ (forall m, method req = OtherMethod m ->
        snd (handler w req)
        = Some {| status := 405; json := ApiError "Method not allowed" None |})
  /\ (method req = POST -> authenticatedUser w = None ->
      snd (handler w req)
      = Some {| status := 401;
                json := AuthFailure (orOpt (authError (requireAuth w))
                                           "로그인이 필요합니다.") |})
  /\ (forall e,
        method req = POST -> authenticatedUser w <> None -> body req = Throw e ->
        snd (handler w req) = Some (errorResponse e))
  /\ (forall body_,
        method req = POST -> authenticatedUser w <> None ->
        body req = Ok body_ -> validBody req = None ->
        snd (handler w req)
        = Some {| status := 400;
                  json := ApiError
                            (match sourceImage body_ with
                             | Some image =>
                                 if truthy (data image) then "motionPrompt is required"
                                 else "sourceImage is required"
                             | None => "sourceImage is required"
                             end) None |}).
Proof.
  split; [|split; [|split; [|split; [|split]]]].
  - destruct (handler_run w req) as (r & _ & Hrun).
    destruct Hrun as
      [ Hm | m0 Hm | msg Hm Hauth | uid e0 Hm Hauth Hnobody
    | uid body_ msg Hm Hauth Hbody Hv
      | uid image p e Hm Hauth Hv Hu
      | uid image p user Hm Hauth Hv Hu Hkey
      | uid image p user key e Hm Hauth Hv Hu Hkey Hk Hup
      | uid image p user key url e r0 Hm Hauth Hv Hu Hkey Hk Hup Hcr Hne
      | uid image p user key url id m tEnd out r0 Hm Hauth Hv Hu Hkey Hk Hup Hcr
          Hlt Hcont Hend Hans ];
      split; intros Hx; try discriminate Hx; try reflexivity;
      try (left; congruence); try (right; left; assumption);
      try (right; right; assumption);
      try (right; right; unfold validBody; rewrite Hnobody; reflexivity);
      destruct Hx as [Hx|[Hx|Hx]]; congruence.
  - intros Hm. unfold handler. rewrite Hm. reflexivity.
  - intros m Hm. unfold handler. rewrite Hm. reflexivity.
  - intros Hm Hauth. rewrite (handler_POST w req Hm), Hauth. reflexivity.
  - intros e Hm Hauth Hb. rewrite (handler_POST w req Hm).
    destruct (authenticatedUser w) as [uid|]; [|congruence].
    unfold finish, tryBlock. rewrite Hb. reflexivity.
  - intros body_ Hm Hauth Hb Hv. rewrite (handler_POST w req Hm).
    destruct (authenticatedUser w) as [uid|]; [|congruence].
    unfold finish. rewrite (tryBlock_body w req uid body_ Hb).
    unfold tryBody, validBody in *. rewrite Hb in Hv.
    destruct (sourceImage body_) as [im|]; [|reflexivity].
    destruct (truthy (data im)); cbn [negb andb] in *; [|reflexivity].
    destruct (motionPrompt body_) as [q|]; cbn [truthyOpt]; [|reflexivity].
    destruct (truthy q); [discriminate Hv|reflexivity].
Qed.

Lemma pollOnce_returns (w : World) image d key id n after r :
  snd (pollOnce w image d key id n after) = Return_ r -> status r = 200.
Proof.
  rewrite pollOnce_cases.
  destruct (pollFetch w n) as [pj|e];
    repeat match goal with
           | |- context [if ?b then _ else _] => destruct b
           end; cbn [snd]; intros H; try discriminate H.
  injection H as <-. reflexivity.
Qed.

Lemma pollLoop_returns (w : World) image d key id (fuel : nat) :
  forall pc el r,
    snd (pollLoop w image d key id fuel pc el) = Return_ r -> status r = 200.
Proof.
  induction fuel as [|fuel IH]; intros pc el; [discriminate|].
  cbn [pollLoop].
  apply (bind_returns (fun r => status r = 200)); [discriminate|]. intros _ r0 _.
  destruct (el >? maxPollingTime); [discriminate|].
  revert r0. apply (bind_returns (fun r => status r = 200)); [discriminate|].
  intros _ r1 _. cbv zeta.
  revert r1. apply (bind_returns (fun r => status r = 200)).
  - intros r2. apply pollOnce_returns.
  - intros _ r2 _. apply IH.
Qed.

Lemma upload_never_returns (w : World) (base64 mime : string) (r : Response) :
  snd (uploadImageToTempUrl w base64 mime) <> Return_ r.
Proof.
  destruct (upload_outcome w base64 mime) as [[url ->]|[e ->]]; discriminate.
Qed.

Lemma tryBlock_returns (w : World) (req : Request) (uid : string) :
  forall r, snd (tryBlock w req uid) = Return_ r -> In (status r) [200; 400; 403; 500].
Proof.
  destruct (body req) as [body_|e0] eqn:Hb.
  2:{ unfold tryBlock. rewrite Hb. discriminate. }
  rewrite (tryBlock_body w req uid body_ Hb). unfold tryBody.
  destruct (sourceImage body_) as [im|];
    [|intros r H; injection H as <-; cbn; auto].
  destruct (negb (truthy (data im))); [intros r H; injection H as <-; cbn; auto|].
  destruct (negb (truthyOpt (motionPrompt body_)));
    [intros r H; injection H as <-; cbn; auto|].
  apply (bind_returns (fun r => In (status r) [200; 400; 403; 500]));
    [discriminate|]. intros _ r _.
  revert r. apply (bind_returns (fun r => In (status r) [200; 400; 403; 500])).
  { intros r. destruct (findUserById w uid); discriminate. }
  intros user r _. cbv zeta.
  destruct (negb (truthyOpt (selectHailuoKey user (env w))));
    [intros H; injection H as <-; cbn; auto|].
  revert r. apply (bind_returns (fun r => In (status r) [200; 400; 403; 500])).
  { intros r. rewrite uploadBlock_cases. cbn [snd].
    destruct (snd (uploadImageToTempUrl w (data im) (mimeType im))) eqn:E;
      intros H; try discriminate H.
    - exfalso. exact (upload_never_returns w _ _ _ E).
    - injection H as <-. cbn; auto. }
  intros url r _. revert r.
  apply (bind_returns (fun r => In (status r) [200; 400; 403; 500])).
  { intros r. rewrite createBlock_cases. cbn [snd].
    match goal with
    | |- context [createPrediction w ?k ?p ?u ?d] =>
        destruct (create_outcome w k p u d) as [[id ->]|[e ->]]; [discriminate|]
    end.
    destruct (includes (messageOf e) "401" || includes (messageOf e) "Unauthorized")%bool;
      intros H; [injection H as <-; cbn; auto | discriminate H]. }
  intros id r _ H. apply pollLoop_returns in H. rewrite H. cbn; auto.
Qed.

(** X2. Every request to generate-video is answered, with one of the
    statuses 200, 400, 401, 403, 405, 429 and 500, and after at most 61
    status polls: an iteration polls only if it starts within 300000 ms,
    and each one takes the 5000 ms it sleeps at least. *)
Theorem generate_video_answers_within_61_polls (w : World) (req : Request) :
  exists r,
    snd (handler w req) = Some r
    /\ In (status r) [200; 400; 401; 403; 405; 429; 500]
    /\ (countPolls (fst (handler w req)) <= 61)%nat.
Proof.
  destruct (handler_run w req) as (r & Hr & Hrun).
  exists r. split; [exact Hr|]. split.
  - destruct (method req) as [| |m] eqn:Hm.
    + unfold handler in Hr. rewrite Hm in Hr. injection Hr as <-. cbn; auto.
    + rewrite (handler_POST w req Hm) in Hr.
      destruct (authenticatedUser w) as [uid|];
        [|injection Hr as <-; cbn; auto 10].
      unfold finish in Hr. cbn [snd] in Hr.
      destruct (snd (tryBlock w req uid)) as [a|r0|e|] eqn:E; cbn [answer] in Hr;
        try discriminate Hr; injection Hr as <-.
      * pose proof (tryBlock_returns w req uid r0 E) as Hin. cbn in Hin |- *.
        intuition.
      * pose proof (errorResponse_status e) as Hin. cbn in Hin |- *. intuition.
    + unfold handler in Hr. rewrite Hm in Hr. injection Hr as <-. cbn; auto 10.
  - destruct Hrun as
      [ Hm | m0 Hm | msg Hm Hauth | uid e0 Hm Hauth Hnobody
    | uid body_ msg Hm Hauth Hbody Hv
      | uid image p e Hm Hauth Hv Hu
      | uid image p user Hm Hauth Hv Hu Hkey
      | uid image p user key e Hm Hauth Hv Hu Hkey Hk Hup
      | uid image p user key url e r0 Hm Hauth Hv Hu Hkey Hk Hup Hcr Hne
      | uid image p user key url id m tEnd out r0 Hm Hauth Hv Hu Hkey Hk Hup Hcr
          Hlt Hcont Hend Hans ];
      try (cbn; lia).
    rewrite !countPolls_app, countPolls_pollTrace.
    change (countPolls [FindUser uid; uploadEvent image;
                        CreatePrediction key
                          (createBodyOf (promptFor w p) url (requestedDuration req))])
      with 0%nat.
    assert (Hm61 : (m <= 61)%nat).
    { destruct m as [|m']; [lia|].
      destruct (Hcont (S m')) as [Hel _]; [lia|]. cbn [pred] in Hel.
      pose proof (elapsedAt_lower_bound w m') as Hlow.
      unfold maxPollingTime, pollInterval in *. lia. }
    destruct Hend as [Hlate | pj url0 Hin Hf Hs Ho Ht | pj Hin Hf Hn He
                      | e Hin Hf Hv' | e Hin Hf Hv' Hc];
      try (pose proof (elapsedAt_lower_bound w m) as Hlow;
           unfold maxPollingTime, pollInterval in *;
           rewrite ?countPolls_app; cbn; lia).
Qed.

Lemma upload_url (w : World) (base64 mime : string) (uj : UploadJson) (u : string) :
  uploadFetch w = UploadOk (Ok uj) ->
  up_url uj = Some u ->
  forall url,
    snd (uploadImageToTempUrl w base64 mime) = Next url ->
    url = replace u "tmpfiles.org/" "tmpfiles.org/dl/".
Proof.
  intros Hf Hu url. unfold uploadImageToTempUrl. rewrite Hf.
  cbn [await bind emit ret raise snd]. rewrite Hu.
  destruct (negb (isSuccess (up_status uj)) || negb (truthyOpt (Some u)))%bool;
    cbn [snd]; intros H; [discriminate H|].
  injection H as <-. reflexivity.
Qed.

(** X4. The image URL sent to Hailuo is the URL that tmpfiles.org
    answered to the upload, with "dl/" put after the first "tmpfiles.org/",
    wherever in the URL that is: when the answer is
    <pre>tmpfiles.org/<rest> and no occurrence of "tmpfiles.org/" starts
    earlier, <pre>tmpfiles.org/dl/<rest> is sent, later occurrences staying
    as they are.  So an answer https://tmpfiles.org/<rest> is sent as
    https://tmpfiles.org/dl/<rest>, and a URL in which "tmpfiles.org/" does
    not occur is sent as it is. *)
Theorem generate_video_sends_direct_url
  (w : World) (req : Request) (uj : UploadJson) (u key : string) (cbody : CreateBody) :
  uploadFetch w = UploadOk (Ok uj) ->
  up_url uj = Some u ->
  In (CreatePrediction key cbody) (fst (handler w req)) ->
  cb_image_url cbody = replace u "tmpfiles.org/" "tmpfiles.org/dl/"
  /\ (forall pre rest,
         u = pre ++ "tmpfiles.org/" ++ rest ->
         (forall pre' rest',
             u = pre' ++ "tmpfiles.org/" ++ rest' ->
             (String.length pre <= String.length pre')%nat) ->
         cb_image_url cbody = pre ++ "tmpfiles.org/dl/" ++ rest)
  /\ (forall rest, u = "https://tmpfiles.org/" ++ rest ->
                   cb_image_url cbody = "https://tmpfiles.org/dl/" ++ rest)
  /\ ((forall pre rest, u <> pre ++ "tmpfiles.org/" ++ rest) -> cb_image_url cbody = u)
  /\ (includes u "tmpfiles.org/" = false -> cb_image_url cbody = u).
Proof.
  intros Hf Hu Hin.
  assert (Hurl : cb_image_url cbody = replace u "tmpfiles.org/" "tmpfiles.org/dl/").
  { destruct (method req) eqn:Hm;
      try (rewrite handler_not_POST in Hin by congruence; contradiction).
    destruct (handler_POST_facts w req Hm) as (_ & Hcreate & _).
    destruct (Hcreate key cbody Hin) as (image & p & url & _ & _ & Hup & ->).
    cbn [createBodyOf cb_image_url].
    exact (upload_url w _ _ uj u Hf Hu url Hup). }
  split; [exact Hurl|]. split; [|split; [|split]].
  - intros pre rest -> Hfirst. rewrite Hurl. apply replace_first. exact Hfirst.
  - intros rest ->. rewrite Hurl.
    change ("https://tmpfiles.org/" ++ rest)
      with ("https://" ++ ("tmpfiles.org/" ++ rest)).
    cbn [append].
    rewrite !replace_skip by reflexivity.
    change (String "t" (String "m" (String "p" (String "f" (String "i" (String "l"
             (String "e" (String "s" (String "." (String "o" (String "r" (String "g"
             (String "/" rest)))))))))))))
      with ("tmpfiles.org/" ++ rest).
    rewrite replace_here. reflexivity.
  - intros Hnone. rewrite Hurl. apply replace_absent.
    destruct (includes u "tmpfiles.org/") eqn:E; [|reflexivity].
    destruct (includes_true_app _ _ E) as (pre & rest & H).
    exfalso. exact (Hnone pre rest H).
  - intros Habsent. rewrite Hurl. apply replace_absent. exact Habsent.
Qed.

(** The words by which the outer catch classifies an error occur in the
    message of a failed creation exactly when they occur in its cause. *)
Lemma creation_failure_words (msg : string) :
  let m := "Hailuo API 호출 실패: " ++ msg in
  includes m "PERMISSION_DENIED" = includes msg "PERMISSION_DENIED"
  /\ includes m "403" = includes msg "403"
  /\ includes m "Forbidden" = includes msg "Forbidden"
  /\ includes m "Unauthorized" = includes msg "Unauthorized"
  /\ includes m "QUOTA_EXCEEDED" = includes msg "QUOTA_EXCEEDED"
  /\ includes m "429" = includes msg "429"
  /\ includes m "Resource exhausted" = includes msg "Resource exhausted"
  /\ includes m "rate limit" = includes msg "rate limit"
  /\ includes m "Hailuo" = true.
Proof.
  cbv zeta.
  repeat (split; [first [reflexivity | apply includes_app_lacks; reflexivity]|]).
  reflexivity.
Qed.

(** X5. How a failed creation of the prediction is answered, after
    the user lookup, the upload and the one creating call, and without any
    poll.  A cause that mentions 401 or Unauthorized is answered 403 (the
    key is not valid).  Any other cause is wrapped as "Hailuo API 호출 실패:
    <cause>" and classified by the outer catch on the words of the cause:
    403 for PERMISSION_DENIED, 403 or Forbidden, 429 for QUOTA_EXCEEDED,
    429, Resource exhausted or rate limit, and otherwise 500 with the
    wrapped message as it is. *)
Theorem generate_video_creation_failure_answer
  (w : World) (req : Request) (uid : string) (image : ImageData) (p : string)
  (user : option User) (key url : string) (e : Thrown) :
  method req = POST ->
  authenticatedUser w = Some uid ->
  validBody req = Some (image, p) ->
  findUserById w uid = Ok user ->
  selectHailuoKey user (env w) = Some key ->
  truthy key = true ->
  snd (uploadImageToTempUrl w (data image) (mimeType image)) = Next url ->
  snd (createPrediction w key (promptFor w p) url (requestedDuration req)) = Raise e ->
  let msg := messageOf e in
  handler w req
  = ([FindUser uid; uploadEvent image;
      CreatePrediction key (createBodyOf (promptFor w p) url (requestedDuration req))],
     Some
       (if (includes msg "401" || includes msg "Unauthorized")%bool
        then {| status := 403;
                json := ApiError "Hailuo API 키가 유효하지 않습니다. 키를 확인하세요."
                                 (Some "PERMISSION_DENIED") |}
        else if (includes msg "PERMISSION_DENIED" || includes msg "403"
                 || includes msg "Forbidden")%bool
        then {| status := 403;
                json := ApiError "Hailuo API 접근 권한이 없습니다. API 키를 확인하세요."
                                 (Some "PERMISSION_DENIED") |}
        else if (includes msg "QUOTA_EXCEEDED" || includes msg "429"
                 || includes msg "Resource exhausted" || includes msg "rate limit")%bool
        then {| status := 429;
                json := ApiError "API 할당량을 초과했습니다. 잠시 후 다시 시도하세요."
                                 (Some "QUOTA_EXCEEDED") |}
        else {| status := 500;
                json := ApiError ("Hailuo API 호출 실패: " ++ msg)
                                 (Some "VIDEO_GENERATION_FAILED") |})).
Proof.
  intros Hm Hauth Hv Hu Hkey Hk Hup Hcr. cbv zeta.
  rewrite (handler_POST w req Hm), Hauth. unfold finish.
  rewrite (tryBlock_valid w req uid image p Hv), Hu.
  cbn [await bind emit ret app]. cbv zeta. rewrite Hkey. cbn [truthyOpt].
  rewrite Hk. cbn [negb]. rewrite uploadBlock_cases, Hup. cbn [bind].
  rewrite createBlock_cases, Hcr.
  destruct (includes (messageOf e) "401") eqn:H401; cbn [orb]; [reflexivity|].
  destruct (includes (messageOf e) "Unauthorized") eqn:Hun; [reflexivity|].
  cbn [bind fst snd app answer]. f_equal. f_equal.
  unfold errorResponse. cbv beta iota.
  destruct (creation_failure_words (messageOf e))
    as (-> & -> & -> & -> & -> & -> & -> & -> & ->).
  rewrite Hun, !orb_false_r, !orb_true_r, <- !orb_assoc.
  reflexivity.
Qed.
End GenerateVideoMore.

Section FoodVideoMore.
Import JS Effects Lib GenerateFoodVideo FoodHandlerSpec Measures.
Local Open Scope Z_scope.

Lemma countFoodPolls_app (t1 t2 : list Event) :
  countFoodPolls (t1 ++ t2) = (countFoodPolls t1 + countFoodPolls t2)%nat.
Proof. unfold countFoodPolls. rewrite filter_app, length_app. reflexivity. Qed.

Lemma countFoodPolls_bind {A B} (m : P A) (k : A -> P B) :
  countFoodPolls (fst (bind m k))
  = (countFoodPolls (fst m)
     + match snd m with Next a => countFoodPolls (fst (k a)) | _ => 0 end)%nat.
Proof.
  destruct m as [t [a|r|e|]]; cbn [bind fst snd]; try lia.
  destruct (k a) as [t' s]. cbn [fst]. apply countFoodPolls_app.
Qed.

Lemma food_pollOnce_polls (w : World) d key id n after :
  countFoodPolls (fst (pollOnce w d key id n after)) = 1%nat.
Proof.
  rewrite food_pollOnce_cases.
  destruct (pollFetch w n) as [e|[pj|]];
    repeat match goal with
           | |- context [if ?b then _ else _] => destruct b
           end; reflexivity.
Qed.

(** The polls of the loop and the iterations done before add up to 61 at
    most. *)
Lemma food_pollLoop_polls (w : World) d key id (fuel : nat) :
  forall (pc : nat) (el : Z),
    (pc <= 61)%nat ->
    pollInterval * Z.of_nat pc <= el ->
    (countFoodPolls (fst (pollLoop w d key id fuel pc el)) + pc <= 61)%nat.
Proof.
  induction fuel as [|fuel IH]; intros pc el Hpc Hel; [cbn; lia|].
  cbn [pollLoop]. rewrite countFoodPolls_bind. cbn [emit fst snd].
  change (countFoodPolls [Now el]) with 0%nat.
  destruct (el >? maxPollingTime) eqn:E; [cbn; lia|].
  rewrite Z.gtb_ltb, Z.ltb_ge in E.
  rewrite countFoodPolls_bind. cbn [emit fst snd].
  change (countFoodPolls [Sleep pollInterval]) with 0%nat.
  cbv zeta. rewrite countFoodPolls_bind, food_pollOnce_polls.
  assert (Hpc60 : (pc <= 60)%nat)
    by (unfold maxPollingTime, pollInterval in *; lia).
  destruct (snd (pollOnce w d key id (S pc)
                   (el + pollInterval + Z.of_N (iterationTime w (S pc)))));
    try lia.
  specialize (IH (S pc) (el + pollInterval + Z.of_N (iterationTime w (S pc)))).
  unfold pollInterval in *. lia.
Qed.

Lemma food_errorResponse_status (e : Thrown) :
  In (status (errorResponse e)) [403; 429; 500].
Proof.
  unfold errorResponse. destruct e as [msg|txt]; [|cbn; auto].
  repeat match goal with
         | |- context [if ?b then _ else _] => destruct b
         end; cbn; auto.
Qed.

Lemma food_upload_outcome (w : World) (image : FoodImage) :
  fst (uploadBlock w image)
  = [UploadImage ("food_image." ++ GenerateVideo.extensionOf (mimeType image))
       (mimeType image) (data image)]
  /\ ((exists url, snd (uploadBlock w image) = Next url)
      \/ (exists msg,
             snd (uploadBlock w image)
             = Return_ {| status := 500;
                          json := ApiError ("이미지 업로드 실패: " ++ msg)
                                           (Some "IMAGE_UPLOAD_FAILED") |})).
Proof.
  unfold uploadBlock, uploadImageToTempUrl.
  destruct (uploadFetch w) as [e|st|[uj|e]];
    cbn [await bind emit raise ret return_ tryCatch app fst snd];
    try (split; [reflexivity|right; eexists; reflexivity]).
  destruct (negb (GenerateVideo.isSuccess (GenerateVideo.up_status uj))
            || negb (truthyOpt (GenerateVideo.up_url uj)))%bool;
    cbn [await bind emit raise ret return_ tryCatch app fst snd];
    (split; [reflexivity|]); [right|left]; eexists; reflexivity.
Qed.

Lemma food_create_outcome (w : World) (key p url : string) :
  fst (createBlock w key p url) = [CreatePrediction key (requestBodyOf p url)]
  /\ ((exists id, snd (createBlock w key p url) = Next id)
      \/ snd (createBlock w key p url)
         = Return_ {| status := 403;
                      json := ApiError
                                "Hailuo API 키가 유효하지 않습니다. 설정에서 키를 확인하세요."
                                (Some "HAILUO_PERMISSION_DENIED") |}
      \/ (exists e, snd (createBlock w key p url) = Raise e)).
Proof.
  unfold createBlock, createPrediction.
  destruct (createFetch w) as [e|ok st txt [|e1|cj]];
    cbn [bind emit raise ret return_ tryCatch app fst snd];
    repeat match goal with
           | |- context [if ?b then _ else _] =>
               destruct b; cbn [bind emit raise ret return_ tryCatch app fst snd]
           end;
    (split; [reflexivity|]);
    first [ left; eexists; reflexivity
          | right; left; reflexivity
          | right; right; eexists; reflexivity ].
Qed.

Lemma food_pollLoop_returns (w : World) d key id (fuel : nat) :
  forall pc el r,
    snd (pollLoop w d key id fuel pc el) = Return_ r ->
    exists url, r = {| status := 200;
                       json := VideoResult {| videoUrl := url; duration := d |} |}.
Proof.
  induction fuel as [|fuel IH]; intros pc el; [discriminate|].
  cbn [pollLoop].
  set (S := fun r : Response =>
              exists url, r = {| status := 200;
                                 json := VideoResult {| videoUrl := url;
                                                        duration := d |} |}).
  apply (bind_returns S); [discriminate|]. intros _ r0 _.
  destruct (el >? maxPollingTime); [discriminate|].
  revert r0. apply (bind_returns S); [discriminate|].
  intros _ r1 _. cbv zeta.
  revert r1. apply (bind_returns S).
  - intros r2. rewrite food_pollOnce_cases.
    destruct (pollFetch w (Datatypes.S pc)) as [e|[pj|]];
      repeat match goal with
             | |- context [if ?b then _ else _] => destruct b
             end; cbn [snd]; intros H; try discriminate H.
    injection H as <-. eexists. reflexivity.
  - intros _ r2 _. apply IH.
Qed.

(** The run of the [try] block once the request is valid, the user found
    and a key selected. *)
Lemma food_tryBlock_with_key (w : World) (req : Request) uid image p user key :
  validBody req = Some (image, p) ->
  findUserById w uid = Ok user ->
  selectHailuoKey user (env w) = Some key ->
  truthy key = true ->
  tryBlock w req uid
  = bind (emit (FindUser uid)) (fun _ =>
    bind (uploadBlock w image) (fun imageUrl =>
    bind (createBlock w key p imageUrl) (fun predictionId =>
      pollLoop w (requestedDuration req)
        key predictionId maxIterations 0%nat 0))).
Proof.
  intros Hv Hu Hkey Hk.
  rewrite (food_tryBlock_valid w req uid image p Hv), Hu.
  cbn [await bind emit ret app]. cbv zeta. rewrite Hkey. cbn [truthyOpt].
  rewrite Hk. cbn [negb].
  destruct (uploadBlock w image) as [t1 [url|r|e|]]; cbn [bind]; try reflexivity.
  destruct (createBlock w key p url) as [t2 [id|r|e|]]; cbn [bind]; try reflexivity.
  destruct (pollLoop w _ key id maxIterations 0%nat 0) as [t3 s3]. reflexivity.
Qed.

(** The runs of a POST, by the point they reach. *)
Lemma food_runs (w : World) (req : Request) (uid : string) :
  (exists s, tryBlock w req uid = ([], s)
             /\ ((exists msg, s = Return_ {| status := 400; json := ApiError msg None |})
                 \/ exists e, s = Raise e))
  \/ (exists s, tryBlock w req uid = ([FindUser uid], s)
                /\ (s = Return_ keyMissingResponse \/ exists e, s = Raise e))
  \/ (exists image p user key,
         validBody req = Some (image, p)
         /\ findUserById w uid = Ok user
         /\ selectHailuoKey user (env w) = Some key
         /\ truthy key = true).
Proof.
  destruct (validBody req) as [[image p]|] eqn:Hv.
  2:{ left. destruct (food_tryBlock_invalid w req uid Hv)
        as [(e & _ & ->)|(body_ & msg & _ & ->)];
        eexists; (split; [reflexivity|]); [right|left]; eexists; reflexivity. }
  destruct (findUserById w uid) as [user|e] eqn:Hu.
  2:{ right; left. rewrite (food_tryBlock_valid w req uid image p Hv), Hu.
      eexists. split; [reflexivity|]. right. eexists. reflexivity. }
  destruct (selectHailuoKey user (env w)) as [key|] eqn:Hkey.
  2:{ right; left. rewrite (food_tryBlock_valid w req uid image p Hv), Hu.
      cbn [await bind emit ret app]. cbv zeta. rewrite Hkey.
      eexists. split; [reflexivity|]. left. reflexivity. }
  destruct (truthy key) eqn:Hk.
  2:{ right; left. rewrite (food_tryBlock_valid w req uid image p Hv), Hu.
      cbn [await bind emit ret app]. cbv zeta. rewrite Hkey. cbn [truthyOpt].
      rewrite Hk. eexists. split; [reflexivity|]. left. reflexivity. }
  right; right. exists image, p, user, key. auto.
Qed.

Lemma food_handler_not_POST (w : World) (req : Request) :
  method req <> GenerateVideo.POST ->
  fst (handler w req) = []
  /\ exists r, snd (handler w req) = Some r /\ In (status r) [200; 405]
                /\ forall res, json r <> VideoResult res.
Proof.
  unfold handler. destruct (method req); try congruence; intros _;
    (split; [reflexivity|]); eexists; (split; [reflexivity|]);
    (split; [cbn; auto|discriminate]).
Qed.

(** X6. Every request to generate-food-video is answered, with
    one of the statuses 200, 400, 401, 403, 405, 429 and 500, and after at
    most 61 status polls. *)
Theorem food_video_answers_within_61_polls (w : World) (req : Request) :
  exists r,
    snd (handler w req) = Some r
    /\ In (status r) [200; 400; 401; 403; 405; 429; 500]
    /\ (countFoodPolls (fst (handler w req)) <= 61)%nat.
Proof.
  destruct (method req) as [| |m] eqn:Hm.
  1,3: destruct (food_handler_not_POST w req) as (-> & r & Hr & Hs & _);
    [congruence|]; exists r; split; [exact Hr|]; split; [|cbn; lia];
    cbn in Hs |- *; intuition.
  rewrite (food_handler_POST w req Hm).
  destruct (authenticatedUser w) as [uid|].
  2:{ eexists. split; [reflexivity|]. split; [cbn; auto 10|cbn; lia]. }
  cbn [fst snd].
  destruct (food_runs w req uid)
    as [(s & -> & Hcase) | [(s & -> & Hcase) | (image & p & user & key & Hv & Hu & Hkey & Hk)]].
  - destruct Hcase as [[msg ->] | [e ->]]; cbn [snd answer fst].
    + eexists. split; [reflexivity|]. split; [cbn; auto|cbn; lia].
    + eexists. split; [reflexivity|]. split; [|cbn; lia].
      pose proof (food_errorResponse_status e) as Hin. cbn in Hin |- *. intuition.
  - destruct Hcase as [-> | [e ->]]; cbn [snd answer fst].
    + eexists. split; [reflexivity|]. split; [cbn; auto|cbn; lia].
    + eexists. split; [reflexivity|]. split; [|cbn; lia].
      pose proof (food_errorResponse_status e) as Hin. cbn in Hin |- *. intuition.
  - rewrite (food_tryBlock_with_key w req uid image p user key Hv Hu Hkey Hk).
    set (d := requestedDuration req).
    destruct (food_upload_outcome w image) as [Hut [[url Hus] | [msg Hus]]];
      destruct (uploadBlock w image) as [t1 s1]; cbn [fst snd] in Hut, Hus;
      subst t1 s1; cbn [bind emit app fst snd].
    2:{ eexists. split; [reflexivity|]. split; [cbn; auto 10|cbn; lia]. }
    destruct (food_create_outcome w key p url) as [Hct [[id Hcs] | [Hcs | [e Hcs]]]];
      destruct (createBlock w key p url) as [t2 s2]; cbn [fst snd] in Hct, Hcs;
      subst t2 s2; cbn [bind emit app fst snd].
    2:{ eexists. split; [reflexivity|]. split; [cbn; auto 10|cbn; lia]. }
    2:{ eexists. split; [reflexivity|]. split; [|cbn; lia].
        pose proof (food_errorResponse_status e) as Hin. cbn in Hin |- *. intuition. }
    pose proof (food_pollLoop_polls w d key id maxIterations 0%nat 0) as Hpolls.
    pose proof (food_pollLoop_returns w d key id maxIterations 0%nat 0) as Hret.
    destruct (food_pollLoop_answers w d key id maxIterations 0%nat 0) as [r Hr];
      try (unfold maxIterations, pollInterval; lia).
    destruct (pollLoop w d key id maxIterations 0%nat 0) as [t3 s3].
    cbn [fst snd] in *.
    exists r. split; [exact Hr|]. split.
    + destruct s3 as [a|r0|e|]; cbn [answer] in Hr; try discriminate Hr;
        injection Hr as <-.
      * destruct (Hret r0 eq_refl) as [u ->]. cbn; auto.
      * pose proof (food_errorResponse_status e) as Hin. cbn in Hin |- *. intuition.
    + change (countFoodPolls (FindUser uid :: ?[x] :: ?[y] :: t3))
        with (countFoodPolls t3).
      unfold pollInterval in Hpolls. lia.
Qed.

Lemma food_pollLoop_no_create (w : World) d key id (fuel : nat) :
  forall pc el,
    Forall (fun e => forall k b, e <> CreatePrediction k b)
           (fst (pollLoop w d key id fuel pc el)).
Proof.
  induction fuel as [|fuel IH]; intros pc el; [constructor|].
  cbn [pollLoop].
  apply bind_trace_Forall; [repeat constructor; discriminate|]. intros _ _.
  destruct (el >? maxPollingTime); [constructor|].
  apply bind_trace_Forall; [repeat constructor; discriminate|]. intros _ _.
  cbv zeta. apply bind_trace_Forall; [|intros _ _; apply IH].
  rewrite food_pollOnce_cases.
  destruct (pollFetch w (S pc)) as [e|[pj|]];
    repeat match goal with
           | |- context [if ?b then _ else _] => destruct b
           end;
    repeat constructor; discriminate.
Qed.

(** X7. The food-video handler always asks Hailuo for a
    6-second video and sends the English prompt of the request as it is,
    while the duration it reports with a video is the one the request
    names (6 when it names none): a request for 10 seconds gets a 6-second
    video reported as 10 seconds long. *)
Theorem food_video_duration_sent_and_reported (w : World) (req : Request) :
  (forall key cbody,
      In (CreatePrediction key cbody) (fst (handler w req)) ->
      GenerateVideo.cb_duration cbody = "6"
      /\ exists body_,
           body req = Ok body_
           /\ englishPrompt body_ = Some (GenerateVideo.cb_prompt cbody))
  /\ (forall r res,
        snd (handler w req) = Some r ->
        json r = VideoResult res ->
        status r = 200
        /\ exists body_,
             body req = Ok body_
             /\ duration res = match durationSeconds body_ with
                               | Some d => d
                               | None => 6
                               end).
Proof.
  destruct (method req) as [| |m] eqn:Hm.
  1,3: destruct (food_handler_not_POST w req) as (-> & r & Hr & _ & Hj);
    [congruence|]; split; [intros ? ? []|];
    intros r' res Hr' Hres; rewrite Hr in Hr'; injection Hr' as <-;
    exfalso; exact (Hj res Hres).
  rewrite (food_handler_POST w req Hm).
  destruct (authenticatedUser w) as [uid|].
  2:{ split; [intros ? ? []|]. intros r res Hr Hres. injection Hr as <-.
      discriminate Hres. }
  cbn [fst snd].
  destruct (food_runs w req uid)
    as [(s & -> & Hcase) | [(s & -> & Hcase) | (image & p & user & key & Hv & Hu & Hkey & Hk)]].
  - split; [intros ? ? []|]. intros r res Hr Hres. cbn [snd] in Hr.
    destruct Hcase as [[msg ->] | [e ->]]; cbn [answer] in Hr; injection Hr as <-.
    + discriminate Hres.
    + exfalso. unfold errorResponse in Hres. destruct e as [msg|txt];
        repeat match type of Hres with
               | context [if ?b then _ else _] => destruct b
               end; discriminate Hres.
  - split.
    + intros k b Hin. cbn [fst In] in Hin. destruct Hin as [Hin|[]]. discriminate Hin.
    + intros r res Hr Hres. cbn [snd] in Hr.
      destruct Hcase as [-> | [e ->]]; cbn [answer] in Hr; injection Hr as <-.
      * discriminate Hres.
      * exfalso. unfold errorResponse in Hres. destruct e as [msg|txt];
          repeat match type of Hres with
                 | context [if ?b then _ else _] => destruct b
                 end; discriminate Hres.
  - rewrite (food_tryBlock_with_key w req uid image p user key Hv Hu Hkey Hk).
    destruct (food_validBody_inv req image p Hv) as (body_ & Hb & _ & Hp & _).
    assert (Hd : requestedDuration req
                 = match durationSeconds body_ with Some d => d | None => 6 end)
      by (unfold requestedDuration; rewrite Hb; reflexivity).
    set (d := requestedDuration req) in *.
    destruct (food_upload_outcome w image) as [Hut [[url Hus] | [msg Hus]]];
      destruct (uploadBlock w image) as [t1 s1]; cbn [fst snd] in Hut, Hus;
      subst t1 s1; cbn [bind emit app fst snd].
    2:{ split.
        - intros k b Hin. cbn [In] in Hin.
          destruct Hin as [Hin|[Hin|[]]]; discriminate Hin.
        - intros r res Hr Hres. cbn [answer] in Hr. injection Hr as <-.
          discriminate Hres. }
    pose proof (food_pollLoop_no_create w d key) as Hnc.
    destruct (food_create_outcome w key p url) as [Hct [[id Hcs] | [Hcs | [e Hcs]]]];
      destruct (createBlock w key p url) as [t2 s2]; cbn [fst snd] in Hct, Hcs;
      subst t2 s2; cbn [bind emit app fst snd].
    + specialize (Hnc id maxIterations 0%nat 0).
      pose proof (food_pollLoop_returns w d key id maxIterations 0%nat 0) as Hret.
      destruct (pollLoop w d key id maxIterations 0%nat 0) as [t3 s3].
      cbn [fst snd] in *. split.
      * intros k b Hin. cbn [In] in Hin.
        destruct Hin as [Hin|[Hin|[Hin|Hin]]]; try discriminate Hin.
        -- injection Hin as <- <-. split; [reflexivity|exists body_; auto].
        -- exfalso. rewrite Forall_forall in Hnc. exact (Hnc _ Hin k b eq_refl).
      * intros r res Hr Hres.
        destruct s3 as [a|r0|e|]; cbn [answer] in Hr; try discriminate Hr;
          injection Hr as <-.
        -- destruct (Hret r0 eq_refl) as [u ->]. cbn in Hres. injection Hres as <-.
           split; [reflexivity|]. exists body_. auto.
        -- exfalso. unfold errorResponse in Hres. destruct e as [msg|txt];
             repeat match type of Hres with
                    | context [if ?b then _ else _] => destruct b
                    end; discriminate Hres.
    + split.
      * intros k b Hin. cbn [In] in Hin.
        destruct Hin as [Hin|[Hin|[Hin|[]]]]; try discriminate Hin.
        injection Hin as <- <-. split; [reflexivity|exists body_; auto].
      * intros r res Hr Hres. cbn [answer] in Hr. injection Hr as <-.
        discriminate Hres.
    + split.
      * intros k b Hin. cbn [In] in Hin.
        destruct Hin as [Hin|[Hin|[Hin|[]]]]; try discriminate Hin.
        injection Hin as <- <-. split; [reflexivity|exists body_; auto].
      * intros r res Hr Hres. cbn [answer] in Hr. injection Hr as <-.
        exfalso. unfold errorResponse in Hres. destruct e as [msg|txt];
          repeat match type of Hres with
                 | context [if ?b then _ else _] => destruct b
                 end; discriminate Hres.
Qed.

(** X8. In the food-video handler a poll answer that is not JSON
    is skipped and never counted as a failure: when no poll is ever
    answered with JSON, the loop does not give up with the repeated-failure
    error; it polls until the clock has passed 300000 ms and ends with the
    timeout error. *)
Theorem food_video_unreadable_polls_end_in_timeout
  (w : World) (d : Z) (key id : string) :
  (forall n, pollFetch w n = PollText None) ->
  exists t elapsed,
    pollLoop w d key id maxIterations 0%nat 0 = (t, Raise (timeoutError elapsed))
    /\ elapsed > maxPollingTime
    /\ (forall e, In e t -> e <> Now elapsed ->
                  e = Sleep pollInterval \/ e = PollPrediction key id
                  \/ exists ms, e = Now ms /\ ms <= maxPollingTime).
Proof.
  intros Hpolls.
  assert (Hgen : forall fuel pc el,
             (0 < fuel)%nat -> (maxIterations <= fuel + pc)%nat ->
             pollInterval * Z.of_nat pc <= el ->
             exists t elapsed,
               pollLoop w d key id fuel pc el = (t, Raise (timeoutError elapsed))
               /\ elapsed > maxPollingTime
               /\ (forall e, In e t -> e <> Now elapsed ->
                             e = Sleep pollInterval \/ e = PollPrediction key id
                             \/ exists ms, e = Now ms /\ ms <= maxPollingTime)).
  { induction fuel as [|fuel IH]; intros pc el Hfuel Hbudget Hel; [lia|].
    cbn [pollLoop].
    destruct (el >? maxPollingTime) eqn:E.
    - rewrite Z.gtb_ltb, Z.ltb_lt in E.
      exists [Now el], el. split; [reflexivity|]. split; [lia|].
      intros e [<-|[]] Hne. congruence.
    - rewrite Z.gtb_ltb, Z.ltb_ge in E. cbv zeta.
      rewrite food_pollOnce_cases, Hpolls.
      destruct (IH (S pc) (el + pollInterval + Z.of_N (iterationTime w (S pc))))
        as (t & elapsed & Hrun & Hlate & Hev);
        try (unfold maxIterations, maxPollingTime, pollInterval in *; lia).
      rewrite Hrun. cbn [bind emit app].
      exists (Now el :: Sleep pollInterval :: PollPrediction key id :: t), elapsed.
      split; [reflexivity|]. split; [exact Hlate|].
      intros e [<-|[<-|[<-|Hin]]] Hne; auto.
      right; right. exists el. auto. }
  apply Hgen; unfold maxIterations, pollInterval; lia.
Qed.

(** X9. When Hailuo answers the creating call of the food-video
    handler with HTTP 401 and a body that is not JSON, or is a JSON value
    other than [null], the request is answered 403 with code
    HAILUO_PERMISSION_DENIED (the key is not valid), after the user lookup,
    the upload and that one call, and without any poll.  When the body is
    the JSON [null], reading [createResult.error] throws instead: the
    answer is that 403 only if the message of the error thrown mentions 401
    or Unauthorized, and is otherwise the one the outer catch gives to the
    error wrapped by the catch of the creating step. *)
Theorem food_video_http_401_is_invalid_key
  (w : World) (req : Request) (uid : string) (image : FoodImage) (p : string)
  (user : option User) (key url : string)
  (ok : bool) (text200 : string) (parsed : CreateParsed) :
  method req = GenerateVideo.POST ->
  authenticatedUser w = Some uid ->
  validBody req = Some (image, p) ->
  findUserById w uid = Ok user ->
  selectHailuoKey user (env w) = Some key ->
  truthy key = true ->
  snd (uploadBlock w image) = Next url ->
  createFetch w = CreateAnswer ok 401 text200 parsed ->
  ok = false \/ parsed = NotJson ->
  handler w req
  = ([FindUser uid;
      UploadImage ("food_image." ++ GenerateVideo.extensionOf (mimeType image))
        (mimeType image) (data image);
      CreatePrediction key (requestBodyOf p url)],
     Some (match parsed with
           | JsonNull typeError =>
               if (includes (messageOf typeError) "401"
                   || includes (messageOf typeError) "Unauthorized")%bool
               then {| status := 403;
                       json := ApiError
                                 "Hailuo API 키가 유효하지 않습니다. 설정에서 키를 확인하세요."
                                 (Some "HAILUO_PERMISSION_DENIED") |}
               else errorResponse
                      (ErrorObj ("Hailuo API 호출 실패: " ++ messageOf typeError))
           | NotJson | JsonValue _ =>
               {| status := 403;
                  json := ApiError
                            "Hailuo API 키가 유효하지 않습니다. 설정에서 키를 확인하세요."
                            (Some "HAILUO_PERMISSION_DENIED") |}
           end)).
Proof.
  intros Hm Hauth Hv Hu Hkey Hk Hup Hcreate Hbad.
  rewrite (food_handler_POST w req Hm), Hauth.
  rewrite (food_tryBlock_with_key w req uid image p user key Hv Hu Hkey Hk).
  destruct (food_upload_outcome w image) as [Hut _].
  destruct (uploadBlock w image) as [t1 s1]. cbn [fst snd] in Hut, Hup. subst t1 s1.
  cbn [bind emit app fst snd].
  unfold createBlock, createPrediction. rewrite Hcreate.
  destruct parsed as [|typeError|cj].
  - cbn [bind emit raise tryCatch app messageOf].
    replace (includes ("API 응답이 올바른 형식이 아닙니다 (HTTP " ++ stringOfZ 401
                       ++ "): " ++ text200) "401")
      with true; [reflexivity|].
    symmetry. apply includes_app_r, includes_app_l. reflexivity.
  - cbn [bind emit raise tryCatch app].
    destruct (includes (messageOf typeError) "401"
              || includes (messageOf typeError) "Unauthorized")%bool;
      reflexivity.
  - destruct Hbad as [-> | Hbad]; [|discriminate Hbad].
    cbn [negb bind emit raise tryCatch app messageOf].
    replace (includes ("HTTP " ++ stringOfZ 401 ++ ": " ++
               orOpt (cr_error cj)
                 (orOpt (cr_message cj) (orOpt (cr_detail cj) (cr_text cj)))) "401")
      with true; [reflexivity|].
    symmetry. apply includes_app_r, includes_app_l. reflexivity.
Qed.
End FoodVideoMore.

Section TimeoutAnswers.
Import JS Effects Measures.
Local Open Scope Z_scope.

(** The keyword does not occur in the timeout message, whose only
    variable part is a decimal number. *)
Lemma letters_not_in_timeout (k : ascii) (kw a c : string) (z : Z) :
  lacks k a = true -> isDecimalChar k = false -> lacks k c = true ->
  includes (a ++ stringOfZ z ++ c) (String k kw) = false.
Proof.
  intros Ha Hk Hc. apply includes_lacks.
  rewrite !lacks_app, Ha, Hc, (stringOfZ_lacks k z Hk). reflexivity.
Qed.

(** X3. How a timeout of the polling loop is reported.  The outer
    catch of both handlers classifies an error by the digits and words of
    its message, and the timeout message carries the elapsed seconds: a
    timeout whose rounded number of seconds contains 403 is answered 403
    (permission denied) and one that contains 429 is answered 429 (quota
    exceeded); every other timeout is answered 500, by generate-video with
    the timeout message as it is and by generate-food-video with the
    message behind another "영상 생성 실패: ". *)
Theorem timeout_answers (elapsed : Z) :
  let seconds := stringOfZ (roundDiv1000 elapsed) in
  GenerateVideo.errorResponse (GenerateVideo.timeoutError elapsed)
  = (if includes seconds "403"
     then {| GenerateVideo.status := 403;
             GenerateVideo.json :=
               GenerateVideo.ApiError
                 "Hailuo API 접근 권한이 없습니다. API 키를 확인하세요."
                 (Some "PERMISSION_DENIED") |}
     else if includes seconds "429"
     then {| GenerateVideo.status := 429;
             GenerateVideo.json :=
               GenerateVideo.ApiError
                 "API 할당량을 초과했습니다. 잠시 후 다시 시도하세요."
                 (Some "QUOTA_EXCEEDED") |}
     else {| GenerateVideo.status := 500;
             GenerateVideo.json :=
               GenerateVideo.ApiError
                 ("비디오 생성 시간 초과 (" ++ seconds
                  ++ "초 경과). 나중에 다시 시도하세요.")
                 (Some "VIDEO_GENERATION_FAILED") |})
  /\ GenerateFoodVideo.errorResponse (GenerateFoodVideo.timeoutError elapsed)
     = (if includes seconds "403"
        then {| GenerateFoodVideo.status := 403;
                GenerateFoodVideo.json :=
                  GenerateFoodVideo.ApiError
                    "Hailuo API 접근 권한이 없습니다. API 키를 확인하세요."
                    (Some "HAILUO_PERMISSION_DENIED") |}
        else if includes seconds "429"
        then {| GenerateFoodVideo.status := 429;
                GenerateFoodVideo.json :=
                  GenerateFoodVideo.ApiError
                    "Hailuo API 할당량을 초과했습니다. 잠시 후 다시 시도하세요."
                    (Some "QUOTA_EXCEEDED") |}
        else {| GenerateFoodVideo.status := 500;
                GenerateFoodVideo.json :=
                  GenerateFoodVideo.ApiError
                    ("영상 생성 실패: 영상 생성 시간 초과 (" ++ seconds
                     ++ "초 경과). 나중에 다시 시도하세요.")
                    (Some "FOOD_VIDEO_GENERATION_FAILED") |}).
Proof.
  cbv zeta. split.
  - unfold GenerateVideo.errorResponse, GenerateVideo.timeoutError.
    set (z := roundDiv1000 elapsed).
    set (a := "비디오 생성 시간 초과 (").
    set (c := "초 경과). 나중에 다시 시도하세요.").
    repeat match goal with
           | |- context [includes (a ++ stringOfZ z ++ c) (String ?k ?kw)] =>
               rewrite (letters_not_in_timeout k kw a c z) by reflexivity
           end.
    rewrite (includes_app_lacks "4" "03" a), (includes_app_lacks "4" "29" a)
      by reflexivity.
    rewrite (includes_app_disjoint "403" c), (includes_app_disjoint "429" c)
      by reflexivity.
    cbn [orb]. rewrite ?orb_false_r.
    destruct (includes (stringOfZ z) "403"); [reflexivity|].
    destruct (includes (stringOfZ z) "429"); [reflexivity|].
    replace (includes (a ++ stringOfZ z ++ c) "비디오") with true; [reflexivity|].
    symmetry. apply includes_app_l. reflexivity.
  - unfold GenerateFoodVideo.errorResponse, GenerateFoodVideo.timeoutError.
    set (z := roundDiv1000 elapsed).
    set (a := "영상 생성 시간 초과 (").
    set (c := "초 경과). 나중에 다시 시도하세요.").
    repeat match goal with
           | |- context [includes (a ++ stringOfZ z ++ c) (String ?k ?kw)] =>
               rewrite (letters_not_in_timeout k kw a c z) by reflexivity
           end.
    rewrite (includes_app_lacks "4" "03" a), (includes_app_lacks "4" "29" a)
      by reflexivity.
    rewrite (includes_app_disjoint "403" c), (includes_app_disjoint "429" c)
      by reflexivity.
    cbn [orb]. rewrite ?orb_false_r.
    destruct (includes (stringOfZ z) "403"); [reflexivity|].
    destruct (includes (stringOfZ z) "429"); reflexivity.
Qed.
End TimeoutAnswers.

Section OpenAIMore.
Import JS Effects Lib OpenAI.

Lemma getOpenAIKeyForUser_trace (w : World) (uid : string) :
  fst (getOpenAIKeyForUser w uid) = [FindUser uid].
Proof.
  unfold getOpenAIKeyForUser.
  destruct (findUserById w uid) as [[user|]|e]; cbn [await bind emit ret raise app fst];
    try reflexivity.
  destruct (isAdmin user);
    match goal with
    | |- context [orOptOpt ?a ?b] => destruct (orOptOpt a b) as [k|]
    end; try reflexivity; destruct (truthy k); reflexivity.
Qed.

(** X10. Looking up the OpenAI key calls nothing but the user
    lookup.  It fails with the user-not-found error when there is no such
    user and with the lookup's own error when the lookup fails; and a key
    it returns is never empty and is the environment's or the one stored
    for that user. *)
Theorem openai_key_lookup (w : World) (uid : string) :
  fst (getOpenAIKeyForUser w uid) = [FindUser uid]
  /\ (findUserById w uid = Ok None ->
      snd (getOpenAIKeyForUser w uid) = Raise (ErrorObj "사용자를 찾을 수 없습니다."))
  /\ (forall e, findUserById w uid = Throw e ->
                snd (getOpenAIKeyForUser w uid) = Raise e)
  /\ (forall key,
        snd (getOpenAIKeyForUser w uid) = Next key ->
        truthy key = true
        /\ exists user,
             findUserById w uid = Ok (Some user)
             /\ (OPENAI_API_KEY (env w) = Some key \/ storedOpenAIKey user = Some key)).
Proof.
  split; [apply getOpenAIKeyForUser_trace|].
  unfold getOpenAIKeyForUser.
  destruct (findUserById w uid) as [[user|]|e]; cbn [await bind emit ret raise snd].
  2,3: split; [intros H; try discriminate H; reflexivity|];
       split; [intros e0 H; try discriminate H; injection H as <-; reflexivity|];
       intros key H; discriminate H.
  split; [discriminate|]. split; [discriminate|].
  intros key.
  destruct (isAdmin user); unfold orOptOpt;
    destruct (OPENAI_API_KEY (env w)) as [ek|] eqn:He;
    destruct (storedOpenAIKey user) as [sk|] eqn:Hs;
    cbn [truthyOpt];
    repeat match goal with
           | |- context [if truthy ?s then _ else _] => destruct (truthy s) eqn:?
           end;
    cbn [snd]; intros H; try discriminate H; injection H as <-;
    (split; [assumption|]); exists user; (split; [reflexivity|]); auto.
Qed.

(** X11. The OpenAI branch looks the key up first and then
    requests at most one completion, none when the lookup fails.  The
    request carries the key that was looked up and the model asked for;
    its last message is the prompt, sent as the user's; before it there is
    one system message (the system prompt when one is given and not empty,
    else the JSON instruction when JSON mode is on) or none; and a JSON
    object is asked for unless the options turn JSON mode off. *)
Theorem openai_branch_requests
  (w : World) (uid model prompt_ : string) (options : OpenAITextOptions) :
  (fst (openaiTextBranch w uid model prompt_ options) = [FindUser uid]
   /\ forall key, snd (getOpenAIKeyForUser w uid) <> Next key)
  \/ exists key request,
       fst (openaiTextBranch w uid model prompt_ options)
       = [FindUser uid; ChatCompletion request]
       /\ snd (getOpenAIKeyForUser w uid) = Next key
       /\ req_apiKey request = key
       /\ req_model request = model
       /\ req_jsonObject request
          = match jsonMode options with Some b => b | None => true end
       /\ req_messages request
          = ((if truthyOpt (systemPrompt options)
              then [{| role := "system";
                       content := orOpt (systemPrompt options) "" |}]
              else if req_jsonObject request
              then [{| role := "system";
                       content :=
                         "You are a helpful assistant. Always respond with valid JSON." |}]
              else [])
             ++ [{| role := "user"; content := prompt_ |}])%list.
Proof.
  unfold openaiTextBranch.
  pose proof (getOpenAIKeyForUser_trace w uid) as Ht.
  destruct (getOpenAIKeyForUser w uid) as [t [key|r|e|]]; cbn [fst snd] in *; subst t.
  2,3,4: left; cbn [bind fst]; split; [reflexivity|discriminate].
  right. cbn [bind].
  unfold generateTextWithOpenAI. cbv zeta.
  match goal with
  | |- context [ChatCompletion ?rq] => exists key, rq
  end.
  split.
  - cbn [bind emit].
    match goal with
    | |- context [chat w ?rq] => destruct (chat w rq) as [e|st txt|[c|e]]
    end; reflexivity.
  - split; [reflexivity|]. split; [reflexivity|]. split; [reflexivity|].
    split; [reflexivity|]. cbn [req_messages req_jsonObject].
    destruct (systemPrompt options) as [[|a s]|]; reflexivity.
Qed.
End OpenAIMore.

Section ImagePromptMore.
Import JS ImagePromptPresets ImagePromptBuilder.
Context {builtins : StringBuiltins}.

(** X12. What the analysis of a subject can suggest, whatever
    the subject says.  The shot is one of extreme close-up, close-up,
    medium, wide and extreme wide; the angle one of eye-level, low and
    high; the lens one of 24mm, 50mm, 85mm and 135mm.  The pairs are
    tied: an extreme wide shot always comes with the 24mm lens, the 135mm
    telephoto lens only with an extreme close-up, the 85mm portrait lens
    only for a subject found human, and the 50mm lens only for one found
    not human. *)
Theorem analyzeSubjectForSettings_suggestions (subject_ : string) :
  let a := analyzeSubjectForSettings subject_ in
  In (suggestedShot a)
     [shot_extreme_close_up; shot_close_up; shot_medium; shot_wide; shot_extreme_wide]
  /\ In (suggestedAngle a) [eye_level; low_angle; high_angle]
  /\ In (an_suggestedLens a)
        [lens_24mm_wide; lens_50mm_normal; lens_85mm_portrait; lens_135mm_telephoto]
  /\ (suggestedShot a = shot_extreme_wide -> an_suggestedLens a = lens_24mm_wide)
  /\ (an_suggestedLens a = lens_135mm_telephoto ->
      suggestedShot a = shot_extreme_close_up)
  /\ (an_suggestedLens a = lens_85mm_portrait -> an_isHuman a = true)
  /\ (an_suggestedLens a = lens_50mm_normal -> an_isHuman a = false).
Proof.
  cbv zeta. unfold analyzeSubjectForSettings. cbv zeta.
  cbn [suggestedShot suggestedAngle an_suggestedLens an_isHuman].
  repeat match goal with
         | |- context [if someIncluded ?s ?l then _ else _] =>
             destruct (someIncluded s l)
         end;
    cbn; repeat split; auto 10; discriminate.
Qed.

Lemma ENVIRONMENTS_prompt_truthy k : truthy (prompt (ENVIRONMENTS k)) = true.
Proof. destruct k; reflexivity. Qed.

Lemma LENSES_prompt_truthy k : truthy (prompt (LENSES k)) = true.
Proof. destruct k; reflexivity. Qed.

Lemma LIGHTINGS_prompt_truthy k : truthy (prompt (LIGHTINGS k)) = true.
Proof. destruct k; reflexivity. Qed.

Lemma IMAGE_STYLES_prompt_truthy k : truthy (prompt (STYLES k)) = true.
Proof. destruct k; reflexivity. Qed.

Lemma SHOT_TYPES_prompt_truthy k (rest : string) :
  truthy (prompt (SHOT_TYPES k) ++ rest) = true.
Proof. destruct k; reflexivity. Qed.

Lemma nonEmpty_truthy (s : string) : negb (String.eqb s "") = truthy s.
Proof. destruct s; reflexivity. Qed.

(** X13. The quick image prompt for a subject and a mood: the
    subject (left out when empty), then the mood's environment, the
    composition (the shot and the angle that the analysis of the subject
    suggests, with the default framing), the lens (the mood's for a subject
    found human, else the one the analysis suggests), the mood's lighting,
    the mood's style and the three default quality keywords, joined with
    ". " and closed with "."; no material block, and no dependence on the
    [isHuman] argument. *)
Theorem buildSimpleImagePrompt_with_mood
  (subject_ : string) (m : MoodKey) (isHuman_ : option bool) :
  let a := analyzeSubjectForSettings subject_ in
  buildSimpleImagePrompt subject_ (Some m) isHuman_
  = Spec.sentence
      [ subject_;
        prompt (ENVIRONMENTS (suggestedEnvironment (MOODS m)));
        prompt (SHOT_TYPES (suggestedShot a)) ++ ", "
        ++ prompt (CAMERA_ANGLES (suggestedAngle a)) ++ ", "
        ++ prompt (FRAMINGS rule_of_thirds_left);
        prompt (LENSES (if an_isHuman a then suggestedLens (MOODS m)
                        else an_suggestedLens a));
        prompt (LIGHTINGS (suggestedLighting (MOODS m)));
        prompt (STYLES (suggestedStyle (MOODS m)));
        join ", " (map (fun k => prompt (QUALITY_KEYWORDS k)) [high_detail; q_8k; sharp]) ].
Proof.
  cbv zeta. unfold buildSimpleImagePrompt. cbv zeta.
  rewrite image_fullPrompt_parts. cbv zeta.
  rewrite image_material_block, image_quality_block, image_setting_block.
  unfold Spec.sentence.
  cbn [applyImageRecommendation createDefaultImageConfig getAIRecommendation
       getRecommendationByMood bd_subject bd_composition bd_camera bd_lighting
       bd_style breakdown buildImagePrompt subject customEnvironment environment
       shotType cameraAngle framing lens lighting materials style quality
       additionalDetails rec_shotType rec_cameraAngle rec_lens rec_lighting
       rec_environment rec_style rec_framing IMAGE_DEFAULT_SELECTIONS dQuality
       dFraming dShotType dCameraAngle map Spec.whenPresent].
  cbn [filterBooleanOpt filter join map].
  rewrite !nonEmpty_truthy.
  rewrite ENVIRONMENTS_prompt_truthy, LENSES_prompt_truthy, LIGHTINGS_prompt_truthy,
    IMAGE_STYLES_prompt_truthy, SHOT_TYPES_prompt_truthy.
  cbn [truthy].
  destruct (truthy subject_); reflexivity.
Qed.

(** X14. Applying a recommendation to a configuration changes
    the composition, lens, lighting and style blocks of its prompt only:
    the subject, material and quality blocks and the whole negative prompt
    stay as they were; and a custom environment, when the configuration has
    one, still overrides the environment that is recommended. *)
Theorem applyImageRecommendation_keeps
  (c : ImagePromptConfig) (r : AIImageRecommendation) :
  let before := buildImagePrompt c in
  let after := buildImagePrompt (applyImageRecommendation c r) in
  negativePrompt after = negativePrompt before
  /\ bd_subject (breakdown after) = bd_subject (breakdown before)
  /\ bd_material (breakdown after) = bd_material (breakdown before)
  /\ bd_quality (breakdown after) = bd_quality (breakdown before)
  /\ bd_setting (breakdown after)
     = (if Spec.present (customEnvironment c)
        then bd_setting (breakdown before)
        else prompt (ENVIRONMENTS (rec_environment r))).
Proof.
  cbv zeta. repeat (split; [reflexivity|]).
  rewrite !image_setting_block. cbn [applyImageRecommendation customEnvironment environment].
  destruct (customEnvironment c) as [[|x s]|]; reflexivity.
Qed.
End ImagePromptMore.

Section VideoPromptMore.
Import JS VideoPromptPresets VideoPromptBuilder.
Context {builtins : StringBuiltins}.

(** X15. What the analysis of an action can suggest, whatever
    the action says.  The angle is one of extreme close-up, close-up,
    medium, wide and low-angle, and the movement one of slow push, tracking
    and handheld.  The pairs are tied: a wide angle always comes with
    tracking, a low angle always with handheld, and a medium angle always
    with the slow push. *)
Theorem analyzeActionForCamera_suggestions (action_ : string) :
  let angle := fst (analyzeActionForCamera action_) in
  let movement := snd (analyzeActionForCamera action_) in
  In angle [extreme_close_up; close_up; medium; wide; low_angle]
  /\ In movement [slow_push; tracking; handheld]
  /\ (angle = wide -> movement = tracking)
  /\ (angle = low_angle -> movement = handheld)
  /\ (angle = medium -> movement = slow_push).
Proof.
  cbv zeta. unfold analyzeActionForCamera. cbv zeta. cbn [fst snd].
  repeat match goal with
         | |- context [if someIncluded ?s ?l then _ else _] =>
             destruct (someIncluded s l)
         end;
    cbn; repeat split; auto 10; discriminate.
Qed.

(** X16. What a mood adds to the recommendation for an action.
    The camera movement is the one the action alone suggests, whatever the
    mood; the angle is the one the action suggests unless that is medium,
    in which case it is the first angle of the mood; the environment is the
    first environment of the mood and the styles are the mood's.  Every
    mood has a first angle, movement and environment, and its styles hold
    no duplicate. *)
Theorem getAIRecommendation_with_mood (action_ : string) (m : MoodKey) :
  let alone := getAIRecommendation action_ None in
  let withMood := getAIRecommendation action_ (Some m) in
  rec_cameraMovement withMood = rec_cameraMovement alone
  /\ rec_cameraAngle withMood
     = (if isMedium (rec_cameraAngle alone)
        then rec_cameraAngle (getRecommendationByMood m)
        else rec_cameraAngle alone)
  /\ rec_environment withMood = rec_environment (getRecommendationByMood m)
  /\ rec_styles withMood = suggestedStyles (MOODS m)
  /\ hd_error (suggestedAngles (MOODS m))
     = Some (rec_cameraAngle (getRecommendationByMood m))
  /\ hd_error (suggestedMovements (MOODS m))
     = Some (rec_cameraMovement (getRecommendationByMood m))
  /\ hd_error (suggestedEnvironments (MOODS m))
     = Some (rec_environment (getRecommendationByMood m))
  /\ NoDup (suggestedStyles (MOODS m)).
Proof.
  cbv zeta. split; [reflexivity|]. split.
  { unfold getAIRecommendation. cbv zeta. cbn [rec_cameraAngle].
    destruct (isMedium (fst (analyzeActionForCamera action_))); reflexivity. }
  split; [reflexivity|]. split; [reflexivity|].
  destruct m; (repeat (split; [reflexivity|]));
    repeat constructor; cbn; intuition discriminate.
Qed.

Lemma length_zero_not_truthy (s : string) :
  Nat.eqb (String.length s) 0 = negb (truthy s).
Proof. destruct s; reflexivity. Qed.

(** X17. [validateConfig] accepts a configuration (returns no
    error) exactly when the action is not empty, also once trimmed, and a
    character is selected or a custom subject is given and not empty; the
    action error comes before the subject error.  In the prompt of an
    accepted configuration the action block is not empty and the subject is
    the character's or the custom one, never the fallback put in for a
    missing subject. *)
Theorem validateConfig_accepts (c : VideoPromptConfig) :
  (validateConfig c = []
   <-> (truthy (action c) = true /\ truthy (trim (action c)) = true
        /\ (character c <> None \/ truthyOpt (customSubject c) = true)))
  /\ (validateConfig c
      = ((if (truthy (action c) && truthy (trim (action c)))%bool then []
          else ["동작 설명을 입력해주세요."])
         ++ (if match character c with
                | Some _ => true
                | None => truthyOpt (customSubject c)
                end
             then []
             else ["캐릭터를 선택하거나 주체를 직접 입력해주세요."]))%list)
  /\ (validateConfig c = [] ->
      truthy (bd_action (breakdown (buildVideoPrompt c))) = true
      /\ bd_subject (breakdown (buildVideoPrompt c))
         = match character c with
           | Some ch => buildSubjectFromCharacter ch
           | None => match customSubject c with Some s => s | None => "" end
           end
      /\ (character c = None ->
          customSubject c = Some (bd_subject (breakdown (buildVideoPrompt c))))).
Proof.
  assert (Hshape : validateConfig c
      = ((if (truthy (action c) && truthy (trim (action c)))%bool then []
          else ["동작 설명을 입력해주세요."])
         ++ (if match character c with
                | Some _ => true
                | None => truthyOpt (customSubject c)
                end
             then []
             else ["캐릭터를 선택하거나 주체를 직접 입력해주세요."]))%list).
  { unfold validateConfig. rewrite length_zero_not_truthy.
    destruct (truthy (action c)), (truthy (trim (action c))), (character c);
      cbn [negb orb andb]; try reflexivity;
      destruct (truthyOpt (customSubject c)); reflexivity. }
  assert (Hiff : validateConfig c = []
   <-> (truthy (action c) = true /\ truthy (trim (action c)) = true
        /\ (character c <> None \/ truthyOpt (customSubject c) = true))).
  { rewrite Hshape.
    destruct (truthy (action c)), (truthy (trim (action c))); cbn [andb app];
      destruct (character c) as [ch|]; try destruct (truthyOpt (customSubject c));
      split; intros H; try discriminate H; try reflexivity;
      try (destruct H as (H1 & H2 & H3); try discriminate H1; try discriminate H2;
           destruct H3 as [H3|H3]; congruence);
      repeat split; auto; left; discriminate. }
  split; [exact Hiff|]. split; [exact Hshape|].
  intros Hok. apply Hiff in Hok. destruct Hok as (Ha & Ht & Hs).
  cbn [buildVideoPrompt breakdown bd_action bd_subject].
  split; [exact Ht|].
  destruct (character c) as [ch|].
  - split; [reflexivity|]. discriminate.
  - destruct Hs as [Hs|Hs]; [congruence|].
    destruct (customSubject c) as [s|]; [|discriminate Hs].
    cbn [truthyOpt] in Hs. cbn [orOpt]. unfold JS.or. rewrite Hs.
    split; [reflexivity|]. reflexivity.
Qed.
End VideoPromptMore.

Section AdminUsersProps.
Import JS Effects Lib AdminUsers.
Local Open Scope Z_scope.
Variable UserDoc : Type.

(** X18. The list of users is read only for an authenticated
    administrator, and only then is a request answered 200 with users:
    [getAllUsers] is called exactly when the method is GET, the request is
    authenticated with a non-empty user id, and the user found for that id
    is an administrator; it is then the last call of the run, after the one
    user lookup.  Without authentication the answer is 401, for a user that
    is unknown or no administrator 403, and nothing of the list is read. *)
Theorem admin_users_only_for_admins (w : World UserDoc) (method : Method) :
  let t := fst (handler UserDoc w method) in
  (In (GetAllUsers) t
   <-> (method = GET
        /\ exists auth uid user,
             requireAuth UserDoc w = Ok auth
             /\ GenerateVideo.authenticated auth = true
             /\ GenerateVideo.userId auth = Some uid
             /\ truthy uid = true
             /\ findUserById UserDoc w uid = Ok (Some user)
             /\ isAdmin user = true
             /\ t = [FindUser uid; GetAllUsers]))
  /\ (forall users n,
        snd (handler UserDoc w method)
        = Some {| status := 200; json := UserList UserDoc users n |} ->
        In (GetAllUsers) t
        /\ getAllUsers UserDoc w = Ok users /\ n = List.length users)
  /\ exists r, snd (handler UserDoc w method) = Some r
               /\ In (status UserDoc r) [200; 401; 403; 405; 500].
Proof.
  cbv zeta. destruct method as [| |m].
  1,3: cbn [handler fst snd]; split;
    [split; [intros []|intros [H _]; discriminate H]|];
    (split; [intros users n H; discriminate H|]);
    eexists; (split; [reflexivity|]); cbn; auto.
  unfold handler, tryBlock.
  destruct (requireAuth UserDoc w) as [auth|e] eqn:Hauth;
    cbn [await bind emit ret raise return_ fst snd app].
  2:{ split; [split; [intros []|intros (_ & a & u & us & H & _); discriminate H]|].
      split; [intros users n H; discriminate H|].
      eexists. split; [reflexivity|]. cbn; auto 6. }
  destruct (GenerateVideo.authenticated auth) eqn:Ha.
  2:{ cbn [fst snd].
      split; [split; [intros []|
                      intros (_ & a & u & us & H & H1 & _); congruence]|].
      split; [intros users n H; discriminate H|].
      eexists. split; [reflexivity|]. cbn; auto. }
  destruct (GenerateVideo.userId auth) as [uid|] eqn:Hid.
  2:{ cbn [fst snd].
      split; [split; [intros []|
                      intros (_ & a & u & us & H & H1 & H2 & _); congruence]|].
      split; [intros users n H; discriminate H|].
      eexists. split; [reflexivity|]. cbn; auto. }
  destruct (truthy uid) eqn:Hu.
  2:{ cbn [fst snd].
      split; [split; [intros []|
                      intros (_ & a & u & us & H & H1 & H2 & H3 & _); congruence]|].
      split; [intros users n H; discriminate H|].
      eexists. split; [reflexivity|]. cbn; auto. }
  cbn [await bind emit ret raise return_ fst snd app].
  destruct (findUserById UserDoc w uid) as [user|e] eqn:Hf;
    cbn [await bind emit ret raise return_ fst snd app].
  2:{ split; [split; [intros [H|[]]; discriminate H|
                      intros (_ & a & u & us & H & H1 & H2 & H3 & H4 & _); congruence]|].
      split; [intros users n H; discriminate H|].
      eexists. split; [reflexivity|]. cbn; auto 6. }
  destruct (isAdminUser user) eqn:Hadm; cbn [negb fst snd].
  2:{ split; [split; [intros [H|[]]; discriminate H|
                      intros (_ & a & u & us & H & H1 & H2 & H3 & H4 & H5 & _)]|].
      { assert (a = auth) by congruence. subst a.
        assert (u = uid) by congruence. subst u.
        rewrite Hf in H4. injection H4 as ->. cbn in Hadm. congruence. }
      split; [intros users n H; discriminate H|].
      eexists. split; [reflexivity|]. cbn; auto. }
  destruct user as [user|]; [|discriminate Hadm]. cbn in Hadm.
  destruct (getAllUsers UserDoc w) as [users|e] eqn:Hall;
    cbn [await bind emit ret raise return_ fst snd app].
  - split; [split; [intros _|intros _; cbn; auto]|].
    { split; [reflexivity|]. exists auth, uid, user. repeat split; auto. }
    split.
    + intros us n H. injection H as <- <-. split; [cbn; auto|]. split; reflexivity.
    + eexists. split; [reflexivity|]. cbn; auto.
  - split; [split; [intros _|intros _; cbn; auto]|].
    { split; [reflexivity|]. exists auth, uid, user. repeat split; auto. }
    split; [intros us n H; discriminate H|].
    eexists. split; [reflexivity|]. cbn; auto 6.
Qed.
End AdminUsersProps.

Section BlobCleanup.
Import JS Effects Lib GenerateFoodVideoBlob.
Local Open Scope Z_scope.

Variable w : World.

Lemma deleted_app (a b : list Event) : deleted (a ++ b) = (deleted a ++ deleted b)%list.
Proof.
  induction a as [|e a IH]; [reflexivity|].
  destruct e; cbn [deleted app]; rewrite IH; reflexivity.
Qed.

Lemma stored_app (a b : list Event) : stored (a ++ b) = (stored a || stored b)%bool.
Proof.
  induction a as [|e a IH]; [reflexivity|].
  destruct e; cbn [stored app orb]; auto.
Qed.

(** The deletion never fails the run: a rejection of [del] is swallowed. *)
Lemma cleanup_run (blobUrl : option string) :
  cleanup w blobUrl
  = (match blobUrl with
     | Some url => if truthy url then [DeleteBlob url] else []
     | None => []
     end, Next tt).
Proof.
  unfold cleanup. destruct blobUrl as [url|]; [|reflexivity].
  destruct (truthy url); [|reflexivity].
  destruct (delBlob w url) as [[]|e]; reflexivity.
Qed.

Lemma blob_pollOnce_cases (url : string) (d : Z) (key id : string) (n : nat) (after : Z) :
  pollOnce w (Some url) d key id n after
  = match pollFetch w n with
    | GenerateFoodVideo.PollText None => ([PollPrediction key id], Next tt)
    | GenerateFoodVideo.PollText (Some pj) =>
        if (GenerateVideo.isSuccess (GenerateVideo.po_status pj)
            && truthyOpt (GenerateVideo.po_output pj))%bool
        then ([PollPrediction key id; Now after]
                ++ (if truthy url then [DeleteBlob url] else []),
              Return_ {| GenerateFoodVideo.status := 200;
                         GenerateFoodVideo.json :=
                           GenerateFoodVideo.VideoResult
                             {| GenerateFoodVideo.videoUrl :=
                                  match GenerateVideo.po_output pj with
                                  | Some u => u | None => "" end;
                                GenerateFoodVideo.duration := d |} |})%list
        else if GenerateVideo.isErrorStatus (GenerateVideo.po_status pj)
        then ([PollPrediction key id], Raise (GenerateFoodVideo.generationFailedError pj))
        else ([PollPrediction key id], Next tt)
    | GenerateFoodVideo.PollThrew e =>
        if GenerateFoodVideo.isVideoError e
        then ([PollPrediction key id], Raise e)
        else if Nat.ltb 3 n
        then ([PollPrediction key id], Raise GenerateFoodVideo.repeatedFailureError)
        else ([PollPrediction key id], Next tt)
    end.
Proof.
  unfold pollOnce.
  destruct (pollFetch w n) as [e|[pj|]]; cbn [bind emit tryCatch ret raise app].
  - destruct (GenerateFoodVideo.isVideoError e); [reflexivity|].
    destruct (Nat.ltb 3 n); reflexivity.
  - destruct (GenerateVideo.isSuccess (GenerateVideo.po_status pj)
              && truthyOpt (GenerateVideo.po_output pj))%bool.
    + rewrite cleanup_run. cbn [bind emit tryCatch ret return_ raise app].
      rewrite List.app_nil_r. reflexivity.
    + destruct (GenerateVideo.isErrorStatus (GenerateVideo.po_status pj)); [|reflexivity].
      cbn [raise tryCatch app]. rewrite food_generationFailed_isVideoError. reflexivity.
  - reflexivity.
Qed.

(** The loop stores nothing; it deletes the blob when it answers, as its
    last call, and not otherwise. *)
Lemma blob_pollLoop_run (url : string) (d : Z) (key id : string) (fuel : nat) :
  forall (pc : nat) (el : Z),
    let r := pollLoop w (Some url) d key id fuel pc el in
    stored (fst r) = false
    /\ match snd r with
       | Return_ resp =>
           GenerateFoodVideo.status resp = 200
           /\ exists t', fst r = (t' ++ (if truthy url then [DeleteBlob url] else []))%list
                         /\ deleted t' = []
       | _ => deleted (fst r) = []
       end.
Proof.
  induction fuel as [|fuel IH]; intros pc el; cbv zeta; [split; reflexivity|].
  cbn [pollLoop].
  destruct (el >? GenerateFoodVideo.maxPollingTime); [split; reflexivity|].
  cbv zeta. rewrite blob_pollOnce_cases.
  specialize (IH (S pc) (el + GenerateFoodVideo.pollInterval
                         + Z.of_N (iterationTime w (S pc)))).
  cbv zeta in IH.
  destruct (pollLoop w (Some url) d key id fuel (S pc)
              (el + GenerateFoodVideo.pollInterval + Z.of_N (iterationTime w (S pc))))
    as [t' s'].
  cbn [fst snd] in IH. destruct IH as [IHs IHd].
  assert (Hnext :
    stored (fst (bind (emit (Now el)) (fun _ : unit =>
              bind (emit (Sleep GenerateFoodVideo.pollInterval)) (fun _ : unit =>
                bind (([PollPrediction key id], Next tt) : P unit)
                     (fun _ : unit => ((t', s') : P unit)))))) = false
    /\ match snd (bind (emit (Now el)) (fun _ : unit =>
              bind (emit (Sleep GenerateFoodVideo.pollInterval)) (fun _ : unit =>
                bind (([PollPrediction key id], Next tt) : P unit)
                     (fun _ : unit => ((t', s') : P unit))))) with
       | Return_ resp =>
           GenerateFoodVideo.status resp = 200
           /\ exists t0, fst (bind (emit (Now el)) (fun _ : unit =>
              bind (emit (Sleep GenerateFoodVideo.pollInterval)) (fun _ : unit =>
                bind (([PollPrediction key id], Next tt) : P unit)
                     (fun _ : unit => ((t', s') : P unit)))))
                         = (t0 ++ (if truthy url then [DeleteBlob url] else []))%list
                         /\ deleted t0 = []
       | _ => deleted (fst (bind (emit (Now el)) (fun _ : unit =>
              bind (emit (Sleep GenerateFoodVideo.pollInterval)) (fun _ : unit =>
                bind (([PollPrediction key id], Next tt) : P unit)
                     (fun _ : unit => ((t', s') : P unit)))))) = []
       end).
  { cbn [bind emit fst snd app stored]. split; [exact IHs|].
    destruct s' as [a|resp|e|]; cbn [deleted]; try exact IHd.
    destruct IHd as [Hst (t0 & -> & Hd)]. split; [exact Hst|].
    exists (Now el :: Sleep GenerateFoodVideo.pollInterval :: PollPrediction key id :: t0).
    split; [reflexivity|exact Hd]. }
  destruct (pollFetch w (S pc)) as [e|[pj|]].
  - destruct (GenerateFoodVideo.isVideoError e); [split; reflexivity|].
    destruct (Nat.ltb 3 (S pc)); [split; reflexivity|exact Hnext].
  - destruct (GenerateVideo.isSuccess (GenerateVideo.po_status pj)
              && truthyOpt (GenerateVideo.po_output pj))%bool.
    + cbn [bind emit fst snd app]. split.
      * cbn [stored]. destruct (truthy url); reflexivity.
      * split; [reflexivity|].
        exists [Now el; Sleep GenerateFoodVideo.pollInterval; PollPrediction key id;
                Now (el + GenerateFoodVideo.pollInterval + Z.of_N (iterationTime w (S pc)))].
        split; reflexivity.
    + destruct (GenerateVideo.isErrorStatus (GenerateVideo.po_status pj));
        [split; reflexivity|exact Hnext].
  - exact Hnext.
Qed.

(** The loop ends within its budget, with an answer or an exception. *)
Lemma blob_pollLoop_ends (b : option string) (d : Z) (key id : string) (fuel : nat) :
  forall (pc : nat) (el : Z),
    (0 < fuel)%nat ->
    (GenerateFoodVideo.maxIterations <= fuel + pc)%nat ->
    GenerateFoodVideo.pollInterval * Z.of_nat pc <= el ->
    (exists r, snd (pollLoop w b d key id fuel pc el) = Return_ r)
    \/ (exists e, snd (pollLoop w b d key id fuel pc el) = Raise e).
Proof.
  induction fuel as [|fuel IH]; intros pc el Hfuel Hbudget Hel; [lia|].
  cbn [pollLoop].
  destruct (el >? GenerateFoodVideo.maxPollingTime) eqn:E.
  { right. eexists. reflexivity. }
  rewrite Z.gtb_ltb, Z.ltb_ge in E.
  cbv zeta.
  assert (Hout : forall after,
             snd (pollOnce w b d key id (S pc) after) <> OutOfFuel).
  { intros after. unfold pollOnce.
    destruct (pollFetch w (S pc)) as [e|[pj|]];
      cbn [bind emit tryCatch ret raise app snd];
      repeat match goal with
             | |- context [cleanup w ?x] => rewrite (cleanup_run x)
             | |- context [if ?c then _ else _] =>
                 destruct c; cbn [bind emit tryCatch ret return_ raise app snd]
             end; discriminate. }
  specialize (Hout (el + GenerateFoodVideo.pollInterval + Z.of_N (iterationTime w (S pc)))).
  destruct (pollOnce w b d key id (S pc)
              (el + GenerateFoodVideo.pollInterval + Z.of_N (iterationTime w (S pc))))
    as [t [a|r|e|]];
    cbn [bind emit app snd] in *;
    try (left; eexists; reflexivity); try (right; eexists; reflexivity); try congruence.
  destruct (IH (S pc) (el + GenerateFoodVideo.pollInterval
                       + Z.of_N (iterationTime w (S pc)))) as [[r Hr]|[e He]];
    try (unfold GenerateFoodVideo.maxIterations, GenerateFoodVideo.maxPollingTime,
           GenerateFoodVideo.pollInterval in *; lia);
  destruct (pollLoop w b d key id fuel (S pc)
              (el + GenerateFoodVideo.pollInterval + Z.of_N (iterationTime w (S pc))))
    as [t' s']; cbn [snd] in *; [left; exists r|right; exists e]; assumption.
Qed.

Lemma blob_errorResponse_not_invalidKey (e : Thrown) :
  GenerateFoodVideo.errorResponse e <> invalidKeyResponse.
Proof.
  unfold GenerateFoodVideo.errorResponse, invalidKeyResponse.
  destruct e as [msg|txt]; [|discriminate].
  repeat match goal with
         | |- context [if ?c then _ else _] => destruct c
         end; discriminate.
Qed.

(** The creating step: it stores and deletes nothing; its only answer is
    the one for a key that is not valid. *)
Lemma blob_createBlock_run (key p url : string) :
  stored (fst (createBlock w key p url)) = false
  /\ deleted (fst (createBlock w key p url)) = []
  /\ snd (createBlock w key p url) <> OutOfFuel
  /\ forall r, snd (createBlock w key p url) = Return_ r -> r = invalidKeyResponse.
Proof.
  unfold createBlock, createPrediction.
  destruct (createFetch w) as [e|ok st txt [|e1|cj]];
    cbn [bind emit raise ret tryCatch app fst snd];
    repeat match goal with
           | |- context [if ?c then _ else _] =>
               destruct c; cbn [bind emit raise ret return_ tryCatch app fst snd]
           end;
    (split; [reflexivity|]); (split; [reflexivity|]); (split; [discriminate|]);
    intros r H; try discriminate H; injection H as <-; reflexivity.
Qed.

(** The part before the image is stored deletes nothing; when it goes on,
    the image has been stored, under the URL that [put] gave. *)
Lemma blob_prepare_run (req : Request) (uid : string) :
  deleted (fst (prepare w req uid)) = []
  /\ snd (prepare w req uid) <> OutOfFuel
  /\ (forall p, snd (prepare w req uid) = Next p ->
        stored (fst (prepare w req uid)) = true /\ putBlob w = Ok (p_blobUrl p))
  /\ (forall r, snd (prepare w req uid) = Return_ r ->
        r <> invalidKeyResponse
        /\ (stored (fst (prepare w req uid)) = true -> exists e, putBlob w = Throw e))
  /\ (forall e, snd (prepare w req uid) = Raise e -> stored (fst (prepare w req uid)) = false).
Proof.
  destruct (GenerateFoodVideo.body req) as [body_|e0] eqn:Hb.
  2:{ unfold prepare. rewrite Hb. cbn [await raise bind fst snd].
      split; [reflexivity|]. split; [discriminate|].
      split; [intros p H; discriminate H|].
      split; [intros r H; discriminate H|]. intros e' _. reflexivity. }
  replace (prepare w req uid) with (prepareBody w body_ uid)
    by (unfold prepare; rewrite Hb; cbn [await ret bind app];
        destruct (prepareBody w body_ uid); reflexivity).
  unfold prepareBody. cbv zeta.
  assert (Hearly : forall (t : list Event) (r : Response),
            stored t = false -> deleted t = [] -> r <> invalidKeyResponse ->
            deleted (fst ((t, Return_ r) : P Prepared)) = []
            /\ snd ((t, Return_ r) : P Prepared) <> OutOfFuel
            /\ (forall p, snd ((t, Return_ r) : P Prepared) = Next p ->
                  stored (fst ((t, Return_ r) : P Prepared)) = true
                  /\ putBlob w = Ok (p_blobUrl p))
            /\ (forall r', snd ((t, Return_ r) : P Prepared) = Return_ r' ->
                  r' <> invalidKeyResponse
                  /\ (stored (fst ((t, Return_ r) : P Prepared)) = true ->
                      exists e, putBlob w = Throw e))
            /\ (forall e, snd ((t, Return_ r) : P Prepared) = Raise e ->
                  stored (fst ((t, Return_ r) : P Prepared)) = false)).
  { intros t r Hs Hd Hr. cbn [fst snd].
    split; [exact Hd|]. split; [discriminate|].
    split; [intros p H; discriminate H|].
    split; [|intros e H; discriminate H].
    intros r' H. injection H as <-. split; [exact Hr|]. rewrite Hs. discriminate. }
  destruct (GenerateFoodVideo.foodImage body_) as [image|].
  2:{ apply Hearly; [reflexivity|reflexivity|discriminate]. }
  destruct (negb (truthy (GenerateFoodVideo.data image))
            || negb (truthy (GenerateFoodVideo.mimeType image)))%bool.
  { apply Hearly; [reflexivity|reflexivity|discriminate]. }
  destruct (negb (truthyOpt (GenerateFoodVideo.englishPrompt body_))).
  { apply Hearly; [reflexivity|reflexivity|discriminate]. }
  destruct (findUserById w uid) as [user|e];
    cbn [await bind emit ret raise app fst snd].
  2:{ split; [reflexivity|]. split; [discriminate|].
      split; [intros p H; discriminate H|].
      split; [intros r H; discriminate H|]. intros e' _. reflexivity. }
  destruct (negb (truthyOpt (selectHailuoKey user (env w)))).
  { apply (Hearly [FindUser uid]); [reflexivity|reflexivity|discriminate]. }
  unfold uploadBlock.
  destruct (putBlob w) as [url|e];
    cbn [await bind emit ret raise return_ tryCatch app fst snd deleted stored].
  - split; [reflexivity|]. split; [discriminate|].
    split; [intros p H; injection H as <-; split; reflexivity|].
    split; [intros r H; discriminate H|intros e H; discriminate H].
  - split; [reflexivity|]. split; [discriminate|].
    split; [intros p H; discriminate H|].
    split; [|intros e' H; discriminate H].
    intros r H. injection H as <-. split; [discriminate|].
    intros _. exists e. reflexivity.
Qed.

(** X19. The handler that stores the image in Vercel Blob always
    answers, and a run deletes at most one blob, the one it stored.  It
    deletes it, as its last call before the answer, whenever it stored one
    and [put] gave a non-empty URL, whether the run ends with the video,
    with a timeout or with any other error, with one exception: when the
    creating call fails with a message that contains 401 or Unauthorized,
    the answer 403 for a key that is not valid is given at once and the
    stored blob is left behind. *)
Theorem blob_deleted_unless_key_invalid (req : Request) :
  exists r,
    snd (handler w req) = Some r
    /\ let t := fst (handler w req) in
       (stored t = false -> deleted t = [])
       /\ (stored t = true ->
           match putBlob w with
           | Throw _ => deleted t = []
           | Ok url =>
               if truthy url
               then (r = invalidKeyResponse /\ deleted t = [])
                    \/ (r <> invalidKeyResponse
                        /\ exists t', t = (t' ++ [DeleteBlob url])%list /\ deleted t' = [])
               else deleted t = []
           end).
Proof.
  unfold handler.
  destruct (GenerateFoodVideo.method req) as [| |m];
    try (eexists; split; [reflexivity|]; cbn; split; [reflexivity|discriminate]).
  cbv zeta.
  destruct (GenerateVideo.authenticated (requireAuth w));
    [|destruct (GenerateVideo.userId (requireAuth w));
      eexists; (split; [reflexivity|]); cbn; (split; [reflexivity|discriminate])].
  destruct (GenerateVideo.userId (requireAuth w)) as [uid|];
    [|eexists; (split; [reflexivity|]); cbn; (split; [reflexivity|discriminate])].
  destruct (truthy uid);
    [|eexists; (split; [reflexivity|]); cbn; (split; [reflexivity|discriminate])].
  unfold tryAndCatch. cbv zeta.
  destruct (blob_prepare_run req uid) as (Hpd & Hpf & Hpn & Hpr & Hpe).
  destruct (prepare w req uid) as [t1 [p|r|e|]]; cbn [fst snd] in *;
    [| | |congruence].
  - (* the image is stored *)
    destruct (Hpn p eq_refl) as [Hst Hput]. clear Hpn Hpr Hpe.
    unfold generate.
    destruct (blob_createBlock_run (p_hailuoApiKey p) (p_englishPrompt p) (p_blobUrl p))
      as (Hcs & Hcd & Hcf & Hcr).
    destruct (createBlock w (p_hailuoApiKey p) (p_englishPrompt p) (p_blobUrl p))
      as [t2 [id|r|e|]]; cbn [fst snd bind] in *; [| | |congruence].
    + pose proof (blob_pollLoop_run (p_blobUrl p) (p_durationSeconds p)
                    (p_hailuoApiKey p) id GenerateFoodVideo.maxIterations 0%nat 0) as Hl.
      cbv zeta in Hl.
      pose proof (blob_pollLoop_ends (Some (p_blobUrl p)) (p_durationSeconds p)
                    (p_hailuoApiKey p) id GenerateFoodVideo.maxIterations 0%nat 0) as He.
      destruct (pollLoop w (Some (p_blobUrl p)) (p_durationSeconds p)
                  (p_hailuoApiKey p) id GenerateFoodVideo.maxIterations 0%nat 0)
        as [t3 s3]; cbn [fst snd] in *.
      destruct Hl as [Hls Hld].
      destruct He as [[r ->]|[e ->]];
        try (unfold GenerateFoodVideo.maxIterations, GenerateFoodVideo.pollInterval; lia).
      * destruct Hld as [H200 (t' & -> & Hd')].
        exists r. split; [reflexivity|]. cbn [fst snd].
        rewrite !stored_app, Hst. cbn [orb]. split; [discriminate|]. intros _.
        rewrite Hput. destruct (truthy (p_blobUrl p)).
        -- right. split.
           { intros ->. cbn in H200. discriminate. }
           exists (t1 ++ t2 ++ t')%list. split.
           { rewrite <- !List.app_assoc. reflexivity. }
           rewrite !deleted_app, Hpd, Hcd, Hd'. reflexivity.
        -- rewrite List.app_nil_r, !deleted_app, Hpd, Hcd, Hd'. reflexivity.
      * exists (GenerateFoodVideo.errorResponse e). unfold catchBlock.
        rewrite cleanup_run. cbn [fst snd]. split; [reflexivity|].
        rewrite !stored_app, Hst. cbn [orb]. split; [discriminate|]. intros _.
        rewrite Hput. destruct (truthy (p_blobUrl p)).
        -- right. split; [apply blob_errorResponse_not_invalidKey|].
           exists (t1 ++ t2 ++ t3)%list. split.
           { rewrite <- !List.app_assoc. reflexivity. }
           rewrite !deleted_app, Hpd, Hcd, Hld. reflexivity.
        -- rewrite !List.app_nil_r, !deleted_app, Hpd, Hcd, Hld. reflexivity.
    + (* the key is not valid: the blob stays *)
      exists r. split; [reflexivity|]. cbn [fst snd].
      rewrite !stored_app, Hst. cbn [orb]. split; [discriminate|]. intros _.
      rewrite Hput. rewrite !deleted_app, Hpd, Hcd.
      destruct (truthy (p_blobUrl p)); [|reflexivity].
      left. split; [apply Hcr; reflexivity|reflexivity].
    + exists (GenerateFoodVideo.errorResponse e). unfold catchBlock.
      rewrite cleanup_run. cbn [fst snd]. split; [reflexivity|].
      rewrite !stored_app, Hst. cbn [orb]. split; [discriminate|]. intros _.
      rewrite Hput. destruct (truthy (p_blobUrl p)).
      * right. split; [apply blob_errorResponse_not_invalidKey|].
        exists (t1 ++ t2)%list. split.
        { rewrite <- !List.app_assoc. reflexivity. }
        rewrite !deleted_app, Hpd, Hcd. reflexivity.
      * rewrite !List.app_nil_r, !deleted_app, Hpd, Hcd. reflexivity.
  - exists r. split; [reflexivity|]. cbn [fst snd].
    destruct (Hpr r eq_refl) as [Hne Hthrew].
    split; [intros _; exact Hpd|]. intros Hs.
    destruct (Hthrew Hs) as [e ->]. exact Hpd.
  - exists (GenerateFoodVideo.errorResponse e). unfold catchBlock.
    rewrite cleanup_run. cbn [fst snd]. rewrite List.app_nil_r.
    split; [reflexivity|]. split; [intros _; exact Hpd|].
    rewrite (Hpe e eq_refl). discriminate.
Qed.
End BlobCleanup.

Section ClipScenarioProps.
Import JS Effects Lib GenerateClipScenario.
Local Open Scope Z_scope.

Variable Value : Type.
Variable w : World Value.

(** The [try] block on a request with a topic, once the prompt is built. *)
Lemma clip_tryBlock_valid (req : Request) (b : RequestBody) (c : ClipConfig) (prompt : string) :
  body req = Some b -> config b = Some c ->
  truthyOpt (topic c) = true -> buildPrompt w c = Ok prompt ->
  tryBlock w req
  = bind (generateParsed w prompt) (fun parsed =>
    bind (await (toScenario w c (match topic c with Some t => t | None => "" end) parsed))
         (fun scenario =>
            return_ {| status := 200; json := ScenarioBody scenario |})).
Proof.
  intros Hb Hc Ht Hp. unfold tryBlock. rewrite Hb, Hc, Ht, Hp.
  cbn [negb await]. unfold ret at 1. cbn [bind app].
  match goal with
  | |- (let '(t', s) := ?m in _) = _ => destruct m; reflexivity
  end.
Qed.

(** The scenario does not change what is called: after the provider's
    answer is parsed nothing more is called. *)
Lemma clip_tryBlock_trace (req : Request) (b : RequestBody) (c : ClipConfig) (prompt : string) :
  body req = Some b -> config b = Some c ->
  truthyOpt (topic c) = true -> buildPrompt w c = Ok prompt ->
  fst (tryBlock w req) = fst (generateParsed w prompt).
Proof.
  intros Hb Hc Ht Hp. rewrite (clip_tryBlock_valid req b c prompt Hb Hc Ht Hp).
  destruct (generateParsed w prompt) as [t [parsed|r|e|]]; cbn [bind fst]; try reflexivity.
  destruct (toScenario w c _ parsed); cbn [await bind ret raise return_ fst];
    rewrite ?List.app_nil_r; reflexivity.
Qed.

(** X20. For a request with a topic, the scenario endpoint
    asks exactly one provider, at most once.  A request without a known
    user goes to the shared Gemini client with the default text model and
    calls nothing else.  For a known user the text model is looked up
    first; if it is an OpenAI model, the OpenAI key is looked up and, when
    there is one, one completion is requested with that key, that model,
    JSON mode, the system prompt of the endpoint and the prompt followed by
    the JSON instruction, and Gemini is not called; otherwise the user's
    Gemini client is fetched and, when that succeeds, asked once with the
    plain prompt. *)
Theorem clip_scenario_provider
  (req : Request) (b : RequestBody) (c : ClipConfig) (prompt : string) :
  method req = GenerateVideo.POST ->
  body req = Some b -> config b = Some c ->
  truthyOpt (topic c) = true -> buildPrompt w c = Ok prompt ->
  let t := fst (handler w req) in
  match knownUser w with
  | None => t = [GenerateContent SharedClient (MODELS_TEXT w) prompt]
  | Some uid =>
      match getUserTextModel w uid with
      | Throw _ => t = [GetUserTextModel uid]
      | Ok model =>
          if OpenAI.isOpenAIModel model
          then
            match snd (OpenAI.getOpenAIKeyForUser (openai w) uid) with
            | Next key =>
                t = [GetUserTextModel uid;
                     OpenAICall (OpenAI.FindUser uid);
                     OpenAICall
                       (OpenAI.ChatCompletion
                          {| OpenAI.req_apiKey := key;
                             OpenAI.req_model := model;
                             OpenAI.req_messages :=
                               [{| OpenAI.role := "system";
                                   OpenAI.content :=
                                     orOpt (OpenAI.systemPrompt openaiOptions) "" |};
                                {| OpenAI.role := "user";
                                   OpenAI.content := prompt ++ jsonInstruction |}];
                             OpenAI.req_jsonObject := true;
                             OpenAI.req_maxTokens := None;
                             OpenAI.req_temperature := None |})]
            | _ => t = [GetUserTextModel uid; OpenAICall (OpenAI.FindUser uid)]
            end
          else
            match getAIClientForUser w uid with
            | Ok _ => t = [GetUserTextModel uid; GetAIClientForUser uid;
                           GenerateContent (UserClient uid) model prompt]
            | Throw _ => t = [GetUserTextModel uid; GetAIClientForUser uid]
            end
      end
  end.
Proof.
  intros Hm Hb Hc Ht Hp. cbv zeta. unfold handler. rewrite Hm. cbn [fst].
  rewrite (clip_tryBlock_trace req b c prompt Hb Hc Ht Hp).
  unfold generateParsed.
  destruct (knownUser w) as [uid|].
  2:{ cbn [ret bind emit app].
      destruct (generateContent w SharedClient (MODELS_TEXT w) prompt) as [text|e];
        cbn [await bind ret raise app fst]; [|reflexivity].
      destruct (parseJSON w text); reflexivity. }
  destruct (getUserTextModel w uid) as [model|e];
    cbn [await bind emit ret raise app fst]; [|reflexivity].
  destruct (OpenAI.isOpenAIModel model).
  - unfold liftOpenAI, OpenAI.openaiTextBranch.
    pose proof (getOpenAIKeyForUser_trace (openai w) uid) as Hk.
    destruct (OpenAI.getOpenAIKeyForUser (openai w) uid) as [tk [key|r|e|]];
      cbn [fst snd] in *; subst tk; try destruct r;
      cbn [bind fst snd map app await ret raise]; try reflexivity.
    unfold OpenAI.generateTextWithOpenAI. cbv zeta.
    cbn [bind emit app fst snd map OpenAI.systemPrompt OpenAI.jsonMode OpenAI.maxTokens
         OpenAI.temperature openaiOptions truthyOpt truthy orOpt].
    match goal with
    | |- context [OpenAI.chat (openai w) ?rq] =>
        destruct (OpenAI.chat (openai w) rq) as [e|st txt|[content|e]]
    end; cbn [await bind ret raise app fst snd map]; try reflexivity.
    destruct (parseJSON w (Some content)); reflexivity.
  - destruct (getAIClientForUser w uid) as [[]|e];
      cbn [await bind emit ret raise app fst]; [|reflexivity].
    destruct (generateContent w (UserClient uid) model prompt) as [text|e];
      cbn [await bind ret raise app fst]; [|reflexivity].
    destruct (parseJSON w text); reflexivity.
Qed.

(** X21. A known user whose text model is an OpenAI model but for
    whom no OpenAI key is stored, and with none in the environment, gets
    the answer 500 of a failed generation, with the key error as its
    text; nothing is asked of OpenAI or Gemini. *)
Theorem clip_scenario_openai_key_missing
  (req : Request) (b : RequestBody) (c : ClipConfig) (prompt uid model : string)
  (user : User) :
  method req = GenerateVideo.POST ->
  body req = Some b -> config b = Some c ->
  truthyOpt (topic c) = true -> buildPrompt w c = Ok prompt ->
  knownUser w = Some uid ->
  getUserTextModel w uid = Ok model ->
  OpenAI.isOpenAIModel model = true ->
  OpenAI.findUserById (openai w) uid = Ok (Some user) ->
  isAdmin user = false ->
  truthyOpt (storedOpenAIKey user) = false ->
  truthyOpt (OPENAI_API_KEY (OpenAI.env (openai w))) = false ->
  handler w req
  = ([GetUserTextModel uid; OpenAICall (OpenAI.FindUser uid)],
     Some {| status := 500;
             json := ApiError
                       ("Clip scenario generation failed: "
                        ++ "OpenAI API 키가 설정되지 않았습니다. 설정에서 OpenAI API 키를 입력해 주세요.")
                       (Some "GENERATION_FAILED") |}).
Proof.
  intros Hm Hb Hc Ht Hp Hu Hmodel Hopenai Hfind Hadm Hstored Henv.
  unfold handler. rewrite Hm.
  rewrite (clip_tryBlock_valid req b c prompt Hb Hc Ht Hp).
  unfold generateParsed. rewrite Hu, Hmodel.
  cbn [await bind emit ret raise app fst snd]. rewrite Hopenai.
  unfold liftOpenAI, OpenAI.openaiTextBranch, OpenAI.getOpenAIKeyForUser.
  rewrite Hfind. cbn [await bind emit ret raise app fst snd]. rewrite Hadm.
  unfold orOptOpt. rewrite Hstored.
  destruct (OPENAI_API_KEY (OpenAI.env (openai w))) as [k|]; cbn [truthyOpt] in Henv.
  - rewrite Henv. reflexivity.
  - reflexivity.
Qed.

Lemma clip_mapScenes_spec (l : list (SceneJson Value)) :
  forall (index : nat) (out : list (Scene Value)),
    mapScenes w index l = Ok out ->
    List.length out = List.length l
    /\ forall i sc, nth_error out i = Some sc ->
         exists sn sb vd na ca mo ch ip vp,
           nth_error l i = Some (SceneFields sn sb vd na ca mo ch ip vp)
           /\ sc = {| sc_id := randomUUID w (index + i);
                      sc_sceneNumber :=
                        if truthyValue w sn
                        then NumberGiven sn
                        else NumberOfIndex (index + i + 1);
                      sc_duration := 6;
                      sc_storyBeat := sb;
                      sc_visualDescription := vd;
                      sc_narration := na;
                      sc_cameraAngle := ca;
                      sc_mood := mo;
                      sc_characters := if truthyValue w ch then ArrayGiven ch else EmptyArray;
                      sc_imagePrompt := ip;
                      sc_videoPrompt := vp |}.
Proof.
  induction l as [|s l IH]; intros index out H; cbn [mapScenes] in H.
  - injection H as <-. split; [reflexivity|]. intros [|i] sc Hn; discriminate Hn.
  - destruct s as [e|sn sb vd na ca mo ch ip vp]; [discriminate|].
    destruct (mapScenes w (S index) l) as [rest|e] eqn:Hrest; [|discriminate].
    injection H as <-. destruct (IH (S index) rest Hrest) as [Hlen Hall].
    split; [cbn [List.length]; rewrite Hlen; reflexivity|].
    intros [|i] sc Hn; cbn [nth_error] in Hn.
    + injection Hn as <-. exists sn, sb, vd, na, ca, mo, ch, ip, vp.
      rewrite Nat.add_0_r. split; reflexivity.
    + destruct (Hall i sc Hn) as (sn' & sb' & vd' & na' & ca' & mo' & ch' & ip' & vp'
                                  & Hl & Hsc).
      exists sn', sb', vd', na', ca', mo', ch', ip', vp'.
      replace (index + S i)%nat with (S index + i)%nat by lia. auto.
Qed.

(** A text that the OpenAI branch gives back is the content of the
    completion answered to the request made with the key of the user. *)
Lemma clip_openai_text (ow : OpenAI.World) (uid model prompt_ : string)
  (options : OpenAI.OpenAITextOptions) (resultText : string) :
  snd (OpenAI.openaiTextBranch ow uid model prompt_ options) = Next resultText ->
  exists openaiKey request,
    snd (OpenAI.getOpenAIKeyForUser ow uid) = Next openaiKey
    /\ fst (OpenAI.generateTextWithOpenAI ow openaiKey model prompt_ options)
       = [OpenAI.ChatCompletion request]
    /\ OpenAI.chat ow request = OpenAI.ChatOk (Ok resultText).
Proof.
  unfold OpenAI.openaiTextBranch.
  destruct (OpenAI.getOpenAIKeyForUser ow uid) as [t [key|r|e|]];
    try destruct r; cbn [bind snd]; try discriminate.
  intros H. exists key.
  unfold OpenAI.generateTextWithOpenAI in *. cbv zeta in *.
  match type of H with
  | context [OpenAI.chat ow ?request] =>
      exists request; destruct (OpenAI.chat ow request) as [e|st txt|[c|e]];
        cbn [await bind emit ret raise app fst snd] in *; try discriminate H
  end.
  injection H as ->. auto.
Qed.

(** What is parsed is what the provider answered; asking the provider
    never answers the request. *)
Lemma clip_generateParsed_outcome (prompt : string) :
  (forall parsed, snd (generateParsed w prompt) = Next parsed ->
                  exists text, providerAnswered w prompt text
                               /\ parseJSON w text = Ok parsed)
  /\ (forall r, snd (generateParsed w prompt) <> Return_ r).
Proof.
  unfold generateParsed, providerAnswered.
  destruct (knownUser w) as [uid|].
  2:{ cbn [ret bind emit app].
      destruct (generateContent w SharedClient (MODELS_TEXT w) prompt) as [text|e];
        cbn [await bind ret raise app snd]; [|split; discriminate].
      destruct (parseJSON w text) as [p|e0] eqn:E; cbn [await bind ret raise app snd];
        [|split; discriminate].
      split; [|discriminate]. intros parsed H. injection H as <-. exists text. auto. }
  destruct (getUserTextModel w uid) as [model|e];
    cbn [await bind emit ret raise app snd]; [|split; discriminate].
  destruct (OpenAI.isOpenAIModel model) eqn:Hmodel.
  - unfold liftOpenAI.
    pose proof (clip_openai_text (openai w) uid model (prompt ++ jsonInstruction)
                  openaiOptions) as Htext.
    destruct (OpenAI.openaiTextBranch (openai w) uid model (prompt ++ jsonInstruction)
                openaiOptions) as [t [text|r|e|]];
      try destruct r; cbn [fst snd bind] in *; try (split; discriminate).
    destruct (parseJSON w (Some text)) as [p|e0] eqn:E;
      cbn [await bind ret raise app snd]; [|split; discriminate].
    split; [|discriminate]. intros parsed H. injection H as <-.
    destruct (Htext text eq_refl) as (key & request & Hkey & Hreq & Hchat).
    exists (Some text). split; [|exact E].
    exists model. split; [reflexivity|]. rewrite Hmodel.
    exists key, request, text. auto.
  - destruct (getAIClientForUser w uid) as [[]|e] eqn:Hclient;
      cbn [await bind emit ret raise app snd]; [|split; discriminate].
    destruct (generateContent w (UserClient uid) model prompt) as [text|e] eqn:Hgen;
      cbn [await bind ret raise app snd]; [|split; discriminate].
    destruct (parseJSON w text) as [p|e0] eqn:E; cbn [await bind ret raise app snd];
      [|split; discriminate].
    split; [|discriminate]. intros parsed H. injection H as <-. exists text.
    split; [|exact E]. exists model. split; [reflexivity|]. rewrite Hmodel. auto.
Qed.

(** X22. A scenario that the endpoint answers is made of the
    answer of the one provider asked with the prompt built for the
    request, parsed as JSON.  It has one scene for each scene of that
    parsed answer, at the same position, and every scene is its
    counterpart with the story beat, description, narration, camera angle,
    mood and the two prompts passed on as they are, the duration 6, the
    identifier drawn for its position, the characters of the provider (an
    empty array when that value is falsy) and the number the provider gave
    to that scene when that number is truthy, and otherwise, and only
    then, its position counted from 1.  The total duration is the one
    asked for (60 when none is given), whatever the number of scenes; the
    topic is the request's, and the scenario's identifier is drawn after
    those of the scenes. *)
Theorem clip_scenario_scenes (req : Request) (scenario : Scenario Value) :
  snd (handler w req) = Some {| status := 200; json := ScenarioBody scenario |} ->
  exists b c prompt text title_ synopsis_ characters_ parsedScenes,
    body req = Some b /\ config b = Some c
    /\ topic c = Some (s_topic scenario)
    /\ truthy (s_topic scenario) = true
    /\ buildPrompt w c = Ok prompt
    /\ providerAnswered w prompt text
    /\ parseJSON w text = Ok (ParsedFields title_ synopsis_ characters_ parsedScenes)
    /\ List.length (scenes scenario) = List.length parsedScenes
    /\ totalDuration scenario = match duration c with Some d => d | None => 60 end
    /\ id scenario = randomUUID w (List.length (scenes scenario))
    /\ scenarioType scenario = "clip"
    /\ title scenario = title_
    /\ synopsis scenario = synopsis_
    /\ suggestedCharacters scenario
       = (if truthyValue w characters_ then ArrayGiven characters_ else EmptyArray)
    /\ forall i sc, nth_error (scenes scenario) i = Some sc ->
         exists sn sb vd na ca mo ch ip vp,
           nth_error parsedScenes i = Some (SceneFields sn sb vd na ca mo ch ip vp)
           /\ sc = {| sc_id := randomUUID w i;
                      sc_sceneNumber :=
                        if truthyValue w sn then NumberGiven sn else NumberOfIndex (i + 1);
                      sc_duration := 6;
                      sc_storyBeat := sb;
                      sc_visualDescription := vd;
                      sc_narration := na;
                      sc_cameraAngle := ca;
                      sc_mood := mo;
                      sc_characters := if truthyValue w ch then ArrayGiven ch else EmptyArray;
                      sc_imagePrompt := ip;
                      sc_videoPrompt := vp |}.
Proof.
  unfold handler.
  destruct (method req); cbn [snd]; try discriminate.
  unfold tryBlock.
  destruct (body req) as [b|]; [|discriminate].
  destruct (config b) as [c|] eqn:Hc; [|discriminate].
  destruct (topic c) as [tp|] eqn:Htp; cbn [truthyOpt negb]; [|discriminate].
  destruct (truthy tp) eqn:Htruthy; cbn [negb]; [|discriminate].
  destruct (buildPrompt w c) as [prompt|e] eqn:Hprompt;
    cbn [await bind ret raise app snd]; [|discriminate].
  destruct (clip_generateParsed_outcome prompt) as [Hnext Hret].
  destruct (generateParsed w prompt) as [t [parsed|r|e|]]; cbn [bind snd] in *;
    try discriminate.
  2:{ exfalso. apply (Hret r). reflexivity. }
  destruct (Hnext parsed eq_refl) as (text & Hanswer & Hparse).
  unfold toScenario.
  destruct parsed as [e|title_ synopsis_ characters_ parsedScenes];
    cbn [await bind ret raise app snd]; [discriminate|].
  destruct (mapScenes w 0 parsedScenes) as [out|e] eqn:Hmap;
    cbn [await bind ret raise return_ app snd]; [|discriminate].
  intros H. injection H as <-.
  destruct (clip_mapScenes_spec parsedScenes 0%nat out Hmap) as [Hlen Hall].
  exists b, c, prompt, text, title_, synopsis_, characters_, parsedScenes.
  cbn [s_topic scenes totalDuration id scenarioType title synopsis suggestedCharacters].
  repeat (split; [first [reflexivity | assumption | congruence]|]).
  exact Hall.
Qed.
End ClipScenarioProps.

Section TimelineProps.
Import VideoTimelineOps.
Local Open Scope nat_scope.

Variable Num : Type.
Variable zero : Num.
Variable add : Num -> Num -> Num.
Variables SceneRest TransitionRest TimelineRest AudioTrack : Type.

Lemma sceneMapGet_fold (l : list (TimelineScene Num SceneRest)) (i : string) :
  forall acc : option (TimelineScene Num SceneRest),
    fold_left (fun found s => if String.eqb (id s) i then Some s else found) l acc
    = if isSceneOf l i
      then fold_left (fun found s => if String.eqb (id s) i then Some s else found) l None
      else acc.
Proof.
  unfold isSceneOf.
  induction l as [|s l IH]; intros acc; [reflexivity|].
  cbn [fold_left existsb]. destruct (String.eqb (id s) i) eqn:E; cbn [orb].
  - rewrite (IH (Some s)). destruct (existsb _ l); reflexivity.
  - rewrite (IH acc), (IH None). reflexivity.
Qed.

Lemma sceneMapGet_some (l : list (TimelineScene Num SceneRest)) (i : string) (s : TimelineScene Num SceneRest) :
  sceneMapGet l i = Some s -> In s l /\ id s = i /\ isSceneOf l i = true.
Proof.
  unfold sceneMapGet, isSceneOf. induction l as [|x l IH] using rev_ind; [discriminate|].
  rewrite fold_left_app. cbn [fold_left]. rewrite existsb_app. cbn [existsb].
  destruct (String.eqb (id x) i) eqn:E.
  - intros H. injection H as <-. apply String.eqb_eq in E.
    split; [apply in_or_app; right; left; reflexivity|].
    split; [exact E|]. rewrite !orb_true_r. reflexivity.
  - intros H. destruct (IH H) as (Hin & Hid & Hk).
    split; [apply in_or_app; left; exact Hin|]. split; [exact Hid|].
    rewrite Hk. reflexivity.
Qed.

Lemma sceneMapGet_none (l : list (TimelineScene Num SceneRest)) (i : string) :
  sceneMapGet l i = None -> isSceneOf l i = false.
Proof.
  unfold sceneMapGet, isSceneOf. induction l as [|x l IH] using rev_ind; [reflexivity|].
  rewrite fold_left_app. cbn [fold_left]. rewrite existsb_app. cbn [existsb].
  destruct (String.eqb (id x) i) eqn:E; [discriminate|].
  intros H. rewrite (IH H). reflexivity.
Qed.

Lemma mapSceneIds_spec (l : list (TimelineScene Num SceneRest)) (ids : list string) :
  forall (index : nat) (cur : Num),
    let out := filterNotNull (fst (mapSceneIds add l ids index cur)) in
    map id out = filter (isSceneOf l) ids
    /\ backToBack add cur out
    /\ snd (mapSceneIds add l ids index cur) = endOf add cur out
    /\ forall s', In s' out ->
         exists s k, In s l /\ id s = id s' /\ duration s = duration s'
                     /\ sceneRest s = sceneRest s'
                     /\ position s' = index + k /\ nth_error ids k = Some (id s').
Proof.
  induction ids as [|i ids IH]; intros index cur; cbv zeta.
  - cbn. repeat split; auto. intros s' [].
  - cbn [mapSceneIds filter].
    destruct (sceneMapGet l i) as [s|] eqn:Hget.
    + destruct (sceneMapGet_some l i s Hget) as (Hin & Hid & Hk). rewrite Hk.
      specialize (IH (S index) (add cur (duration s))). cbv zeta in IH.
      destruct (mapSceneIds add l ids (S index) (add cur (duration s))) as [out final].
      cbn [fst snd filterNotNull map backToBack] in *.
      destruct IH as (Hids & Hb & Hend & Hall).
      split; [cbn [id]; rewrite Hids, Hid; reflexivity|].
      split; [split; [reflexivity|exact Hb]|].
      split; [exact Hend|].
      intros s' [<-|Hs'].
      * exists s, 0. cbn. rewrite Nat.add_0_r, Hid. auto 7.
      * destruct (Hall s' Hs') as (s0 & k & H1 & H2 & H3 & H4 & H5 & H6).
        exists s0, (S k). cbn [nth_error].
        replace (index + S k) with (S index + k) by lia. auto 7.
    + rewrite (sceneMapGet_none l i Hget).
      specialize (IH (S index) cur). cbv zeta in IH.
      destruct (mapSceneIds add l ids (S index) cur) as [out final].
      cbn [fst snd filterNotNull] in *.
      destruct IH as (Hids & Hb & Hend & Hall).
      split; [exact Hids|]. split; [exact Hb|]. split; [exact Hend|].
      intros s' Hs'. destruct (Hall s' Hs') as (s0 & k & H1 & H2 & H3 & H4 & H5 & H6).
      exists s0, (S k). cbn [nth_error].
      replace (index + S k) with (S index + k) by lia. auto 7.
Qed.

(** X23. Reordering the scenes of a timeline keeps, in the order
    asked for, the identifiers that name a scene of the timeline, and
    nothing else: an unknown identifier is dropped, a scene that is not
    listed leaves the timeline, a scene listed twice is there twice.  The
    scenes are laid out one after the other from time 0, each starting
    where the one before ends, and the total duration is the end of the
    last one.  Each keeps its duration and its other properties, and its
    position is its place in the list that was asked for, dropped
    identifiers included.  The transitions and the audio tracks are not
    touched. *)
Theorem reorder_lays_scenes_back_to_back 
  (tl : VideoTimeline Num SceneRest TransitionRest TimelineRest AudioTrack)
  (sceneIds : list string) :
  exists tl' : VideoTimeline Num SceneRest TransitionRest TimelineRest AudioTrack,
    reorderTimelineScenes zero add (Some tl) sceneIds = Some tl'
    /\ map id (scenes tl') = filter (isSceneOf (scenes tl)) sceneIds
    /\ backToBack add zero (scenes tl')
    /\ totalDuration tl' = endOf add zero (scenes tl')
    /\ (forall s', In s' (scenes tl') ->
          nth_error sceneIds (position s') = Some (id s')
          /\ exists s, In s (scenes tl) /\ id s = id s' /\ duration s = duration s'
                       /\ sceneRest s = sceneRest s')
    /\ transitions tl' = transitions tl
    /\ audioTracks tl' = audioTracks tl.
Proof.
  unfold reorderTimelineScenes.
  pose proof (mapSceneIds_spec (scenes tl) sceneIds 0 zero) as H. cbv zeta in H.
  destruct (mapSceneIds add (scenes tl) sceneIds 0 zero) as [mapped final].
  cbn [fst snd] in H. destruct H as (Hids & Hb & Hend & Hall).
  eexists. split; [reflexivity|]. cbn [scenes totalDuration transitions audioTracks].
  split; [exact Hids|]. split; [exact Hb|]. split; [exact Hend|].
  split; [|split; reflexivity].
  intros s' Hs'. destruct (Hall s' Hs') as (s & k & H1 & H2 & H3 & H4 & H5 & H6).
  cbn in H5. subst k. split; [exact H6|]. exists s. auto.
Qed.

Lemma joins_true (a b : string) (t : Transition TransitionRest) :
  joins a b t = true <-> (fromSceneId t, toSceneId t) = (a, b).
Proof.
  unfold joins. rewrite andb_true_iff, !String.eqb_eq. split.
  - intros [-> ->]. reflexivity.
  - intros H. injection H as -> ->. auto.
Qed.

Lemma joins_same_pair (a b : string) (t u : Transition TransitionRest) :
  (fromSceneId t, toSceneId t) = (fromSceneId u, toSceneId u) ->
  joins a b t = joins a b u.
Proof. intros H. injection H as H1 H2. unfold joins. rewrite H1, H2. reflexivity. Qed.

Lemma find_app_split {A} (p : A -> bool) (l1 l2 : list A) :
  find p (l1 ++ l2) = match find p l1 with Some a => Some a | None => find p l2 end.
Proof.
  induction l1 as [|a l1 IH]; [reflexivity|]. cbn [find app].
  destruct (p a); [reflexivity|exact IH].
Qed.

Lemma findIndex_none {A} (p : A -> bool) (l : list A) :
  findIndex p l = None -> forall a, In a l -> p a = false.
Proof.
  induction l as [|x l IH]; intros H a []; cbn [findIndex] in H;
    destruct (p x) eqn:E; try discriminate.
  - subst a. exact E.
  - destruct (findIndex p l); [discriminate|]. apply IH; auto.
Qed.

(** Replacing at the index found replaces the first element that
    satisfies the test. *)
Lemma findIndex_replace {A} (p : A -> bool) (new : A) (l : list A) :
  forall (k start : nat),
    findIndex p l = Some k ->
    exists l1 x l2,
      l = (l1 ++ x :: l2)%list /\ p x = true /\ (forall a, In a l1 -> p a = false)
      /\ mapIndexed (fun t i => if Nat.eqb i (start + k) then new else t) start l
         = (l1 ++ new :: l2)%list.
Proof.
  induction l as [|a l IH]; intros k start H; cbn [findIndex] in H; [discriminate|].
  destruct (p a) eqn:E.
  - injection H as <-. exists [], a, l. cbn [app mapIndexed].
    rewrite Nat.add_0_r, Nat.eqb_refl.
    split; [reflexivity|]. split; [exact E|]. split; [intros ? []|].
    f_equal. clear. assert (Hgen : forall n, start < n ->
      mapIndexed (fun t i => if Nat.eqb i start then new else t) n l = l).
    { induction l as [|b l IHl]; intros n Hn; [reflexivity|]. cbn [mapIndexed].
      destruct (Nat.eqb n start) eqn:En; [apply Nat.eqb_eq in En; lia|].
      rewrite IHl by lia. reflexivity. }
    apply Hgen. lia.
  - destruct (findIndex p l) as [k'|] eqn:Hk; [|discriminate]. injection H as <-.
    destruct (IH k' (S start) eq_refl) as (l1 & x & l2 & -> & Hx & Hl1 & Hmap).
    exists (a :: l1), x, l2. cbn [app mapIndexed].
    split; [reflexivity|]. split; [exact Hx|].
    split; [intros b [<-|Hb]; [exact E|apply Hl1; exact Hb]|].
    destruct (Nat.eqb start (start + S k')) eqn:En; [apply Nat.eqb_eq in En; lia|].
    f_equal. replace (start + S k') with (S start + k') by lia. exact Hmap.
Qed.

Lemma find_none_forall {A} (p : A -> bool) (l : list A) :
  (forall a, In a l -> p a = false) -> find p l = None.
Proof.
  induction l as [|a l IH]; intros H; [reflexivity|]. cbn [find].
  rewrite (H a (or_introl eq_refl)). apply IH. intros b Hb. apply H. right. exact Hb.
Qed.

(** The two shapes of the list of transitions after [setTransition]. *)
Lemma setTransition_shape 
  (tl : VideoTimeline Num SceneRest TransitionRest TimelineRest AudioTrack)
  (tr : Transition TransitionRest) :
  exists tl' : VideoTimeline Num SceneRest TransitionRest TimelineRest AudioTrack,
    setTransition (Some tl) tr = Some tl'
    /\ scenes tl' = scenes tl /\ totalDuration tl' = totalDuration tl
    /\ ((exists l1 x l2,
           transitions tl = (l1 ++ x :: l2)%list
           /\ transitions tl' = (l1 ++ tr :: l2)%list
           /\ (fromSceneId x, toSceneId x) = (fromSceneId tr, toSceneId tr)
           /\ forall a, In a l1 -> joins (fromSceneId tr) (toSceneId tr) a = false)
        \/ (transitions tl' = (transitions tl ++ [tr])%list
            /\ forall a, In a (transitions tl) ->
                         joins (fromSceneId tr) (toSceneId tr) a = false)).
Proof.
  unfold setTransition. cbv zeta.
  destruct (findIndex (joins (fromSceneId tr) (toSceneId tr)) (transitions tl))
    as [k|] eqn:Hk.
  - destruct (findIndex_replace _ tr (transitions tl) k 0 Hk)
      as (l1 & x & l2 & Hl & Hx & Hl1 & Hmap).
    cbn [Nat.add] in Hmap.
    eexists. split; [reflexivity|]. cbn [scenes totalDuration transitions].
    split; [reflexivity|]. split; [reflexivity|]. left.
    exists l1, x, l2. split; [exact Hl|]. split; [exact Hmap|].
    split; [apply joins_true; exact Hx|exact Hl1].
  - eexists. split; [reflexivity|]. cbn [scenes totalDuration transitions].
    split; [reflexivity|]. split; [reflexivity|]. right.
    split; [reflexivity|]. apply findIndex_none. exact Hk.
Qed.

(** X24. The transitions of a timeline behave as a table keyed
    by the pair of scenes they join.  After [setTransition] the transition
    between the two scenes of the new transition is the new one, the
    transition between any other two scenes is the one it was, and the
    scenes are not touched; the list grows by one when the pair had no
    transition and keeps its length when it had one; and if no pair had
    two transitions before, none has after.  After [removeTransition]
    there is no transition between the two scenes, and the transition
    between any other two is the one it was. *)
Theorem transitions_form_a_table 
  (tl : VideoTimeline Num SceneRest TransitionRest TimelineRest AudioTrack)
  (tr : Transition TransitionRest) (from to : string) :
  (exists tl' : VideoTimeline Num SceneRest TransitionRest TimelineRest AudioTrack,
     setTransition (Some tl) tr = Some tl'
     /\ transitionBetween tl' (fromSceneId tr) (toSceneId tr) = Some tr
     /\ (forall a b, (a, b) <> (fromSceneId tr, toSceneId tr) ->
                     transitionBetween tl' a b = transitionBetween tl a b)
     /\ List.length (transitions tl')
        = match transitionBetween tl (fromSceneId tr) (toSceneId tr) with
          | Some _ => List.length (transitions tl)
          | None => S (List.length (transitions tl))
          end
     /\ (NoDup (joined (transitions tl)) -> NoDup (joined (transitions tl')))
     /\ scenes tl' = scenes tl)
  /\ (exists tl' : VideoTimeline Num SceneRest TransitionRest TimelineRest AudioTrack,
        removeTransition (Some tl) from to = Some tl'
        /\ transitionBetween tl' from to = None
        /\ (forall a b, (a, b) <> (from, to) ->
                        transitionBetween tl' a b = transitionBetween tl a b)
        /\ (NoDup (joined (transitions tl)) -> NoDup (joined (transitions tl')))
        /\ scenes tl' = scenes tl).
Proof.
  split.
  - destruct (setTransition_shape tl tr) as (tl' & Hset & Hsc & _ & Hshape).
    exists tl'. split; [exact Hset|]. unfold transitionBetween.
    assert (Htr : joins (fromSceneId tr) (toSceneId tr) tr = true).
    { apply joins_true. reflexivity. }
    destruct Hshape as [(l1 & x & l2 & Hl & Hl' & Hx & Hl1)|[Hl' Hnone]].
    + rewrite Hl', Hl.
      assert (Hjx : joins (fromSceneId tr) (toSceneId tr) x = true).
      { apply joins_true. exact Hx. }
      split; [rewrite find_app_split, (find_none_forall _ l1 Hl1); cbn [find];
              rewrite Htr; reflexivity|].
      split.
      { intros a b Hab. rewrite !find_app_split. cbn [find].
        rewrite (joins_same_pair a b x tr Hx).
        destruct (joins a b tr) eqn:E; [|reflexivity].
        apply joins_true in E. congruence. }
      split.
      { rewrite find_app_split, (find_none_forall _ l1 Hl1). cbn [find]. rewrite Hjx.
        rewrite !length_app. reflexivity. }
      split; [|exact Hsc].
      unfold joined. rewrite !map_app. cbn [map]. rewrite Hx. auto.
    + rewrite Hl'.
      split; [rewrite find_app_split, (find_none_forall _ _ Hnone); cbn [find];
              rewrite Htr; reflexivity|].
      split.
      { intros a b Hab. rewrite find_app_split. cbn [find].
        destruct (find (joins a b) (transitions tl)); [reflexivity|].
        destruct (joins a b tr) eqn:E; [|reflexivity].
        apply joins_true in E. congruence. }
      split.
      { rewrite (find_none_forall _ _ Hnone), length_app. cbn [List.length]. lia. }
      split; [|exact Hsc].
      intros Hnd. unfold joined. rewrite map_app. cbn [map].
      apply NoDup_app; [exact Hnd|repeat constructor; intros []|].
      intros p Hp [<-|[]]. apply in_map_iff in Hp. destruct Hp as (x & Hx & Hin).
      apply joins_true in Hx. rewrite (Hnone x Hin) in Hx. discriminate.
  - unfold removeTransition. eexists. split; [reflexivity|].
    unfold transitionBetween. cbn [transitions scenes].
    split.
    { apply find_none_forall. intros a Ha. apply filter_In in Ha.
      destruct Ha as [_ Ha]. destruct (joins from to a); [discriminate|reflexivity]. }
    split.
    { intros a b Hab. induction (transitions tl) as [|x l IH]; [reflexivity|].
      cbn [filter find]. destruct (joins from to x) eqn:Ex; cbn [negb find].
      - destruct (joins a b x) eqn:E; [|exact IH].
        apply joins_true in Ex, E. congruence.
      - destruct (joins a b x); [reflexivity|exact IH]. }
    split; [|reflexivity].
    intros Hnd. induction (transitions tl) as [|x l IH]; [constructor|].
    cbn [joined map] in Hnd. inversion Hnd as [|p l' Hnotin Hnd']. subst.
    cbn [filter]. destruct (negb (joins from to x)); [|apply IH; exact Hnd'].
    cbn [joined map]. constructor; [|apply IH; exact Hnd'].
    intros Hin. apply Hnotin. apply in_map_iff in Hin. destruct Hin as (y & Hy & Hyin).
    apply filter_In in Hyin. apply in_map_iff. exists y. split; [exact Hy|apply Hyin].
Qed.
End TimelineProps.

Section PanelProps.
Import JS VideoPromptPresets Types VideoPromptBuilder VideoPromptPanel.
Context {builtins : StringBuiltins}.
Variable jsLength : string -> nat.

Lemma styleKeyEqb_eq (a b : StyleKey) : styleKeyEqb a b = true <-> a = b.
Proof. destruct a, b; cbn; split; intros H; try reflexivity; discriminate H. Qed.

Lemma qualityKeyEqb_eq (a b : QualityKey) : qualityKeyEqb a b = true <-> a = b.
Proof. destruct a, b; cbn; split; intros H; try reflexivity; discriminate H. Qed.

Lemma negativeKeyEqb_eq (a b : OptionalNegativeKey) : negativeKeyEqb a b = true <-> a = b.
Proof. destruct a, b; cbn; split; intros H; try reflexivity; discriminate H. Qed.

(** Toggling a key keeps a selection free of repetitions, and changes
    whether the key is selected and nothing else. *)
Lemma toggle_NoDup {A} (eqb : A -> A -> bool) (key : A) (l : list A) :
  (forall a b, eqb a b = true <-> a = b) ->
  NoDup l -> NoDup (toggle eqb key l).
Proof.
  intros Heq Hnd. unfold toggle.
  destruct (existsb (fun s => eqb s key) l) eqn:E.
  - apply NoDup_filter. exact Hnd.
  - apply NoDup_app; [exact Hnd|repeat constructor; intros []|].
    intros a Ha [<-|[]].
    assert (Hex : existsb (fun s => eqb s key) l = true).
    { apply existsb_exists. exists key. split; [exact Ha|]. apply Heq. reflexivity. }
    congruence.
Qed.

Lemma recommended_styles_NoDup (action_ : string) (mood : option MoodKey) :
  NoDup (rec_styles (getAIRecommendation action_ mood)).
Proof.
  destruct mood as [m|]; cbn [getAIRecommendation rec_styles getRecommendationByMood];
    [destruct m|]; cbn;
    repeat (constructor; [cbn; intuition discriminate|]); constructor.
Qed.

(** What every state of the panel satisfies. *)
Lemma panel_handle_invariant (s : PanelState) (e : PanelEvent) :
  (customSubject (config s) = None /\ customEnvironment (config s) = None
   /\ NoDup (styles (config s)) /\ NoDup (quality (config s))
   /\ NoDup (negativeOptional (config s))) ->
  let s' := fst (handle jsLength s e) in
  customSubject (config s') = None /\ customEnvironment (config s') = None
  /\ NoDup (styles (config s')) /\ NoDup (quality (config s'))
  /\ NoDup (negativeOptional (config s')).
Proof.
  intros (Hs & He & Hst & Hq & Hn). cbv zeta.
  destruct e; cbn [handle fst setConfig config handleMoodSelect withCharacter withAction
                   withCameraAngle withCameraMovement withEnvironment withStyles
                   withQuality withNegativeOptional applyRecommendation
                   customSubject customEnvironment styles quality negativeOptional];
    auto 6.
  - repeat split; auto. apply recommended_styles_NoDup.
  - unfold handleApplyRecommendation.
    destruct (aiRecommendation jsLength s) as [r|] eqn:Hr; [|auto 6].
    cbn [setConfig config applyRecommendation customSubject customEnvironment styles
         quality negativeOptional].
    repeat split; auto.
    unfold aiRecommendation in Hr.
    destruct (Nat.ltb 2 (jsLength (trim (action (config s))))); [|discriminate].
    injection Hr as <-. apply recommended_styles_NoDup.
  - repeat split; auto. apply toggle_NoDup; [apply styleKeyEqb_eq|exact Hst].
  - repeat split; auto. apply toggle_NoDup; [apply qualityKeyEqb_eq|exact Hq].
  - repeat split; auto. apply toggle_NoDup; [apply negativeKeyEqb_eq|exact Hn].
  - unfold handleGenerate. cbv zeta.
    destruct (Nat.ltb 0 (List.length (validateConfig (config s)))); cbn [fst config]; auto 6.
Qed.

Lemma panel_run_invariant (events : list PanelEvent) :
  forall s : PanelState,
    (customSubject (config s) = None /\ customEnvironment (config s) = None
     /\ NoDup (styles (config s)) /\ NoDup (quality (config s))
     /\ NoDup (negativeOptional (config s))) ->
    let s' := fst (run jsLength s events) in
    customSubject (config s') = None /\ customEnvironment (config s') = None
    /\ NoDup (styles (config s')) /\ NoDup (quality (config s'))
    /\ NoDup (negativeOptional (config s')).
Proof.
  induction events as [|e events IH]; intros s Hinv; cbv zeta; [exact Hinv|].
  cbn [run].
  pose proof (panel_handle_invariant s e Hinv) as Hstep. cbv zeta in Hstep.
  destruct (handle jsLength s e) as [s1 call]. cbn [fst] in Hstep.
  specialize (IH s1 Hstep). cbv zeta in IH.
  destruct (run jsLength s1 events) as [final calls]. exact IH.
Qed.

Lemma panel_initial_invariant (c : option Character) (a : option string) :
  let s := initialState c a in
  customSubject (config s) = None /\ customEnvironment (config s) = None
  /\ NoDup (styles (config s)) /\ NoDup (quality (config s))
  /\ NoDup (negativeOptional (config s)).
Proof.
  cbn. repeat split;
    repeat (constructor; [cbn; intuition discriminate|]); constructor.
Qed.

(** X25. Whatever is done with the panel, from the moment it
    is mounted, no style, no quality keyword and no optional exclusion is
    ever selected twice, so the prompt names none twice; and the custom
    subject and the custom environment of the configuration stay unset:
    the panel has no control that sets them. *)
Theorem panel_selections_stay_distinct
  (character_ : option Character) (initialAction : option string)
  (events : list PanelEvent) :
  let s := fst (run jsLength (initialState character_ initialAction) events) in
  NoDup (styles (config s)) /\ NoDup (quality (config s))
  /\ NoDup (negativeOptional (config s))
  /\ customSubject (config s) = None /\ customEnvironment (config s) = None.
Proof.
  pose proof (panel_run_invariant events (initialState character_ initialAction)
                (panel_initial_invariant character_ initialAction)) as H.
  cbv zeta in *. tauto.
Qed.

(** The calls of [onGenerate] of a run from a state without a custom
    subject. *)
Lemma panel_run_calls (events : list PanelEvent) :
  forall s : PanelState,
    customSubject (config s) = None ->
    forall call, In call (snd (run jsLength s events)) ->
      exists cfg ch,
        character cfg = Some ch
        /\ (character (config s) = Some ch \/ In (CharacterChanged (Some ch)) events)
        /\ validateConfig cfg = []
        /\ call = (fullPrompt (buildVideoPrompt cfg), negativePrompt (buildVideoPrompt cfg)).
Proof.
  induction events as [|e events IH]; intros s Hs call Hin; [destruct Hin|].
  cbn [run] in Hin.
  assert (Hstep : customSubject (config (fst (handle jsLength s e))) = None
                  /\ (character (config (fst (handle jsLength s e))) = character (config s)
                      \/ exists c, e = CharacterChanged c
                                   /\ character (config (fst (handle jsLength s e))) = c)
                  /\ (forall c, snd (handle jsLength s e) = Some c ->
                        validateConfig (config s) = []
                        /\ c = (fullPrompt (buildVideoPrompt (config s)),
                                negativePrompt (buildVideoPrompt (config s))))).
  { destruct e; cbn [handle fst snd setConfig config handleMoodSelect withCharacter
                     withAction withCameraAngle withCameraMovement withEnvironment
                     withStyles withQuality withNegativeOptional applyRecommendation
                     customSubject character];
      try (split; [exact Hs|]; split; [left; reflexivity|discriminate]).
    - split; [exact Hs|]. split; [right; eexists; split; reflexivity|discriminate].
    - unfold handleApplyRecommendation.
      destruct (aiRecommendation jsLength s);
        cbn [setConfig config applyRecommendation customSubject character];
        (split; [exact Hs|]; split; [left; reflexivity|discriminate]).
    - unfold handleGenerate. cbv zeta.
      destruct (validateConfig (config s)) as [|msg msgs] eqn:Hv;
        cbn [List.length Nat.ltb Nat.leb fst snd config];
        (split; [exact Hs|]); (split; [left; reflexivity|]); [|discriminate].
      intros c Hc. injection Hc as <-. split; reflexivity. }
  destruct (handle jsLength s e) as [s1 c1]. cbn [fst snd] in Hstep.
  destruct Hstep as (Hs1 & Hchar & Hcall).
  specialize (IH s1 Hs1).
  destruct (run jsLength s1 events) as [final calls]. cbn [snd] in *.
  assert (Hrest : In call calls ->
            exists cfg ch,
              character cfg = Some ch
              /\ (character (config s) = Some ch
                  \/ In (CharacterChanged (Some ch)) (e :: events))
              /\ validateConfig cfg = []
              /\ call = (fullPrompt (buildVideoPrompt cfg),
                         negativePrompt (buildVideoPrompt cfg))).
  { intros Hc. destruct (IH call Hc) as (cfg & ch & H1 & H2 & H3 & H4).
    exists cfg, ch. split; [exact H1|]. split; [|auto].
    destruct H2 as [H2|H2]; [|right; right; exact H2].
    destruct Hchar as [Hsame|(c & -> & Hc')].
    - left. congruence.
    - right. left. congruence. }
  destruct c1 as [c|]; [|exact (Hrest Hin)].
  destruct Hin as [<-|Hin]; [|exact (Hrest Hin)].
  destruct (Hcall c eq_refl) as [Hv ->].
  destruct (character (config s)) as [ch|] eqn:Hch.
  - exists (config s), ch. auto.
  - exfalso. revert Hv. unfold validateConfig. rewrite Hch, Hs. cbn [truthyOpt negb andb].
    destruct (negb (truthy (action (config s)))
              || Nat.eqb (String.length (trim (action (config s)))) 0)%bool; discriminate.
Qed.

(** X26. The panel hands a prompt over only for a
    configuration that passes the validation and has a character, which
    is the one it was mounted with or one it was given later; what it
    hands over is the prompt and the negative prompt built from that
    configuration.  A panel that is never given a character never calls
    [onGenerate], whatever is typed or selected: its configuration has no
    other subject. *)
Theorem panel_generates_only_with_character
  (character_ : option Character) (initialAction : option string)
  (events : list PanelEvent) :
  let calls := snd (run jsLength (initialState character_ initialAction) events) in
  (forall call, In call calls ->
     exists cfg ch,
       character cfg = Some ch
       /\ (character_ = Some ch \/ In (CharacterChanged (Some ch)) events)
       /\ validateConfig cfg = []
       /\ call = (fullPrompt (buildVideoPrompt cfg), negativePrompt (buildVideoPrompt cfg)))
  /\ (character_ = None ->
      (forall c, In (CharacterChanged c) events -> c = None) ->
      calls = []).
Proof.
  cbv zeta.
  assert (Hcalls := panel_run_calls events (initialState character_ initialAction) eq_refl).
  split; [exact Hcalls|].
  intros Hnone Hevents.
  destruct (snd (run jsLength (initialState character_ initialAction) events))
    as [|call calls]; [reflexivity|].
  destruct (Hcalls call (or_introl eq_refl)) as (cfg & ch & _ & [H|H] & _).
  - cbn in H. congruence.
  - specialize (Hevents _ H). discriminate.
Qed.
End PanelProps.

Section ClipHookProps.
Import JS Effects ClipScenarioHook.
Local Open Scope Z_scope.

Variables ImageData Audio : Type.
Context {builtins : StringBuiltins}.
Variable w : World ImageData Audio.

Lemma imageRequests_app (a b : list (Event ImageData Audio)) :
  imageRequests (a ++ b) = (imageRequests a ++ imageRequests b)%list.
Proof. induction a as [|e a IH]; [reflexivity|]. destruct e; cbn; rewrite IH; reflexivity. Qed.

Lemma narrationRequests_app (a b : list (Event ImageData Audio)) :
  narrationRequests (a ++ b) = (narrationRequests a ++ narrationRequests b)%list.
Proof. induction a as [|e a IH]; [reflexivity|]. destruct e; cbn; rewrite IH; reflexivity. Qed.

Lemma waited_app (a b : list (Event ImageData Audio)) :
  waited (a ++ b) = waited a + waited b.
Proof.
  induction a as [|e a IH]; [reflexivity|].
  destruct e; cbn [waited app]; rewrite IH; lia.
Qed.

Lemma busyAfter_app (a b : list (Event ImageData Audio)) :
  forall busy, busyAfter (a ++ b) busy = busyAfter b (busyAfter a busy).
Proof. induction a as [|e a IH]; intros busy; [reflexivity|]. destruct e; cbn; apply IH. Qed.

Lemma narratingAfter_app (a b : list (Event ImageData Audio)) :
  forall busy, narratingAfter (a ++ b) busy = narratingAfter b (narratingAfter a busy).
Proof. induction a as [|e a IH]; intros busy; [reflexivity|]. destruct e; cbn; apply IH. Qed.

(** The loop over the scenes without an image: it requests the images in
    order and stops at the first failure. *)
Lemma imageLoop_spec (scenes_ : list (Scene ImageData Audio)) :
  forall n : nat,
    let t := fst (imageLoop w n scenes_) in
    narrationRequests t = [] /\ waited t = 0
    /\ (forall b, busyAfter t b = b) /\ (forall b, narratingAfter t b = b)
    /\ if snd (imageLoop w n scenes_)
       then exists k e,
              (k < List.length scenes_)%nat
              /\ sceneImage w (n + k) = Throw e
              /\ (forall j, (j < k)%nat -> exists img, sceneImage w (n + j) = Ok img)
              /\ imageRequests t = map id (firstn (S k) scenes_)
       else imageRequests t = map id scenes_
            /\ forall k, (k < List.length scenes_)%nat ->
                         exists img, sceneImage w (n + k) = Ok img.
Proof.
  induction scenes_ as [|scene rest IH]; intros n; cbv zeta.
  - cbn. repeat split; auto. intros k Hk. lia.
  - cbn [imageLoop]. destruct (sceneImage w n) as [img|e] eqn:Himg.
    + specialize (IH (S n)). cbv zeta in IH.
      destruct (imageLoop w (S n) rest) as [t failed]. cbn [fst snd] in *.
      destruct IH as (Hn & Hw & Hb & Hnb & Hreq).
      split; [exact Hn|]. split; [exact Hw|]. split; [exact Hb|]. split; [exact Hnb|].
      destruct failed.
      * destruct Hreq as (k & e & Hk & He & Hbefore & Hr).
        exists (S k), e. cbn [List.length].
        split; [lia|]. split; [replace (n + S k)%nat with (S n + k)%nat by lia; exact He|].
        split.
        { intros [|j] Hj; [exists img; rewrite Nat.add_0_r; exact Himg|].
          replace (n + S j)%nat with (S n + j)%nat by lia. apply Hbefore. lia. }
        cbn [imageRequests firstn map]. cbn [firstn] in Hr. rewrite Hr. reflexivity.
      * destruct Hreq as [Hr Hall]. split; [cbn; rewrite Hr; reflexivity|].
        intros [|k] Hk; [exists img; rewrite Nat.add_0_r; exact Himg|].
        replace (n + S k)%nat with (S n + k)%nat by lia. apply Hall.
        cbn [List.length] in Hk. lia.
    + cbn [fst snd]. split; [reflexivity|]. split; [reflexivity|].
      split; [reflexivity|]. split; [reflexivity|].
      exists 0%nat, e. cbn [List.length]. split; [lia|].
      split; [rewrite Nat.add_0_r; exact Himg|]. split; [intros j Hj; lia|reflexivity].
Qed.

(** The three attempts for one scene. *)
Lemma attempts_three (voice : string) (scene : Scene ImageData Audio) (i : nat) :
  let t := fst (attempts w voice scene i 0 3) in
  imageRequests t = []
  /\ (exists c, (1 <= c <= 3)%nat /\ narrationRequests t = repeat (id scene) c)
  /\ 0 <= waited t <= 6000
  /\ (forall b, busyAfter t b = b) /\ (forall b, narratingAfter t b = b).
Proof.
  cbv zeta. cbn [attempts].
  destruct (narrationAudioOf w i 0) as [a0|e0]; cbn [fst].
  { split; [reflexivity|]. split; [exists 1%nat; split; [lia|reflexivity]|].
    split; [cbn; lia|]. split; reflexivity. }
  destruct (narrationAudioOf w i 1) as [a1|e1]; cbn [fst Nat.ltb Nat.leb app].
  { split; [reflexivity|]. split; [exists 2%nat; split; [lia|reflexivity]|].
    split; [cbn; lia|]. split; reflexivity. }
  destruct (narrationAudioOf w i 2) as [a2|e2]; cbn [fst Nat.ltb Nat.leb app].
  { split; [reflexivity|]. split; [exists 3%nat; split; [lia|reflexivity]|].
    split; [cbn; lia|]. split; reflexivity. }
  split; [reflexivity|]. split; [exists 3%nat; split; [lia|reflexivity]|].
  split; [cbn; lia|]. split; reflexivity.
Qed.

Lemma narrationLoop_spec (voice : string) (total : nat)
  (scenes_ : list (Scene ImageData Audio)) :
  forall i : nat,
    let t := fst (narrationLoop w voice total i scenes_) in
    imageRequests t = []
    /\ (exists counts,
          List.length counts = List.length scenes_
          /\ Forall (fun c => 1 <= c <= 3)%nat counts
          /\ narrationRequests t
             = concat (map (fun p => repeat (id (fst p)) (snd p)) (combine scenes_ counts)))
    /\ 0 <= waited t <= 7000 * Z.of_nat (List.length scenes_)
    /\ (forall b, busyAfter t b = b) /\ (forall b, narratingAfter t b = b).
Proof.
  induction scenes_ as [|scene rest IH]; intros i; cbv zeta.
  - cbn. split; [reflexivity|]. split; [exists []; repeat split; constructor|].
    split; [lia|]. split; reflexivity.
  - cbn [narrationLoop].
    pose proof (attempts_three voice scene i) as Ha. cbv zeta in Ha.
    destruct (attempts w voice scene i 0 3) as [ta success]. cbn [fst] in Ha.
    destruct Ha as (Hai & (c & Hc & Han) & Haw & Hab & Hanb).
    specialize (IH (S i)). cbv zeta in IH.
    destruct (narrationLoop w voice total (S i) rest) as [t failedScenes]. cbn [fst] in *.
    destruct IH as (Hi & (counts & Hlen & Hall & Hn) & Hw & Hb & Hnb).
    assert (Hwait : forall l : list (Event ImageData Audio),
              l = (if Nat.ltb 0 i then [Wait 1000] else []) ->
              imageRequests l = [] /\ narrationRequests l = []
              /\ 0 <= waited l <= 1000
              /\ (forall b, busyAfter l b = b) /\ (forall b, narratingAfter l b = b)).
    { intros l ->. destruct (Nat.ltb 0 i); cbn; repeat split; auto; lia. }
    destruct (Hwait _ eq_refl) as (Hwi & Hwn & Hww & Hwb & Hwnb).
    cbn [imageRequests narrationRequests waited busyAfter narratingAfter].
    rewrite !imageRequests_app, !narrationRequests_app, !waited_app, Hwi, Hwn, Hai, Hi.
    split; [reflexivity|].
    split.
    { exists (c :: counts). cbn [List.length combine map concat fst snd].
      split; [rewrite Hlen; reflexivity|]. split; [constructor; assumption|].
      rewrite Han, Hn. reflexivity. }
    split; [cbn [List.length]; lia|].
    split; intros b; rewrite ?busyAfter_app, ?narratingAfter_app; congruence.
Qed.

(** X27. Generating the images of all scenes asks for the
    images of the scenes that have neither a generated nor a custom
    image, one after the other in the order of the scenario, and stops at
    the first request that fails: the scenes after it are not asked for,
    and no narration is generated in that call even when it was asked
    for.  With a scenario the call never rejects, and when it ends the
    flags that mark it as busy with images and with narrations are both
    off again. *)
Theorem clip_images_stop_at_first_failure
  (scenes_ : list (Scene ImageData Audio)) (options : option GenerateAllOptions) :
  let missing := filter lacksImage scenes_ in
  let t := fst (generateAllSceneImages w (Some scenes_) options) in
  snd (generateAllSceneImages w (Some scenes_) options) = Done
  /\ busyAfter t false = false /\ narratingAfter t false = false
  /\ ((imageRequests t = map id missing
       /\ forall k, (k < List.length missing)%nat -> exists img, sceneImage w k = Ok img)
      \/ exists k e,
           (k < List.length missing)%nat
           /\ sceneImage w k = Throw e
           /\ (forall j, (j < k)%nat -> exists img, sceneImage w j = Ok img)
           /\ imageRequests t = map id (firstn (S k) missing)
           /\ narrationRequests t = []).
Proof.
  cbv zeta. unfold generateAllSceneImages.
  set (missing := filter lacksImage scenes_).
  set (tts := match options with
              | Some o => match includeTTS o with Some b => b | None => false end
              | None => false
              end).
  pose proof (imageLoop_spec missing 0) as Hloop. cbv zeta in Hloop.
  assert (Hnarr : forall tn : list (Event ImageData Audio),
            tn = fst (narrationLoop w
                        (match options with
                         | Some o => orOpt (ttsVoice o) "Kore" | None => "Kore" end)
                        (List.length (filter needsNarration scenes_)) 0
                        (filter needsNarration scenes_)) ->
            imageRequests tn = []
            /\ (forall b, busyAfter tn b = b) /\ (forall b, narratingAfter tn b = b)).
  { intros tn ->.
    pose proof (narrationLoop_spec
                  (match options with Some o => orOpt (ttsVoice o) "Kore" | None => "Kore" end)
                  (List.length (filter needsNarration scenes_))
                  (filter needsNarration scenes_) 0) as Hn. cbv zeta in Hn.
    tauto. }
  specialize (Hnarr _ eq_refl).
  destruct (narrationLoop w _ _ 0 (filter needsNarration scenes_)) as [tn failedScenes].
  cbn [fst] in Hnarr. destruct Hnarr as (Hni & Hnb & Hnnb).
  destruct (Nat.ltb 0 (List.length missing)) eqn:Hhas; cbn [negb andb].
  - destruct (imageLoop w 0 missing) as [ti failed]. cbn [fst snd] in Hloop.
    destruct Hloop as (Hin & Hiw & Hib & Hinb & Hreq).
    assert (Hplain :
        busyAfter ([SetIsGeneratingAllImages true; SetError None]
                     ++ (ti ++ [SetGeneratingImageSceneId None])
                     ++ [SetIsGeneratingAllImages false]) false = false
        /\ narratingAfter ([SetIsGeneratingAllImages true; SetError None]
                             ++ (ti ++ [SetGeneratingImageSceneId None])
                             ++ [SetIsGeneratingAllImages false]) false = false
        /\ imageRequests ([SetIsGeneratingAllImages true; SetError None]
                            ++ (ti ++ [SetGeneratingImageSceneId None])
                            ++ [SetIsGeneratingAllImages false])
           = imageRequests ti
        /\ narrationRequests ([SetIsGeneratingAllImages true; SetError None]
                                ++ (ti ++ [SetGeneratingImageSceneId None])
                                ++ [SetIsGeneratingAllImages false]) = []).
    { cbn [app busyAfter narratingAfter imageRequests narrationRequests].
      rewrite !busyAfter_app, !narratingAfter_app, !imageRequests_app,
        !narrationRequests_app, Hinb, Hin, Hib.
      cbn. rewrite !List.app_nil_r. auto. }
    destruct Hplain as (Hpb & Hpn & Hpi & Hpr).
    destruct failed; cbv beta iota zeta.
    + cbn [fst snd]. split; [reflexivity|]. split; [exact Hpb|]. split; [exact Hpn|].
      right. destruct Hreq as (k & e & Hk & He & Hbefore & Hr).
      exists k, e. cbn [Nat.add] in *.
      split; [exact Hk|]. split; [exact He|]. split; [exact Hbefore|].
      rewrite Hpi, Hpr, Hr. split; reflexivity.
    + destruct Hreq as [Hr Hall]. cbn [Nat.add] in Hall.
      destruct tts;
        [destruct (Nat.ltb 0 (List.length (filter needsNarration scenes_)))|];
        cbn [fst snd]; (split; [reflexivity|]).
      2,3: split; [exact Hpb|]; split; [exact Hpn|];
           left; rewrite Hpi, Hr; split; [reflexivity|exact Hall].
      cbn [app busyAfter narratingAfter imageRequests].
      rewrite !busyAfter_app, !narratingAfter_app, !imageRequests_app, Hinb, Hr.
      cbn [app busyAfter narratingAfter imageRequests].
      rewrite !busyAfter_app, !narratingAfter_app, !imageRequests_app, Hnb, Hnnb, Hni.
      split; [reflexivity|]. split; [reflexivity|].
      left. split; [cbn; rewrite !List.app_nil_r; reflexivity|exact Hall].
  - assert (Hempty : missing = []).
    { destruct missing; [reflexivity|discriminate Hhas]. }
    rewrite Hempty.
    destruct tts; cbn [negb]; cbv beta iota zeta.
    2:{ cbn. repeat split; auto. left. split; [reflexivity|]. intros k Hk. lia. }
    destruct (Nat.ltb 0 (List.length (filter needsNarration scenes_))); cbn [fst snd].
    + split; [reflexivity|].
      cbn [app busyAfter narratingAfter imageRequests].
      rewrite busyAfter_app, narratingAfter_app, imageRequests_app, Hnb, Hnnb, Hni.
      split; [reflexivity|]. split; [reflexivity|].
      left. split; [reflexivity|]. intros k Hk. cbn in Hk. lia.
    + cbn. repeat split; auto. left. split; [reflexivity|]. intros k Hk. lia.
Qed.

End ClipHookProps.

Section MoreInstances.
Import JS Effects Lib Examples MoreExamples Measures.
Local Open Scope Z_scope.

(** The bound of 61 polls is reached when every poll is answered at once
    with "still processing". *)
Example generate_video_61_polls_reached :
  countPolls (fst (GenerateVideo.handler pendingWorld request)) = 61%nat
  /\ option_map GenerateVideo.status (snd (GenerateVideo.handler pendingWorld request))
     = Some 500.
Proof. vm_compute. split; reflexivity. Qed.

(** A timeout after 403 seconds is answered as a refused permission. *)
Example timeout_after_403_seconds :
  snd (GenerateVideo.handler hangingWorld request)
  = Some {| GenerateVideo.status := 403;
            GenerateVideo.json :=
              GenerateVideo.ApiError
                "Hailuo API 접근 권한이 없습니다. API 키를 확인하세요."
                (Some "PERMISSION_DENIED") |}.
Proof. vm_compute. reflexivity. Qed.

(** A request for 10 seconds of food video: 6 seconds are asked of
    Hailuo, 10 are reported. *)
Example food_video_ten_seconds :
  exists t,
    GenerateFoodVideo.handler foodWorld tenSecondFoodRequest
    = (t, Some {| GenerateFoodVideo.status := 200;
                  GenerateFoodVideo.json :=
                    GenerateFoodVideo.VideoResult
                      {| GenerateFoodVideo.videoUrl := "https://cdn.example/video.mp4";
                         GenerateFoodVideo.duration := 10 |} |})
    /\ In (GenerateFoodVideo.CreatePrediction "env-key"
             (GenerateFoodVideo.requestBodyOf "steam rising from the bowl"
                "https://tmpfiles.org/dl/12345/image.png")) t.
Proof. eexists. split; [vm_compute; reflexivity|]. cbn. auto. Qed.

Lemma generate_video_sends_direct_url_witness :
  GenerateVideo.cb_image_url
    (GenerateVideo.createBodyOf
       (HandlerSpec.promptFor mirrorWorld "slow pan to the left")
       "http://mirror.example/tmpfiles.org/dl/9/a.png?from=tmpfiles.org/9" 8)
  = "http://mirror.example/" ++ "tmpfiles.org/dl/" ++ "9/a.png?from=tmpfiles.org/9".
Proof.
  refine (proj1 (proj2 (generate_video_sends_direct_url mirrorWorld request
                   {| GenerateVideo.up_status := Some "success";
                      GenerateVideo.up_url :=
                        Some "http://mirror.example/tmpfiles.org/9/a.png?from=tmpfiles.org/9";
                      GenerateVideo.up_text := "" |}
                   "http://mirror.example/tmpfiles.org/9/a.png?from=tmpfiles.org/9"
                   "user-key"
                   (GenerateVideo.createBodyOf
                      (HandlerSpec.promptFor mirrorWorld "slow pan to the left")
                      "http://mirror.example/tmpfiles.org/dl/9/a.png?from=tmpfiles.org/9" 8)
                   eq_refl eq_refl _))
            "http://mirror.example/" "9/a.png?from=tmpfiles.org/9" eq_refl _).
  - vm_compute. right. right. left. reflexivity.
  - intros pre' rest' H.
    do 22 (destruct pre' as [|? pre']; [discriminate H|]).
    cbn [String.length]. lia.
Defined.

Lemma generate_video_creation_failure_answer_witness :
  snd (GenerateVideo.handler rateLimitedWorld request)
  = Some {| GenerateVideo.status := 429;
            GenerateVideo.json :=
              GenerateVideo.ApiError
                "API 할당량을 초과했습니다. 잠시 후 다시 시도하세요."
                (Some "QUOTA_EXCEEDED") |}.
Proof.
  rewrite (generate_video_creation_failure_answer rateLimitedWorld request "u1" frame
             "slow pan to the left" (Some member) "user-key"
             "https://tmpfiles.org/dl/12345/image.png"
             (ErrorObj "rate limit reached")
             eq_refl eq_refl eq_refl eq_refl eq_refl eq_refl eq_refl eq_refl).
  reflexivity.
Defined.

Lemma food_video_unreadable_polls_end_in_timeout_witness :
  exists t elapsed,
    GenerateFoodVideo.pollLoop garbledFoodWorld 6 "user-key" "pred-1"
      GenerateFoodVideo.maxIterations 0%nat 0
    = (t, Raise (GenerateFoodVideo.timeoutError elapsed))
    /\ elapsed > GenerateFoodVideo.maxPollingTime.
Proof.
  destruct (food_video_unreadable_polls_end_in_timeout garbledFoodWorld 6
              "user-key" "pred-1" (fun n => eq_refl))
    as (t & elapsed & Hrun & Hlate & _).
  exists t, elapsed. split; assumption.
Defined.

(** A 401 with a JSON object is answered 403; a 401 whose body is the
    JSON [null] is answered 500, the TypeError naming neither 401 nor
    Unauthorized. *)
Lemma food_video_http_401_is_invalid_key_witness :
  snd (GenerateFoodVideo.handler revokedKeyFoodWorld foodRequest)
  = Some {| GenerateFoodVideo.status := 403;
            GenerateFoodVideo.json :=
              GenerateFoodVideo.ApiError
                "Hailuo API 키가 유효하지 않습니다. 설정에서 키를 확인하세요."
                (Some "HAILUO_PERMISSION_DENIED") |}
  /\ snd (GenerateFoodVideo.handler nullAnswerFoodWorld foodRequest)
     = Some {| GenerateFoodVideo.status := 500;
               GenerateFoodVideo.json :=
                 GenerateFoodVideo.ApiError
                   "영상 생성 실패: Hailuo API 호출 실패: Cannot read properties of null (reading 'error')"
                   (Some "FOOD_VIDEO_GENERATION_FAILED") |}.
Proof.
  split.
  - rewrite (food_video_http_401_is_invalid_key revokedKeyFoodWorld foodRequest "u1" dish
               "steam rising from the bowl" (Some member) "user-key"
               "https://tmpfiles.org/dl/12345/image.png" false "{}" _
               eq_refl eq_refl eq_refl eq_refl eq_refl eq_refl eq_refl eq_refl
               (or_introl eq_refl)).
    reflexivity.
  - rewrite (food_video_http_401_is_invalid_key nullAnswerFoodWorld foodRequest "u1" dish
               "steam rising from the bowl" (Some member) "user-key"
               "https://tmpfiles.org/dl/12345/image.png" false "null" _
               eq_refl eq_refl eq_refl eq_refl eq_refl eq_refl eq_refl eq_refl
               (or_introl eq_refl)).
    reflexivity.
Defined.

(** A POST without a body is answered 500, with no call. *)
Lemma generate_video_rejects_without_calls_witness :
  GenerateVideo.handler quickWorld bodylessRequest
  = ([], Some {| GenerateVideo.status := 500;
                 GenerateVideo.json :=
                   GenerateVideo.ApiError
                     "비디오 생성 실패: Cannot destructure property 'sourceImage' of 'req.body' as it is undefined."
                     (Some "VIDEO_GENERATION_FAILED") |}).
Proof.
  destruct (generate_video_rejects_without_calls quickWorld bodylessRequest)
    as (Hcalls & _ & _ & _ & Hnobody & _).
  rewrite (surjective_pairing (GenerateVideo.handler quickWorld bodylessRequest)).
  rewrite (proj2 Hcalls (or_intror (or_intror eq_refl))).
  rewrite (Hnobody _ eq_refl ltac:(discriminate) eq_refl).
  reflexivity.
Defined.

(** So is one sent to the food-video handler. *)
Example food_post_without_body :
  GenerateFoodVideo.handler foodWorld bodylessFoodRequest
  = ([], Some {| GenerateFoodVideo.status := 500;
                 GenerateFoodVideo.json :=
                   GenerateFoodVideo.ApiError
                     "영상 생성 실패: Cannot destructure property 'foodImage' of 'req.body' as it is undefined."
                     (Some "FOOD_VIDEO_GENERATION_FAILED") |}).
Proof. vm_compute. reflexivity. Qed.

(** An admin has stored a key but the server has none in its environment:
    the handler that stores the image in Vercel Blob answers 400 and stores
    nothing. *)
Example blob_admin_without_environment_key :
  GenerateFoodVideoBlob.handler keylessBlobWorld foodRequest
  = ([GenerateFoodVideoBlob.FindUser "u1"], Some GenerateFoodVideo.keyMissingResponse).
Proof. vm_compute. reflexivity. Qed.

(** The blob is deleted once the video is there ... *)
Example blob_deleted_after_success :
  GenerateFoodVideoBlob.handler blobWorld foodRequest
  = ([GenerateFoodVideoBlob.FindUser "u1";
      GenerateFoodVideoBlob.PutBlob "food-video/1700000000000.webp" "image/webp" "UklGRg==";
      GenerateFoodVideoBlob.CreatePrediction "user-key"
        (GenerateFoodVideo.requestBodyOf "steam rising from the bowl"
           "https://blob.example/food-video/1700000000000.webp");
      GenerateFoodVideoBlob.Now 0; GenerateFoodVideoBlob.Sleep 5000;
      GenerateFoodVideoBlob.PollPrediction "user-key" "pred-1";
      GenerateFoodVideoBlob.Now 5000;
      GenerateFoodVideoBlob.DeleteBlob "https://blob.example/food-video/1700000000000.webp"],
     Some {| GenerateFoodVideo.status := 200;
             GenerateFoodVideo.json :=
               GenerateFoodVideo.VideoResult
                 {| GenerateFoodVideo.videoUrl := "https://cdn.example/video.mp4";
                    GenerateFoodVideo.duration := 6 |} |}).
Proof. vm_compute. reflexivity. Qed.

(** ... and left behind when the key is refused. *)
Example blob_left_after_http_401 :
  GenerateFoodVideoBlob.handler revokedKeyBlobWorld foodRequest
  = ([GenerateFoodVideoBlob.FindUser "u1";
      GenerateFoodVideoBlob.PutBlob "food-video/1700000000000.webp" "image/webp" "UklGRg==";
      GenerateFoodVideoBlob.CreatePrediction "user-key"
        (GenerateFoodVideo.requestBodyOf "steam rising from the bowl"
           "https://blob.example/food-video/1700000000000.webp")],
     Some GenerateFoodVideoBlob.invalidKeyResponse).
Proof. vm_compute. reflexivity. Qed.

Lemma clip_scenario_provider_witness :
  fst (GenerateClipScenario.handler clipWorld clipRequest)
  = [GenerateClipScenario.GetUserTextModel "u1";
     GenerateClipScenario.OpenAICall (OpenAI.FindUser "u1");
     GenerateClipScenario.OpenAICall
       (OpenAI.ChatCompletion
          {| OpenAI.req_apiKey := "sk-writer";
             OpenAI.req_model := "gpt-4o-mini";
             OpenAI.req_messages :=
               [{| OpenAI.role := "system";
                   OpenAI.content :=
                     orOpt (OpenAI.systemPrompt GenerateClipScenario.openaiOptions) "" |};
                {| OpenAI.role := "user";
                   OpenAI.content := "PROMPT" ++ GenerateClipScenario.jsonInstruction |}];
             OpenAI.req_jsonObject := true;
             OpenAI.req_maxTokens := None;
             OpenAI.req_temperature := None |})].
Proof.
  exact (clip_scenario_provider string clipWorld clipRequest
           {| GenerateClipScenario.config := Some clipConfig |} clipConfig "PROMPT"
           eq_refl eq_refl eq_refl eq_refl eq_refl).
Defined.

Lemma clip_scenario_openai_key_missing_witness :
  snd (GenerateClipScenario.handler keylessClipWorld clipRequest)
  = Some {| GenerateClipScenario.status := 500;
            GenerateClipScenario.json :=
              GenerateClipScenario.ApiError
                ("Clip scenario generation failed: "
                 ++ "OpenAI API 키가 설정되지 않았습니다. 설정에서 OpenAI API 키를 입력해 주세요.")
                (Some "GENERATION_FAILED") |}.
Proof.
  rewrite (clip_scenario_openai_key_missing string keylessClipWorld clipRequest
             {| GenerateClipScenario.config := Some clipConfig |} clipConfig "PROMPT"
             "u1" "gpt-4o-mini" member
             eq_refl eq_refl eq_refl eq_refl eq_refl eq_refl eq_refl eq_refl eq_refl
             eq_refl eq_refl eq_refl).
  reflexivity.
Defined.

(** The scenario asked for with 30 seconds has two scenes of 6; the
    second, which the provider left without a number, is numbered 2 by its
    position and keeps the provider's narration. *)
Lemma clip_scenario_scenes_witness :
  exists scenario : GenerateClipScenario.Scenario string,
    snd (GenerateClipScenario.handler clipWorld clipRequest)
    = Some {| GenerateClipScenario.status := 200;
              GenerateClipScenario.json := GenerateClipScenario.ScenarioBody scenario |}
    /\ GenerateClipScenario.totalDuration scenario = 30
    /\ (forall sc,
          nth_error (GenerateClipScenario.scenes scenario) 1 = Some sc ->
          GenerateClipScenario.sc_sceneNumber sc = GenerateClipScenario.NumberOfIndex 2
          /\ GenerateClipScenario.sc_narration sc = "해가 뜬다"
          /\ GenerateClipScenario.sc_duration sc = 6)
    /\ map GenerateClipScenario.sc_sceneNumber (GenerateClipScenario.scenes scenario)
       = [GenerateClipScenario.NumberGiven "1"; GenerateClipScenario.NumberOfIndex 2].
Proof.
  eexists. split; [vm_compute; reflexivity|].
  match goal with
  | |- GenerateClipScenario.totalDuration ?sc = _ /\ _ =>
      destruct (clip_scenario_scenes string clipWorld clipRequest sc eq_refl)
        as (b & c & prompt & text & ti & sy & ch & ps
            & Hb & Hc & _ & _ & _ & _ & Hparse & _ & Hd & _ & _ & _ & _ & _ & Hall)
  end.
  split; [|split; [|reflexivity]].
  - rewrite Hd. injection Hb as <-. injection Hc as <-. reflexivity.
  - intros sc Hsc.
    destruct (Hall 1%nat sc Hsc) as (sn & sb & vd & na & ca & mo & chs & ip & vp & Hl & ->).
    cbn in Hparse. injection Hparse as _ _ _ <-.
    cbn in Hl. injection Hl as <- _ _ <- _ _ _ _ _.
    split; [reflexivity|]. split; reflexivity.
Defined.

(** Asking for the third, an unknown and the first scene: the second
    leaves the timeline, the positions are 0 and 2. *)
Example reorder_three_scenes :
  VideoTimelineOps.reorderTimelineScenes 0 Z.add (Some threeScenes) ["c"; "zz"; "a"]
  = Some {| VideoTimelineOps.scenes :=
              [{| VideoTimelineOps.id := "c"; VideoTimelineOps.position := 0;
                  VideoTimelineOps.startTime := 0; VideoTimelineOps.duration := 2;
                  VideoTimelineOps.sceneRest := tt |};
               {| VideoTimelineOps.id := "a"; VideoTimelineOps.position := 2;
                  VideoTimelineOps.startTime := 2; VideoTimelineOps.duration := 3;
                  VideoTimelineOps.sceneRest := tt |}];
            VideoTimelineOps.totalDuration := 5;
            VideoTimelineOps.audioTracks := [];
            VideoTimelineOps.transitions := [];
            VideoTimelineOps.timelineRest := tt |}.
Proof. reflexivity. Qed.

(** With a character the panel hands a prompt over; without one the same
    steps hand nothing over. *)
Example panel_with_and_without_character :
  List.length
    (snd (VideoPromptPanel.run (builtins := asciiBuiltins) String.length
            (VideoPromptPanel.initialState (Some mina) None)
            [VideoPromptPanel.ActionTyped "walks away";
             VideoPromptPanel.StyleToggled VideoPromptPresets.noir;
             VideoPromptPanel.GenerateClicked])) = 1%nat
  /\ snd (VideoPromptPanel.run (builtins := asciiBuiltins) String.length
            (VideoPromptPanel.initialState None None)
            [VideoPromptPanel.ActionTyped "walks away";
             VideoPromptPanel.StyleToggled VideoPromptPresets.noir;
             VideoPromptPanel.GenerateClicked]) = [].
Proof. split; vm_compute; reflexivity. Qed.

(** The second image fails: the third is not asked for and nothing is
    narrated, though narrations were asked for. *)
Example images_stop_at_the_second_scene :
  let t := fst (ClipScenarioHook.generateAllSceneImages (builtins := asciiBuiltins)
                  secondImageFails
                  (Some [bareScene "s1" 1; bareScene "s2" 2; bareScene "s3" 3])
                  (Some {| ClipScenarioHook.includeTTS := Some true;
                           ClipScenarioHook.ttsVoice := None |})) in
  ClipScenarioHook.imageRequests t = ["s1"; "s2"]
  /\ ClipScenarioHook.narrationRequests t = []
  /\ In (ClipScenarioHook.SetError (Some "씬 2 이미지 생성 실패: quota")) t.
Proof. vm_compute. repeat split. auto 10. Qed.
End MoreInstances.
